(** * Duplicate detection and capacity-aware sheet management

    A shallow embedding of the algorithmic core of the repository:

    - [duplicate_detector.py]: text normalisation, content hashing, the
      exact / fuzzy / title / content-hash match strategies, the
      [check_for_duplicate] dispatcher and [mark_as_duplicate];
    - [advanced_duplicate_detector.py]: the grouping strategies, the
      per-category handlers, [detect_all_duplicates] and the ranking;
    - [auto_scaling_sheets.py]: the sheet registry and [add_file_data];
    - [sheets_utils.py] and [multi_sheet_manager.py]: row counting and
      [add_batch_data] with its chunk splitting.

    Python values are modelled by the small universe [pyval]; a Python
    [dict] is an association list in insertion order; a raised exception
    is the [Raise] case of [res].  Strings are ASCII text, Python floats
    are exact rationals ([Q]).  Calls into third-party libraries
    (fuzzywuzzy, hashlib, the number parsers, the thumbnail hashing, the
    clock) are parameters of the definitions; reference implementations
    of them serve the concrete runs. *)

From Stdlib Require Import List String Ascii ZArith QArith Bool Lia.
From Stdlib Require Import Qabs Qminmax Lqa Permutation Sorted DecimalString.
Import ListNotations.

Local Open Scope string_scope.
Local Open Scope Z_scope.

(** ** Exceptions and results *)

Inductive exn : Type :=
| TypeError
| ValueError
| KeyError
| IndexError
| BackendError.

Inductive res (A : Type) : Type :=
| Ret (a : A)
| Raise (e : exn).

Arguments Ret {A} a.
Arguments Raise {A} e.

Definition bind {A B : Type} (m : res A) (k : A -> res B) : res B :=
  match m with
  | Ret a => k a
  | Raise e => Raise e
  end.

Notation "x <- m ;; k" := (bind m (fun x => k))
  (at level 61, m at next level, right associativity).

Definition raises {A : Type} (m : res A) : bool :=
  match m with
  | Ret _ => false
  | Raise _ => true
  end.

(** ** Python values found in sheet cells and file metadata *)

Inductive pyval : Type :=
| PNone
| PNaN
| PInt (z : Z)
| PStr (s : string).

(** [bool(v)] *)
Definition truthy (v : pyval) : bool :=
  match v with
  | PNone => false
  | PNaN => true
  | PInt z => negb (z =? 0)
  | PStr s => negb (s =? "")%string
  end.

(** [pd.isna(v)] *)
Definition isna (v : pyval) : bool :=
  match v with
  | PNone | PNaN => true
  | _ => false
  end.

Definition str_of_Z (z : Z) : string := NilZero.string_of_int (Z.to_int z).

(** [str(v)], which is also what an f-string prints. *)
Definition py_str (v : pyval) : string :=
  match v with
  | PNone => "None"
  | PNaN => "nan"
  | PInt z => str_of_Z z
  | PStr s => s
  end.

(** ** Dictionaries: association lists in insertion order *)

Definition dict (V : Type) : Type := list (string * V).

Fixpoint dict_get {V : Type} (d : dict V) (k : string) : option V :=
  match d with
  | [] => None
  | (k', v) :: d' => if (k =? k')%string then Some v else dict_get d' k
  end.

Definition dict_mem {V : Type} (d : dict V) (k : string) : bool :=
  match dict_get d k with
  | Some _ => true
  | None => false
  end.

(** [d[k] = v]: an existing key keeps its position, a new one goes last. *)
Fixpoint dict_set {V : Type} (d : dict V) (k : string) (v : V) : dict V :=
  match d with
  | [] => [(k, v)]
  | (k', v') :: d' =>
      if (k =? k')%string then (k, v) :: d' else (k', v') :: dict_set d' k v
  end.

(** [dict(pairs)] and [d.update(other)] *)
Definition dict_update {V : Type} (d : dict V) (other : list (string * V)) : dict V :=
  fold_left (fun acc kv => dict_set acc (fst kv) (snd kv)) other d.

Definition dict_of_pairs {V : Type} (pairs : list (string * V)) : dict V :=
  dict_update [] pairs.

Definition dict_keys {V : Type} (d : dict V) : list string := map fst d.
Definition dict_values {V : Type} (d : dict V) : list V := map snd d.

(** ** Strings *)

(** [\s], and the characters [str.strip] removes. *)
Definition is_space (c : ascii) : bool :=
  let n := nat_of_ascii c in
  ((9 <=? n) && (n <=? 13) || (28 <=? n) && (n <=? 32))%nat.

(** [\w]: letters, digits and the underscore; a byte above 127, part of
    an encoded letter, is kept as a word character. *)
Definition is_word (c : ascii) : bool :=
  let n := nat_of_ascii c in
  ((48 <=? n) && (n <=? 57) || (65 <=? n) && (n <=? 90)
   || (97 <=? n) && (n <=? 122) || (n =? 95) || (128 <=? n))%nat.

(** [c.lower()] for an ASCII character; a byte above 127 is kept as it
    is, so that the embedding of [str.lower] is exact on ASCII text. *)
Definition lower_char (c : ascii) : ascii :=
  let n := nat_of_ascii c in
  if ((65 <=? n) && (n <=? 90))%nat then ascii_of_nat (n + 32) else c.

Fixpoint drop_while {A : Type} (p : A -> bool) (l : list A) : list A :=
  match l with
  | [] => []
  | x :: l' => if p x then drop_while p l' else l
  end.

(** [s.strip()] *)
Definition strip_chars (l : list ascii) : list ascii :=
  rev (drop_while is_space (rev (drop_while is_space l))).

(** [re.sub(r'\s+', ' ', s)]: every maximal run of blanks becomes one
    space.  [in_run] tells that the previous character was a blank. *)
Fixpoint collapse_spaces (in_run : bool) (l : list ascii) : list ascii :=
  match l with
  | [] => []
  | c :: l' =>
      if is_space c
      then if in_run then collapse_spaces true l'
           else " "%char :: collapse_spaces true l'
      else c :: collapse_spaces false l'
  end.

(** [re.sub(r'[^\w\s]', '', s)] *)
Definition drop_punctuation (l : list ascii) : list ascii :=
  filter (fun c => is_word c || is_space c) l.

(** [s.startswith(p)] *)
Definition startswith (s p : string) : bool := String.prefix p s.

(** [sep.join(parts)] *)
Definition join (sep : string) (parts : list string) : string :=
  String.concat sep parts.

(** [sorted(parts)] on strings: code-point order. *)
Fixpoint insert_sorted (x : string) (l : list string) : list string :=
  match l with
  | [] => [x]
  | y :: l' => if (x <=? y)%string then x :: l else y :: insert_sorted x l'
  end.

Definition sorted (l : list string) : list string :=
  fold_right insert_sorted [] l.

(** [s[:n]] *)
Definition str_take (n : nat) (s : string) : string := String.substring 0 n s.

(** ** Lists and grids *)

(** [len(l)] *)
Definition len {A : Type} (l : list A) : Z := Z.of_nat (List.length l).

Fixpoint update_nth {A : Type} (i : nat) (f : A -> A) (l : list A) : list A :=
  match l, i with
  | [], _ => []
  | x :: l', O => f x :: l'
  | x :: l', S i' => x :: update_nth i' f l'
  end.

(** [file_data[i:i + batch_size]] for [i] in [range(0, len, batch_size)]. *)
Fixpoint batches {A : Type} (fuel : nat) (batch_size : nat) (l : list A)
    : list (list A) :=
  match fuel, l with
  | O, _ => []
  | _, [] => []
  | S fuel', _ :: _ =>
      firstn batch_size l :: batches fuel' batch_size (skipn batch_size l)
  end.

(** [worksheet.update(range, rows)] for a range that starts at row
    [start_row]: the rows are written over the grid from there on. *)
Definition write_rows (cells : list (list string)) (start_row : Z)
    (data : list (list string)) : list (list string) :=
  let k := Z.to_nat (start_row - 1) in
  (firstn k cells ++ repeat [] (k - List.length cells) ++ data
   ++ skipn (k + List.length data) cells)%list.

(** * duplicate_detector.py *)

Module DuplicateDetector.

(** The constants the module imports from [config]. *)
Record config : Type := {
  DUPLICATE_CHECK_FIELDS : list string;
  DUPLICATE_DETECTION_METHOD : string;
  FUZZY_MATCH_THRESHOLD : Z;
  ENABLE_FUZZY_TITLE_MATCHING : bool;
  TITLE_SIMILARITY_THRESHOLD : Z;
  ENABLE_CONTENT_HASH : bool;
  CONTENT_FIELDS_FOR_HASH : list string;
  ADD_DUPLICATE_MARKER : bool;
  DUPLICATE_MARKER_PREFIX : string
}.

(** The values of [config.py]. *)
Definition default_config : config := {|
  DUPLICATE_CHECK_FIELDS := ["Document ID"; "Source URL"];
  DUPLICATE_DETECTION_METHOD := "exact";
  FUZZY_MATCH_THRESHOLD := 85;
  ENABLE_FUZZY_TITLE_MATCHING := true;
  TITLE_SIMILARITY_THRESHOLD := 80;
  ENABLE_CONTENT_HASH := true;
  CONTENT_FIELDS_FOR_HASH := ["Summary"; "Tags"];
  ADD_DUPLICATE_MARKER := true;
  DUPLICATE_MARKER_PREFIX := "DUPLICATE_"
|}.

(** The attributes of a [DuplicateDetector] instance. *)
Record detector : Type := {
  check_fields : list string;
  method : string;
  threshold : Z
}.

(** What a caller may pass as [new_row]: a dict, a list of cell values,
    or something that is neither (written [RowNone], Python's [None]). *)
Inductive rowobj : Type :=
| RowDict (d : dict pyval)
| RowList (l : list pyval)
| RowNone.

(** A pandas [DataFrame]: its column labels and its rows, each with its
    index label. *)
Record DataFrame : Type := {
  columns : list string;
  rows : list (Z * list pyval)
}.

Record match_info : Type := {
  match_type : string;
  match_score : Z;
  matched_row_index : option Z;
  matched_fields : list string;
  match_details : string
}.

Definition outcome : Type := (bool * option match_info)%type.

Definition no_match : outcome := (false, None).

(** [existing_data.empty]: one of the two axes has length 0. *)
Definition df_empty (df : DataFrame) : bool :=
  match columns df, rows df with
  | [], _ => true
  | _, [] => true
  | _, _ => false
  end.

(** [existing_row.to_dict()] *)
Definition to_dict (df : DataFrame) (vals : list pyval) : dict pyval :=
  dict_of_pairs (combine (columns df) vals).

(** [field in row_data] *)
Definition row_contains (r : rowobj) (field : string) : res bool :=
  match r with
  | RowDict d => Ret (dict_mem d field)
  | RowList l =>
      Ret (existsb (fun v => match v with
                             | PStr s => (s =? field)%string
                             | _ => false
                             end) l)
  | RowNone => Raise TypeError
  end.

(** [row_data[field]] *)
Definition row_getitem (r : rowobj) (field : string) : res pyval :=
  match r with
  | RowDict d =>
      match dict_get d field with
      | Some v => Ret v
      | None => Raise KeyError
      end
  | RowList _ => Raise TypeError
  | RowNone => Raise TypeError
  end.

(** The guard [field in row_data and row_data[field]]: the value when the
    guard holds. *)
Definition present (r : rowobj) (field : string) : res (option pyval) :=
  has <- row_contains r field ;;
  if has
  then v <- row_getitem r field ;;
       Ret (if truthy v then Some v else None)
  else Ret None.

Definition normalize_text (text : pyval) : string :=
  if negb (truthy text) || isna text then ""
  else
    let s := map lower_char (strip_chars (list_ascii_of_string (py_str text))) in
    let s := collapse_spaces false s in
    let s := drop_punctuation s in
    string_of_list_ascii s.

Definition nonempty (s : string) : bool := negb (s =? "")%string.

(** [bool(x)] for [x] a string or [None]. *)
Definition some_nonempty (o : option string) : bool :=
  match o with
  | Some s => nonempty s
  | None => false
  end.

Definition option_string_eqb (a b : option string) : bool :=
  match a, b with
  | Some x, Some y => (x =? y)%string
  | None, None => true
  | _, _ => false
  end.

Section Detector.

(** [fuzz.ratio], [hashlib.md5(s.encode('utf-8')).hexdigest()] and the
    constants of [config]. *)
Variable fuzz_ratio : string -> string -> Z.
Variable md5_hexdigest : string -> string.
Variable cfg : config.

(** [DuplicateDetector.__init__] *)
Definition init (fields : option (list string)) (meth : option string)
    (thr : option Z) : detector := {|
  check_fields :=
    match fields with
    | Some (f :: fs) => f :: fs
    | _ => DUPLICATE_CHECK_FIELDS cfg
    end;
  method :=
    match meth with
    | Some m => if nonempty m then m else DUPLICATE_DETECTION_METHOD cfg
    | None => DUPLICATE_DETECTION_METHOD cfg
    end;
  threshold :=
    match thr with
    | Some t => if t =? 0 then FUZZY_MATCH_THRESHOLD cfg else t
    | None => FUZZY_MATCH_THRESHOLD cfg
    end
|}.

(** The loop of [generate_content_hash] that fills [content_parts]. *)
Fixpoint content_parts (row_data : rowobj) (fields : list string)
    : res (list string) :=
  match fields with
  | [] => Ret []
  | field :: fields' =>
      v <- present row_data field ;;
      let part :=
        match v with
        | Some x => let normalized := normalize_text x in
                    if nonempty normalized then [normalized] else []
        | None => []
        end in
      rest <- content_parts row_data fields' ;;
      Ret (part ++ rest)%list
  end.

Definition generate_content_hash (row_data : rowobj)
    (fields : option (list string)) : res (option string) :=
  let fields := match fields with
                | Some fs => fs
                | None => CONTENT_FIELDS_FOR_HASH cfg
                end in
  parts <- content_parts row_data fields ;;
  Ret (match parts with
       | [] => None
       | _ :: _ => Some (md5_hexdigest (join "|" (sorted parts)))
       end).

Fixpoint key_parts (row_data : rowobj) (fields : list string)
    : res (list string) :=
  match fields with
  | [] => Ret []
  | field :: fields' =>
      v <- present row_data field ;;
      let part :=
        match v with
        | Some x => let normalized := normalize_text x in
                    if nonempty normalized
                    then [field ++ ":" ++ normalized] else []
        | None => []
        end in
      rest <- key_parts row_data fields' ;;
      Ret (part ++ rest)%list
  end.

Definition generate_record_key (self : detector) (row_data : rowobj)
    : res (option string) :=
  parts <- key_parts row_data (check_fields self) ;;
  Ret (match parts with
       | [] => None
       | _ :: _ => Some (join "|" parts)
       end).

Fixpoint exact_loop (self : detector) (df : DataFrame) (new_key : option string)
    (rs : list (Z * list pyval)) : res outcome :=
  match rs with
  | [] => Ret no_match
  | (idx, vals) :: rs' =>
      existing_key <- generate_record_key self (RowDict (to_dict df vals)) ;;
      if option_string_eqb existing_key new_key
      then Ret (true, Some {|
             match_type := "exact";
             match_score := 100;
             matched_row_index := Some idx;
             matched_fields := check_fields self;
             match_details :=
               "Exact match on key: " ++ match new_key with
                                         | Some k => k
                                         | None => "None"
                                         end |})
      else exact_loop self df new_key rs'
  end.

Definition exact_match (self : detector) (new_row : rowobj) (df : DataFrame)
    : res outcome :=
  new_key <- generate_record_key self new_row ;;
  if negb (some_nonempty new_key) then Ret no_match
  else exact_loop self df new_key (rows df).

(** The loop state of the two fuzzy strategies: [best_match],
    [best_score], [best_index]. *)
Definition best : Type := (option (dict pyval) * Z * option Z)%type.

Definition best_init : best := (None, 0, None).

(** [if best_match:] *)
Definition dict_truthy (o : option (dict pyval)) : bool :=
  match o with
  | Some (_ :: _) => true
  | _ => false
  end.

Fixpoint fuzzy_loop (self : detector) (df : DataFrame) (new_key : string)
    (rs : list (Z * list pyval)) (b : best) : res best :=
  match rs with
  | [] => Ret b
  | (idx, vals) :: rs' =>
      let '(best_match, best_score, best_index) := b in
      existing_key <- generate_record_key self (RowDict (to_dict df vals)) ;;
      match existing_key with
      | Some k =>
          if nonempty k
          then
            let score := fuzz_ratio new_key k in
            if (best_score <? score) && (threshold self <=? score)
            then fuzzy_loop self df new_key rs'
                   (Some (to_dict df vals), score, Some idx)
            else fuzzy_loop self df new_key rs' b
          else fuzzy_loop self df new_key rs' b
      | None => fuzzy_loop self df new_key rs' b
      end
  end.

Definition fuzzy_match (self : detector) (new_row : rowobj) (df : DataFrame)
    : res outcome :=
  new_key <- generate_record_key self new_row ;;
  match new_key with
  | Some k =>
      if nonempty k
      then
        b <- fuzzy_loop self df k (rows df) best_init ;;
        let '(best_match, best_score, best_index) := b in
        if dict_truthy best_match
        then Ret (true, Some {|
               match_type := "fuzzy";
               match_score := best_score;
               matched_row_index := best_index;
               matched_fields := check_fields self;
               match_details :=
                 "Fuzzy match (score: " ++ str_of_Z best_score
                 ++ "%) on key fields" |})
        else Ret no_match
      else Ret no_match
  | None => Ret no_match
  end.

Definition title_field : string := "Document Title".

(** The loop over [existing_data.iterrows()].  [existing_row[title_field]]
    is read as the one value under the label: in a frame where the label
    occurs twice pandas hands out a Series instead, whose truth value
    raises [ValueError]; the properties of this loop are stated for frames
    whose column labels are distinct. *)
Fixpoint title_loop (df : DataFrame) (new_title : string)
    (rs : list (Z * list pyval)) (b : best) : res best :=
  match rs with
  | [] => Ret b
  | (idx, vals) :: rs' =>
      let '(best_match, best_score, best_index) := b in
      v <- present (RowDict (to_dict df vals)) title_field ;;
      match v with
      | Some x =>
          let existing_title := normalize_text x in
          if nonempty existing_title
          then
            let score := fuzz_ratio new_title existing_title in
            if (best_score <? score) && (TITLE_SIMILARITY_THRESHOLD cfg <=? score)
            then title_loop df new_title rs'
                   (Some (to_dict df vals), score, Some idx)
            else title_loop df new_title rs' b
          else title_loop df new_title rs' b
      | None => title_loop df new_title rs' b
      end
  end.

Definition title_similarity_match (self : detector) (new_row : rowobj)
    (df : DataFrame) : res outcome :=
  if negb (ENABLE_FUZZY_TITLE_MATCHING cfg) then Ret no_match
  else
    v <- present new_row title_field ;;
    match v with
    | None => Ret no_match
    | Some x =>
        let new_title := normalize_text x in
        if negb (nonempty new_title) then Ret no_match
        else
          b <- title_loop df new_title (rows df) best_init ;;
          let '(best_match, best_score, best_index) := b in
          if dict_truthy best_match
          then
            matched <- row_getitem
                         (RowDict match best_match with
                                  | Some d => d
                                  | None => []
                                  end) title_field ;;
            Ret (true, Some {|
               match_type := "title_similarity";
               match_score := best_score;
               matched_row_index := best_index;
               matched_fields := [title_field];
               match_details :=
                 "Similar title (score: " ++ str_of_Z best_score ++ "%): '"
                 ++ new_title ++ "' vs '" ++ normalize_text matched ++ "'" |})
          else Ret no_match
    end.

Fixpoint hash_loop (df : DataFrame) (new_hash : option string)
    (rs : list (Z * list pyval)) : res outcome :=
  match rs with
  | [] => Ret no_match
  | (idx, vals) :: rs' =>
      existing_hash <- generate_content_hash (RowDict (to_dict df vals)) None ;;
      if option_string_eqb existing_hash new_hash
      then Ret (true, Some {|
             match_type := "content_hash";
             match_score := 100;
             matched_row_index := Some idx;
             matched_fields := CONTENT_FIELDS_FOR_HASH cfg;
             match_details :=
               "Content hash match: " ++ match new_hash with
                                         | Some h => h
                                         | None => "None"
                                         end |})
      else hash_loop df new_hash rs'
  end.

Definition content_hash_match (self : detector) (new_row : rowobj)
    (df : DataFrame) : res outcome :=
  if negb (ENABLE_CONTENT_HASH cfg) then Ret no_match
  else
    new_hash <- generate_content_hash new_row None ;;
    if negb (some_nonempty new_hash) then Ret no_match
    else hash_loop df new_hash (rows df).

Definition strategy : Type := detector -> rowobj -> DataFrame -> res outcome.

(** The strategy list of the ["multi"] branch, in source order. *)
Definition strategies : list strategy :=
  [exact_match; fuzzy_match; title_similarity_match; content_hash_match].

(** The [for strategy in strategies: try: ... except Exception: continue]
    loop. *)
Fixpoint try_strategies (l : list strategy) (self : detector)
    (new_row : rowobj) (df : DataFrame) : res outcome :=
  match l with
  | [] => Ret no_match
  | strat :: l' =>
      match strat self new_row df with
      | Ret (true, match_info) => Ret (true, match_info)
      | Ret (false, _) => try_strategies l' self new_row df
      | Raise _ => try_strategies l' self new_row df
      end
  end.

Definition check_for_duplicate (self : detector) (new_row : rowobj)
    (existing_data : option DataFrame) : res outcome :=
  match existing_data with
  | None => Ret no_match
  | Some df =>
      if df_empty df then Ret no_match
      else
        let new_row :=
          match new_row with
          | RowList l => RowDict (dict_of_pairs (combine (columns df) l))
          | r => r
          end in
        if (method self =? "exact")%string then exact_match self new_row df
        else if (method self =? "fuzzy")%string then
          r <- fuzzy_match self new_row df ;;
          if fst r then Ret r
          else title_similarity_match self new_row df
        else if (method self =? "hash")%string then
          content_hash_match self new_row df
        else if (method self =? "multi")%string then
          try_strategies strategies self new_row df
        else exact_match self new_row df
  end.

(** The loop of [mark_as_duplicate] over the key fields. *)
Fixpoint mark_fields (fields : list string) (marked_data : dict pyval)
    : dict pyval :=
  match fields with
  | [] => marked_data
  | field :: fields' =>
      let marked_data :=
        match dict_get marked_data field with
        | Some v =>
            if truthy v
            then if negb (startswith (py_str v) (DUPLICATE_MARKER_PREFIX cfg))
                 then dict_set marked_data field
                        (PStr (DUPLICATE_MARKER_PREFIX cfg ++ py_str v))
                 else marked_data
            else marked_data
        | None => marked_data
        end in
      mark_fields fields' marked_data
  end.

Definition set_if_absent (d : dict pyval) (k : string) (v : pyval) : dict pyval :=
  if dict_mem d k then d else dict_set d k v.

(** [now] is [datetime.now().strftime("%Y-%m-%d %H:%M:%S")] at the call. *)
Definition mark_as_duplicate (self : detector) (now : string)
    (row_data : dict pyval) : dict pyval :=
  if negb (ADD_DUPLICATE_MARKER cfg) then row_data
  else
    let marked_data := mark_fields (check_fields self) row_data in
    let marked_data := set_if_absent marked_data "Duplicate_Flag" (PStr "TRUE") in
    set_if_absent marked_data "Duplicate_Detected_Date" (PStr now).

End Detector.

End DuplicateDetector.

(** * advanced_duplicate_detector.py *)

Module AdvancedDuplicateDetector.

Local Open Scope Q_scope.
Local Open Scope Z_scope.

(** A file metadata dictionary as the Drive scan delivers it: every
    value is a string ([id], [name], [size], the checksums,
    [thumbnailLink], [file_category]). *)
Definition file : Type := dict string.

Record config : Type := {
  name_similarity_threshold : Z;
  fuzzy_match_threshold : Z;
  size_variance_threshold : Q;
  image_hash_threshold : Z;
  content_similarity_threshold : Z;
  metadata_weight_threshold : Q;
  min_file_size_mb : Q;
  enable_fuzzy_matching : bool;
  enable_image_analysis : bool;
  enable_content_analysis : bool;
  max_comparison_group_size : Z
}.

(** [_get_default_config] *)
Definition _get_default_config (fuzzy_available : bool) : config := {|
  name_similarity_threshold := 80;
  fuzzy_match_threshold := 85;
  size_variance_threshold := 1 # 10;
  image_hash_threshold := 5;
  content_similarity_threshold := 90;
  metadata_weight_threshold := 7 # 10;
  min_file_size_mb := 1 # 10;
  enable_fuzzy_matching := fuzzy_available;
  enable_image_analysis := true;
  enable_content_analysis := true;
  max_comparison_group_size := 1000
|}.

(** A duplicate group: the keys every strategy sets, and as options the
    keys only some of them set. *)
Record group : Type := {
  group_type : string;
  confidence : string;
  files : list file;
  duplicate_count : Z;
  detection_method : string;
  potential_savings_mb : option Q;
  content_hash : option string;
  similarity_threshold : option Z;
  file_size_mb : option Q;
  avg_hash_distance : option Q;
  category : option string;
  categories : option (list string)
}.

Definition set_category (g : group) (c : string) : group := {|
  group_type := group_type g; confidence := confidence g; files := files g;
  duplicate_count := duplicate_count g;
  detection_method := detection_method g;
  potential_savings_mb := potential_savings_mb g;
  content_hash := content_hash g;
  similarity_threshold := similarity_threshold g;
  file_size_mb := file_size_mb g; avg_hash_distance := avg_hash_distance g;
  category := Some c; categories := categories g
|}.

Definition set_cross_category (g : group) (cats : list string) : group := {|
  group_type := "cross_category"; confidence := confidence g; files := files g;
  duplicate_count := duplicate_count g;
  detection_method := detection_method g;
  potential_savings_mb := potential_savings_mb g;
  content_hash := content_hash g;
  similarity_threshold := similarity_threshold g;
  file_size_mb := file_size_mb g; avg_hash_distance := avg_hash_distance g;
  category := category g; categories := Some cats
|}.

Definition str_truthy (s : string) : bool := negb (s =? "")%string.

Definition get_default {V : Type} (d : dict V) (k : string) (default : V) : V :=
  match dict_get d k with
  | Some v => v
  | None => default
  end.

(** [d[k]] *)
Definition getitem {V : Type} (d : dict V) (k : string) : res V :=
  match dict_get d k with
  | Some v => Ret v
  | None => Raise KeyError
  end.

(** [groups[k].append(v)] on a [defaultdict(list)] *)
Definition dict_append {V : Type} (d : dict (list V)) (k : string) (v : V)
    : dict (list V) :=
  dict_set d k (get_default d k [] ++ [v])%list.

(** [x in s] for a set of strings; [s.add(x)] is [x :: s]. *)
Definition mem (x : string) (s : list string) : bool :=
  existsb (String.eqb x) s.

(** [s.lower()], exact on ASCII text. *)
Definition lower (s : string) : string :=
  string_of_list_ascii (map lower_char (list_ascii_of_string s)).

Definition Qlt_bool (x y : Q) : bool := negb (Qle_bool y x).

(** [min(a, b)] *)
Definition py_min (a b : Q) : Q := if Qlt_bool b a then b else a.

(** [max(a, b)] *)
Definition py_max (a b : Q) : Q := if Qlt_bool a b then b else a.

Definition mb : Q := inject_Z (1024 * 1024).

(** [set(...)] turned into a list: the distinct elements, here in order of
    first occurrence (Python leaves the order open). *)
Fixpoint distinct (l : list string) : list string :=
  match l with
  | [] => []
  | x :: l' => x :: filter (fun y => negb (x =? y)%string) (distinct l')
  end.

(** A stable sort by decreasing key, [l.sort(key=..., reverse=True)]:
    [key_le a b] tells that the key of [a] is at most the key of [b]. *)
Fixpoint insert_desc {A : Type} (key_le : A -> A -> bool) (x : A) (l : list A)
    : list A :=
  match l with
  | [] => [x]
  | y :: l' => if key_le y x then x :: l else y :: insert_desc key_le x l'
  end.

Definition sort_desc {A : Type} (key_le : A -> A -> bool) (l : list A) : list A :=
  fold_right (insert_desc key_le) [] l.

(** An entry of [image_hashes]. *)
Record image_entry : Type := {
  file_data : file;
  hashes : dict string
}.

(** [Levenshtein.hamming]: defined on strings of one length. *)
Fixpoint hamming_chars (a b : list ascii) : option nat :=
  match a, b with
  | [], [] => Some 0%nat
  | x :: a', y :: b' =>
      match hamming_chars a' b' with
      | Some n => Some (if Ascii.eqb x y then n else S n)
      | None => None
      end
  | _, _ => None
  end.

Definition hamming (s1 s2 : string) : res Z :=
  match hamming_chars (list_ascii_of_string s1) (list_ascii_of_string s2) with
  | Some n => Ret (Z.of_nat n)
  | None => Raise ValueError
  end.

Definition hash_types : list string := ["phash"; "ahash"; "dhash"; "whash"].

Fixpoint hash_distances (h1 h2 : dict string) (types : list string)
    : res (list Z) :=
  match types with
  | [] => Ret []
  | hash_type :: types' =>
      match dict_get h1 hash_type, dict_get h2 hash_type with
      | Some a, Some b =>
          distance <- hamming a b ;;
          rest <- hash_distances h1 h2 types' ;;
          Ret (distance :: rest)
      | _, _ => hash_distances h1 h2 types'
      end
  end.

Definition sumZ (l : list Z) : Z := fold_left Z.add l 0.

(** [sum(hash_distances) / len(hash_distances)] *)
Definition average (l : list Z) : Q := inject_Z (sumZ l) / inject_Z (len l).

Definition hash_fields : list string :=
  ["sha256Checksum"; "sha1Checksum"; "md5Checksum"; "content_hash"].

(** The first checksum of the file that is set. *)
Fixpoint first_hash (f : file) (fields : list string) : option string :=
  match fields with
  | [] => None
  | hash_field :: fields' =>
      match dict_get f hash_field with
      | Some v => if str_truthy v then Some v else first_hash f fields'
      | None => first_hash f fields'
      end
  end.

Definition hash_groups (l : list file) : dict (list file) :=
  fold_left (fun groups f =>
               match first_hash f hash_fields with
               | Some h => dict_append groups h f
               | None => groups
               end) l [].

Definition size_groups (l : list file) : dict (list file) :=
  fold_left (fun groups f =>
               let size := get_default f "size" "0" in
               if str_truthy size && negb (size =? "0")%string
               then dict_append groups size f
               else groups) l [].

(** [_group_files_by_category] *)
Definition _group_files_by_category (l : list file) : dict (list file) :=
  fold_left (fun groups f =>
               dict_append groups (get_default f "file_category" "other") f)
            l [].

(** An entry of [ranked_duplicates]. *)
Record ranked : Type := {
  group_id : string;
  score : Q;
  r_confidence : string;
  r_duplicate_count : Z;
  r_potential_savings_mb : Q;
  r_type : string;
  r_files : list file
}.

(** [confidence_scores.get(confidence, 1)] *)
Definition confidence_scores (c : string) : Z :=
  if (c =? "high")%string then 3
  else if (c =? "medium")%string then 2
  else 1.

Definition rank_entry (item : string * group) : ranked :=
  let '(gid, group_data) := item in
  let potential_savings := match potential_savings_mb group_data with
                           | Some s => s
                           | None => 0%Q
                           end in
  {| group_id := gid;
     score := (inject_Z (confidence_scores (confidence group_data) * 100)
               + py_min potential_savings (inject_Z 1000)
               + inject_Z (duplicate_count group_data * 10))%Q;
     r_confidence := confidence group_data;
     r_duplicate_count := duplicate_count group_data;
     r_potential_savings_mb := potential_savings;
     r_type := group_type group_data;
     r_files := files group_data |}.

Definition score_le (a b : ranked) : bool := Qle_bool (score a) (score b).

Definition _rank_duplicate_groups (duplicates : dict group) : list ranked :=
  sort_desc score_le (map rank_entry duplicates).

Record stats : Type := {
  total_files_analyzed : Z;
  files_by_category : dict Z;
  total_duplicate_groups : Z;
  total_duplicates_found : Z;
  potential_space_saved_mb : Q
}.

(** [sum(g.get('potential_savings_mb', 0) for g in groups)] *)
Definition sum_savings (groups : list group) : Q :=
  fold_left (fun acc g => match potential_savings_mb g with
                          | Some s => (acc + s)%Q
                          | None => (acc + 0)%Q
                          end) groups 0%Q.

Record priority_entry : Type := {
  p_group_id : string;
  p_type : string;
  p_confidence : string;
  p_duplicate_count : Z;
  p_potential_savings_mb : option Q;
  sample_files : list string
}.

Record recommendation : Type := {
  priority : string;
  action : string;
  rec_potential_savings_mb : Q;
  groups_count : Z
}.

(** The analysis report, without [detection_methods_used], which is a set
    listed in an order Python does not fix. *)
Record report : Type := {
  rep_total_duplicate_groups : Z;
  high_confidence_groups : Z;
  medium_confidence_groups : Z;
  low_confidence_groups : Z;
  total_potential_savings_mb : Q;
  recommendations : list recommendation;
  top_priority_groups : list priority_entry;
  rep_statistics : stats
}.

Definition with_confidence (c : string) (groups : list group) : list group :=
  filter (fun g => (confidence g =? c)%string) groups.

Definition savings_or_zero (g : group) : Q :=
  match potential_savings_mb g with
  | Some s => s
  | None => 0%Q
  end.

(** The order of the keys [(1 if high else 0, savings)]. *)
Definition priority_le (a b : string * group) : bool :=
  let flag (x : string * group) :=
    if (confidence (snd x) =? "high")%string then 1 else 0 in
  (flag a <? flag b)
  || ((flag a =? flag b)
      && Qle_bool (savings_or_zero (snd a)) (savings_or_zero (snd b))).

Definition _generate_analysis_report (duplicates : dict group) (st : stats)
    : report :=
  let groups := dict_values duplicates in
  let high := with_confidence "high" groups in
  {| rep_total_duplicate_groups := len duplicates;
     high_confidence_groups := len high;
     medium_confidence_groups := len (with_confidence "medium" groups);
     low_confidence_groups := len (with_confidence "low" groups);
     total_potential_savings_mb := sum_savings groups;
     recommendations :=
       match high with
       | [] => []
       | _ :: _ =>
           [ {| priority := "high";
                action := "Review and delete high-confidence duplicates";
                rec_potential_savings_mb := sum_savings high;
                groups_count := len high |} ]
       end;
     top_priority_groups :=
       map (fun item : string * group =>
              {| p_group_id := fst item;
                 p_type := group_type (snd item);
                 p_confidence := confidence (snd item);
                 p_duplicate_count := duplicate_count (snd item);
                 p_potential_savings_mb := potential_savings_mb (snd item);
                 sample_files :=
                   map (fun f => get_default f "name" "Unknown")
                       (firstn 3 (files (snd item))) |})
           (firstn 10 (sort_desc priority_le duplicates));
     rep_statistics := st |}.

Definition handler : Type := list file -> res (dict group).

(** An [AdvancedDuplicateDetector] instance: its configuration and its
    table of per-category handlers. *)
Record detector : Type := {
  cfg : config;
  file_type_handlers : dict handler
}.

Record result : Type := {
  duplicates : dict group;
  ranked_duplicates : list ranked;
  statistics : stats;
  analysis_report : report
}.

Section Engine.

(** [fuzz.ratio], [hashlib.md5(s.encode()).hexdigest()], [float(s)] and
    [int(s)] on a string ([None] for a [ValueError]), the four perceptual
    hashes of the thumbnail behind a link ([None] when the download or the
    hashing fails), and the module flag [FUZZY_AVAILABLE]. *)
Variable fuzz_ratio : string -> string -> Z.
Variable md5_hexdigest : string -> string.
Variable py_float : string -> option Q.
Variable py_int : string -> option Z.
Variable thumbnail_hashes : string -> option (dict string).
Variable FUZZY_AVAILABLE : bool.

(** [float(f.get('size', 0))] *)
Definition float_size (f : file) : res Q :=
  match dict_get f "size" with
  | None => Ret 0%Q
  | Some s =>
      match py_float s with
      | Some q => Ret q
      | None => Raise ValueError
      end
  end.

(** [sum(float(f.get('size', 0)) for f in group)] *)
Definition sum_sizes (l : list file) : res Q :=
  fold_left (fun acc f => a <- acc ;; x <- float_size f ;; Ret (a + x)%Q)
            l (Ret 0%Q).

(** [total_size * (len(group) - 1) / (1024 * 1024)] *)
Definition savings (total_size : Q) (n : Z) : Q :=
  (total_size * inject_Z (n - 1) / mb)%Q.

Fixpoint exact_hash_emit (items : list (string * list file))
    (duplicates : dict group) : res (dict group) :=
  match items with
  | [] => Ret duplicates
  | (h, g) :: items' =>
      if 1 <? len g
      then
        total_size <- sum_sizes g ;;
        exact_hash_emit items'
          (dict_set duplicates ("hash_" ++ str_take 8 h)
             {| group_type := "exact_content"; confidence := "high";
                files := g; duplicate_count := len g;
                detection_method := "content_hash";
                potential_savings_mb := Some (savings total_size (len g));
                content_hash := Some h; similarity_threshold := None;
                file_size_mb := None; avg_hash_distance := None;
                category := None; categories := None |})
      else exact_hash_emit items' duplicates
  end.

Definition _find_exact_hash_matches (l : list file) : res (dict group) :=
  exact_hash_emit (hash_groups l) [].

Fixpoint fuzzy_inner (name1 : string) (threshold : Z) (rest : list file)
    (similar_files : list file) (processed_files : list string)
    : res (list file * list string) :=
  match rest with
  | [] => Ret (similar_files, processed_files)
  | file2 :: rest' =>
      id2 <- getitem file2 "id" ;;
      if mem id2 processed_files
      then fuzzy_inner name1 threshold rest' similar_files processed_files
      else
        let name2 := lower (get_default file2 "name" "") in
        if negb (str_truthy name2)
        then fuzzy_inner name1 threshold rest' similar_files processed_files
        else if threshold <=? fuzz_ratio name1 name2
        then fuzzy_inner name1 threshold rest'
               (similar_files ++ [file2])%list (id2 :: processed_files)
        else fuzzy_inner name1 threshold rest' similar_files processed_files
  end.

Fixpoint fuzzy_outer (threshold : Z) (l : list file)
    (processed_files : list string) (duplicates : dict group)
    : res (dict group) :=
  match l with
  | [] => Ret duplicates
  | file1 :: rest =>
      id1 <- getitem file1 "id" ;;
      if mem id1 processed_files
      then fuzzy_outer threshold rest processed_files duplicates
      else
        let name1 := lower (get_default file1 "name" "") in
        if negb (str_truthy name1)
        then fuzzy_outer threshold rest processed_files duplicates
        else
          r <- fuzzy_inner name1 threshold rest [file1] processed_files ;;
          let '(similar_files, processed_files) := r in
          duplicates <-
            (if 1 <? len similar_files
             then
               total_size <- sum_sizes similar_files ;;
               Ret (dict_set duplicates
                      ("fuzzy_" ++ str_take 8 (md5_hexdigest name1))
                      {| group_type := "fuzzy_name"; confidence := "medium";
                         files := similar_files;
                         duplicate_count := len similar_files;
                         detection_method := "fuzzy_name_matching";
                         potential_savings_mb :=
                           Some (savings total_size (len similar_files));
                         content_hash := None;
                         similarity_threshold := Some threshold;
                         file_size_mb := None; avg_hash_distance := None;
                         category := None; categories := None |})
             else Ret duplicates) ;;
          fuzzy_outer threshold rest (id1 :: processed_files) duplicates
  end.

Definition _find_fuzzy_name_matches (self : detector) (l : list file)
    (threshold : option Z) : res (dict group) :=
  if negb FUZZY_AVAILABLE then Ret []
  else
    let threshold :=
      match threshold with
      | Some t => if t =? 0 then fuzzy_match_threshold (cfg self) else t
      | None => fuzzy_match_threshold (cfg self)
      end in
    fuzzy_outer threshold l [] [].

Fixpoint size_emit (strict : bool) (items : list (string * list file))
    (duplicates : dict group) : res (dict group) :=
  match items with
  | [] => Ret duplicates
  | (size, g) :: items' =>
      if 1 <? len g
      then
        match py_int size with
        | None => Raise ValueError
        | Some n =>
            let size_mb := (inject_Z n / mb)%Q in
            if Qlt_bool 1 size_mb
            then
              let total_size := n * len g in
              size_emit strict items'
                (dict_set duplicates ("size_" ++ size)
                   {| group_type := "exact_size";
                      confidence := if negb strict then "low" else "medium";
                      files := g; duplicate_count := len g;
                      detection_method := "size_matching";
                      potential_savings_mb :=
                        Some (savings (inject_Z total_size) (len g));
                      content_hash := None; similarity_threshold := None;
                      file_size_mb := Some size_mb;
                      avg_hash_distance := None;
                      category := None; categories := None |})
            else size_emit strict items' duplicates
        end
      else size_emit strict items' duplicates
  end.

Definition _find_size_based_matches (l : list file) (strict : bool)
    : res (dict group) :=
  size_emit strict (size_groups l) [].

(** [abs(size1 - size2) / max(size1, size2) if max(size1, size2) > 0 else 1] *)
Definition size_diff (size1 size2 : Q) : Q :=
  if Qlt_bool 0 (py_max size1 size2)
  then (Qabs (size1 - size2) / py_max size1 size2)%Q
  else 1%Q.

(** [str(int(x))] for a float [x]: truncation towards zero. *)
Definition str_int (x : Q) : string := str_of_Z (Z.quot (Qnum x) (Zpos (Qden x))).

Fixpoint name_size_inner (self : detector) (name1 : string) (size1 : Q)
    (rest : list file) (similar_files : list file)
    (processed_files : list string) : res (list file * list string) :=
  match rest with
  | [] => Ret (similar_files, processed_files)
  | file2 :: rest' =>
      id2 <- getitem file2 "id" ;;
      if mem id2 processed_files
      then name_size_inner self name1 size1 rest' similar_files processed_files
      else
        let name2 := lower (get_default file2 "name" "") in
        size2 <- float_size file2 ;;
        if negb (str_truthy name2) || Qeq_bool size2 0
        then name_size_inner self name1 size1 rest' similar_files
               processed_files
        else
          let name_similarity := fuzz_ratio name1 name2 in
          if (name_similarity_threshold (cfg self) <=? name_similarity)
             && Qle_bool (size_diff size1 size2)
                  (size_variance_threshold (cfg self))
          then name_size_inner self name1 size1 rest'
                 (similar_files ++ [file2])%list (id2 :: processed_files)
          else name_size_inner self name1 size1 rest' similar_files
                 processed_files
  end.

Fixpoint name_size_outer (self : detector) (l : list file)
    (processed_files : list string) (duplicates : dict group)
    : res (dict group) :=
  match l with
  | [] => Ret duplicates
  | file1 :: rest =>
      id1 <- getitem file1 "id" ;;
      if mem id1 processed_files
      then name_size_outer self rest processed_files duplicates
      else
        let name1 := lower (get_default file1 "name" "") in
        size1 <- float_size file1 ;;
        if negb (str_truthy name1) || Qeq_bool size1 0
        then name_size_outer self rest processed_files duplicates
        else
          r <- name_size_inner self name1 size1 rest [file1] processed_files ;;
          let '(similar_files, processed_files) := r in
          duplicates <-
            (if 1 <? len similar_files
             then
               total_size <- sum_sizes similar_files ;;
               Ret (dict_set duplicates
                      ("namesize_"
                       ++ str_take 8 (md5_hexdigest (name1 ++ str_int size1)))
                      {| group_type := "name_size_similarity";
                         confidence := "medium";
                         files := similar_files;
                         duplicate_count := len similar_files;
                         detection_method := "name_size_similarity";
                         potential_savings_mb :=
                           Some (savings total_size (len similar_files));
                         content_hash := None; similarity_threshold := None;
                         file_size_mb := None; avg_hash_distance := None;
                         category := None; categories := None |})
             else Ret duplicates) ;;
          name_size_outer self rest (id1 :: processed_files) duplicates
  end.

Definition _find_name_size_similarity_matches (self : detector) (l : list file)
    : res (dict group) :=
  if negb FUZZY_AVAILABLE then _find_size_based_matches l false
  else name_size_outer self l [] [].

Definition _find_content_similarity_matches (l : list file) : res (dict group) :=
  Ret [].

(** The first loop of [_find_perceptual_image_duplicates]: a file without a
    thumbnail link, with a failed download, or without an [id], is left
    out. *)
Definition collect_image_hashes (l : list file) : dict image_entry :=
  fold_left (fun image_hashes f =>
               match dict_get f "thumbnailLink" with
               | Some link =>
                   if str_truthy link
                   then match thumbnail_hashes link, dict_get f "id" with
                        | Some hs, Some id =>
                            dict_set image_hashes id
                              {| file_data := f; hashes := hs |}
                        | _, _ => image_hashes
                        end
                   else image_hashes
               | None => image_hashes
               end) l [].

(** The inner loop; [last] is the value [hash_distances] holds when the
    loop ends. *)
Fixpoint perceptual_inner (file_id1 : string) (data1 : image_entry)
    (threshold : Z) (entries : list (string * image_entry))
    (similar_files : list file) (processed_ids : list string)
    (last : list Z) : res (list file * list string * list Z) :=
  match entries with
  | [] => Ret (similar_files, processed_ids, last)
  | (file_id2, data2) :: entries' =>
      if (file_id2 =? file_id1)%string || mem file_id2 processed_ids
      then perceptual_inner file_id1 data1 threshold entries' similar_files
             processed_ids last
      else
        ds <- hash_distances (hashes data1) (hashes data2) hash_types ;;
        match ds with
        | [] => perceptual_inner file_id1 data1 threshold entries'
                  similar_files processed_ids ds
        | _ :: _ =>
            if Qle_bool (average ds) (inject_Z threshold)
            then perceptual_inner file_id1 data1 threshold entries'
                   (similar_files ++ [file_data data2])%list
                   (file_id2 :: processed_ids) ds
            else perceptual_inner file_id1 data1 threshold entries'
                   similar_files processed_ids ds
        end
  end.

Fixpoint perceptual_outer (threshold : Z) (image_hashes : dict image_entry)
    (todo : list (string * image_entry)) (processed_ids : list string)
    (duplicates : dict group) : res (dict group) :=
  match todo with
  | [] => Ret duplicates
  | (file_id1, data1) :: todo' =>
      if mem file_id1 processed_ids
      then perceptual_outer threshold image_hashes todo' processed_ids
             duplicates
      else
        r <- perceptual_inner file_id1 data1 threshold image_hashes
               [file_data data1] processed_ids [] ;;
        let '(similar_files, processed_ids, last) := r in
        let duplicates :=
          if 1 <? len similar_files
          then dict_set duplicates
                 ("perceptual_" ++ str_take 8 (md5_hexdigest file_id1))
                 {| group_type := "perceptual_image"; confidence := "high";
                    files := similar_files;
                    duplicate_count := len similar_files;
                    detection_method := "perceptual_hashing";
                    potential_savings_mb := None;
                    content_hash := None; similarity_threshold := None;
                    file_size_mb := None;
                    avg_hash_distance :=
                      Some match last with
                           | [] => 0%Q
                           | _ :: _ => average last
                           end;
                    category := None; categories := None |}
          else duplicates in
        perceptual_outer threshold image_hashes todo'
          (file_id1 :: processed_ids) duplicates
  end.

Definition _find_perceptual_image_duplicates (self : detector) (l : list file)
    : res (dict group) :=
  let image_hashes := collect_image_hashes l in
  perceptual_outer (image_hash_threshold (cfg self)) image_hashes
    image_hashes [] [].

(** [duplicates.update(more)] for a strategy that may raise. *)
Definition and_then (acc : res (dict group)) (next : res (dict group))
    : res (dict group) :=
  duplicates <- acc ;;
  more <- next ;;
  Ret (dict_update duplicates more).

Definition _detect_generic_duplicates (self : detector) (l : list file)
    : res (dict group) :=
  and_then
    (and_then
       (and_then (Ret []) (_find_exact_hash_matches l))
       (_find_fuzzy_name_matches self l None))
    (_find_size_based_matches l false).

Definition _detect_image_duplicates (self : detector) (l : list file)
    : res (dict group) :=
  if negb (enable_image_analysis (cfg self))
  then _detect_generic_duplicates self l
  else
    duplicates <- and_then (Ret []) (_find_exact_hash_matches l) ;;
    match _find_perceptual_image_duplicates self l with
    | Ret perceptual_duplicates =>
        Ret (dict_update duplicates perceptual_duplicates)
    | Raise _ => Ret duplicates
    end.

Definition _detect_document_duplicates (self : detector) (l : list file)
    : res (dict group) :=
  duplicates <-
    and_then (and_then (Ret []) (_find_exact_hash_matches l))
      (_find_name_size_similarity_matches self l) ;;
  if enable_content_analysis (cfg self)
  then and_then (Ret duplicates) (_find_content_similarity_matches l)
  else Ret duplicates.

Definition _detect_video_duplicates (self : detector) (l : list file)
    : res (dict group) :=
  and_then (and_then (Ret []) (_find_exact_hash_matches l))
    (_find_size_based_matches l true).

Definition _detect_audio_duplicates (self : detector) (l : list file)
    : res (dict group) :=
  and_then (and_then (Ret []) (_find_exact_hash_matches l))
    (_find_fuzzy_name_matches self l None).

Definition _detect_code_duplicates (self : detector) (l : list file)
    : res (dict group) :=
  and_then (and_then (Ret []) (_find_exact_hash_matches l))
    (_find_fuzzy_name_matches self l (Some 95)).

(** [AdvancedDuplicateDetector.__init__]: the handler table holds the
    methods bound to the instance, which has the configuration [c]. *)
Definition new (c : config) : detector :=
  let bare := {| cfg := c; file_type_handlers := [] |} in
  {| cfg := c;
     file_type_handlers :=
       [ ("image", _detect_image_duplicates bare);
         ("document", _detect_document_duplicates bare);
         ("video", _detect_video_duplicates bare);
         ("audio", _detect_audio_duplicates bare);
         ("code", _detect_code_duplicates bare);
         ("other", _detect_generic_duplicates bare) ] |}.

Definition _detect_cross_category_duplicates (file_groups : dict (list file))
    : res (dict group) :=
  let all_files := List.concat (dict_values file_groups) in
  hash_duplicates <- _find_exact_hash_matches all_files ;;
  Ret (fold_left
         (fun duplicates item =>
            let '(gid, group_data) := item in
            let cats :=
              distinct (map (fun f => get_default f "file_category" "unknown")
                            (files group_data)) in
            if 1 <? len cats
            then dict_set duplicates ("cross_" ++ gid)
                   (set_cross_category group_data cats)
            else duplicates)
         hash_duplicates []).

(** The list comprehension that filters by minimum size. *)
Fixpoint filter_by_size (min_size : Q) (l : list file) : res (list file) :=
  match l with
  | [] => Ret []
  | f :: l' =>
      size <- float_size f ;;
      rest <- filter_by_size min_size l' ;;
      Ret (if Qle_bool min_size size then f :: rest else rest)
  end.

(** The loop over the categories, with its [try ... except: continue]. *)
Fixpoint category_loop (self : detector)
    (file_groups : list (string * list file)) (all_duplicates : dict group)
    : dict group :=
  match file_groups with
  | [] => all_duplicates
  | (cat, category_files) :: file_groups' =>
      match category_files with
      | [] => category_loop self file_groups' all_duplicates
      | _ :: _ =>
          let handler :=
            get_default (file_type_handlers self) cat
              (_detect_generic_duplicates self) in
          match handler category_files with
          | Ret category_duplicates =>
              category_loop self file_groups'
                (fold_left
                   (fun acc item =>
                      dict_set acc (cat ++ "_" ++ fst item)
                        (set_category (snd item) cat))
                   category_duplicates all_duplicates)
          | Raise _ => category_loop self file_groups' all_duplicates
          end
      end
  end.

Definition detect_all_duplicates (self : detector) (l : list file)
    : res result :=
  let min_size := (min_file_size_mb (cfg self) * inject_Z 1024
                   * inject_Z 1024)%Q in
  filtered_files <- filter_by_size min_size l ;;
  let file_groups := _group_files_by_category filtered_files in
  let all_duplicates := category_loop self file_groups [] in
  cross_category_duplicates <- _detect_cross_category_duplicates file_groups ;;
  let all_duplicates :=
    fold_left (fun acc item => dict_set acc ("cross_" ++ fst item) (snd item))
              cross_category_duplicates all_duplicates in
  let detection_stats :=
    {| total_files_analyzed := len filtered_files;
       files_by_category :=
         map (fun item : string * list file => (fst item, len (snd item)))
             file_groups;
       total_duplicate_groups := len all_duplicates;
       total_duplicates_found :=
         sumZ (map duplicate_count (dict_values all_duplicates));
       potential_space_saved_mb := sum_savings (dict_values all_duplicates) |} in
  Ret {| duplicates := all_duplicates;
         ranked_duplicates := _rank_duplicate_groups all_duplicates;
         statistics := detection_stats;
         analysis_report :=
           _generate_analysis_report all_duplicates detection_stats |}.

End Engine.

End AdvancedDuplicateDetector.

(** * auto_scaling_sheets.py *)

Module AutoScalingSheets.

Definition SAFE_ROW_LIMIT : Z := 900000.

(** An entry of [sheet_info['worksheets']]. *)
Record worksheet_info : Type := {
  ws_name : string;
  rows_used : Z;
  max_rows : option Z
}.

Record sheet_info : Type := {
  name : string;
  id : string;
  url : string;
  main : worksheet_info;
  duplicates_ws : worksheet_info;
  summary_ws : worksheet_info;
  cross_ref : worksheet_info;
  created_at : string;
  status : string
}.

Record registry : Type := {
  sheets : list sheet_info;
  current_sheet_index : nat;
  total_rows_used : Z;
  last_updated : string
}.

(** The spreadsheet service: for every spreadsheet id the rows of its
    [File_Metadata] worksheet, and a script telling which of the coming
    sheet creations and batch insertions fail ([true]: the call raises);
    past the script calls succeed.  The summary, cross-reference and
    formatting calls swallow their own errors and write to worksheets the
    registry does not read; they are left out. *)
Record backend : Type := {
  remote : dict (list (list string));
  faults : list bool
}.

(** An [AutoScalingSheetManager] instance. *)
Record manager : Type := {
  base_sheet_name : string;
  metadata_columns : list string;
  sheet_registry : registry;
  gc : backend
}.

Definition with_state (self : manager) (r : registry) (b : backend) : manager :=
  {| base_sheet_name := base_sheet_name self;
     metadata_columns := metadata_columns self;
     sheet_registry := r; gc := b |}.

Definition next_fault (b : backend) : bool * backend :=
  match faults b with
  | [] => (false, b)
  | f :: fs => (f, {| remote := remote b; faults := fs |})
  end.

(** [f"{n:03d}"] *)
Definition pad3 (n : Z) : string :=
  let s := str_of_Z n in
  string_of_list_ascii (repeat "0"%char (3 - String.length s)) ++ s.

Definition default_metadata_columns : list string :=
  [ "file_id"; "name"; "mimeType"; "size"; "file_size_mb";
    "createdTime"; "modifiedTime"; "file_age_days"; "last_modified_days";
    "owner_email"; "owner_name"; "sharing_status"; "is_public";
    "parent_folders"; "parent_folder_ids"; "permission_count";
    "file_category"; "fileExtension"; "content_hash";
    "md5Checksum"; "sha1Checksum"; "sha256Checksum";
    "webViewLink"; "webContentLink"; "thumbnailLink";
    "trashed"; "version"; "scan_timestamp"; "sheet_id"; "row_number" ].

(** [AutoScalingSheetManager.__init__] over a given service. *)
Definition init (base : string) (b : backend) (now : string) : manager := {|
  base_sheet_name := base;
  metadata_columns := default_metadata_columns;
  sheet_registry := {| sheets := []; current_sheet_index := 0;
                       total_rows_used := 0; last_updated := now |};
  gc := b
|}.

(** [create_new_sheet]: a failed service call raises before the registry
    is touched; otherwise the new sheet, whose [File_Metadata] worksheet
    holds the header row, is appended to the registry. *)
Definition create_new_sheet (self : manager) (suffix : option string)
    (now : string) : res sheet_info * manager :=
  let reg := sheet_registry self in
  let suffix := match suffix with
                | Some s => s
                | None => "_" ++ pad3 (len (sheets reg) + 1)
                end in
  let sheet_name := base_sheet_name self ++ suffix in
  let '(fault, b) := next_fault (gc self) in
  if fault then (Raise BackendError, with_state self reg b)
  else
    let spreadsheet_id := "spreadsheet-" ++ str_of_Z (len (remote b) + 1) in
    let b := {| remote := dict_set (remote b) spreadsheet_id
                            [metadata_columns self];
                faults := faults b |} in
    let info := {|
      name := sheet_name;
      id := spreadsheet_id;
      url := "https://docs.google.com/spreadsheets/d/" ++ spreadsheet_id;
      main := {| ws_name := "File_Metadata"; rows_used := 1;
                 max_rows := Some SAFE_ROW_LIMIT |};
      duplicates_ws := {| ws_name := "Duplicate_Analysis"; rows_used := 1;
                          max_rows := None |};
      summary_ws := {| ws_name := "Summary_Stats"; rows_used := 0;
                       max_rows := None |};
      cross_ref := {| ws_name := "Cross_References"; rows_used := 1;
                      max_rows := None |};
      created_at := now;
      status := "active" |} in
    (Ret info,
     with_state self
       {| sheets := (sheets reg ++ [info])%list;
          current_sheet_index := current_sheet_index reg;
          total_rows_used := total_rows_used reg;
          last_updated := last_updated reg |} b).

(** [get_current_sheet]: the position in the registry of the sheet it
    returns; the caller mutates that very entry. *)
Definition get_current_sheet (self : manager) (now : string)
    : res nat * manager :=
  let reg := sheet_registry self in
  match sheets reg with
  | [] =>
      match create_new_sheet self None now with
      | (Ret _, self') => (Ret 0%nat, self')
      | (Raise e, self') => (Raise e, self')
      end
  | _ :: _ =>
      match nth_error (sheets reg) (current_sheet_index reg) with
      | None => (Raise IndexError, self)
      | Some current_sheet =>
          match max_rows (main current_sheet) with
          | None => (Raise KeyError, self)
          | Some m =>
              if m <=? rows_used (main current_sheet)
              then
                match create_new_sheet self None now with
                | (Ret _, self') =>
                    let reg' := sheet_registry self' in
                    let last_index := (List.length (sheets reg') - 1)%nat in
                    (Ret last_index,
                     with_state self'
                       {| sheets := sheets reg';
                          current_sheet_index := last_index;
                          total_rows_used := total_rows_used reg';
                          last_updated := last_updated reg' |} (gc self'))
                | (Raise e, self') => (Raise e, self')
                end
              else (Ret (current_sheet_index reg), self)
          end
      end
  end.

(** The rows built for a batch: each file is stamped with the sheet id and
    its row number, then laid out in column order. *)
Fixpoint rows_to_add (columns : list string) (sheet_id : string)
    (used : Z) (done : Z) (batch : list (dict string)) : list (list string) :=
  match batch with
  | [] => []
  | file_info :: batch' =>
      let file_info := dict_set file_info "sheet_id" sheet_id in
      let file_info :=
        dict_set file_info "row_number" (str_of_Z (used + done + 1)) in
      map (fun col => match dict_get file_info col with
                      | Some v => v
                      | None => ""
                      end) columns
      :: rows_to_add columns sheet_id used (done + 1) batch'
  end.

Definition add_rows_used (s : sheet_info) (n : Z) : sheet_info := {|
  name := name s; id := id s; url := url s;
  main := {| ws_name := ws_name (main s);
             rows_used := rows_used (main s) + n;
             max_rows := max_rows (main s) |};
  duplicates_ws := duplicates_ws s; summary_ws := summary_ws s;
  cross_ref := cross_ref s; created_at := created_at s; status := status s
|}.

(** The [try] block of [add_file_data] for one batch written to the sheet
    at position [i]: [Some n] when [n] rows were inserted and counted,
    [None] when the insertion raised. *)
Definition insert_batch (self : manager) (i : nat) (batch : list (dict string))
    : option Z * manager :=
  let reg := sheet_registry self in
  match nth_error (sheets reg) i with
  | None => (None, self)
  | Some current_sheet =>
      let rows := rows_to_add (metadata_columns self) (id current_sheet)
                    (rows_used (main current_sheet)) 0 batch in
      let '(fault, b) := next_fault (gc self) in
      match fault, dict_get (remote b) (id current_sheet) with
      | false, Some cells =>
          let start_row := rows_used (main current_sheet) + 1 in
          let b := {| remote := dict_set (remote b) (id current_sheet)
                                  (write_rows cells start_row rows);
                      faults := faults b |} in
          (Some (len rows),
           with_state self
             {| sheets := update_nth i (fun s => add_rows_used s (len rows))
                            (sheets reg);
                current_sheet_index := current_sheet_index reg;
                total_rows_used := total_rows_used reg;
                last_updated := last_updated reg |} b)
      | _, _ => (None, with_state self reg b)
      end
  end.

(** The loop of [add_file_data]; a failure of [get_current_sheet] leaves
    the loop with the exception. *)
Fixpoint add_batches (self : manager) (now : string)
    (todo : list (list (dict string))) (total_added : Z)
    (sheets_used : list string) : res (Z * list string) * manager :=
  match todo with
  | [] => (Ret (total_added, sheets_used), self)
  | batch :: todo' =>
      match get_current_sheet self now with
      | (Raise e, self') => (Raise e, self')
      | (Ret i, self') =>
          let sheets_used :=
            match nth_error (sheets (sheet_registry self')) i with
            | Some s => (sheets_used ++ [name s])%list
            | None => sheets_used
            end in
          match insert_batch self' i batch with
          | (Some n, self'') =>
              add_batches self'' now todo' (total_added + n) sheets_used
          | (None, self'') =>
              add_batches self'' now todo' total_added sheets_used
          end
      end
  end.

Record summary : Type := {
  files_processed : Z;
  rows_added : Z;
  sheets_used_summary : list string;
  total_sheets : Z;
  timestamp : string
}.

Fixpoint distinct_names (l : list string) : list string :=
  match l with
  | [] => []
  | x :: l' => x :: filter (fun y => negb (x =? y)%string) (distinct_names l')
  end.

Definition add_file_data (self : manager) (file_data : list (dict string))
    (batch_size : Z) (now : string) : res summary * manager :=
  if batch_size =? 0 then (Raise ValueError, self)
  else
    let todo :=
      if batch_size <? 0 then []
      else batches (List.length file_data) (Z.to_nat batch_size) file_data in
    match add_batches self now todo 0 [] with
    | (Raise e, self') => (Raise e, self')
    | (Ret (total_added, sheets_used), self') =>
        let reg := sheet_registry self' in
        let reg := {| sheets := sheets reg;
                      current_sheet_index := current_sheet_index reg;
                      total_rows_used := total_rows_used reg + total_added;
                      last_updated := now |} in
        (Ret {| files_processed := len file_data;
                rows_added := total_added;
                sheets_used_summary := distinct_names sheets_used;
                total_sheets := len (sheets reg);
                timestamp := now |},
         with_state self' reg (gc self'))
    end.

End AutoScalingSheets.

(** * sheets_utils.py and multi_sheet_manager.py *)

Module MultiSheetManager.

(** The in-memory image of the sheet service: spreadsheets, each a list
    of worksheets, each a grid of rows.  A spreadsheet is referred to by
    its position, a worksheet by the position of its spreadsheet and its
    own.  The service itself does not fail here; the [except] branches of
    [sheets_utils] are taken only for a reference that points nowhere. *)
Record worksheet : Type := {
  title : string;
  cells : list (list string)
}.

Record spreadsheet : Type := {
  ss_title : string;
  worksheets : list worksheet
}.

Definition drive : Type := list spreadsheet.

Definition wsref : Type := (nat * nat)%type.

(** A row handed to the manager: a dict, written as its values, or a list. *)
Inductive data_row : Type :=
| DictRow (d : dict string)
| ListRow (l : list string).

Definition format_row (r : data_row) : list string :=
  match r with
  | DictRow d => dict_values d
  | ListRow l => l
  end.

(** [bool(cell.strip())] *)
Definition cell_filled (cell : string) : bool :=
  existsb (fun c => negb (is_space c)) (list_ascii_of_string cell).

(** [any(cell.strip() for cell in row)] *)
Definition row_filled (row : list string) : bool := existsb cell_filled row.

Definition get_worksheet (dr : drive) (w : wsref) : option worksheet :=
  match nth_error dr (fst w) with
  | Some ss => nth_error (worksheets ss) (snd w)
  | None => None
  end.

Definition set_cells (dr : drive) (w : wsref) (f : list (list string) -> list (list string))
    : drive :=
  update_nth (fst w)
    (fun ss => {| ss_title := ss_title ss;
                  worksheets :=
                    update_nth (snd w)
                      (fun ws => {| title := title ws; cells := f (cells ws) |})
                      (worksheets ss) |})
    dr.

(** [get_sheet_row_count]: the number of rows with a filled cell; 0 when
    the worksheet cannot be read. *)
Definition get_sheet_row_count (dr : drive) (w : wsref) : Z :=
  match get_worksheet dr w with
  | Some ws => len (filter row_filled (cells ws))
  | None => 0
  end.

Definition is_sheet_full (dr : drive) (w : wsref) (max_rows : Z) : bool :=
  max_rows <=? get_sheet_row_count dr w.

(** [create_new_sheet_tab]: the new, empty tab goes last. *)
Definition create_new_sheet_tab (dr : drive) (ss : nat) (tab_name : string)
    : option wsref * drive :=
  match nth_error dr ss with
  | Some s =>
      (Some (ss, List.length (worksheets s)),
       update_nth ss
         (fun s => {| ss_title := ss_title s;
                      worksheets := (worksheets s
                                     ++ [{| title := tab_name; cells := [] |}])%list |})
         dr)
  | None => (None, dr)
  end.

(** [setup_sheet_headers]: [worksheet.update('A1', [headers])] *)
Definition setup_sheet_headers (dr : drive) (w : wsref) (headers : list string)
    : bool * drive :=
  match get_worksheet dr w with
  | Some _ => (true, set_cells dr w (fun cs => write_rows cs 1 [headers]))
  | None => (false, dr)
  end.

(** [batch_update_sheet] with [start_row=None] *)
Definition batch_update_sheet (dr : drive) (w : wsref) (data_list : list data_row)
    : bool * drive :=
  match get_worksheet dr w with
  | Some _ =>
      let start_row := get_sheet_row_count dr w + 1 in
      let formatted_data := map format_row data_list in
      (true, set_cells dr w (fun cs => write_rows cs start_row formatted_data))
  | None => (false, dr)
  end.

(** The first worksheet, in tab order, that is not full. *)
Fixpoint first_not_full (dr : drive) (ss : nat) (i : nat) (n : nat)
    (max_rows : Z) : option wsref :=
  match n with
  | O => None
  | S n' =>
      if negb (is_sheet_full dr (ss, i) max_rows) then Some (ss, i)
      else first_not_full dr ss (S i) n' max_rows
  end.

Definition tab_count (dr : drive) (ss : nat) : nat :=
  match nth_error dr ss with
  | Some s => List.length (worksheets s)
  | None => O
  end.

Section Manager.

(** The constants of [config] and the readings of the clock used for the
    names of new spreadsheets and tabs. *)
Variable MAX_ROWS_PER_SHEET : Z.
Variable MAX_SHEETS_PER_SPREADSHEET : Z.
Variable timestamp : string.

(** [find_available_sheet] with [max_rows=None] *)
Definition find_available_sheet (dr : drive) (ss : nat) : option wsref * drive :=
  match first_not_full dr ss 0 (tab_count dr ss) MAX_ROWS_PER_SHEET with
  | Some w => (Some w, dr)
  | None => create_new_sheet_tab dr ss ("Data_" ++ timestamp)
  end.

(** A [MultiSheetManager] instance together with the service it talks to. *)
Record manager : Type := {
  base_name : string;
  headers : list string;
  current_spreadsheet : option nat;
  current_worksheet : option wsref;
  client : drive
}.

Definition with_sheets (self : manager) (ss : option nat) (ws : option wsref)
    (dr : drive) : manager :=
  {| base_name := base_name self; headers := headers self;
     current_spreadsheet := ss; current_worksheet := ws; client := dr |}.

(** [_create_new_spreadsheet]: a spreadsheet whose first tab, [Data_001],
    receives the header row. *)
Definition _create_new_spreadsheet (self : manager) : option nat * manager :=
  let ss := List.length (client self) in
  let dr := (client self
             ++ [{| ss_title := base_name self ++ "_" ++ timestamp;
                    worksheets := [{| title := "Data_001"; cells := [] |}] |}])%list in
  let '(_, dr) := setup_sheet_headers dr (ss, 0%nat) (headers self) in
  (Some ss, with_sheets self (Some ss) (Some (ss, 0%nat)) dr).

(** [_spreadsheet_has_capacity] *)
Definition _spreadsheet_has_capacity (self : manager) : bool * manager :=
  match current_spreadsheet self with
  | None => (false, self)
  | Some ss =>
      let dr := client self in
      if MAX_SHEETS_PER_SPREADSHEET <=? Z.of_nat (tab_count dr ss)
      then
        match first_not_full dr ss 0 (tab_count dr ss) MAX_ROWS_PER_SHEET with
        | Some w => (true, with_sheets self (Some ss) (Some w) dr)
        | None => (false, self)
        end
      else
        match find_available_sheet dr ss with
        | (Some w, dr') => (true, with_sheets self (Some ss) (Some w) dr')
        | (None, dr') =>
            (false, with_sheets self (Some ss) (current_worksheet self) dr')
        end
  end.

Definition get_or_create_spreadsheet (self : manager) (force_new : bool)
    : option nat * manager :=
  match force_new, current_spreadsheet self with
  | true, _ | _, None => _create_new_spreadsheet self
  | false, Some ss =>
      let '(has, self') := _spreadsheet_has_capacity self in
      if has then (current_spreadsheet self', self')
      else _create_new_spreadsheet self'
  end.

Record results : Type := {
  total_rows : Z;
  successful_rows : Z;
  failed_rows : Z;
  spreadsheets_used : list string;
  worksheets_used : list string
}.

(** [s.add(x)] on the sets of names. *)
Definition set_add (x : string) (s : list string) : list string :=
  if existsb (String.eqb x) s then s else (s ++ [x])%list.

Definition spreadsheet_title (dr : drive) (ss : nat) : string :=
  match nth_error dr ss with
  | Some s => ss_title s
  | None => ""
  end.

Definition worksheet_title (dr : drive) (w : wsref) : string :=
  match get_worksheet dr w with
  | Some ws => title ws
  | None => ""
  end.

(** The bookkeeping after a [batch_update_sheet] of [n] rows. *)
Definition record_write (r : results) (success : bool) (n : Z)
    (self : manager) (ss : nat) : results :=
  if success
  then {| total_rows := total_rows r;
          successful_rows := successful_rows r + n;
          failed_rows := failed_rows r;
          spreadsheets_used :=
            set_add (spreadsheet_title (client self) ss) (spreadsheets_used r);
          worksheets_used :=
            match current_worksheet self with
            | Some w => set_add (worksheet_title (client self) w)
                          (worksheets_used r)
            | None => worksheets_used r
            end |}
  else {| total_rows := total_rows r;
          successful_rows := successful_rows r;
          failed_rows := failed_rows r + n;
          spreadsheets_used := spreadsheets_used r;
          worksheets_used := worksheets_used r |}.

(** "Get new worksheet/spreadsheet": the step taken before the remainder
    of a split chunk, or a chunk that finds no space, is written. *)
Definition next_worksheet (self : manager) (ss : nat) : nat * manager :=
  match find_available_sheet (client self) ss with
  | (Some w, dr) =>
      let self := with_sheets self (current_spreadsheet self) (Some w) dr in
      if get_sheet_row_count dr w =? 0
      then let '(_, dr) := setup_sheet_headers dr w (headers self) in
           (ss, with_sheets self (current_spreadsheet self) (Some w) dr)
      else (ss, self)
  | (None, dr) =>
      let self := with_sheets self (current_spreadsheet self)
                    (current_worksheet self) dr in
      match get_or_create_spreadsheet self true with
      | (Some ss', self') => (ss', self')
      | (None, self') => (ss, self')
      end
  end.

(** [batch_update_sheet(self.current_worksheet, rows)] and its bookkeeping,
    under the guard [if self.current_worksheet:]. *)
Definition write_current (self : manager) (ss : nat) (rows : list data_row)
    (r : results) : results * manager :=
  match current_worksheet self with
  | Some w =>
      let '(success, dr) := batch_update_sheet (client self) w rows in
      let self := with_sheets self (current_spreadsheet self) (Some w) dr in
      (record_write r success (len rows) self ss, self)
  | None => (r, self)
  end.

(** The body of the loop of [add_batch_data] for one chunk. *)
Definition add_chunk (self : manager) (chunk : list data_row) (r : results)
    : results * manager :=
  match get_or_create_spreadsheet self false with
  | (Some ss, self) =>
      match current_worksheet self with
      | None =>
          ({| total_rows := total_rows r;
              successful_rows := successful_rows r;
              failed_rows := failed_rows r + len chunk;
              spreadsheets_used := spreadsheets_used r;
              worksheets_used := worksheets_used r |}, self)
      | Some w =>
          let current_rows := get_sheet_row_count (client self) w in
          if MAX_ROWS_PER_SHEET <? current_rows + len chunk
          then
            let available_space := MAX_ROWS_PER_SHEET - current_rows in
            if 0 <? available_space
            then
              let partial_chunk := firstn (Z.to_nat available_space) chunk in
              let remaining_chunk := skipn (Z.to_nat available_space) chunk in
              let '(r, self) := write_current self ss partial_chunk r in
              match remaining_chunk with
              | [] => (r, self)
              | _ :: _ =>
                  let '(ss, self) := next_worksheet self ss in
                  write_current self ss remaining_chunk r
              end
            else
              let '(ss, self) := next_worksheet self ss in
              write_current self ss chunk r
          else write_current self ss chunk r
      end
  | (None, self) =>
      ({| total_rows := total_rows r;
          successful_rows := successful_rows r;
          failed_rows := failed_rows r + len chunk;
          spreadsheets_used := spreadsheets_used r;
          worksheets_used := worksheets_used r |}, self)
  end.

Fixpoint add_chunks (self : manager) (chunks : list (list data_row))
    (r : results) : results * manager :=
  match chunks with
  | [] => (r, self)
  | chunk :: chunks' =>
      let '(r, self) := add_chunk self chunk r in
      add_chunks self chunks' r
  end.

Definition add_batch_data (self : manager) (data_list : list data_row)
    (chunk_size : Z) : results * manager :=
  let r := {| total_rows := len data_list; successful_rows := 0;
              failed_rows := 0; spreadsheets_used := [];
              worksheets_used := [] |} in
  if chunk_size =? 0
  then
    ({| total_rows := total_rows r; successful_rows := successful_rows r;
        failed_rows := total_rows r - successful_rows r;
        spreadsheets_used := []; worksheets_used := [] |}, self)
  else
    let chunks :=
      if chunk_size <? 0 then []
      else batches (List.length data_list) (Z.to_nat chunk_size) data_list in
    add_chunks self chunks r.

End Manager.

End MultiSheetManager.

(** * duplicate_detector.py: [DuplicateManager] *)

Module DuplicateManager.

Import DuplicateDetector.

(** An entry of the list of duplicates.  [sheet_1] and [sheet_2] are set
    by [find_duplicates_across_sheets] only. *)
Record duplicate : Type := {
  original_index : Z;
  duplicate_index : Z;
  d_match_info : option match_info;
  original_row : dict pyval;
  duplicate_row : dict pyval;
  sheet_1 : option string;
  sheet_2 : option string
}.

(** [df.iloc[k:]]: the rows from position [k] on, a negative [k] counting
    from the end. *)
Definition iloc_from {A : Type} (k : Z) (l : list A) : list A :=
  if k <? 0 then skipn (Z.to_nat (len l + k)) l else skipn (Z.to_nat k) l.

(** [df.iloc[p]] *)
Definition iloc {A : Type} (p : Z) (l : list A) : res A :=
  let q := if p <? 0 then len l + p else p in
  if q <? 0 then Raise IndexError
  else match nth_error l (Z.to_nat q) with
       | Some x => Ret x
       | None => Raise IndexError
       end.

(** [j in processed_indices]; [processed_indices.add(j)] is [j :: s]. *)
Definition memZ (j : Z) (s : list Z) : bool := existsb (Z.eqb j) s.

Section Manager.

Variable fuzz_ratio : string -> string -> Z.
Variable md5_hexdigest : string -> string.
Variable cfg : config.

(** The inner loop of [find_duplicates_in_dataframe]: the row labelled
    [i] against each of [others], which is wrapped into a one-row frame
    for the comparison. *)
Fixpoint compare_rest (self : detector) (df : DataFrame) (i : Z)
    (row_dict : dict pyval) (others : list (Z * list pyval))
    (duplicates : list duplicate) (processed_indices : list Z)
    : res (list duplicate * list Z) :=
  match others with
  | [] => Ret (duplicates, processed_indices)
  | (j, other_row) :: others' =>
      if memZ j processed_indices
      then compare_rest self df i row_dict others' duplicates processed_indices
      else
        r <- check_for_duplicate fuzz_ratio md5_hexdigest cfg self
               (RowDict row_dict)
               (Some {| columns := columns df; rows := [(j, other_row)] |}) ;;
        let '(is_dup, info) := r in
        if is_dup
        then compare_rest self df i row_dict others'
               (duplicates
                ++ [{| original_index := i; duplicate_index := j;
                       d_match_info := info; original_row := row_dict;
                       duplicate_row := to_dict df other_row;
                       sheet_1 := None; sheet_2 := None |}])%list
               (j :: processed_indices)
        else compare_rest self df i row_dict others' duplicates
               processed_indices
  end.

(** The outer loop, over [df.iterrows()]. *)
Fixpoint scan_rows (self : detector) (df : DataFrame)
    (todo : list (Z * list pyval)) (duplicates : list duplicate)
    (processed_indices : list Z) : res (list duplicate) :=
  match todo with
  | [] => Ret duplicates
  | (i, row) :: todo' =>
      if memZ i processed_indices
      then scan_rows self df todo' duplicates processed_indices
      else
        r <- compare_rest self df i (to_dict df row)
               (iloc_from (i + 1) (rows df)) duplicates processed_indices ;;
        let '(duplicates, processed_indices) := r in
        scan_rows self df todo' duplicates processed_indices
  end.

Definition find_duplicates_in_dataframe (self : detector) (df : DataFrame)
    : res (list duplicate) :=
  if df_empty df then Ret [] else scan_rows self df (rows df) [] [].

End Manager.

(** The summary of a duplicate report; the two keys that the report of an
    empty list does not have are options. *)
Record report_summary : Type := {
  total_duplicates : Z;
  duplicate_pairs : Z;
  sheets_affected : Z;
  match_types : dict Z;
  affected_sheets : option (list string)
}.

Record duplicate_report : Type := {
  report_timestamp : option string;
  summary : report_summary;
  report_duplicates : list duplicate
}.

(** [dup.get('sheet_1', 'Unknown')] *)
Definition sheet_or_unknown (s : option string) : string :=
  match s with
  | Some x => x
  | None => "Unknown"
  end.

(** [s.add(x)] on the set of sheet names, kept in order of first
    addition (Python leaves the order of a set open). *)
Definition set_add (x : string) (s : list string) : list string :=
  if existsb (String.eqb x) s then s else (s ++ [x])%list.

(** The loop of [generate_duplicate_report]; an entry without match
    information cannot be subscripted. *)
Fixpoint tally (duplicates : list duplicate) (match_types : dict Z)
    (sheets_affected : list string) : res (dict Z * list string) :=
  match duplicates with
  | [] => Ret (match_types, sheets_affected)
  | dup :: duplicates' =>
      match d_match_info dup with
      | None => Raise TypeError
      | Some info =>
          let match_type := DuplicateDetector.match_type info in
          let count := match dict_get match_types match_type with
                       | Some n => n
                       | None => 0
                       end in
          let match_types := dict_set match_types match_type (count + 1) in
          let sheets_affected :=
            set_add (sheet_or_unknown (sheet_1 dup)) sheets_affected in
          let sheets_affected :=
            set_add (sheet_or_unknown (sheet_2 dup)) sheets_affected in
          tally duplicates' match_types sheets_affected
      end
  end.

(** [now] is [datetime.now().isoformat()] at the call. *)
Definition generate_duplicate_report (now : string)
    (duplicates : list duplicate) : res duplicate_report :=
  match duplicates with
  | [] =>
      Ret {| report_timestamp := None;
             summary := {| total_duplicates := 0; duplicate_pairs := 0;
                           sheets_affected := 0; match_types := [];
                           affected_sheets := None |};
             report_duplicates := [] |}
  | _ :: _ =>
      r <- tally duplicates [] [] ;;
      let '(match_types, sheets_affected) := r in
      Ret {| report_timestamp := Some now;
             summary := {| total_duplicates := len duplicates;
                           duplicate_pairs := len duplicates;
                           sheets_affected := len sheets_affected;
                           match_types := match_types;
                           affected_sheets := Some sheets_affected |};
             report_duplicates := duplicates |}
  end.

End DuplicateManager.

(** * auto_scaling_sheets.py: recommendations and file lookup *)

Module AutoScalingQueries.

Import AutoScalingSheets.

(** [_get_duplicate_recommendation], on a group of the advanced detector:
    [group_data['confidence']] and [group_data['type']]. *)
Definition _get_duplicate_recommendation
    (group_data : AdvancedDuplicateDetector.group) : string :=
  let confidence := AdvancedDuplicateDetector.confidence group_data in
  let duplicate_type := AdvancedDuplicateDetector.group_type group_data in
  if (confidence =? "high")%string && (duplicate_type =? "content_hash")%string
  then "SAFE_TO_DELETE - Identical content confirmed"
  else if (confidence =? "medium")%string
          && (duplicate_type =? "same_name")%string
  then "REVIEW_REQUIRED - Same name, verify content"
  else if (confidence =? "low")%string
  then "MANUAL_REVIEW - Low confidence, needs inspection"
  else "INVESTIGATE - Unknown duplicate pattern".

(** What [find_file_location] returns, without the URL, which is built
    from ids alone. *)
Record location : Type := {
  sheet_name : string;
  sheet_id : string;
  row_number : Z
}.

(** [l.index(x)], [None] when [x] is not in [l]. *)
Fixpoint index_of (x : string) (l : list string) : option nat :=
  match l with
  | [] => None
  | y :: l' =>
      if (x =? y)%string then Some 0%nat
      else match index_of x l' with
           | Some n => Some (S n)
           | None => None
           end
  end.

(** [worksheet.col_values(col)]: the cells of the column, from the first
    row down to the last one that is not empty; [col] counts from 0
    here. *)
Definition col_values (cells : list (list string)) (col : nat) : list string :=
  rev (drop_while (fun c => (c =? "")%string)
         (rev (map (fun row => nth col row "") cells))).

(** The loop of [find_file_location] over the registry.  A spreadsheet
    the service does not know raises in [open_by_key]: it is logged and
    passed over.  [row_values(1)] is the first row; the blank cells it
    drops at the end play no part in the search for ["file_id"]. *)
Fixpoint find_in_sheets (b : backend) (file_id : string)
    (l : list sheet_info) : option location :=
  match l with
  | [] => None
  | sheet_info :: l' =>
      match dict_get (remote b) (id sheet_info) with
      | None => find_in_sheets b file_id l'
      | Some cells =>
          let headers := hd [] cells in
          match index_of "file_id" headers with
          | None => find_in_sheets b file_id l'
          | Some file_id_col =>
              let file_ids := col_values cells file_id_col in
              match index_of file_id file_ids with
              | Some n =>
                  Some {| sheet_name := name sheet_info;
                          sheet_id := id sheet_info;
                          row_number := Z.of_nat n + 1 |}
              | None => find_in_sheets b file_id l'
              end
          end
      end
  end.

Definition find_file_location (self : manager) (file_id : string)
    : option location :=
  find_in_sheets (gc self) file_id (sheets (sheet_registry self)).

End AutoScalingQueries.

(** * sheets_utils.py and multi_sheet_manager.py: single rows and cleanup *)

Module SheetMaintenance.

Import MultiSheetManager.

(** [add_data_to_sheet] *)
Definition add_data_to_sheet (dr : drive) (w : wsref) (row : data_row)
    : bool * drive :=
  match get_worksheet dr w with
  | Some _ =>
      let next_row := get_sheet_row_count dr w + 1 in
      (true, set_cells dr w (fun cs => write_rows cs next_row [format_row row]))
  | None => (false, dr)
  end.

(** [get_sheet_row_count] of a worksheet at hand. *)
Definition row_count (ws : worksheet) : Z :=
  len (filter row_filled (cells ws)).

(** The loop of [cleanup_empty_sheets] over [enumerate(worksheets)] of
    one spreadsheet: the tabs that stay and the running count of the
    deleted ones. *)
Fixpoint cleanup_tabs (i : nat) (tabs : list worksheet) (cleaned : Z)
    : list worksheet * Z :=
  match tabs with
  | [] => ([], cleaned)
  | ws :: tabs' =>
      if (i =? 0)%nat
      then let '(kept, cleaned) := cleanup_tabs (S i) tabs' cleaned in
           (ws :: kept, cleaned)
      else if row_count ws <=? 1
      then cleanup_tabs (S i) tabs' (cleaned + 1)
      else let '(kept, cleaned) := cleanup_tabs (S i) tabs' cleaned in
           (ws :: kept, cleaned)
  end.

(** The loop over the spreadsheets of the folder. *)
Fixpoint cleanup_loop (dr : drive) (cleaned : Z) : drive * Z :=
  match dr with
  | [] => ([], cleaned)
  | ss :: dr' =>
      let '(kept, cleaned) := cleanup_tabs 0 (worksheets ss) cleaned in
      let '(rest, cleaned) := cleanup_loop dr' cleaned in
      ({| ss_title := ss_title ss; worksheets := kept |} :: rest, cleaned)
  end.

(** [cleanup_empty_sheets]: the number of deleted tabs and the service
    afterwards. *)
Definition cleanup_empty_sheets (dr : drive) : Z * drive :=
  let '(dr', cleaned) := cleanup_loop dr 0 in
  (cleaned, dr').

End SheetMaintenance.

(** * Reference implementations of the library calls *)

(** [hashlib.md5(s.encode('utf-8')).hexdigest()], after RFC 1321. *)
Module MD5.

Definition word : Z := 4294967296.

Definition add32 (a b : Z) : Z := (a + b) mod word.

Definition not32 (a : Z) : Z := Z.lxor a (word - 1).

Definition rotl32 (x n : Z) : Z :=
  Z.lor (Z.shiftl x n mod word) (Z.shiftr x (32 - n)).

Definition K : list Z := [
    3614090360; 3905402710; 606105819; 3250441966;
    4118548399; 1200080426; 2821735955; 4249261313;
    1770035416; 2336552879; 4294925233; 2304563134;
    1804603682; 4254626195; 2792965006; 1236535329;
    4129170786; 3225465664; 643717713; 3921069994;
    3593408605; 38016083; 3634488961; 3889429448;
    568446438; 3275163606; 4107603335; 1163531501;
    2850285829; 4243563512; 1735328473; 2368359562;
    4294588738; 2272392833; 1839030562; 4259657740;
    2763975236; 1272893353; 4139469664; 3200236656;
    681279174; 3936430074; 3572445317; 76029189;
    3654602809; 3873151461; 530742520; 3299628645;
    4096336452; 1126891415; 2878612391; 4237533241;
    1700485571; 2399980690; 4293915773; 2240044497;
    1873313359; 4264355552; 2734768916; 1309151649;
    4149444226; 3174756917; 718787259; 3951481745 ].

Definition shifts : list Z := [
    7; 12; 17; 22; 7; 12; 17; 22; 7; 12; 17; 22; 7; 12; 17; 22;
    5; 9; 14; 20; 5; 9; 14; 20; 5; 9; 14; 20; 5; 9; 14; 20;
    4; 11; 16; 23; 4; 11; 16; 23; 4; 11; 16; 23; 4; 11; 16; 23;
    6; 10; 15; 21; 6; 10; 15; 21; 6; 10; 15; 21; 6; 10; 15; 21 ].

Definition state : Type := (Z * Z * Z * Z)%type.

Definition init_state : state :=
  (1732584193, 4023233417, 2562383102, 271733878).

Definition round (M : list Z) (st : state) (i : nat) : state :=
  let '(a, b, c, d) := st in
  let '(f, g) :=
    if (i <? 16)%nat then
      (Z.lor (Z.land b c) (Z.land (not32 b) d), i)
    else if (i <? 32)%nat then
      (Z.lor (Z.land d b) (Z.land (not32 d) c), ((5 * i + 1) mod 16)%nat)
    else if (i <? 48)%nat then
      (Z.lxor (Z.lxor b c) d, ((3 * i + 5) mod 16)%nat)
    else
      (Z.lxor c (Z.lor b (not32 d)), ((7 * i) mod 16)%nat) in
  let f := add32 (add32 (add32 f a) (nth i K 0)) (nth g M 0) in
  (d, add32 b (rotl32 f (nth i shifts 0)), b, c).

(** Four bytes, least significant first, as one word. *)
Fixpoint words (bytes : list Z) : list Z :=
  match bytes with
  | b0 :: b1 :: b2 :: b3 :: rest =>
      (b0 + 256 * b1 + 65536 * b2 + 16777216 * b3) :: words rest
  | _ => []
  end.

Definition block (st : state) (bytes : list Z) : state :=
  let '(a0, b0, c0, d0) := st in
  let '(a, b, c, d) := fold_left (round (words bytes)) (seq 0 64) st in
  (add32 a0 a, add32 b0 b, add32 c0 c, add32 d0 d).

Fixpoint blocks (n : nat) (st : state) (bytes : list Z) : state :=
  match n with
  | O => st
  | S n' => blocks n' (block st (firstn 64 bytes)) (skipn 64 bytes)
  end.

Fixpoint le_bytes (n : nat) (x : Z) : list Z :=
  match n with
  | O => []
  | S n' => (x mod 256) :: le_bytes n' (x / 256)
  end.

Definition pad (msg : list Z) : list Z :=
  let len := Z.of_nat (List.length msg) in
  let zeros := Z.to_nat ((55 - len) mod 64) in
  msg ++ [128] ++ repeat 0 zeros ++ le_bytes 8 (8 * len).

Definition hex_digit (x : Z) : ascii :=
  nth (Z.to_nat x) (list_ascii_of_string "0123456789abcdef") "0"%char.

Definition hex_byte (x : Z) : list ascii := [hex_digit (x / 16); hex_digit (x mod 16)].

Definition hexdigest (s : string) : string :=
  let msg := map (fun c => Z.of_nat (nat_of_ascii c)) (list_ascii_of_string s) in
  let padded := pad msg in
  let '(a, b, c, d) :=
    blocks (List.length padded / 64) init_state padded in
  string_of_list_ascii
    (flat_map hex_byte
       (le_bytes 4 a ++ le_bytes 4 b ++ le_bytes 4 c ++ le_bytes 4 d)).

End MD5.

(** [fuzz.ratio] of fuzzywuzzy backed by python-Levenshtein: equal
    strings score 100, an empty string scores 0, otherwise
    [round(100 * 2 * lcs / (len(s1) + len(s2)))] with ties to even.  The
    library rounds a floating-point product; the two agree away from
    ties. *)
Module Fuzz.

(** One row of the longest-common-subsequence table. *)
Fixpoint lcs_row (c : ascii) (s2 : list ascii) (above : list nat)
    (diag left : nat) : list nat :=
  match s2, above with
  | b :: s2', up :: above' =>
      let v := if Ascii.eqb c b then S diag else Nat.max up left in
      v :: lcs_row c s2' above' up v
  | _, _ => []
  end.

Definition lcs (s1 s2 : list ascii) : nat :=
  last (fold_left (fun row c => lcs_row c s2 row 0%nat 0%nat) s1
          (repeat 0%nat (List.length s2))) 0%nat.

Definition round_half_even (num den : Z) : Z :=
  let q := num / den in
  let r := num mod den in
  if 2 * r <? den then q
  else if den <? 2 * r then q + 1
  else if Z.even q then q else q + 1.

Definition ratio (s1 s2 : string) : Z :=
  if (s1 =? s2)%string then 100
  else if (s1 =? "")%string || (s2 =? "")%string then 0
  else
    let l1 := list_ascii_of_string s1 in
    let l2 := list_ascii_of_string s2 in
    round_half_even (200 * Z.of_nat (lcs l1 l2))
      (Z.of_nat (List.length l1 + List.length l2)).

End Fuzz.

(** [int(s)] and [float(s)] on plain decimal numerals: digits, for
    [float] with an optional fractional part after one dot. *)
Module Parse.

Fixpoint digits_value (acc : Z) (l : list ascii) : option Z :=
  match l with
  | [] => Some acc
  | c :: l' =>
      let n := Z.of_nat (nat_of_ascii c) in
      if (48 <=? n) && (n <=? 57)
      then digits_value (10 * acc + (n - 48)) l'
      else None
  end.

Definition py_int (s : string) : option Z :=
  match list_ascii_of_string s with
  | [] => None
  | l => digits_value 0 l
  end.

Fixpoint split_dot (l : list ascii) : list ascii * option (list ascii) :=
  match l with
  | [] => ([], None)
  | c :: l' =>
      if Ascii.eqb c "."%char then ([], Some l')
      else let '(a, b) := split_dot l' in (c :: a, b)
  end.

Definition py_float (s : string) : option Q :=
  match split_dot (list_ascii_of_string s) with
  | ([], None) | ([], Some []) => None
  | (whole, None) => option_map inject_Z (digits_value 0 whole)
  | (whole, Some frac) =>
      match digits_value 0 whole, digits_value 0 frac with
      | Some w, Some f =>
          Some (Qred (inject_Z w
                      + inject_Z f / inject_Z (10 ^ Z.of_nat (List.length frac))))
      | _, _ => None
      end
  end.

End Parse.

(** * Facts about the prelude *)

Lemma bind_ret {A B : Type} (a : A) (k : A -> res B) : bind (Ret a) k = k a.
Proof. reflexivity. Qed.

Lemma dict_get_set {V : Type} (d : dict V) (k k' : string) (v : V) :
  dict_get (dict_set d k v) k' = if (k' =? k)%string then Some v else dict_get d k'.
Proof.
  induction d as [|[k0 v0] d IH]; simpl.
  - reflexivity.
  - destruct (String.eqb_spec k k0) as [->|Hk]; simpl.
    + destruct (String.eqb_spec k' k0); reflexivity.
    + rewrite IH.
      destruct (String.eqb_spec k' k0) as [->|Hk'].
      * destruct (String.eqb_spec k0 k); [congruence|reflexivity].
      * reflexivity.
Qed.

Lemma dict_mem_set {V : Type} (d : dict V) (k k' : string) (v : V) :
  dict_mem (dict_set d k v) k' = (k' =? k)%string || dict_mem d k'.
Proof.
  unfold dict_mem. rewrite dict_get_set.
  destruct (k' =? k)%string; reflexivity.
Qed.

Lemma dict_set_same {V : Type} (d : dict V) (k : string) (v : V) :
  dict_get d k = Some v -> dict_set d k v = d.
Proof.
  induction d as [|[k0 v0] d IH]; simpl; [discriminate|].
  destruct (String.eqb_spec k k0) as [->|Hk]; intros H.
  - congruence.
  - rewrite IH; auto.
Qed.

Lemma prefix_append (p s : string) : String.prefix p (p ++ s) = true.
Proof.
  induction p as [|c p IH]; simpl.
  - destruct s; reflexivity.
  - destruct (Ascii.ascii_dec c c); [exact IH|congruence].
Qed.

(** ** The order on strings used by [sorted] *)

Lemma ascii_compare_refl (c : ascii) : Ascii.compare c c = Eq.
Proof. unfold Ascii.compare. apply N.compare_refl. Qed.

Lemma ascii_compare_lt_trans (a b c : ascii) :
  Ascii.compare a b = Lt -> Ascii.compare b c = Lt -> Ascii.compare a c = Lt.
Proof.
  unfold Ascii.compare. rewrite !N.compare_lt_iff. apply N.lt_trans.
Qed.

Lemma string_compare_lt_trans (s1 : string) :
  forall s2 s3,
    String.compare s1 s2 = Lt -> String.compare s2 s3 = Lt ->
    String.compare s1 s3 = Lt.
Proof.
  induction s1 as [|c1 s1 IH]; intros [|c2 s2] [|c3 s3]; simpl;
    try discriminate; try reflexivity.
  destruct (Ascii.compare c1 c2) eqn:E12; try discriminate.
  - apply Ascii.compare_eq_iff in E12. subst c2.
    destruct (Ascii.compare c1 c3); try discriminate; auto.
    apply IH.
  - intros _. destruct (Ascii.compare c2 c3) eqn:E23; try discriminate.
    + apply Ascii.compare_eq_iff in E23. subst c3. now rewrite E12.
    + intros _. now rewrite (ascii_compare_lt_trans _ _ _ E12 E23).
Qed.

Lemma string_compare_refl (s : string) : String.compare s s = Eq.
Proof.
  induction s as [|c s IH]; simpl; [reflexivity|].
  now rewrite ascii_compare_refl.
Qed.

Lemma string_leb_trans (s1 s2 s3 : string) :
  (s1 <=? s2)%string = true -> (s2 <=? s3)%string = true ->
  (s1 <=? s3)%string = true.
Proof.
  unfold String.leb.
  destruct (String.compare s1 s2) eqn:E12; try discriminate; intros _.
  - apply String.compare_eq_iff in E12. now subst.
  - destruct (String.compare s2 s3) eqn:E23; try discriminate; intros _.
    + apply String.compare_eq_iff in E23. subst. now rewrite E12.
    + now rewrite (string_compare_lt_trans _ _ _ E12 E23).
Qed.

Lemma insert_sorted_comm (x y : string) (l : list string) :
  insert_sorted x (insert_sorted y l) = insert_sorted y (insert_sorted x l).
Proof.
  induction l as [|z l IH]; simpl.
  - destruct (x <=? y)%string eqn:Exy, (y <=? x)%string eqn:Eyx; try reflexivity.
    + now rewrite (String.leb_antisym _ _ Exy Eyx).
    + destruct (String.leb_total x y); congruence.
  - destruct (x <=? z)%string eqn:Exz, (y <=? z)%string eqn:Eyz; simpl.
    + destruct (x <=? y)%string eqn:Exy, (y <=? x)%string eqn:Eyx;
        simpl; rewrite ?Exz, ?Eyz; try reflexivity.
      * now rewrite (String.leb_antisym _ _ Exy Eyx).
      * destruct (String.leb_total x y); congruence.
    + rewrite Exz. destruct (y <=? x)%string eqn:Eyx.
      * now rewrite (string_leb_trans _ _ _ Eyx Exz) in Eyz.
      * simpl. now rewrite Eyz.
    + rewrite Eyz. destruct (x <=? y)%string eqn:Exy.
      * now rewrite (string_leb_trans _ _ _ Exy Eyz) in Exz.
      * simpl. now rewrite Exz.
    + rewrite Exz, Eyz. now rewrite IH.
Qed.

Lemma sorted_permutation (l l' : list string) :
  Permutation l l' -> sorted l = sorted l'.
Proof.
  induction 1; simpl.
  - reflexivity.
  - now f_equal.
  - apply insert_sorted_comm.
  - congruence.
Qed.

(** * Properties of duplicate_detector.py *)

Module DuplicateDetectorFacts.

Import DuplicateDetector.

(** A field contributes to the content hash of a record when the record
    holds a truthy value for it whose normalised text is not empty. *)
Definition produces_content (row : dict pyval) (field : string) : Prop :=
  exists v, dict_get row field = Some v /\ truthy v = true
            /\ normalize_text v <> "".

(** What one field adds to [content_parts] on a dict. *)
Definition field_part (row : dict pyval) (field : string) : list string :=
  match dict_get row field with
  | Some v =>
      if truthy v
      then if nonempty (normalize_text v) then [normalize_text v] else []
      else []
  | None => []
  end.

Lemma nonempty_true (s : string) : nonempty s = true <-> s <> "".
Proof.
  unfold nonempty. destruct (String.eqb_spec s ""); simpl; split;
    congruence.
Qed.

Lemma present_dict (row : dict pyval) (field : string) :
  present (RowDict row) field =
  Ret (match dict_get row field with
       | Some v => if truthy v then Some v else None
       | None => None
       end).
Proof.
  unfold present, row_contains, row_getitem, dict_mem; simpl.
  destruct (dict_get row field); reflexivity.
Qed.

Lemma content_parts_dict (row : dict pyval) (fields : list string) :
  content_parts (RowDict row) fields = Ret (flat_map (field_part row) fields).
Proof.
  induction fields as [|f fields IH]; simpl; [reflexivity|].
  rewrite present_dict, IH. simpl. unfold field_part.
  destruct (dict_get row f) as [v|]; [destruct (truthy v)|]; reflexivity.
Qed.

Lemma field_part_ext (row row' : dict pyval) :
  (forall k, dict_get row k = dict_get row' k) ->
  forall fields, flat_map (field_part row) fields = flat_map (field_part row') fields.
Proof.
  intros H fields. apply flat_map_ext. intros f. unfold field_part.
  now rewrite H.
Qed.

Lemma field_part_nil (row : dict pyval) (field : string) :
  field_part row field = [] <-> ~ produces_content row field.
Proof.
  unfold field_part, produces_content. split.
  - intros H (v & Hv & Ht & Hn). rewrite Hv, Ht in H.
    apply nonempty_true in Hn. rewrite Hn in H. discriminate.
  - intros H. destruct (dict_get row field) as [v|]; [|reflexivity].
    destruct (truthy v) eqn:Ht; [|reflexivity].
    destruct (nonempty (normalize_text v)) eqn:Hn; [|reflexivity].
    exfalso. apply H. exists v. repeat split; auto.
    now apply nonempty_true.
Qed.

Lemma flat_map_nil {A B : Type} (f : A -> list B) (l : list A) :
  flat_map f l = [] <-> forall x, In x l -> f x = [].
Proof.
  induction l as [|a l IH]; simpl.
  - split; [intros _ x []|reflexivity].
  - split.
    + intros H. apply app_eq_nil in H. destruct H as [Ha Hl].
      intros x [<-|Hx]; [assumption|]. now apply IH.
    + intros H. rewrite (H a (or_introl eq_refl)). simpl.
      apply IH. intros x Hx. apply H. now right.
Qed.

Section Facts.

Variable fuzz_ratio : string -> string -> Z.
Variable md5_hexdigest : string -> string.
Variable cfg : config.

Lemma generate_content_hash_dict (row : dict pyval) (fields : list string) :
  generate_content_hash md5_hexdigest cfg (RowDict row) (Some fields) =
  Ret (match flat_map (field_part row) fields with
       | [] => None
       | parts => Some (md5_hexdigest (join "|" (sorted parts)))
       end).
Proof.
  unfold generate_content_hash. rewrite content_parts_dict. simpl.
  destruct (flat_map (field_part row) fields); reflexivity.
Qed.

(** C6: the content hash of a record does not depend on the order of the
    field list nor on the order of the keys of the record; it is always
    produced (no exception), and it is [None] exactly when no field
    contributes non-empty normalised content. *)
Theorem content_hash_order_independent
    (row row' : dict pyval) (fields fields' : list string) :
  Permutation fields fields' ->
  (forall k, dict_get row k = dict_get row' k) ->
  generate_content_hash md5_hexdigest cfg (RowDict row) (Some fields) =
  generate_content_hash md5_hexdigest cfg (RowDict row') (Some fields')
  /\ (exists h, generate_content_hash md5_hexdigest cfg (RowDict row)
                  (Some fields) = Ret h)
  /\ (generate_content_hash md5_hexdigest cfg (RowDict row) (Some fields)
      = Ret None
      <-> forall f, In f fields -> ~ produces_content row f).
Proof.
  intros Hperm Hrow.
  rewrite !generate_content_hash_dict.
  rewrite <- (field_part_ext row row' Hrow fields').
  pose proof (Permutation_flat_map (field_part row) Hperm) as Hp.
  repeat split.
  - destruct (flat_map (field_part row) fields) as [|p ps] eqn:E.
    + apply Permutation_nil in Hp. now rewrite Hp.
    + destruct (flat_map (field_part row) fields') as [|q qs] eqn:E'.
      * apply Permutation_sym, Permutation_nil in Hp. discriminate.
      * now rewrite (sorted_permutation _ _ Hp).
  - eexists. reflexivity.
  - intros H f Hf. apply field_part_nil.
    destruct (flat_map (field_part row) fields) eqn:E; [|discriminate].
    exact (proj1 (flat_map_nil _ _) E f Hf).
  - intros H.
    assert (E : flat_map (field_part row) fields = []).
    { apply flat_map_nil. intros f Hf. apply field_part_nil. now apply H. }
    now rewrite E.
Qed.

(** The corpus argument of [check_for_duplicate] is missing or empty. *)
Definition corpus_empty (existing_data : option DataFrame) : Prop :=
  match existing_data with
  | None => True
  | Some df => df_empty df = true
  end.

(** C9: against a missing or empty corpus, [check_for_duplicate] answers
    [(False, None)] for every row and every detection method. *)
Theorem check_for_duplicate_empty_corpus
    (self : detector) (new_row : rowobj) (existing_data : option DataFrame) :
  corpus_empty existing_data ->
  check_for_duplicate fuzz_ratio md5_hexdigest cfg self new_row existing_data
  = Ret (false, None).
Proof.
  destruct existing_data as [df|]; simpl; intros H.
  - now rewrite H.
  - reflexivity.
Qed.

(** ** [mark_as_duplicate] *)

(** Nothing is left to mark on [field]: it is absent, falsy, or already
    carries the marker prefix. *)
Definition settled (d : dict pyval) (field : string) : Prop :=
  match dict_get d field with
  | Some v => truthy v = false
              \/ startswith (py_str v) (DUPLICATE_MARKER_PREFIX cfg) = true
  | None => True
  end.

Lemma mark_fields_settled_id (fields : list string) (d : dict pyval) :
  Forall (settled d) fields -> mark_fields cfg fields d = d.
Proof.
  induction 1 as [|f fields Hf _ IH]; simpl; [reflexivity|].
  unfold settled in Hf.
  destruct (dict_get d f) as [v|]; [|exact IH].
  destruct (truthy v); [|exact IH].
  destruct Hf as [Hf|Hf]; [discriminate|].
  rewrite Hf. exact IH.
Qed.

Lemma mark_fields_keeps_settled (field : string) (fields : list string) :
  forall d, settled d field -> settled (mark_fields cfg fields d) field.
Proof.
  induction fields as [|g fields IH]; simpl; intros d Hs; [assumption|].
  apply IH.
  destruct (dict_get d g) as [v|] eqn:Eg; [|assumption].
  destruct (truthy v) eqn:Ht; [|assumption].
  destruct (startswith (py_str v) (DUPLICATE_MARKER_PREFIX cfg)) eqn:Hp;
    simpl; [assumption|].
  unfold settled in *. rewrite dict_get_set.
  destruct (String.eqb_spec field g) as [->|Hne]; [|assumption].
  rewrite Eg in Hs. destruct Hs; congruence.
Qed.

Lemma mark_fields_settles (fields : list string) :
  forall d field, In field fields -> settled (mark_fields cfg fields d) field.
Proof.
  induction fields as [|g fields IH]; simpl; intros d field Hin; [contradiction|].
  destruct Hin as [<-|Hin]; [|now apply IH].
  apply mark_fields_keeps_settled.
  unfold settled.
  destruct (dict_get d g) as [v|] eqn:Eg; [|now rewrite Eg].
  destruct (truthy v) eqn:Ht; [|rewrite Eg; now left].
  destruct (startswith (py_str v) (DUPLICATE_MARKER_PREFIX cfg)) eqn:Hp; simpl.
  - rewrite Eg. now right.
  - rewrite dict_get_set, String.eqb_refl. right. simpl.
    apply prefix_append.
Qed.

Lemma set_if_absent_get_other (d : dict pyval) (k k' : string) (v : pyval) :
  k' <> k -> dict_get (set_if_absent d k v) k' = dict_get d k'.
Proof.
  intros Hne. unfold set_if_absent. destruct (dict_mem d k); [reflexivity|].
  rewrite dict_get_set. now destruct (String.eqb_spec k' k).
Qed.

Lemma set_if_absent_mem (d : dict pyval) (k : string) (v : pyval) :
  dict_mem (set_if_absent d k v) k = true.
Proof.
  unfold set_if_absent. destruct (dict_mem d k) eqn:E; [assumption|].
  now rewrite dict_mem_set, String.eqb_refl.
Qed.

Lemma set_if_absent_mem_mono (d : dict pyval) (k k' : string) (v : pyval) :
  dict_mem d k' = true -> dict_mem (set_if_absent d k v) k' = true.
Proof.
  intros H. unfold set_if_absent. destruct (dict_mem d k); [assumption|].
  rewrite dict_mem_set, H. apply orb_true_r.
Qed.

Lemma set_if_absent_present (d : dict pyval) (k : string) (v : pyval) :
  dict_mem d k = true -> set_if_absent d k v = d.
Proof. intros H. unfold set_if_absent. now rewrite H. Qed.

(** C10, as amended: when the key fields do not name the two bookkeeping
    columns, marking a marked row again changes nothing, whatever the
    clock says at the second call. *)
Theorem mark_as_duplicate_idempotent
    (self : detector) (now now' : string) (row_data : dict pyval) :
  ~ In "Duplicate_Flag" (check_fields self) ->
  ~ In "Duplicate_Detected_Date" (check_fields self) ->
  mark_as_duplicate cfg self now' (mark_as_duplicate cfg self now row_data)
  = mark_as_duplicate cfg self now row_data.
Proof.
  intros Hflag Hdate. unfold mark_as_duplicate.
  destruct (ADD_DUPLICATE_MARKER cfg); simpl; [|reflexivity].
  set (d1 := mark_fields cfg (check_fields self) row_data).
  set (d2 := set_if_absent d1 "Duplicate_Flag" (PStr "TRUE")).
  set (d3 := set_if_absent d2 "Duplicate_Detected_Date" (PStr now)).
  assert (Hs : Forall (settled d3) (check_fields self)).
  { apply Forall_forall. intros f Hf.
    pose proof (mark_fields_settles (check_fields self) row_data f Hf) as H1.
    unfold settled in *. unfold d3, d2.
    rewrite !set_if_absent_get_other; [exact H1| |]; intros ->; contradiction. }
  rewrite (mark_fields_settled_id _ _ Hs).
  assert (Hm2 : dict_mem d3 "Duplicate_Flag" = true).
  { unfold d3. apply set_if_absent_mem_mono. unfold d2. apply set_if_absent_mem. }
  rewrite (set_if_absent_present _ _ _ Hm2).
  apply set_if_absent_present. unfold d3. apply set_if_absent_mem.
Qed.

(** ** The ["multi"] dispatch *)

(** A strategy call that reports a duplicate. *)
Definition positive (r : res outcome) : bool :=
  match r with
  | Ret (true, _) => true
  | _ => false
  end.

(** The first positive answer of a list of strategy answers, read left to
    right; raised exceptions and negative answers are passed over. *)
Fixpoint first_positive (results : list (res outcome)) : res outcome :=
  match results with
  | [] => Ret no_match
  | r :: rest => if positive r then r else first_positive rest
  end.

Lemma try_strategies_first_positive (l : list strategy) (self : detector)
    (row : rowobj) (df : DataFrame) :
  try_strategies l self row df
  = first_positive (map (fun s : strategy => s self row df) l).
Proof.
  induction l as [|s l IH]; simpl; [reflexivity|].
  destruct (s self row df) as [[[|] i]|e]; simpl; auto.
Qed.

Lemma first_positive_found (results : list (res outcome)) (i : option match_info) :
  first_positive results = Ret (true, i)
  <-> exists pre post,
        results = (pre ++ Ret (true, i) :: post)%list
        /\ Forall (fun r => positive r = false) pre.
Proof.
  induction results as [|r results IH]; simpl.
  - split; [discriminate|]. intros (pre & post & H & _).
    destruct pre; discriminate.
  - destruct (positive r) eqn:Hr.
    + split.
      * intros ->. exists [], results. split; [reflexivity|constructor].
      * intros (pre & post & H & Hpre). destruct pre as [|p pre]; simpl in H.
        -- congruence.
        -- inversion H; subst. inversion Hpre; subst. congruence.
    + rewrite IH. split.
      * intros (pre & post & -> & Hpre). exists (r :: pre), post.
        split; [reflexivity|now constructor].
      * intros (pre & post & H & Hpre). destruct pre as [|p pre]; simpl in H.
        -- inversion H; subst. discriminate.
        -- inversion H; subst. inversion Hpre; subst. now exists pre, post.
Qed.

Lemma first_positive_none (results : list (res outcome)) :
  Forall (fun r => positive r = false) results ->
  first_positive results = Ret no_match.
Proof.
  induction 1 as [|r results Hr _ IH]; simpl; [reflexivity|].
  now rewrite Hr.
Qed.

(** An answer that is an exception is passed over. *)
Lemma first_positive_skips (pre post : list (res outcome)) (e : exn) :
  first_positive (pre ++ Raise e :: post) = first_positive (pre ++ post).
Proof.
  induction pre as [|r pre IH]; simpl; [reflexivity|].
  now rewrite IH.
Qed.

Lemma first_positive_returns (results : list (res outcome)) :
  (exists i, first_positive results = Ret (true, i)
             /\ In (Ret (true, i)) results)
  \/ (first_positive results = Ret no_match
      /\ Forall (fun r => positive r = false) results).
Proof.
  induction results as [|r results IH]; simpl.
  - right. split; [reflexivity|constructor].
  - destruct (positive r) eqn:Hr.
    + left. destruct r as [[[|] i]|e]; try discriminate.
      exists i. split; [reflexivity|now left].
    + destruct IH as [(i & H1 & H2)|(H1 & H2)].
      * left. exists i. split; [assumption|now right].
      * right. split; [assumption|now constructor].
Qed.

(** A positive answer carries a [match_info] of the given type. *)
Definition tagged (ty : string) (r : res outcome) : Prop :=
  forall i, r = Ret (true, i) ->
            exists info, i = Some info /\ match_type info = ty.

Ltac case_bind :=
  match goal with
  | |- context [bind ?m _] =>
      let E := fresh "E" in destruct m eqn:E; simpl
  end.

Lemma exact_loop_tagged (self : detector) (df : DataFrame)
    (new_key : option string) (rs : list (Z * list pyval)) :
  tagged "exact" (exact_loop self df new_key rs).
Proof.
  induction rs as [|[idx vals] rs IH]; simpl; intros i H.
  - discriminate.
  - revert H. case_bind; [|discriminate].
    destruct (option_string_eqb a new_key).
    + intros H. inversion H. eexists. split; reflexivity.
    + apply IH.
Qed.

Lemma exact_match_tagged (self : detector) (row : rowobj) (df : DataFrame) :
  tagged "exact" (exact_match self row df).
Proof.
  unfold exact_match. intros i. case_bind; [|discriminate].
  destruct (some_nonempty a); simpl; [|discriminate].
  apply exact_loop_tagged.
Qed.

Lemma fuzzy_match_tagged (self : detector) (row : rowobj) (df : DataFrame) :
  tagged "fuzzy" (fuzzy_match fuzz_ratio self row df).
Proof.
  unfold fuzzy_match. intros i. case_bind; [|discriminate].
  destruct a as [k|]; [|discriminate].
  destruct (nonempty k); [|discriminate].
  case_bind; [|discriminate].
  destruct a as [[bm bs] bi]. destruct (dict_truthy bm); [|discriminate].
  intros H. inversion H. eexists. split; reflexivity.
Qed.

Lemma title_similarity_match_tagged (self : detector) (row : rowobj)
    (df : DataFrame) :
  tagged "title_similarity" (title_similarity_match fuzz_ratio cfg self row df).
Proof.
  unfold title_similarity_match. intros i.
  destruct (ENABLE_FUZZY_TITLE_MATCHING cfg); simpl; [|discriminate].
  case_bind; [|discriminate].
  destruct a as [x|]; [|discriminate].
  destruct (nonempty (normalize_text x)); simpl; [|discriminate].
  case_bind; [|discriminate].
  destruct a as [[bm bs] bi]. destruct (dict_truthy bm); [|discriminate].
  case_bind; [|discriminate].
  intros H. inversion H. eexists. split; reflexivity.
Qed.

Lemma hash_loop_tagged (df : DataFrame) (new_hash : option string)
    (rs : list (Z * list pyval)) :
  tagged "content_hash" (hash_loop md5_hexdigest cfg df new_hash rs).
Proof.
  induction rs as [|[idx vals] rs IH]; simpl; intros i H.
  - discriminate.
  - revert H. case_bind; [|discriminate].
    destruct (option_string_eqb a new_hash).
    + intros H. inversion H. eexists. split; reflexivity.
    + apply IH.
Qed.

Lemma content_hash_match_tagged (self : detector) (row : rowobj)
    (df : DataFrame) :
  tagged "content_hash" (content_hash_match md5_hexdigest cfg self row df).
Proof.
  unfold content_hash_match. intros i.
  destruct (ENABLE_CONTENT_HASH cfg); simpl; [|discriminate].
  case_bind; [|discriminate].
  destruct (some_nonempty a); simpl; [|discriminate].
  apply hash_loop_tagged.
Qed.

(** [check_for_duplicate] turns a list row into a dict over the columns
    of the corpus before it dispatches. *)
Definition as_dict (df : DataFrame) (new_row : rowobj) : rowobj :=
  match new_row with
  | RowList l => RowDict (dict_of_pairs (combine (columns df) l))
  | r => r
  end.

(** The answers of the four strategies of the ["multi"] method, in the
    order in which the source tries them. *)
Definition multi_answers (self : detector) (new_row : rowobj) (df : DataFrame)
    : list (res outcome) :=
  let row := as_dict df new_row in
  [ exact_match self row df;
    fuzzy_match fuzz_ratio self row df;
    title_similarity_match fuzz_ratio cfg self row df;
    content_hash_match md5_hexdigest cfg self row df ].

Lemma check_for_duplicate_multi (self : detector) (new_row : rowobj)
    (df : DataFrame) :
  method self = "multi" -> df_empty df = false ->
  check_for_duplicate fuzz_ratio md5_hexdigest cfg self new_row (Some df)
  = first_positive (multi_answers self new_row df).
Proof.
  intros Hm He. unfold check_for_duplicate. rewrite He, Hm.
  cbn -[try_strategies strategies].
  rewrite try_strategies_first_positive. unfold multi_answers, as_dict.
  destruct new_row; reflexivity.
Qed.

(** C1, as amended: with method ["multi"] on a non-empty corpus the
    strategies are tried in the order exact, fuzzy key, title similarity,
    content hash, and the answer is the first positive one in that order
    (with that strategy's own match type and score), whatever the later
    strategies would have scored; if none is positive the answer is
    [(False, None)]. *)
Theorem multi_first_match_wins
    (self : detector) (new_row : rowobj) (df : DataFrame) :
  method self = "multi" -> df_empty df = false ->
  let answers := multi_answers self new_row df in
  let result :=
    check_for_duplicate fuzz_ratio md5_hexdigest cfg self new_row (Some df) in
  (forall i, result = Ret (true, i)
             <-> exists pre post,
                   answers = (pre ++ Ret (true, i) :: post)%list
                   /\ Forall (fun r => positive r = false) pre)
  /\ (result = Ret (false, None)
      <-> Forall (fun r => positive r = false) answers)
  /\ (exists o, result = Ret o)
  /\ Forall2 tagged ["exact"; "fuzzy"; "title_similarity"; "content_hash"]
       answers.
Proof.
  intros Hm He answers result.
  assert (Hr : result = first_positive answers)
    by (apply check_for_duplicate_multi; assumption).
  repeat split.
  - rewrite Hr. apply first_positive_found.
  - rewrite Hr. apply first_positive_found.
  - rewrite Hr. intros H.
    destruct (first_positive_returns answers) as [(i & H1 & _)|(_ & H2)].
    + rewrite H1 in H. discriminate.
    + assumption.
  - rewrite Hr. apply first_positive_none.
  - rewrite Hr.
    destruct (first_positive_returns answers) as [(i & H1 & _)|(H1 & _)];
      rewrite H1; eexists; reflexivity.
  - unfold answers, multi_answers. repeat constructor.
    + apply exact_match_tagged.
    + apply fuzzy_match_tagged.
    + apply title_similarity_match_tagged.
    + apply content_hash_match_tagged.
Qed.

(** The strategy answers without raising on this row and corpus. *)
Definition answers (self : detector) (row : rowobj) (df : DataFrame)
    (s : strategy) : bool :=
  negb (raises (s self row df)).

Lemma try_strategies_skips_failures (l : list strategy) (self : detector)
    (row : rowobj) (df : DataFrame) :
  try_strategies l self row df
  = try_strategies (filter (answers self row df) l) self row df.
Proof.
  induction l as [|s l IH]; [reflexivity|].
  cbn [filter]. unfold answers at 1.
  destruct (s self row df) as [[[|] i]|e] eqn:E; cbn [raises negb try_strategies];
    rewrite ?E; auto.
Qed.

Lemma try_strategies_returns (l : list strategy) (self : detector)
    (row : rowobj) (df : DataFrame) :
  exists o, try_strategies l self row df = Ret o.
Proof.
  induction l as [|s l IH]; simpl; [now eexists|].
  destruct (s self row df) as [[[|] i]|e]; auto. now eexists.
Qed.

Lemma check_for_duplicate_multi_total (self : detector) (new_row : rowobj)
    (existing_data : option DataFrame) :
  method self = "multi" ->
  exists o,
    check_for_duplicate fuzz_ratio md5_hexdigest cfg self new_row existing_data
    = Ret o.
Proof.
  intros Hm. unfold check_for_duplicate.
  destruct existing_data as [df|]; [|now eexists].
  destruct (df_empty df); [now eexists|]. rewrite Hm.
  cbn -[try_strategies strategies]. apply try_strategies_returns.
Qed.

End Facts.

(** ** Concrete runs *)

Definition multi_detector : detector :=
  init default_config None (Some "multi") None.

Definition report_row : dict pyval :=
  [("Document Title", PStr "Annual Report"); ("Summary", PStr "Same summary")].

Definition report_corpus : DataFrame := {|
  columns := ["Document ID"; "Document Title"; "Summary"];
  rows := [(0, [PStr "DOC-1"; PStr "Annual Report"; PStr "Same summary"])]
|}.

(** The order the specification gives: exact, then fuzzy key and content
    hash, then title similarity. *)
Definition spec_order_answers (self : detector) (new_row : rowobj)
    (df : DataFrame) : list (res outcome) :=
  let row := as_dict df new_row in
  [ exact_match self row df;
    fuzzy_match Fuzz.ratio self row df;
    content_hash_match MD5.hexdigest default_config self row df;
    title_similarity_match Fuzz.ratio default_config self row df ].

(** C1, counterexample: a row whose title and whose content hash both
    match the corpus.  The code answers with the title-similarity match,
    tried third; under the stated order (content hash before title
    similarity) the answer would be the content-hash match. *)
Lemma multi_order_counterexample :
  (exists info,
     check_for_duplicate Fuzz.ratio MD5.hexdigest default_config
       multi_detector (RowDict report_row) (Some report_corpus)
     = Ret (true, Some info)
     /\ match_type info = "title_similarity")
  /\ (exists info,
        first_positive
          (spec_order_answers multi_detector (RowDict report_row) report_corpus)
        = Ret (true, Some info)
        /\ match_type info = "content_hash")
  /\ check_for_duplicate Fuzz.ratio MD5.hexdigest default_config
       multi_detector (RowDict report_row) (Some report_corpus)
     <> first_positive
          (spec_order_answers multi_detector (RowDict report_row) report_corpus).
Proof.
  repeat split.
  - eexists. split; [vm_compute; reflexivity|reflexivity].
  - eexists. split; [vm_compute; reflexivity|reflexivity].
  - vm_compute. discriminate.
Qed.

Lemma multi_first_match_wins_witness :
  let answers :=
    multi_answers Fuzz.ratio MD5.hexdigest default_config multi_detector
      (RowDict report_row) report_corpus in
  let result :=
    check_for_duplicate Fuzz.ratio MD5.hexdigest default_config
      multi_detector (RowDict report_row) (Some report_corpus) in
  (forall i, result = Ret (true, i)
             <-> exists pre post,
                   answers = (pre ++ Ret (true, i) :: post)%list
                   /\ Forall (fun r => positive r = false) pre)
  /\ (result = Ret (false, None)
      <-> Forall (fun r => positive r = false) answers)
  /\ (exists o, result = Ret o)
  /\ Forall2 (tagged) ["exact"; "fuzzy"; "title_similarity"; "content_hash"]
       answers.
Proof.
  apply (multi_first_match_wins Fuzz.ratio MD5.hexdigest default_config
           multi_detector (RowDict report_row) report_corpus);
    reflexivity.
Defined.

Definition summary_row : dict pyval :=
  [("Tags", PStr "energy, markets"); ("Summary", PStr "Capacity  Forecast!");
   ("Status", PStr "new")].

Definition summary_row_reordered : dict pyval :=
  [("Status", PStr "new"); ("Summary", PStr "Capacity  Forecast!");
   ("Tags", PStr "energy, markets")].

Lemma content_hash_order_independent_witness :
  generate_content_hash MD5.hexdigest default_config (RowDict summary_row)
    (Some ["Summary"; "Tags"])
  = generate_content_hash MD5.hexdigest default_config
      (RowDict summary_row_reordered) (Some ["Tags"; "Summary"])
  /\ (exists h, generate_content_hash MD5.hexdigest default_config
                  (RowDict summary_row) (Some ["Summary"; "Tags"]) = Ret h)
  /\ (generate_content_hash MD5.hexdigest default_config (RowDict summary_row)
        (Some ["Summary"; "Tags"]) = Ret None
      <-> forall f, In f ["Summary"; "Tags"]
                    -> ~ produces_content summary_row f).
Proof.
  apply (content_hash_order_independent MD5.hexdigest default_config
           summary_row summary_row_reordered
           ["Summary"; "Tags"] ["Tags"; "Summary"]).
  - apply perm_swap.
  - intros k. unfold summary_row, summary_row_reordered. simpl.
    destruct (String.eqb_spec k "Tags") as [->|E1]; [reflexivity|].
    destruct (String.eqb_spec k "Summary") as [->|E2]; [reflexivity|].
    destruct (String.eqb_spec k "Status") as [->|E3]; reflexivity.
Defined.

Definition empty_frame : DataFrame := {|
  columns := ["Document ID"; "Document Title"];
  rows := []
|}.

Lemma check_for_duplicate_empty_corpus_witness :
  check_for_duplicate Fuzz.ratio MD5.hexdigest default_config multi_detector
    RowNone (Some empty_frame) = Ret (false, None).
Proof.
  apply (check_for_duplicate_empty_corpus Fuzz.ratio MD5.hexdigest
           default_config multi_detector RowNone (Some empty_frame)).
  reflexivity.
Defined.

(** A detector whose key fields name the flag column itself. *)
Definition flag_keyed_detector : detector :=
  init default_config (Some ["Duplicate_Flag"]) None None.

Definition plain_row : dict pyval := [("Document ID", PStr "DOC-1")].

(** C10, counterexample: with [check_fields = ["Duplicate_Flag"]] the first
    call adds [Duplicate_Flag = "TRUE"], and the second call, finding that
    key field truthy and unmarked, prefixes it. *)
Lemma mark_as_duplicate_counterexample :
  mark_as_duplicate default_config flag_keyed_detector "2024-01-01 00:00:00"
    plain_row
  = [("Document ID", PStr "DOC-1"); ("Duplicate_Flag", PStr "TRUE");
     ("Duplicate_Detected_Date", PStr "2024-01-01 00:00:00")]
  /\ mark_as_duplicate default_config flag_keyed_detector "2024-01-01 00:00:00"
       (mark_as_duplicate default_config flag_keyed_detector
          "2024-01-01 00:00:00" plain_row)
     = [("Document ID", PStr "DOC-1"); ("Duplicate_Flag", PStr "DUPLICATE_TRUE");
        ("Duplicate_Detected_Date", PStr "2024-01-01 00:00:00")]
  /\ mark_as_duplicate default_config flag_keyed_detector "2024-01-01 00:00:00"
       (mark_as_duplicate default_config flag_keyed_detector
          "2024-01-01 00:00:00" plain_row)
     <> mark_as_duplicate default_config flag_keyed_detector
          "2024-01-01 00:00:00" plain_row.
Proof.
  repeat split; try (vm_compute; reflexivity).
  vm_compute. discriminate.
Qed.

Definition default_detector : detector := init default_config None None None.

Lemma mark_as_duplicate_idempotent_witness :
  mark_as_duplicate default_config default_detector "2024-01-02 09:30:00"
    (mark_as_duplicate default_config default_detector "2024-01-01 00:00:00"
       plain_row)
  = mark_as_duplicate default_config default_detector "2024-01-01 00:00:00"
      plain_row.
Proof.
  apply (mark_as_duplicate_idempotent default_config default_detector
           "2024-01-01 00:00:00" "2024-01-02 09:30:00" plain_row);
    simpl; intros [H|[H|[]]]; discriminate.
Defined.

End DuplicateDetectorFacts.

(** * Properties of advanced_duplicate_detector.py *)

Module AdvancedFacts.

Import AdvancedDuplicateDetector.

Local Open Scope Q_scope.

(** ** The stable descending sort *)

Lemma insert_desc_perm {A : Type} (key_le : A -> A -> bool) (x : A) (l : list A) :
  Permutation (insert_desc key_le x l) (x :: l).
Proof.
  induction l as [|y l IH]; simpl.
  - apply Permutation_refl.
  - destruct (key_le y x).
    + apply Permutation_refl.
    + apply perm_trans with (y :: x :: l).
      * now apply perm_skip.
      * apply perm_swap.
Qed.

Lemma sort_desc_perm {A : Type} (key_le : A -> A -> bool) (l : list A) :
  Permutation (sort_desc key_le l) l.
Proof.
  induction l as [|x l IH]; simpl.
  - apply perm_nil.
  - apply perm_trans with (x :: sort_desc key_le l).
    + apply insert_desc_perm.
    + now apply perm_skip.
Qed.

(** [a] is ranked no lower than [b]. *)
Definition outranks (a b : ranked) : Prop := score b <= score a.

Lemma insert_desc_sorted (x : ranked) (l : list ranked) :
  StronglySorted outranks l ->
  StronglySorted outranks (insert_desc score_le x l).
Proof.
  induction 1 as [|y l Hs IH Hy]; simpl.
  - repeat constructor.
  - unfold score_le at 1. destruct (Qle_bool (score y) (score x)) eqn:E.
    + apply Qle_bool_iff in E. constructor.
      * now constructor.
      * constructor; [exact E|].
        eapply Forall_impl; [|exact Hy].
        intros z Hz. unfold outranks in *. lra.
    + constructor; [exact IH|].
      assert (Hlt : score x < score y).
      { apply Qnot_le_lt. intros H. apply Qle_bool_iff in H. congruence. }
      apply Forall_forall. intros z Hz.
      apply (Permutation_in _ (insert_desc_perm score_le x l)) in Hz.
      destruct Hz as [<-|Hz].
      * unfold outranks. lra.
      * rewrite Forall_forall in Hy. now apply Hy.
Qed.

Lemma sort_desc_sorted (l : list ranked) :
  StronglySorted outranks (sort_desc score_le l).
Proof.
  induction l as [|x l IH]; simpl.
  - constructor.
  - now apply insert_desc_sorted.
Qed.

(** The entries whose score is [s]. *)
Definition with_score (s : Q) (l : list ranked) : list ranked :=
  filter (fun r => Qeq_bool (score r) s) l.

Lemma insert_desc_stable (s : Q) (x : ranked) (l : list ranked) :
  with_score s (insert_desc score_le x l) = with_score s (x :: l).
Proof.
  unfold with_score.
  induction l as [|y l IH]; [reflexivity|].
  cbn [insert_desc]. unfold score_le at 1.
  destruct (Qle_bool (score y) (score x)) eqn:E; [reflexivity|].
  cbn [filter] in *. rewrite IH.
  destruct (Qeq_bool (score x) s) eqn:Ex; [|reflexivity].
  destruct (Qeq_bool (score y) s) eqn:Ey; [|reflexivity].
  exfalso. apply Qeq_bool_iff in Ex, Ey.
  assert (H : Qle_bool (score y) (score x) = true)
    by (apply Qle_bool_iff; rewrite Ex, Ey; apply Qle_refl).
  congruence.
Qed.

Lemma sort_desc_stable (s : Q) (l : list ranked) :
  with_score s (sort_desc score_le l) = with_score s l.
Proof.
  induction l as [|x l IH]; [reflexivity|].
  cbn [sort_desc fold_right]. rewrite insert_desc_stable.
  unfold with_score in *. cbn [filter]. fold (sort_desc score_le l).
  now rewrite IH.
Qed.

(** [x] stands before [y] in [l]. *)
Definition precedes {A : Type} (x y : A) (l : list A) : Prop :=
  exists l1 l2 l3, l = (l1 ++ x :: l2 ++ y :: l3)%list.

Lemma sorted_prefix_outranks (l1 : list ranked) (x : ranked) (l2 : list ranked) :
  StronglySorted outranks (l1 ++ x :: l2) ->
  forall y, In y l1 -> outranks y x.
Proof.
  induction l1 as [|z l1 IH]; simpl; intros Hs y Hy; [contradiction|].
  inversion Hs as [|? ? Hs' Hz]; subst.
  destruct Hy as [<-|Hy].
  - rewrite Forall_forall in Hz. apply Hz. apply in_or_app. right. now left.
  - now apply IH.
Qed.

Lemma higher_score_precedes (l : list ranked) (x y : ranked) :
  StronglySorted outranks l -> In x l -> In y l ->
  score y < score x -> precedes x y l.
Proof.
  intros Hs Hx Hy Hlt.
  destruct (in_split _ _ Hx) as (l1 & l2 & ->).
  apply in_app_or in Hy. destruct Hy as [Hy|[Hy|Hy]].
  - pose proof (sorted_prefix_outranks _ _ _ Hs y Hy) as H.
    unfold outranks in H. lra.
  - subst y. lra.
  - destruct (in_split _ _ Hy) as (l3 & l4 & ->).
    now exists l1, l3, l4.
Qed.

(** ** The ranking *)

(** The weights of the confidence tiers. *)
Definition confidenceWeight (tier : string) : Z :=
  if (tier =? "high")%string then 3
  else if (tier =? "medium")%string then 2
  else 1.

(** The composite score of the specification. *)
Definition composite_score (g : group) : Q :=
  inject_Z (confidenceWeight (confidence g)) * 100
  + Qmin (savings_or_zero g) 1000
  + inject_Z (duplicate_count g) * 10.

Lemma py_min_Qmin (a b : Q) : py_min a b == Qmin a b.
Proof.
  unfold py_min, Qlt_bool.
  destruct (Qle_bool a b) eqn:E; simpl.
  - apply Qle_bool_iff in E. symmetry. now apply Q.min_l.
  - assert (H : b <= a).
    { apply Qlt_le_weak, Qnot_le_lt. intros H. apply Qle_bool_iff in H.
      congruence. }
    symmetry. now apply Q.min_r.
Qed.

Lemma rank_entry_score (gid : string) (g : group) :
  score (rank_entry (gid, g)) == composite_score g.
Proof.
  unfold rank_entry, composite_score, savings_or_zero, confidenceWeight,
    confidence_scores. simpl.
  rewrite py_min_Qmin, !inject_Z_mult.
  destruct (potential_savings_mb g); reflexivity.
Qed.

(** The ranking of any set of groups: every group receives the composite
    score, and the ranking lists exactly the groups, by decreasing score,
    groups of equal score in discovery order. *)
Lemma rank_duplicate_groups_sorted (duplicates : dict group) :
  let ranking := _rank_duplicate_groups duplicates in
  (confidenceWeight "high" = 3%Z /\ confidenceWeight "medium" = 2%Z
   /\ confidenceWeight "low" = 1%Z)
  /\ Forall2 (fun item r => group_id r = fst item
                            /\ score r == composite_score (snd item))
       duplicates (map rank_entry duplicates)
  /\ Permutation ranking (map rank_entry duplicates)
  /\ StronglySorted outranks ranking
  /\ (forall s, with_score s ranking = with_score s (map rank_entry duplicates)).
Proof.
  intros ranking. unfold ranking, _rank_duplicate_groups.
  split; [repeat split|]. split; [|split; [|split]].
  - induction duplicates as [|[gid g] d IH]; simpl; constructor; [|exact IH].
    split; [reflexivity|apply rank_entry_score].
  - apply sort_desc_perm.
  - apply sort_desc_sorted.
  - intros s. apply sort_desc_stable.
Qed.

(** A group with the higher score stands first. *)
Lemma higher_score_ranks_first (duplicates : dict group) (x y : string * group) :
  In x duplicates -> In y duplicates ->
  score (rank_entry y) < score (rank_entry x) ->
  precedes (rank_entry x) (rank_entry y) (_rank_duplicate_groups duplicates).
Proof.
  intros Hx Hy Hlt. unfold _rank_duplicate_groups.
  apply higher_score_precedes.
  - apply sort_desc_sorted.
  - apply (Permutation_in _ (Permutation_sym (sort_desc_perm _ _))).
    now apply in_map.
  - apply (Permutation_in _ (Permutation_sym (sort_desc_perm _ _))).
    now apply in_map.
  - exact Hlt.
Qed.

(** ** Dictionaries of groups *)

Lemma dict_set_in {V : Type} (d : dict V) (k : string) (v : V) (kv : string * V) :
  In kv (dict_set d k v) -> kv = (k, v) \/ In kv d.
Proof.
  induction d as [|[k0 v0] d IH]; simpl.
  - intros [<-|[]]. now left.
  - destruct (k =? k0)%string; simpl.
    + intros [<-|H]; [now left|right; now right].
    + intros [<-|H]; [right; now left|].
      destruct (IH H) as [->|H']; [now left|right; now right].
Qed.

Lemma dict_get_in {V : Type} (d : dict V) (k : string) (v : V) :
  dict_get d k = Some v -> In (k, v) d.
Proof.
  induction d as [|[k0 v0] d IH]; simpl; [discriminate|].
  destruct (String.eqb_spec k k0) as [->|Hne].
  - intros [= ->]. now left.
  - intros H. right. now apply IH.
Qed.

(** Every value of the dictionary satisfies [P]. *)
Definition dict_all {V : Type} (P : V -> Prop) (d : dict V) : Prop :=
  forall k v, In (k, v) d -> P v.

Lemma dict_all_nil {V : Type} (P : V -> Prop) : dict_all P [].
Proof. intros k v []. Qed.

Lemma dict_all_set {V : Type} (P : V -> Prop) (d : dict V) (k : string) (v : V) :
  dict_all P d -> P v -> dict_all P (dict_set d k v).
Proof.
  intros Hd Hv k' v' Hin. apply dict_set_in in Hin.
  destruct Hin as [[= -> ->]|Hin]; [assumption|now apply (Hd k')].
Qed.

Lemma dict_all_update {V : Type} (P : V -> Prop) (other : list (string * V)) :
  forall d, dict_all P d -> dict_all P other -> dict_all P (dict_update d other).
Proof.
  unfold dict_update.
  induction other as [|[k v] other IH]; simpl; intros d Hd Ho; [assumption|].
  apply IH.
  - apply dict_all_set; [assumption|]. apply (Ho k). now left.
  - intros k' v' Hin. apply (Ho k'). now right.
Qed.

Lemma dict_all_append {V : Type} (P : V -> Prop) (d : dict (list V))
    (k : string) (v : V) :
  dict_all (Forall P) d -> P v -> dict_all (Forall P) (dict_append d k v).
Proof.
  intros Hd Hv. unfold dict_append. apply dict_all_set; [assumption|].
  apply Forall_app. split; [|now constructor].
  unfold get_default. destruct (dict_get d k) as [l|] eqn:E; [|constructor].
  apply (Hd k). now apply dict_get_in.
Qed.

(** Grouping files by a key only redistributes them. *)
Lemma grouping_keeps_members (P : file -> Prop)
    (step : dict (list file) -> file -> dict (list file)) :
  (forall d f, dict_all (Forall P) d -> P f -> dict_all (Forall P) (step d f)) ->
  forall l d, dict_all (Forall P) d -> Forall P l ->
              dict_all (Forall P) (fold_left step l d).
Proof.
  intros Hstep. induction l as [|f l IH]; simpl; intros d Hd Hl; [assumption|].
  inversion Hl; subst. apply IH; [|assumption]. now apply Hstep.
Qed.

Lemma hash_groups_members (P : file -> Prop) (l : list file) :
  Forall P l -> dict_all (Forall P) (hash_groups l).
Proof.
  intros Hl. unfold hash_groups.
  apply grouping_keeps_members; [|apply dict_all_nil|assumption].
  intros d f Hd Hf. destruct (first_hash f hash_fields); [|assumption].
  now apply dict_all_append.
Qed.

Lemma size_groups_members (P : file -> Prop) (l : list file) :
  Forall P l -> dict_all (Forall P) (size_groups l).
Proof.
  intros Hl. unfold size_groups.
  apply grouping_keeps_members; [|apply dict_all_nil|assumption].
  intros d f Hd Hf.
  destruct (str_truthy (get_default f "size" "0")
            && negb (get_default f "size" "0" =? "0")%string);
    [|assumption].
  now apply dict_all_append.
Qed.

Lemma group_by_category_members (P : file -> Prop) (l : list file) :
  Forall P l -> dict_all (Forall P) (_group_files_by_category l).
Proof.
  intros Hl. unfold _group_files_by_category.
  apply grouping_keeps_members; [|apply dict_all_nil|assumption].
  intros d f Hd Hf. now apply dict_all_append.
Qed.

Lemma concat_values_members (P : file -> Prop) (d : dict (list file)) :
  dict_all (Forall P) d -> Forall P (List.concat (dict_values d)).
Proof.
  induction d as [|[k g] d IH]; simpl; intros Hd; [constructor|].
  apply Forall_app. split.
  - apply (Hd k). now left.
  - apply IH. intros k' v' Hin. apply (Hd k'). now right.
Qed.

Section EngineFacts.

Variable fuzz_ratio : string -> string -> Z.
Variable md5_hexdigest : string -> string.
Variable py_float : string -> option Q.
Variable py_int : string -> option Z.
Variable thumbnail_hashes : string -> option (dict string).
Variable FUZZY_AVAILABLE : bool.

(** The size of the file can be read as a number. *)
Definition sized (f : file) : Prop := exists q, float_size py_float f = Ret q.

Lemma sum_sizes_sized (l : list file) :
  Forall sized l -> exists q, sum_sizes py_float l = Ret q.
Proof.
  unfold sum_sizes. generalize 0 as a.
  induction l as [|f l IH]; simpl; intros a Hl.
  - now exists a.
  - inversion Hl as [|? ? [q Hq] Hl']; subst. rewrite Hq. simpl.
    now apply IH.
Qed.

Lemma exact_hash_emit_sized (items : list (string * list file)) :
  dict_all (Forall sized) items ->
  forall acc, exists d, exact_hash_emit py_float items acc = Ret d.
Proof.
  induction items as [|[h g] items IH]; simpl; intros Hi acc.
  - now exists acc.
  - assert (Hi' : dict_all (Forall sized) items).
    { intros k v Hin. apply (Hi k). now right. }
    destruct (1 <? len g)%Z; [|now apply IH].
    destruct (sum_sizes_sized g) as [q Hq]; [apply (Hi h); now left|].
    rewrite Hq. simpl. now apply IH.
Qed.

Lemma find_exact_hash_matches_sized (l : list file) :
  Forall sized l -> exists d, _find_exact_hash_matches py_float l = Ret d.
Proof.
  intros Hl. unfold _find_exact_hash_matches.
  apply exact_hash_emit_sized. now apply hash_groups_members.
Qed.

Lemma filter_by_size_sized (min_size : Q) (l : list file) :
  Forall sized l ->
  exists filtered, filter_by_size py_float min_size l = Ret filtered
                   /\ Forall sized filtered.
Proof.
  induction 1 as [|f l [q Hq] Hl IH]; simpl.
  - exists []. split; [reflexivity|constructor].
  - destruct IH as (rest & Hr & Hs). rewrite Hq, Hr. simpl.
    destruct (Qle_bool min_size q).
    + exists (f :: rest). split; [reflexivity|]. constructor; [|assumption].
      now exists q.
    + now exists rest.
Qed.

Lemma cross_category_sized (file_groups : dict (list file)) :
  dict_all (Forall sized) file_groups ->
  exists d, _detect_cross_category_duplicates py_float file_groups = Ret d.
Proof.
  intros H. unfold _detect_cross_category_duplicates.
  destruct (find_exact_hash_matches_sized
              (List.concat (dict_values file_groups))) as [d Hd].
  - now apply concat_values_members.
  - rewrite Hd. simpl. eexists. reflexivity.
Qed.

(** The handler [detect_all_duplicates] picks for a category. *)
Definition handler_for (self : detector) (cat : string) : handler :=
  get_default (file_type_handlers self) cat
    (_detect_generic_duplicates fuzz_ratio md5_hexdigest py_float py_int
       FUZZY_AVAILABLE self).

(** The handler of the category does not raise on its files. *)
Definition handled (self : detector) (item : string * list file) : bool :=
  negb (raises (handler_for self (fst item) (snd item))).

Lemma category_loop_skips_failures (self : detector)
    (file_groups : list (string * list file)) :
  forall acc,
    category_loop fuzz_ratio md5_hexdigest py_float py_int FUZZY_AVAILABLE
      self file_groups acc
    = category_loop fuzz_ratio md5_hexdigest py_float py_int FUZZY_AVAILABLE
        self (filter (handled self) file_groups) acc.
Proof.
  induction file_groups as [|[cat fs] file_groups IH]; intros acc;
    [reflexivity|].
  cbn [filter]. unfold handled at 1, handler_for. cbn [fst snd].
  destruct (get_default (file_type_handlers self) cat
              (_detect_generic_duplicates fuzz_ratio md5_hexdigest py_float
                 py_int FUZZY_AVAILABLE self) fs) as [d|e] eqn:E.
  - cbn [raises negb category_loop]. destruct fs; [apply IH|].
    rewrite E. apply IH.
  - cbn [raises negb category_loop]. destruct fs; [apply IH|].
    rewrite E. apply IH.
Qed.

(** The groups [detect_all_duplicates] reports when the categories in
    [file_groups] are the ones it works through. *)
Definition merged (self : detector) (file_groups : dict (list file))
    (cross : dict group) : dict group :=
  fold_left (fun acc item => dict_set acc ("cross_" ++ fst item) (snd item))
    cross
    (category_loop fuzz_ratio md5_hexdigest py_float py_int FUZZY_AVAILABLE
       self file_groups []).

Lemma detect_all_duplicates_returns (self : detector) (l : list file) :
  Forall sized l ->
  exists r filtered cross,
    detect_all_duplicates fuzz_ratio md5_hexdigest py_float py_int
      FUZZY_AVAILABLE self l = Ret r
    /\ filter_by_size py_float
         (min_file_size_mb (cfg self) * inject_Z 1024 * inject_Z 1024) l
       = Ret filtered
    /\ _detect_cross_category_duplicates py_float
         (_group_files_by_category filtered) = Ret cross
    /\ duplicates r
       = merged self (filter (handled self) (_group_files_by_category filtered))
           cross.
Proof.
  intros Hl. unfold detect_all_duplicates.
  destruct (filter_by_size_sized
              (min_file_size_mb (cfg self) * inject_Z 1024 * inject_Z 1024)
              l Hl) as (filtered & Hf & Hs).
  destruct (cross_category_sized (_group_files_by_category filtered))
    as [cross Hc]; [now apply group_by_category_members|].
  eexists. exists filtered, cross.
  split; [rewrite Hf; cbn [bind]; rewrite Hc; cbn [bind]; reflexivity|].
  split; [exact Hf|]. split; [exact Hc|].
  cbn [duplicates]. unfold merged.
  now rewrite <- category_loop_skips_failures.
Qed.

(** ** The strategies behind the handlers *)

Lemma and_then_raises (a b : res (dict group)) :
  raises (and_then a b) = raises a || raises b.
Proof. destruct a, b; reflexivity. Qed.

(** The strategies a handler of the class runs without a [try] of its
    own, in the order of the calls, for a detector with the
    configuration [c]: when one of them raises, the handler raises.  The
    perceptual strategy of the image handler is left out, its failure
    being caught inside the handler, and so is
    [_find_content_similarity_matches], which returns an empty dict. *)
Definition strategies_of (c : config) (cat : string)
    : list (list file -> res (dict group)) :=
  let bare := {| cfg := c; file_type_handlers := [] |} in
  let exact := _find_exact_hash_matches py_float in
  let names := fun l =>
    _find_fuzzy_name_matches fuzz_ratio md5_hexdigest py_float
      FUZZY_AVAILABLE bare l None in
  let generic := [exact; names;
                  fun l => _find_size_based_matches py_int l false] in
  if (cat =? "image")%string
  then if enable_image_analysis c then [exact] else generic
  else if (cat =? "document")%string
  then [exact;
        _find_name_size_similarity_matches fuzz_ratio md5_hexdigest py_float
          py_int FUZZY_AVAILABLE bare]
  else if (cat =? "video")%string
  then [exact; fun l => _find_size_based_matches py_int l true]
  else if (cat =? "audio")%string
  then [exact; names]
  else if (cat =? "code")%string
  then [exact;
        fun l => _find_fuzzy_name_matches fuzz_ratio md5_hexdigest py_float
                   FUZZY_AVAILABLE bare l (Some 95%Z)]
  else generic.

(** A handler of the class goes through exactly when each of its
    strategies does: the groups of the strategies before a failing one are
    lost with it, and the strategies after it are not run. *)
Lemma handler_all_or_nothing (c : config) (cat : string) (fs : list file) :
  handled (new fuzz_ratio md5_hexdigest py_float py_int thumbnail_hashes
             FUZZY_AVAILABLE c) (cat, fs)
  = forallb (fun s => negb (raises (s fs))) (strategies_of c cat).
Proof.
  unfold handled, handler_for, get_default, new, strategies_of.
  cbn [fst snd file_type_handlers dict_get cfg].
  repeat match goal with
         | |- context [(cat =? ?s)%string] => destruct (cat =? s)%string
         end.
  - unfold _detect_image_duplicates. cbn [cfg].
    destruct (enable_image_analysis c); cbn [negb forallb]; cbv beta.
    + destruct (_find_exact_hash_matches py_float fs) as [d|e]; cbn;
        [|reflexivity].
      destruct (_find_perceptual_image_duplicates md5_hexdigest
                  thumbnail_hashes _ fs); reflexivity.
    + unfold _detect_generic_duplicates. rewrite !and_then_raises.
      cbn [raises orb forallb]. rewrite !negb_orb, andb_true_r.
      now rewrite andb_assoc.
  - unfold _detect_document_duplicates, _find_content_similarity_matches.
    cbn [cfg forallb]. cbv beta.
    destruct (_find_exact_hash_matches py_float fs) as [d|e];
      [|reflexivity].
    destruct (_find_name_size_similarity_matches fuzz_ratio md5_hexdigest
                py_float py_int FUZZY_AVAILABLE _ fs) as [d'|e'];
      [|reflexivity].
    cbn. destruct (enable_content_analysis c); reflexivity.
  - unfold _detect_video_duplicates. rewrite !and_then_raises.
    cbn [raises orb forallb]. now rewrite !negb_orb, andb_true_r.
  - unfold _detect_audio_duplicates. rewrite !and_then_raises.
    cbn [raises orb forallb]. now rewrite !negb_orb, andb_true_r.
  - unfold _detect_code_duplicates. rewrite !and_then_raises.
    cbn [raises orb forallb]. now rewrite !negb_orb, andb_true_r.
  - unfold _detect_generic_duplicates. rewrite !and_then_raises.
    cbn [raises orb forallb]. rewrite !negb_orb, andb_true_r.
    now rewrite andb_assoc.
  - unfold _detect_generic_duplicates. rewrite !and_then_raises.
    cbn [raises orb forallb]. rewrite !negb_orb, andb_true_r.
    now rewrite andb_assoc.
Qed.

(** ** Member counts *)

(** The count of the group is the number of its files. *)
Definition counted (g : group) : Prop := duplicate_count g = len (files g).

Ltac step :=
  match goal with
  | H : Ret _ = Ret _ |- _ => inversion H; subst; clear H
  | H : Raise _ = Ret _ |- _ => discriminate H
  | H : bind ?m _ = Ret _ |- _ =>
      let E := fresh "E" in
      destruct m eqn:E; cbn [bind] in H; [|discriminate H]
  | H : (if ?b then _ else _) = Ret _ |- _ =>
      let E := fresh "E" in destruct b eqn:E
  | H : (let '(_, _) := ?p in _) = Ret _ |- _ => destruct p
  | H : match ?o with _ => _ end = Ret _ |- _ =>
      let E := fresh "E" in destruct o eqn:E
  end.

Ltac close_counted IH :=
  first
    [ assumption
    | eapply IH; [|eassumption]; first
        [ assumption
        | apply dict_all_set; [assumption|reflexivity]
        | match goal with
          | |- dict_all _ (if ?b then _ else _) =>
              destruct b; [apply dict_all_set; [assumption|reflexivity]
                          |assumption]
          end ] ].

Lemma exact_hash_emit_counted (items : list (string * list file)) :
  forall acc d, dict_all counted acc ->
                exact_hash_emit py_float items acc = Ret d ->
                dict_all counted d.
Proof.
  induction items as [|[h g] items IH]; simpl; intros acc d Hacc H.
  - now step.
  - repeat step; close_counted IH.
Qed.

Lemma fuzzy_outer_counted (thr : Z) (l : list file) :
  forall processed acc d,
    dict_all counted acc ->
    fuzzy_outer fuzz_ratio md5_hexdigest py_float thr l processed acc = Ret d ->
    dict_all counted d.
Proof.
  induction l as [|f1 rest IH]; simpl; intros processed acc d Hacc H.
  - now step.
  - repeat step; close_counted IH.
Qed.

Lemma size_emit_counted (strict : bool) (items : list (string * list file)) :
  forall acc d, dict_all counted acc ->
                size_emit py_int strict items acc = Ret d ->
                dict_all counted d.
Proof.
  induction items as [|[h g] items IH]; simpl; intros acc d Hacc H.
  - now step.
  - repeat step; close_counted IH.
Qed.

Lemma name_size_outer_counted (self : detector) (l : list file) :
  forall processed acc d,
    dict_all counted acc ->
    name_size_outer fuzz_ratio md5_hexdigest py_float self l processed acc
    = Ret d ->
    dict_all counted d.
Proof.
  induction l as [|f1 rest IH]; simpl; intros processed acc d Hacc H.
  - now step.
  - repeat step; close_counted IH.
Qed.

Lemma perceptual_outer_counted (thr : Z) (image_hashes : dict image_entry)
    (todo : list (string * image_entry)) :
  forall processed acc d,
    dict_all counted acc ->
    perceptual_outer md5_hexdigest thr image_hashes todo processed acc = Ret d ->
    dict_all counted d.
Proof.
  induction todo as [|[id1 data1] todo IH]; simpl; intros processed acc d Hacc H.
  - now step.
  - repeat step; close_counted IH.
Qed.

Lemma and_then_counted (a b : res (dict group)) (d : dict group) :
  (forall x, a = Ret x -> dict_all counted x) ->
  (forall y, b = Ret y -> dict_all counted y) ->
  and_then a b = Ret d -> dict_all counted d.
Proof.
  unfold and_then. intros Ha Hb H. repeat step.
  apply dict_all_update; auto.
Qed.

Lemma ret_nil_counted (x : dict group) :
  Ret [] = Ret x -> dict_all counted x.
Proof. intros [= <-]. apply dict_all_nil. Qed.

Lemma find_exact_hash_matches_counted (l : list file) (d : dict group) :
  _find_exact_hash_matches py_float l = Ret d -> dict_all counted d.
Proof. apply exact_hash_emit_counted, dict_all_nil. Qed.

Lemma find_fuzzy_name_matches_counted (self : detector) (l : list file)
    (thr : option Z) (d : dict group) :
  _find_fuzzy_name_matches fuzz_ratio md5_hexdigest py_float FUZZY_AVAILABLE
    self l thr = Ret d ->
  dict_all counted d.
Proof.
  unfold _find_fuzzy_name_matches. destruct (negb FUZZY_AVAILABLE).
  - apply ret_nil_counted.
  - apply fuzzy_outer_counted, dict_all_nil.
Qed.

Lemma find_size_based_matches_counted (l : list file) (strict : bool)
    (d : dict group) :
  _find_size_based_matches py_int l strict = Ret d -> dict_all counted d.
Proof. apply size_emit_counted, dict_all_nil. Qed.

Lemma find_name_size_counted (self : detector) (l : list file) (d : dict group) :
  _find_name_size_similarity_matches fuzz_ratio md5_hexdigest py_float py_int
    FUZZY_AVAILABLE self l = Ret d ->
  dict_all counted d.
Proof.
  unfold _find_name_size_similarity_matches. destruct (negb FUZZY_AVAILABLE).
  - apply find_size_based_matches_counted.
  - apply name_size_outer_counted, dict_all_nil.
Qed.

Lemma find_perceptual_counted (self : detector) (l : list file) (d : dict group) :
  _find_perceptual_image_duplicates md5_hexdigest thumbnail_hashes self l
  = Ret d ->
  dict_all counted d.
Proof. apply perceptual_outer_counted, dict_all_nil. Qed.

Create HintDb counted.

#[local] Hint Resolve ret_nil_counted find_exact_hash_matches_counted
  find_fuzzy_name_matches_counted find_size_based_matches_counted
  find_name_size_counted find_perceptual_counted : counted.

Ltac chain :=
  apply and_then_counted;
  [ first [apply ret_nil_counted | intros ?; chain]
  | intros; eauto with counted ].

Lemma generic_counted (self : detector) (l : list file) (d : dict group) :
  _detect_generic_duplicates fuzz_ratio md5_hexdigest py_float py_int
    FUZZY_AVAILABLE self l = Ret d ->
  dict_all counted d.
Proof.
  unfold _detect_generic_duplicates.
  chain.
Qed.

Lemma image_counted (self : detector) (l : list file) (d : dict group) :
  _detect_image_duplicates fuzz_ratio md5_hexdigest py_float py_int
    thumbnail_hashes FUZZY_AVAILABLE self l = Ret d ->
  dict_all counted d.
Proof.
  unfold _detect_image_duplicates.
  destruct (negb (enable_image_analysis (cfg self)));
    [apply generic_counted|].
  intros H. step.
  assert (Ha : dict_all counted a).
  { revert E. chain. }
  destruct (_find_perceptual_image_duplicates md5_hexdigest thumbnail_hashes
              self l) eqn:Ep; step.
  - apply dict_all_update; eauto with counted.
  - assumption.
Qed.

Lemma document_counted (self : detector) (l : list file) (d : dict group) :
  _detect_document_duplicates fuzz_ratio md5_hexdigest py_float py_int
    FUZZY_AVAILABLE self l = Ret d ->
  dict_all counted d.
Proof.
  unfold _detect_document_duplicates, _find_content_similarity_matches.
  intros H. step.
  assert (Ha : dict_all counted a).
  { revert E. chain. }
  step.
  - revert H. apply and_then_counted; [|apply ret_nil_counted].
    now intros x [= <-].
  - now step.
Qed.

Lemma video_counted (self : detector) (l : list file) (d : dict group) :
  _detect_video_duplicates py_float py_int self l = Ret d ->
  dict_all counted d.
Proof.
  unfold _detect_video_duplicates.
  chain.
Qed.

Lemma audio_counted (self : detector) (l : list file) (d : dict group) :
  _detect_audio_duplicates fuzz_ratio md5_hexdigest py_float FUZZY_AVAILABLE
    self l = Ret d ->
  dict_all counted d.
Proof.
  unfold _detect_audio_duplicates.
  chain.
Qed.

Lemma code_counted (self : detector) (l : list file) (d : dict group) :
  _detect_code_duplicates fuzz_ratio md5_hexdigest py_float FUZZY_AVAILABLE
    self l = Ret d ->
  dict_all counted d.
Proof.
  unfold _detect_code_duplicates.
  chain.
Qed.

(** Every handler of the table answers with counted groups. *)
Definition counting (self : detector) : Prop :=
  forall cat l d, handler_for self cat l = Ret d -> dict_all counted d.

Lemma new_counting (c : config) :
  counting (new fuzz_ratio md5_hexdigest py_float py_int thumbnail_hashes
              FUZZY_AVAILABLE c).
Proof.
  intros cat l d. unfold handler_for, get_default, new.
  cbn [file_type_handlers dict_get].
  repeat match goal with
         | |- context [(cat =? ?s)%string] => destruct (cat =? s)%string
         end.
  - apply image_counted.
  - apply document_counted.
  - apply video_counted.
  - apply audio_counted.
  - apply code_counted.
  - apply generic_counted.
  - apply generic_counted.
Qed.

Lemma merge_category_counted (cat : string) (found : dict group) :
  forall acc, dict_all counted acc -> dict_all counted found ->
              dict_all counted
                (fold_left (fun acc item =>
                              dict_set acc (cat ++ "_" ++ fst item)
                                (set_category (snd item) cat)) found acc).
Proof.
  induction found as [|[gid g] found IH]; simpl; intros acc Hacc Hf;
    [assumption|].
  apply IH.
  - apply dict_all_set; [assumption|]. change (counted g).
    apply (Hf gid). now left.
  - intros k v Hin. apply (Hf k). now right.
Qed.

Lemma category_loop_counted (self : detector)
    (file_groups : list (string * list file)) :
  counting self ->
  forall acc, dict_all counted acc ->
              dict_all counted
                (category_loop fuzz_ratio md5_hexdigest py_float py_int
                   FUZZY_AVAILABLE self file_groups acc).
Proof.
  intros Hself.
  induction file_groups as [|[cat fs] file_groups IH]; simpl; intros acc Hacc;
    [assumption|].
  destruct fs as [|f fs]; [now apply IH|].
  destruct (get_default (file_type_handlers self) cat
              (_detect_generic_duplicates fuzz_ratio md5_hexdigest py_float
                 py_int FUZZY_AVAILABLE self) (f :: fs)) as [found|e] eqn:E;
    [|now apply IH].
  apply IH. apply merge_category_counted; [assumption|].
  exact (Hself cat (f :: fs) found E).
Qed.

Lemma cross_category_counted (file_groups : dict (list file)) (d : dict group) :
  _detect_cross_category_duplicates py_float file_groups = Ret d ->
  dict_all counted d.
Proof.
  unfold _detect_cross_category_duplicates. intros H. step. step.
  apply find_exact_hash_matches_counted in E.
  assert (G : forall found acc,
            dict_all counted acc -> dict_all counted found ->
            dict_all counted
              (fold_left
                 (fun duplicates item =>
                    let '(gid, group_data) := item in
                    let cats :=
                      distinct
                        (map (fun f => get_default f "file_category" "unknown")
                             (files group_data)) in
                    if (1 <? len cats)%Z
                    then dict_set duplicates ("cross_" ++ gid)
                           (set_cross_category group_data cats)
                    else duplicates) found acc)).
  { induction found as [|[gid g] found IH]; simpl; intros acc Hacc Hf;
      [assumption|].
    apply IH.
    - destruct (1 <? len _)%Z; [|assumption].
      apply dict_all_set; [assumption|]. change (counted g).
      apply (Hf gid). now left.
    - intros k v Hin. apply (Hf k). now right. }
  apply G; [apply dict_all_nil|assumption].
Qed.

Lemma merge_cross_counted (cross : dict group) :
  forall acc, dict_all counted acc -> dict_all counted cross ->
              dict_all counted
                (fold_left (fun acc item =>
                              dict_set acc ("cross_" ++ fst item) (snd item))
                           cross acc).
Proof.
  induction cross as [|[gid g] cross IH]; simpl; intros acc Hacc Hc;
    [assumption|].
  apply IH.
  - apply dict_all_set; [assumption|]. apply (Hc gid). now left.
  - intros k v Hin. apply (Hc k). now right.
Qed.

Lemma sumZ_counted (groups : list group) :
  Forall counted groups ->
  sumZ (map duplicate_count groups) = sumZ (map (fun g => len (files g)) groups).
Proof.
  intros H. f_equal. induction H as [|g groups Hg _ IH]; simpl; [reflexivity|].
  now rewrite Hg, IH.
Qed.

Lemma dict_all_values {V : Type} (P : V -> Prop) (d : dict V) :
  dict_all P d -> Forall P (dict_values d).
Proof.
  induction d as [|[k v] d IH]; simpl; intros H; constructor.
  - apply (H k). now left.
  - apply IH. intros k' v' Hin. apply (H k'). now right.
Qed.

(** C7: the statistic [total_duplicates_found] of a run is the sum of the
    [duplicate_count] of all reported groups, each group counted in full
    whether or not its files also sit in other groups; with the handlers
    of the class the count of a group is the number of its files. *)
Theorem total_duplicates_counts_memberships
    (self : detector) (l : list file) (r : result) :
  detect_all_duplicates fuzz_ratio md5_hexdigest py_float py_int
    FUZZY_AVAILABLE self l = Ret r ->
  total_duplicates_found (statistics r)
  = sumZ (map duplicate_count (dict_values (duplicates r)))
  /\ (counting self ->
      total_duplicates_found (statistics r)
      = sumZ (map (fun g => len (files g)) (dict_values (duplicates r))))
  /\ counting (new fuzz_ratio md5_hexdigest py_float py_int thumbnail_hashes
                 FUZZY_AVAILABLE (cfg self)).
Proof.
  unfold detect_all_duplicates. intros H. repeat step.
  cbn [statistics duplicates total_duplicates_found].
  split; [reflexivity|]. split; [|apply new_counting].
  intros Hself. apply sumZ_counted, dict_all_values.
  apply merge_cross_counted.
  - apply category_loop_counted; [assumption|apply dict_all_nil].
  - eapply cross_category_counted. eassumption.
Qed.

End EngineFacts.

(** ** Perceptual grouping *)

(** Two hashed images match: they share a hash algorithm and the average
    Hamming distance over the shared algorithms is within the threshold. *)
Definition matches (threshold : Z) (x y : image_entry) : Prop :=
  exists ds, hash_distances (hashes x) (hashes y) hash_types = Ret ds
             /\ ds <> []
             /\ Qle_bool (average ds) (inject_Z threshold) = true.

Lemma hamming_chars_sym (a : list ascii) :
  forall b, hamming_chars a b = hamming_chars b a.
Proof.
  induction a as [|x a IH]; intros [|y b]; simpl; try reflexivity.
  rewrite IH, (Ascii.eqb_sym x y). reflexivity.
Qed.

Lemma hamming_sym (s1 s2 : string) : hamming s1 s2 = hamming s2 s1.
Proof. unfold hamming. now rewrite hamming_chars_sym. Qed.

Lemma hash_distances_sym (h1 h2 : dict string) (types : list string) :
  hash_distances h1 h2 types = hash_distances h2 h1 types.
Proof.
  induction types as [|t types IH]; simpl; [reflexivity|].
  destruct (dict_get h1 t), (dict_get h2 t); try assumption.
  now rewrite hamming_sym, IH.
Qed.

Lemma matches_sym (threshold : Z) (x y : image_entry) :
  matches threshold x y -> matches threshold y x.
Proof.
  intros (ds & H & Hne & Hle). exists ds.
  now rewrite hash_distances_sym.
Qed.

Lemma mem_cons (x y : string) (s : list string) :
  mem x (y :: s) = (x =? y)%string || mem x s.
Proof. reflexivity. Qed.

Lemma dict_set_keys {V : Type} (d : dict V) (k k' : string) (v : V) :
  In k' (dict_keys (dict_set d k v)) -> k' = k \/ In k' (dict_keys d).
Proof.
  unfold dict_keys. intros H. apply in_map_iff in H.
  destruct H as ([k0 v0] & <- & Hin). apply dict_set_in in Hin.
  destruct Hin as [[= -> ->]|Hin]; [now left|].
  right. now apply (in_map fst) in Hin.
Qed.

Lemma dict_set_nodup {V : Type} (d : dict V) (k : string) (v : V) :
  NoDup (dict_keys d) -> NoDup (dict_keys (dict_set d k v)).
Proof.
  induction d as [|[k0 v0] d IH]; simpl; intros H.
  - repeat constructor. intros [].
  - inversion H as [|? ? Hk0 Hd]; subst.
    destruct (String.eqb_spec k k0) as [->|Hne]; simpl.
    + now constructor.
    + constructor; [|now apply IH].
      intros Hin. apply dict_set_keys in Hin. destruct Hin; congruence.
Qed.

Section PerceptualFacts.

Variable md5_hexdigest : string -> string.
Variable thumbnail_hashes : string -> option (dict string).

(** The key under which the group seeded by [file_id] is stored. *)
Definition group_key (file_id : string) : string :=
  "perceptual_" ++ str_take 8 (md5_hexdigest file_id).

Lemma collect_image_hashes_nodup (l : list file) :
  NoDup (dict_keys (collect_image_hashes thumbnail_hashes l)).
Proof.
  unfold collect_image_hashes.
  assert (G : forall acc : dict image_entry,
            NoDup (dict_keys acc) ->
            NoDup (dict_keys
                     (fold_left
                        (fun image_hashes f =>
                           match dict_get f "thumbnailLink" with
                           | Some link =>
                               if str_truthy link
                               then match thumbnail_hashes link,
                                          dict_get f "id" with
                                    | Some hs, Some id =>
                                        dict_set image_hashes id
                                          {| file_data := f; hashes := hs |}
                                    | _, _ => image_hashes
                                    end
                               else image_hashes
                           | None => image_hashes
                           end) l acc))).
  { induction l as [|f l IH]; simpl; intros acc Hacc; [assumption|].
    apply IH.
    destruct (dict_get f "thumbnailLink") as [link|]; [|assumption].
    destruct (str_truthy link); [|assumption].
    destruct (thumbnail_hashes link); [|assumption].
    destruct (dict_get f "id"); [|assumption].
    now apply dict_set_nodup. }
  apply G. constructor.
Qed.

Lemma perceptual_inner_collects (file_id1 : string) (data1 : image_entry)
    (threshold : Z) (entries : list (string * image_entry)) :
  forall similar processed last similar' processed' last',
    NoDup (dict_keys entries) ->
    perceptual_inner file_id1 data1 threshold entries similar processed last
    = Ret (similar', processed', last') ->
    exists extra,
      similar' = (similar ++ extra)%list
      /\ forall id d,
           In (id, d) entries -> id <> file_id1 -> mem id processed = false ->
           matches threshold data1 d -> In (file_data d) extra.
Proof.
  induction entries as [|[id2 data2] entries IH];
    cbn [perceptual_inner dict_keys map fst];
    intros similar processed last similar' processed' last' Hnd H.
  - inversion H; subst. exists []. split; [now rewrite app_nil_r|].
    intros id d [].
  - inversion Hnd as [|? ? Hid2 Hnd']; subst.
    destruct ((id2 =? file_id1)%string || mem id2 processed) eqn:Eskip.
    + destruct (IH _ _ _ _ _ _ Hnd' H) as (extra & -> & Hex).
      exists extra. split; [reflexivity|].
      intros id d [[= -> ->]|Hin] Hne Hmem Hm; [|now apply (Hex id)].
      apply orb_true_iff in Eskip. destruct Eskip as [E|E].
      * apply String.eqb_eq in E. congruence.
      * congruence.
    + destruct (hash_distances (hashes data1) (hashes data2) hash_types)
        as [ds|e] eqn:Eds; cbn [bind] in H; [|discriminate].
      destruct ds as [|x ds].
      * destruct (IH _ _ _ _ _ _ Hnd' H) as (extra & -> & Hex).
        exists extra. split; [reflexivity|].
        intros id d [[= -> ->]|Hin] Hne Hmem Hm; [|now apply (Hex id)].
        destruct Hm as (ds' & Hds' & Hnil & _). congruence.
      * destruct (Qle_bool (average (x :: ds)) (inject_Z threshold)) eqn:Eavg.
        -- destruct (IH _ _ _ _ _ _ Hnd' H) as (extra & -> & Hex).
           exists (file_data data2 :: extra). split.
           ++ now rewrite <- app_assoc.
           ++ intros id d [[= -> ->]|Hin] Hne Hmem Hm; [now left|].
              right. apply (Hex id); try assumption.
              rewrite mem_cons, Hmem, orb_false_r.
              apply String.eqb_neq. intros ->. apply Hid2.
              now apply (in_map fst) in Hin.
        -- destruct (IH _ _ _ _ _ _ Hnd' H) as (extra & -> & Hex).
           exists extra. split; [reflexivity|].
           intros id d [[= -> ->]|Hin] Hne Hmem Hm; [|now apply (Hex id)].
           destruct Hm as (ds' & Hds' & _ & Hle).
           rewrite Eds in Hds'. inversion Hds'; subst. congruence.
Qed.

Lemma perceptual_outer_keeps (key : string) (threshold : Z)
    (image_hashes : dict image_entry) (todo : list (string * image_entry)) :
  forall processed acc d,
    (forall id e, In (id, e) todo -> group_key id <> key) ->
    perceptual_outer md5_hexdigest threshold image_hashes todo processed acc
    = Ret d ->
    dict_get d key = dict_get acc key.
Proof.
  induction todo as [|[id1 data1] todo IH]; cbn [perceptual_outer];
    intros processed acc d Hk H.
  - now inversion H.
  - assert (Hk' : forall id e, In (id, e) todo -> group_key id <> key)
      by (intros id e Hin; apply (Hk id e); now right).
    assert (Hk1 : group_key id1 <> key) by (apply (Hk id1 data1); now left).
    destruct (mem id1 processed); [now apply (IH _ _ _ Hk' H)|].
    destruct (perceptual_inner id1 data1 threshold image_hashes
                [file_data data1] processed []) as [[[s p] la]|e];
      cbn [bind] in H; [|discriminate].
    rewrite (IH _ _ _ Hk' H).
    destruct (1 <? len s)%Z; [|reflexivity].
    fold (group_key id1). rewrite dict_get_set.
    destruct (String.eqb_spec key (group_key id1)) as [->|Hne];
      [congruence|reflexivity].
Qed.

Lemma entry_unique {V : Type} (d : dict V) (k : string) (v v' : V) :
  NoDup (dict_keys d) -> In (k, v) d -> In (k, v') d -> v = v'.
Proof.
  induction d as [|[k0 v0] d IH]; simpl; intros Hnd H1 H2; [contradiction|].
  inversion Hnd as [|? ? Hk Hd]; subst.
  destruct H1 as [[= -> ->]|H1], H2 as [[= E]|H2].
  - now subst.
  - exfalso. apply Hk. apply (in_map fst) in H2. exact H2.
  - subst. exfalso. apply Hk. apply (in_map fst) in H1. exact H1.
  - now apply IH.
Qed.

(** An image is stored under the id of its file. *)
Lemma collect_image_hashes_ids (l : list file) (id : string)
    (e : image_entry) :
  In (id, e) (collect_image_hashes thumbnail_hashes l) ->
  dict_get (file_data e) "id" = Some id.
Proof.
  unfold collect_image_hashes.
  assert (G : forall acc : dict image_entry,
            (forall id e, In (id, e) acc
                          -> dict_get (file_data e) "id" = Some id) ->
            forall id e,
              In (id, e)
                (fold_left
                   (fun image_hashes f =>
                      match dict_get f "thumbnailLink" with
                      | Some link =>
                          if str_truthy link
                          then match thumbnail_hashes link,
                                     dict_get f "id" with
                               | Some hs, Some id =>
                                   dict_set image_hashes id
                                     {| file_data := f; hashes := hs |}
                               | _, _ => image_hashes
                               end
                          else image_hashes
                      | None => image_hashes
                      end) l acc) ->
              dict_get (file_data e) "id" = Some id).
  { induction l as [|f l IH]; simpl; intros acc Hacc; [assumption|].
    apply IH.
    destruct (dict_get f "thumbnailLink") as [link|]; [|assumption].
    destruct (str_truthy link); [|assumption].
    destruct (thumbnail_hashes link) as [hs|]; [|assumption].
    destruct (dict_get f "id") as [idf|] eqn:Ef; [|assumption].
    intros id' e' Hin. apply dict_set_in in Hin.
    destruct Hin as [[= -> ->]|Hin]; [exact Ef|now apply Hacc]. }
  apply G. intros id' e' [].
Qed.

(** A file that was added to the group seeded by [data1]: the file of a
    hashed image other than the seed that matches the seed. *)
Definition near (threshold : Z) (entries : dict image_entry)
    (file_id1 : string) (data1 : image_entry) (f : file) : Prop :=
  exists id d, In (id, d) entries /\ f = file_data d /\ id <> file_id1
               /\ matches threshold data1 d.

Lemma perceptual_inner_near (file_id1 : string) (data1 : image_entry)
    (threshold : Z) (entries : list (string * image_entry)) :
  forall similar processed last similar' processed' last',
    perceptual_inner file_id1 data1 threshold entries similar processed last
    = Ret (similar', processed', last') ->
    exists extra,
      similar' = (similar ++ extra)%list
      /\ Forall (near threshold entries file_id1 data1) extra.
Proof.
  induction entries as [|[id2 data2] entries IH];
    cbn [perceptual_inner];
    intros similar processed last similar' processed' last' H.
  - inversion H; subst. exists []. split; [now rewrite app_nil_r|constructor].
  - assert (Hweak : forall extra,
              Forall (near threshold entries file_id1 data1) extra ->
              Forall (near threshold ((id2, data2) :: entries) file_id1 data1)
                extra).
    { intros extra. apply Forall_impl.
      intros f (id & d & Hin & Hf & Hne & Hm).
      exists id, d. repeat split; try assumption. now right. }
    destruct ((id2 =? file_id1)%string || mem id2 processed) eqn:Eskip.
    + destruct (IH _ _ _ _ _ _ H) as (extra & -> & Hex).
      exists extra. split; [reflexivity|now apply Hweak].
    + destruct (hash_distances (hashes data1) (hashes data2) hash_types)
        as [ds|e] eqn:Eds; cbn [bind] in H; [|discriminate].
      destruct ds as [|x ds].
      * destruct (IH _ _ _ _ _ _ H) as (extra & -> & Hex).
        exists extra. split; [reflexivity|now apply Hweak].
      * destruct (Qle_bool (average (x :: ds)) (inject_Z threshold)) eqn:Eavg.
        -- destruct (IH _ _ _ _ _ _ H) as (extra & -> & Hex).
           exists (file_data data2 :: extra). split.
           ++ now rewrite <- app_assoc.
           ++ constructor; [|now apply Hweak].
              exists id2, data2. split; [now left|]. split; [reflexivity|].
              split.
              ** apply orb_false_iff in Eskip. destruct Eskip as [E _].
                 now apply String.eqb_neq in E.
              ** exists (x :: ds). split; [exact Eds|]. split; [discriminate|].
                 exact Eavg.
        -- destruct (IH _ _ _ _ _ _ H) as (extra & -> & Hex).
           exists extra. split; [reflexivity|now apply Hweak].
Qed.

(** A group built around the seed [s]: the file of the seed, followed by
    files that are near it. *)
Definition seeded (threshold : Z) (entries : dict image_entry)
    (key : string) (g : group) : Prop :=
  exists ids s extra,
    In (ids, s) entries /\ key = group_key ids
    /\ files g = file_data s :: extra /\ extra <> []
    /\ Forall (near threshold entries ids s) extra.

Lemma perceptual_outer_seeded (threshold : Z)
    (image_hashes : dict image_entry) (todo : list (string * image_entry)) :
  incl todo image_hashes ->
  forall processed acc d,
    perceptual_outer md5_hexdigest threshold image_hashes todo processed acc
    = Ret d ->
    forall key g, In (key, g) d ->
                  In (key, g) acc \/ seeded threshold image_hashes key g.
Proof.
  induction todo as [|[id1 data1] todo IH]; cbn [perceptual_outer];
    intros Htodo processed acc d H key g Hin.
  - inversion H; subst. now left.
  - assert (Htodo' : incl todo image_hashes).
    { intros x Hx. apply Htodo. now right. }
    destruct (mem id1 processed); [now apply (IH Htodo' _ _ _ H)|].
    destruct (perceptual_inner id1 data1 threshold image_hashes
                [file_data data1] processed []) as [[[s p] la]|e] eqn:Ein;
      cbn [bind] in H; [|discriminate].
    destruct (perceptual_inner_near _ _ _ _ _ _ _ _ _ _ Ein)
      as (extra & -> & Hex).
    destruct (IH Htodo' _ _ _ H key g Hin) as [Hacc|Hs]; [|now right].
    destruct (1 <? len ([file_data data1] ++ extra)%list) eqn:Elen;
      [|now left].
    apply dict_set_in in Hacc. destruct Hacc as [[= -> ->]|Hacc]; [|now left].
    right. exists id1, data1, extra. cbn [files].
    split; [apply Htodo; now left|]. split; [reflexivity|].
    split; [reflexivity|]. split; [|exact Hex].
    intros ->. cbn in Elen. discriminate.
Qed.

(** The images that match the first hashed image join its group. *)
Lemma first_seed_collects
    (self : detector) (l : list file) (idb : string) (b : image_entry)
    (others : list (string * image_entry)) (found : dict group)
    (ida idc : string) (a c : image_entry) :
  collect_image_hashes thumbnail_hashes l = (idb, b) :: others ->
  (forall id e, In (id, e) others -> group_key id <> group_key idb) ->
  _find_perceptual_image_duplicates md5_hexdigest thumbnail_hashes self l
  = Ret found ->
  In (ida, a) others -> In (idc, c) others ->
  matches (image_hash_threshold (cfg self)) a b ->
  matches (image_hash_threshold (cfg self)) b c ->
  exists g, dict_get found (group_key idb) = Some g
            /\ In (file_data a) (files g)
            /\ In (file_data b) (files g)
            /\ In (file_data c) (files g).
Proof.
  intros Hc Hkeys Hrun Ha Hcin Mab Mbc.
  apply matches_sym in Mab.
  pose proof (collect_image_hashes_nodup l) as Hnd. rewrite Hc in Hnd.
  unfold _find_perceptual_image_duplicates in Hrun. rewrite Hc in Hrun.
  cbn [perceptual_outer mem existsb] in Hrun.
  set (thr := image_hash_threshold (cfg self)) in *.
  destruct (perceptual_inner idb b thr ((idb, b) :: others) [file_data b] [] [])
    as [[[s p] la]|e] eqn:Ein; cbn [bind] in Hrun; [|discriminate].
  destruct (perceptual_inner_collects _ _ _ _ _ _ _ _ _ _ Hnd Ein)
    as (extra & -> & Hex).
  assert (Hother : forall id e, In (id, e) others -> id <> idb).
  { intros id e Hin ->. apply (Hkeys idb e Hin). reflexivity. }
  assert (Hina : In (file_data a) extra).
  { apply (Hex ida); [now right|now apply (Hother ida a)|reflexivity|exact Mab]. }
  assert (Hinc : In (file_data c) extra).
  { apply (Hex idc); [now right|now apply (Hother idc c)|reflexivity|exact Mbc]. }
  rewrite (perceptual_outer_keeps (group_key idb) _ _ _ _ _ _ Hkeys Hrun).
  assert (Hlen : (1 <? len ([file_data b] ++ extra)%list)%Z = true).
  { destruct extra as [|x extra]; [contradiction|].
    apply Z.ltb_lt. unfold len. simpl. lia. }
  rewrite Hlen. fold (group_key idb). rewrite dict_get_set, String.eqb_refl.
  eexists. split; [reflexivity|]. cbn [files].
  repeat split.
  - right. exact Hina.
  - now left.
  - right. exact Hinc.
Qed.

(** C4, as amended: a pass groups around a seed, not transitively.  For
    a pass that completes:

    - every group of the result is built around one hashed image, its
      seed: the group is stored under the key of the seed, its first file
      is that of the seed, and every other file is that of a hashed image
      that matches the seed;
    - a hashed image that is not the seed of a group and does not match
      the seed is not in the group, whichever members of the group it
      matches;
    - when [b] is the first hashed image of the pass, every image that
      matches [b] joins the group of [b]: if [a] matches [b] and [b]
      matches [c], then [a], [b] and [c] are members of one group of the
      result, stored under the key of [b], provided the id of no other
      hashed image leads to the same key. *)
Theorem perceptual_group_around_seed
    (self : detector) (l : list file) (found : dict group) :
  _find_perceptual_image_duplicates md5_hexdigest thumbnail_hashes self l
  = Ret found ->
  let threshold := image_hash_threshold (cfg self) in
  let hashed := collect_image_hashes thumbnail_hashes l in
  (forall key g,
     In (key, g) found ->
     exists ids s,
       In (ids, s) hashed /\ key = group_key ids
       /\ hd_error (files g) = Some (file_data s)
       /\ Forall (near threshold hashed ids s) (tl (files g))
       /\ forall idx x,
            In (idx, x) hashed -> idx <> ids -> ~ matches threshold s x ->
            ~ In (file_data x) (files g))
  /\ (forall idb b others ida idc a c,
        hashed = (idb, b) :: others ->
        (forall id e, In (id, e) others -> group_key id <> group_key idb) ->
        In (ida, a) others -> In (idc, c) others ->
        matches threshold a b -> matches threshold b c ->
        exists g, dict_get found (group_key idb) = Some g
                  /\ In (file_data a) (files g)
                  /\ In (file_data b) (files g)
                  /\ In (file_data c) (files g)).
Proof.
  intros Hrun threshold hashed. split.
  - intros key g Hin.
    pose proof (collect_image_hashes_nodup l) as Hnd. fold hashed in Hnd.
    unfold _find_perceptual_image_duplicates in Hrun.
    fold hashed threshold in Hrun.
    destruct (perceptual_outer_seeded threshold hashed hashed
                (incl_refl hashed) _ _ _ Hrun key g Hin)
      as [[]|(ids & s & extra & Hs & Hkey & Hfiles & _ & Hnear)].
    exists ids, s. rewrite Hfiles. cbn [hd_error tl].
    repeat split; try assumption.
    intros idx x Hx Hne Hno [Hseed|Hextra].
    + apply Hne.
      pose proof (collect_image_hashes_ids l ids s Hs) as H1.
      pose proof (collect_image_hashes_ids l idx x Hx) as H2.
      rewrite Hseed in H1. congruence.
    + rewrite Forall_forall in Hnear.
      destruct (Hnear _ Hextra) as (id & d & Hd & Heq & _ & Hm).
      pose proof (collect_image_hashes_ids l id d Hd) as H1.
      pose proof (collect_image_hashes_ids l idx x Hx) as H2.
      rewrite Heq in H2. assert (id = idx) by congruence. subst id.
      apply Hno. now rewrite (entry_unique hashed idx x d Hnd Hx Hd).
  - intros idb b others ida idc a c Hc Hkeys Ha Hcin Mab Mbc.
    now apply (first_seed_collects self l idb b others found ida idc a c).
Qed.

End PerceptualFacts.

(** C8, as amended: what a failure does to a detection run.  When the
    sizes of the scanned files can be read, the run returns a result, and
    its groups are those of a run in which the categories whose handler
    raised are absent: the error is caught category by category, the
    other categories and the cross-category pass still run.  A strategy
    that raises is not skipped on its own: a handler of the class goes
    through exactly when each of its strategies does, so that a category
    is left out as a whole, with the groups its earlier strategies had
    found.  The ["multi"] method of [check_for_duplicate], on the other
    hand, never raises and skips strategy by strategy: its answer is the
    first positive one, and stays the same when a strategy that raised is
    taken out of the list. *)
Theorem strategy_failures_are_skipped
    (fuzz_ratio : string -> string -> Z) (md5_hexdigest : string -> string)
    (py_float : string -> option Q) (py_int : string -> option Z)
    (thumbnail_hashes : string -> option (dict string))
    (FUZZY_AVAILABLE : bool) (self : detector) (l : list file)
    (dcfg : DuplicateDetector.config) (d : DuplicateDetector.detector)
    (new_row : DuplicateDetector.rowobj) (df : DuplicateDetector.DataFrame) :
  Forall (sized py_float) l ->
  DuplicateDetector.method d = "multi"%string ->
  DuplicateDetector.df_empty df = false ->
  (exists r filtered cross,
     detect_all_duplicates fuzz_ratio md5_hexdigest py_float py_int
       FUZZY_AVAILABLE self l = Ret r
     /\ filter_by_size py_float
          (min_file_size_mb (cfg self) * inject_Z 1024 * inject_Z 1024) l
        = Ret filtered
     /\ _detect_cross_category_duplicates py_float
          (_group_files_by_category filtered) = Ret cross
     /\ duplicates r
        = merged fuzz_ratio md5_hexdigest py_float py_int FUZZY_AVAILABLE self
            (filter (handled fuzz_ratio md5_hexdigest py_float py_int
                       FUZZY_AVAILABLE self)
                    (_group_files_by_category filtered))
            cross)
  /\ (forall c cat fs,
        handled fuzz_ratio md5_hexdigest py_float py_int FUZZY_AVAILABLE
          (new fuzz_ratio md5_hexdigest py_float py_int thumbnail_hashes
             FUZZY_AVAILABLE c) (cat, fs)
        = forallb (fun s => negb (raises (s fs)))
            (strategies_of fuzz_ratio md5_hexdigest py_float py_int
               FUZZY_AVAILABLE c cat))
  /\ (let answers :=
        DuplicateDetectorFacts.multi_answers fuzz_ratio md5_hexdigest dcfg d
          new_row df in
      exists o,
        DuplicateDetector.check_for_duplicate fuzz_ratio md5_hexdigest dcfg d
          new_row (Some df) = Ret o
        /\ Ret o = DuplicateDetectorFacts.first_positive answers
        /\ forall pre e post,
             answers = (pre ++ Raise e :: post)%list ->
             Ret o = DuplicateDetectorFacts.first_positive (pre ++ post)).
Proof.
  intros Hl Hm He. split; [|split].
  - now apply detect_all_duplicates_returns.
  - intros c cat fs. apply handler_all_or_nothing.
  - intros answers.
    destruct (DuplicateDetectorFacts.check_for_duplicate_multi_total
                fuzz_ratio md5_hexdigest dcfg d new_row (Some df) Hm)
      as [o Ho].
    exists o. split; [exact Ho|].
    assert (Hfirst : Ret o = DuplicateDetectorFacts.first_positive answers).
    { rewrite <- Ho.
      now apply DuplicateDetectorFacts.check_for_duplicate_multi. }
    split; [exact Hfirst|].
    intros pre e post Hsplit. rewrite Hfirst, Hsplit.
    apply DuplicateDetectorFacts.first_positive_skips.
Qed.

(** ** Concrete runs *)

Definition no_thumbnails (link : string) : option (dict string) := None.

(** The detector of the class with its default configuration. *)
Definition standard : detector :=
  new Fuzz.ratio MD5.hexdigest Parse.py_float Parse.py_int no_thumbnails true
    (_get_default_config true).

Definition run (self : detector) (l : list file) : res result :=
  detect_all_duplicates Fuzz.ratio MD5.hexdigest Parse.py_float Parse.py_int
    true self l.

(** The sample of the module's demo: two documents with one checksum and
    similar names. *)
Definition demo_files : list file :=
  [ [("id", "file1"); ("name", "document.pdf"); ("size", "1048576");
     ("file_category", "document"); ("md5Checksum", "abc123")];
    [("id", "file2"); ("name", "document_copy.pdf"); ("size", "1048576");
     ("file_category", "document"); ("md5Checksum", "abc123")] ]%string.

(** On the demo sample the two files form a checksum group and a
    name-and-size group: two files, four memberships, and the statistic
    says 4. *)
Lemma total_duplicates_counts_memberships_witness :
  exists r,
    run standard demo_files = Ret r
    /\ total_duplicates_found (statistics r)
       = sumZ (map duplicate_count (dict_values (duplicates r)))
    /\ total_duplicates_found (statistics r) = 4%Z
    /\ map (fun kv => (fst kv, map (fun f => get_default f "id" "") (files (snd kv))))
           (duplicates r)
       = [ ("document_hash_abc123", ["file1"; "file2"]);
           ("document_namesize_4e0fc5a5", ["file1"; "file2"]) ]%string.
Proof.
  eexists. split; [vm_compute; reflexivity|].
  split.
  - refine (proj1 (total_duplicates_counts_memberships Fuzz.ratio
                     MD5.hexdigest Parse.py_float Parse.py_int no_thumbnails
                     true standard demo_files _ _)).
    vm_compute. reflexivity.
  - split; vm_compute; reflexivity.
Defined.

(** Two files of category [other] without an [id], beside the demo
    sample: the generic handler raises [KeyError] on them. *)
Definition nameless_files : list file :=
  [ [("name", "notes.txt"); ("size", "2097152"); ("file_category", "other")];
    [("name", "notes2.txt"); ("size", "2097152"); ("file_category", "other")]
  ]%string.

Lemma generic_handler_raises :
  handler_for Fuzz.ratio MD5.hexdigest Parse.py_float Parse.py_int true
    standard "other" nameless_files = Raise KeyError.
Proof. vm_compute. reflexivity. Qed.

Definition title_corpus : DuplicateDetector.DataFrame := {|
  DuplicateDetector.columns := ["Document ID"; "Document Title"]%string;
  DuplicateDetector.rows := [(0%Z, [PStr "DOC-1"; PStr "Annual Report"])]
|}.

Lemma exact_method_raises_on_none :
  DuplicateDetector.check_for_duplicate Fuzz.ratio MD5.hexdigest
    DuplicateDetector.default_config
    (DuplicateDetector.init DuplicateDetector.default_config None
       (Some "exact"%string) None)
    DuplicateDetector.RowNone (Some title_corpus)
  = Raise TypeError.
Proof. vm_compute. reflexivity. Qed.

(** Two files of category [other] with one checksum and one size, and
    without an [id]: the exact-hash strategy and the size strategy each
    find a group, the name strategy between them raises [KeyError]. *)
Definition orphan_files : list file :=
  [ [("name", "notes.txt"); ("size", "2097152"); ("file_category", "other");
     ("md5Checksum", "abc999")];
    [("name", "notes2.txt"); ("size", "2097152"); ("file_category", "other");
     ("md5Checksum", "abc999")] ]%string.

(** C8, counterexample: the strategy that raises is not skipped on its
    own.  On [orphan_files] the first and the third strategy of the
    generic handler find a group each and the second raises; the run
    returns, but it reports no group at all, not the two groups of the
    strategies that went through. *)
Lemma strategy_failure_counterexample :
  exists hash_groups size_groups r,
    _find_exact_hash_matches Parse.py_float orphan_files = Ret hash_groups
    /\ dict_keys hash_groups = ["hash_abc999"]%string
    /\ _find_fuzzy_name_matches Fuzz.ratio MD5.hexdigest Parse.py_float true
         standard orphan_files None = Raise KeyError
    /\ _find_size_based_matches Parse.py_int orphan_files false
       = Ret size_groups
    /\ dict_keys size_groups = ["size_2097152"]%string
    /\ run standard orphan_files = Ret r
    /\ duplicates r = []
    /\ dict_keys (duplicates r)
       <> ["other_hash_abc999"; "other_size_2097152"]%string.
Proof.
  do 3 eexists.
  split; [vm_compute; reflexivity|]. split; [reflexivity|].
  split; [vm_compute; reflexivity|].
  split; [vm_compute; reflexivity|]. split; [reflexivity|].
  split; [vm_compute; reflexivity|]. split; [reflexivity|].
  discriminate.
Qed.

Lemma strategy_failures_are_skipped_witness :
  (exists r,
     run standard (nameless_files ++ demo_files) = Ret r
     /\ dict_keys (duplicates r)
        = ["document_hash_abc123"; "document_namesize_4e0fc5a5"]%string)
  /\ handled Fuzz.ratio MD5.hexdigest Parse.py_float Parse.py_int true
       standard ("other"%string, nameless_files) = false
  /\ DuplicateDetector.check_for_duplicate Fuzz.ratio MD5.hexdigest
       DuplicateDetector.default_config DuplicateDetectorFacts.multi_detector
       DuplicateDetector.RowNone (Some title_corpus)
     = Ret (false, None).
Proof.
  destruct (strategy_failures_are_skipped Fuzz.ratio MD5.hexdigest
              Parse.py_float Parse.py_int no_thumbnails true standard
              (nameless_files ++ demo_files)
              DuplicateDetector.default_config
              DuplicateDetectorFacts.multi_detector
              DuplicateDetector.RowNone title_corpus)
    as [(r & filtered & cross & Hr & _) [Hall (o & Ho & _)]].
  - repeat constructor; eexists; vm_compute; reflexivity.
  - reflexivity.
  - reflexivity.
  - split; [|split].
    + exists r. split; [exact Hr|].
      assert (E : Ret r = run standard (nameless_files ++ demo_files))
        by (symmetry; exact Hr).
      vm_compute in E. injection E as ->. reflexivity.
    + unfold standard.
      rewrite (Hall (_get_default_config true) "other"%string nameless_files).
      vm_compute. reflexivity.
    + rewrite Ho. vm_compute in Ho. rewrite Ho. reflexivity.
Defined.

(** Three images whose hashes form a chain: [a] and [b] differ in five
    digits of every hash, [b] and [c] in five, [a] and [c] in ten. *)
Definition four_hashes (h : string) : dict string :=
  [("phash", h); ("ahash", h); ("dhash", h); ("whash", h)]%string.

Definition chain_thumbnails (link : string) : option (dict string) :=
  if (link =? "thumb/a")%string then Some (four_hashes "0000000000000000")
  else if (link =? "thumb/b")%string then Some (four_hashes "1111100000000000")
  else if (link =? "thumb/c")%string then Some (four_hashes "1111111111000000")
  else None.

Definition image_file (n : string) : file :=
  [("id", n); ("name", n ++ ".png"); ("size", "2097152");
   ("file_category", "image"); ("thumbnailLink", "thumb/" ++ n)]%string.

Definition entry_of (n : string) (h : string) : image_entry :=
  {| file_data := image_file n; hashes := four_hashes h |}.

Definition image_a : image_entry := entry_of "a" "0000000000000000".
Definition image_b : image_entry := entry_of "b" "1111100000000000".
Definition image_c : image_entry := entry_of "c" "1111111111000000".

Lemma chain_matches :
  matches 5 image_a image_b /\ matches 5 image_b image_c.
Proof.
  split; eexists; (split; [vm_compute; reflexivity|]);
    (split; [discriminate|vm_compute; reflexivity]).
Qed.

(** C4, counterexample: scanned in the order [a], [b], [c], the pass puts
    [a] and [b] in one group and leaves [c] in none, although [a] matches
    [b] and [b] matches [c]. *)
Lemma perceptual_chain_counterexample :
  matches 5 image_a image_b /\ matches 5 image_b image_c
  /\ exists found,
       _find_perceptual_image_duplicates MD5.hexdigest chain_thumbnails
         standard [image_file "a"; image_file "b"; image_file "c"]
       = Ret found
       /\ map (fun kv => map (fun f => get_default f "id" "") (files (snd kv)))
              found
          = [["a"; "b"]]%string
       /\ ~ exists g, In g (dict_values found)
                      /\ In (file_data image_a) (files g)
                      /\ In (file_data image_b) (files g)
                      /\ In (file_data image_c) (files g).
Proof.
  split; [apply chain_matches|]. split; [apply chain_matches|].
  eexists. split; [vm_compute; reflexivity|].
  split; [reflexivity|].
  intros (g & Hg & _ & _ & Hc).
  destruct Hg as [<-|[]]. cbn [files] in Hc.
  destruct Hc as [Hc|[Hc|[]]];
    apply (f_equal (fun f => get_default f "id" "")) in Hc;
    vm_compute in Hc; discriminate.
Qed.

(** Scanned with [b] first, the same three images form one group, whose
    seed is [b]. *)
Lemma perceptual_group_around_seed_witness :
  exists g,
    exists found,
      _find_perceptual_image_duplicates MD5.hexdigest chain_thumbnails
        standard [image_file "b"; image_file "a"; image_file "c"]
      = Ret found
      /\ dict_get found (group_key MD5.hexdigest "b") = Some g
      /\ In (file_data image_a) (files g)
      /\ In (file_data image_b) (files g)
      /\ In (file_data image_c) (files g)
      /\ hd_error (files g) = Some (file_data image_b).
Proof.
  assert (Hrun : exists found,
            _find_perceptual_image_duplicates MD5.hexdigest chain_thumbnails
              standard [image_file "b"; image_file "a"; image_file "c"]
            = Ret found) by (eexists; vm_compute; reflexivity).
  destruct Hrun as [found Hrun].
  destruct (perceptual_group_around_seed MD5.hexdigest chain_thumbnails
              standard [image_file "b"; image_file "a"; image_file "c"]
              found Hrun) as [Hseed Hchain].
  destruct (Hchain "b"%string image_b
              [("a"%string, image_a); ("c"%string, image_c)]
              "a"%string "c"%string image_a image_c)
    as (g & Hg & Ha & Hb & Hc).
  - vm_compute. reflexivity.
  - intros id e [[= <- <-]|[[= <- <-]|[]]]; vm_compute; discriminate.
  - now left.
  - right. now left.
  - apply chain_matches.
  - apply chain_matches.
  - exists g, found. repeat split; try assumption.
    assert (E : Ret found
                = _find_perceptual_image_duplicates MD5.hexdigest
                    chain_thumbnails standard
                    [image_file "b"; image_file "a"; image_file "c"])
      by (symmetry; exact Hrun).
    vm_compute in E. injection E as ->.
    vm_compute in Hg. injection Hg as <-. reflexivity.
Defined.

(** ** Concrete rankings *)

Definition sample_file (n : string) : file :=
  [("id", n); ("name", n ++ ".bin"); ("size", "2621440")].

Definition group_of (conf : string) (ty : string) (mbs : option Q)
    (members : list file) : group := {|
  group_type := ty; confidence := conf; files := members;
  duplicate_count := len members; detection_method := ty;
  potential_savings_mb := mbs; content_hash := None;
  similarity_threshold := None; file_size_mb := None;
  avg_hash_distance := None; category := None; categories := None
|}.

(** A high-confidence pair that saves nothing and a low-confidence group
    of twenty files that saves 50 MB. *)
Definition high_pair : group :=
  group_of "high" "perceptual_image" None
    [sample_file "a"; sample_file "b"].

Definition low_crowd : group :=
  group_of "low" "exact_size" (Some 50)
    (map sample_file
       ["c01"; "c02"; "c03"; "c04"; "c05"; "c06"; "c07"; "c08"; "c09"; "c10";
        "c11"; "c12"; "c13"; "c14"; "c15"; "c16"; "c17"; "c18"; "c19"; "c20"])%string.

Definition crowded : dict group :=
  [("perceptual_1", high_pair); ("size_2621440", low_crowd)]%string.

Lemma two_element_order {A : Type} (x y : A) :
  x <> y -> ~ precedes y x [x; y].
Proof.
  intros Hne (l1 & l2 & l3 & H).
  destruct l1 as [|a l1]; simpl in H.
  - inversion H as [[Hx H']]. subst.
    destruct l2 as [|b l2]; simpl in H'.
    + inversion H'. congruence.
    + inversion H' as [[Hb H'']]. destruct l2; discriminate.
  - inversion H as [[Ha H']]. subst.
    destruct l1 as [|b l1]; simpl in H'.
    + inversion H' as [[Hb H'']]. destruct l2; discriminate.
    + inversion H' as [[Hb H'']]. destruct l1; discriminate.
Qed.

(** The ranking function on its own does not put every high group with
    0 MB savings before every low group with 50 MB savings: for this
    hand-built low group of 20 members the scores are 350 and 320.  A
    scan of the class builds no such group. *)
Lemma hand_built_low_group_ranks_first :
  confidence high_pair = "high"%string
  /\ confidence low_crowd = "low"%string
  /\ savings_or_zero high_pair == 0 /\ savings_or_zero low_crowd == 50
  /\ score (rank_entry ("perceptual_1"%string, high_pair)) == 320
  /\ score (rank_entry ("size_2621440"%string, low_crowd)) == 350
  /\ map group_id (_rank_duplicate_groups crowded)
     = ["size_2621440"; "perceptual_1"]%string
  /\ ~ precedes (rank_entry ("perceptual_1"%string, high_pair))
         (rank_entry ("size_2621440"%string, low_crowd))
         (_rank_duplicate_groups crowded).
Proof.
  repeat split; try reflexivity.
  change (_rank_duplicate_groups crowded)
    with [rank_entry ("size_2621440"%string, low_crowd);
          rank_entry ("perceptual_1"%string, high_pair)].
  apply two_element_order.
  intros H. apply (f_equal group_id) in H. discriminate.
Qed.

End AdvancedFacts.

(** * Properties of auto_scaling_sheets.py *)

Module AutoScalingFacts.

Import AutoScalingSheets.

(** The rows below the header that the registry counts over all sheets. *)
Fixpoint data_rows (l : list sheet_info) : Z :=
  match l with
  | [] => 0
  | s :: l' => (rows_used (main s) - 1) + data_rows l'
  end.

Lemma data_rows_app (l1 l2 : list sheet_info) :
  data_rows (l1 ++ l2) = data_rows l1 + data_rows l2.
Proof. induction l1 as [|s l1 IH]; simpl; lia. Qed.

Lemma data_rows_update (n : Z) (l : list sheet_info) :
  forall i s, nth_error l i = Some s ->
              data_rows (update_nth i (fun s => add_rows_used s n) l)
              = data_rows l + n.
Proof.
  induction l as [|x l IH]; intros [|i] s H; simpl in *; try discriminate.
  - lia.
  - rewrite (IH i s H). lia.
Qed.

Lemma nth_error_update_same {A : Type} (f : A -> A) (l : list A) :
  forall i x, nth_error l i = Some x ->
              nth_error (update_nth i f l) i = Some (f x).
Proof.
  induction l as [|y l IH]; intros [|i] x H; simpl in *; try discriminate.
  - now inversion H.
  - now apply IH.
Qed.

Lemma nth_error_update_other {A : Type} (f : A -> A) (l : list A) :
  forall i j, i <> j -> nth_error (update_nth i f l) j = nth_error l j.
Proof.
  induction l as [|y l IH]; intros [|i] [|j] H; simpl; try reflexivity.
  - congruence.
  - apply IH. congruence.
Qed.

Lemma rows_to_add_length (columns : list string) (sheet_id : string)
    (used : Z) (batch : list (dict string)) :
  forall done, len (rows_to_add columns sheet_id used done batch) = len batch.
Proof.
  unfold len. induction batch as [|f batch IH]; intros done; simpl;
    [reflexivity|].
  specialize (IH (done + 1)). lia.
Qed.

(** The insertion of a batch into the sheet [s] goes through: the service
    call does not fail and the spreadsheet exists. *)
Definition write_succeeds (self : manager) (s : sheet_info) : Prop :=
  fst (next_fault (gc self)) = false
  /\ dict_mem (remote (snd (next_fault (gc self)))) (id s) = true.

Lemma next_fault_remote (b : backend) : remote (snd (next_fault b)) = remote b.
Proof. unfold next_fault. destruct (faults b); reflexivity. Qed.

Lemma create_new_sheet_data_rows (self : manager) (suffix : option string)
    (now : string) :
  data_rows (sheets (sheet_registry (snd (create_new_sheet self suffix now))))
  = data_rows (sheets (sheet_registry self)).
Proof.
  unfold create_new_sheet. destruct (next_fault (gc self)) as [[|] b]; simpl.
  - reflexivity.
  - rewrite data_rows_app. simpl. lia.
Qed.

Lemma get_current_sheet_data_rows (self : manager) (now : string) :
  data_rows (sheets (sheet_registry (snd (get_current_sheet self now))))
  = data_rows (sheets (sheet_registry self)).
Proof.
  unfold get_current_sheet.
  destruct (sheets (sheet_registry self)) as [|s0 l0] eqn:Es.
  - pose proof (create_new_sheet_data_rows self None now) as H.
    destruct (create_new_sheet self None now) as [[info|e] self'];
      simpl in *; rewrite H, Es; reflexivity.
  - rewrite <- Es.
    destruct (nth_error (sheets (sheet_registry self))
                (current_sheet_index (sheet_registry self))) as [cur|];
      [|reflexivity].
    destruct (max_rows (main cur)) as [m|]; [|reflexivity].
    destruct (m <=? rows_used (main cur)); [|reflexivity].
    pose proof (create_new_sheet_data_rows self None now) as H.
    destruct (create_new_sheet self None now) as [[info|e] self'];
      simpl in *; exact H.
Qed.

Lemma insert_batch_spec (self : manager) (i : nat)
    (batch : list (dict string)) (s : sheet_info) :
  nth_error (sheets (sheet_registry self)) i = Some s ->
  (write_succeeds self s ->
   exists self',
     insert_batch self i batch = (Some (len batch), self')
     /\ sheets (sheet_registry self')
        = update_nth i (fun s => add_rows_used s (len batch))
            (sheets (sheet_registry self)))
  /\ (~ write_succeeds self s ->
      exists self',
        insert_batch self i batch = (None, self')
        /\ sheet_registry self' = sheet_registry self
        /\ remote (gc self') = remote (gc self)).
Proof.
  intros Hs. unfold write_succeeds, insert_batch, dict_mem. rewrite Hs.
  pose proof (next_fault_remote (gc self)) as Hr.
  destruct (next_fault (gc self)) as [fault b]. cbn [fst snd] in *.
  split.
  - intros [-> Hm].
    destruct (dict_get (remote b) (id s)) as [cells|]; [|discriminate].
    rewrite rows_to_add_length. eexists. split; reflexivity.
  - intros Hn. destruct fault.
    + eexists. repeat split. exact Hr.
    + destruct (dict_get (remote b) (id s)) as [cells|].
      * exfalso. apply Hn. now split.
      * eexists. repeat split. exact Hr.
Qed.

Lemma insert_batch_data_rows (self : manager) (i : nat)
    (batch : list (dict string)) :
  data_rows (sheets (sheet_registry (snd (insert_batch self i batch))))
  = data_rows (sheets (sheet_registry self))
    + match fst (insert_batch self i batch) with
      | Some n => n
      | None => 0
      end.
Proof.
  unfold insert_batch.
  destruct (nth_error (sheets (sheet_registry self)) i) as [s|] eqn:Hs;
    [|simpl; lia].
  destruct (next_fault (gc self)) as [[|] b]; [simpl; lia|].
  destruct (dict_get (remote b) (id s)) as [cells|]; [|simpl; lia].
  simpl. now rewrite (data_rows_update _ _ i s Hs).
Qed.

Lemma add_batches_data_rows (now : string) (todo : list (list (dict string))) :
  forall self total used total' used' self',
    add_batches self now todo total used = (Ret (total', used'), self') ->
    data_rows (sheets (sheet_registry self')) - total'
    = data_rows (sheets (sheet_registry self)) - total.
Proof.
  induction todo as [|batch todo IH]; cbn [add_batches];
    intros self total used total' used' self' H.
  - inversion H; subst. reflexivity.
  - pose proof (get_current_sheet_data_rows self now) as Hg.
    destruct (get_current_sheet self now) as [[i|e] self1]; [|discriminate].
    cbn [snd] in Hg.
    pose proof (insert_batch_data_rows self1 i batch) as Hi.
    destruct (insert_batch self1 i batch) as [[n|] self2]; cbn [fst snd] in Hi;
      apply IH in H; lia.
Qed.

Lemma create_new_sheet_total_rows (self : manager) (suffix : option string)
    (now : string) :
  total_rows_used (sheet_registry (snd (create_new_sheet self suffix now)))
  = total_rows_used (sheet_registry self).
Proof.
  unfold create_new_sheet. destruct (next_fault (gc self)) as [[|] b];
    reflexivity.
Qed.

Lemma get_current_sheet_total_rows (self : manager) (now : string) :
  total_rows_used (sheet_registry (snd (get_current_sheet self now)))
  = total_rows_used (sheet_registry self).
Proof.
  unfold get_current_sheet.
  pose proof (create_new_sheet_total_rows self None now) as H.
  destruct (sheets (sheet_registry self)) as [|s0 l0].
  - destruct (create_new_sheet self None now) as [[info|e] self'];
      simpl in *; exact H.
  - destruct (nth_error (s0 :: l0)
                (current_sheet_index (sheet_registry self))) as [cur|];
      [|reflexivity].
    destruct (max_rows (main cur)) as [m|]; [|reflexivity].
    destruct (m <=? rows_used (main cur)); [|reflexivity].
    destruct (create_new_sheet self None now) as [[info|e] self'];
      simpl in *; exact H.
Qed.

Lemma insert_batch_total_rows (self : manager) (i : nat)
    (batch : list (dict string)) :
  total_rows_used (sheet_registry (snd (insert_batch self i batch)))
  = total_rows_used (sheet_registry self).
Proof.
  unfold insert_batch.
  destruct (nth_error (sheets (sheet_registry self)) i) as [s|];
    [|reflexivity].
  destruct (next_fault (gc self)) as [[|] b]; [reflexivity|].
  destruct (dict_get (remote b) (id s)); reflexivity.
Qed.

Lemma add_batches_total_rows (now : string) (todo : list (list (dict string))) :
  forall self total used total' used' self',
    add_batches self now todo total used = (Ret (total', used'), self') ->
    total_rows_used (sheet_registry self')
    = total_rows_used (sheet_registry self).
Proof.
  induction todo as [|batch todo IH]; cbn [add_batches];
    intros self total used total' used' self' H.
  - now inversion H.
  - pose proof (get_current_sheet_total_rows self now) as Hg.
    destruct (get_current_sheet self now) as [[i|e] self1]; [|discriminate].
    cbn [snd] in Hg.
    pose proof (insert_batch_total_rows self1 i batch) as Hi.
    destruct (insert_batch self1 i batch) as [[n|] self2]; cbn [snd] in Hi;
      apply IH in H; congruence.
Qed.


Definition two_files : list (dict string) :=
  [ [("file_id", "f1"); ("name", "a.txt")];
    [("file_id", "f2"); ("name", "b.txt")] ]%string.

(** A manager with one registered sheet and a service whose next call
    goes through. *)
Definition ready_manager : manager :=
  snd (create_new_sheet
         (init "Drive_Metadata_Tracking" {| remote := []; faults := [] |} "t0")
         None "t0").

Definition first_sheet : sheet_info :=
  match sheets (sheet_registry ready_manager) with
  | s :: _ => s
  | [] => {| name := ""; id := ""; url := "";
             main := {| ws_name := ""; rows_used := 0; max_rows := None |};
             duplicates_ws := {| ws_name := ""; rows_used := 0; max_rows := None |};
             summary_ws := {| ws_name := ""; rows_used := 0; max_rows := None |};
             cross_ref := {| ws_name := ""; rows_used := 0; max_rows := None |};
             created_at := ""; status := "" |}
  end.


(** The same batch against a service whose next call fails: nothing is
    counted. *)
Definition failing_manager : manager :=
  with_state ready_manager (sheet_registry ready_manager)
    {| remote := remote (gc ready_manager); faults := [true] |}.

Lemma failed_write_counts_nothing :
  sheet_registry (snd (insert_batch failing_manager 0 two_files))
  = sheet_registry failing_manager
  /\ fst (insert_batch failing_manager 0 two_files) = None.
Proof. split; reflexivity. Qed.

End AutoScalingFacts.

(** * Properties of multi_sheet_manager.py *)

Module MultiSheetFacts.

Import MultiSheetManager.

(** The row has a cell that is not blank, so [get_sheet_row_count] counts
    it. *)
Definition filled (r : list string) : Prop := row_filled r = true.

Lemma filter_filled (rows : list (list string)) :
  Forall filled rows -> filter row_filled rows = rows.
Proof.
  induction 1 as [|r rows Hr _ IH]; simpl; [reflexivity|].
  unfold filled in Hr. now rewrite Hr, IH.
Qed.

Lemma skipn_beyond {A : Type} (l : list A) (n : nat) :
  (List.length l <= n)%nat -> skipn n l = [].
Proof. intros H. apply skipn_all2. exact H. Qed.

Lemma write_rows_append (cells data : list (list string)) :
  write_rows cells (len cells + 1) data = (cells ++ data)%list.
Proof.
  unfold write_rows, len.
  replace (Z.to_nat (Z.of_nat (List.length cells) + 1 - 1)) with (List.length cells) by lia.
  rewrite firstn_all, Nat.sub_diag, skipn_beyond by lia.
  simpl. now rewrite app_nil_r.
Qed.

Lemma Forall_take {A : Type} (P : A -> Prop) (l : list A) :
  forall n, Forall P l -> Forall P (firstn n l).
Proof.
  induction l as [|x l IH]; intros [|n] H; simpl; try constructor;
    inversion H; subst; auto.
Qed.

Lemma Forall_drop {A : Type} (P : A -> Prop) (l : list A) :
  forall n, Forall P l -> Forall P (skipn n l).
Proof.
  induction l as [|x l IH]; intros [|n] H; simpl; auto.
  inversion H; subst; auto.
Qed.

Lemma batches_single {A : Type} (l : list A) (n : nat) :
  l <> [] -> (List.length l <= n)%nat -> batches (List.length l) n l = [l].
Proof.
  intros Hne Hn. destruct l as [|x l]; [congruence|].
  cbn [List.length batches].
  rewrite firstn_all2 by exact Hn.
  rewrite skipn_beyond by exact Hn.
  destruct (List.length l); reflexivity.
Qed.

Section Overflow.

Variables (N MAXS : Z) (ts base : string) (hdr : list string).
Hypothesis Hhdr : filled hdr.

Definition fresh : manager :=
  {| base_name := base; headers := hdr; current_spreadsheet := None;
     current_worksheet := None; client := [] |}.

Definition one_tab (cs : list (list string)) : drive :=
  [ {| ss_title := base ++ "_" ++ ts;
       worksheets := [ {| title := "Data_001"; cells := cs |} ] |} ].

Definition two_tabs (cs cs2 : list (list string)) : drive :=
  [ {| ss_title := base ++ "_" ++ ts;
       worksheets := [ {| title := "Data_001"; cells := cs |};
                       {| title := "Data_" ++ ts; cells := cs2 |} ] |} ].

Definition at_tab (w : wsref) (dr : drive) : manager :=
  {| base_name := base; headers := hdr; current_spreadsheet := Some 0%nat;
     current_worksheet := Some w; client := dr |}.

Lemma first_call_creates :
  get_or_create_spreadsheet N MAXS ts fresh false
  = (Some 0%nat, at_tab (0%nat, 0%nat) (one_tab [hdr])).
Proof. reflexivity. Qed.

Lemma count_filled (cs : list (list string)) :
  Forall filled cs -> len (filter row_filled cs) = len cs.
Proof. intros H. now rewrite filter_filled. Qed.

Lemma write_first_tab (cs : list (list string)) (rows : list data_row)
    (r : results) :
  Forall filled cs ->
  write_current (at_tab (0%nat, 0%nat) (one_tab cs)) 0 rows r
  = (record_write r true (len rows)
       (at_tab (0%nat, 0%nat) (one_tab (cs ++ map format_row rows))) 0,
     at_tab (0%nat, 0%nat) (one_tab (cs ++ map format_row rows))).
Proof.
  intros Hcs. unfold write_current, batch_update_sheet, get_sheet_row_count.
  cbn -[write_rows filter len record_write].
  rewrite (count_filled cs Hcs), write_rows_append. reflexivity.
Qed.

Lemma write_second_tab (cs cs2 : list (list string)) (rows : list data_row)
    (r : results) :
  Forall filled cs2 ->
  write_current (at_tab (0%nat, 1%nat) (two_tabs cs cs2)) 0 rows r
  = (record_write r true (len rows)
       (at_tab (0%nat, 1%nat) (two_tabs cs (cs2 ++ map format_row rows))) 0,
     at_tab (0%nat, 1%nat) (two_tabs cs (cs2 ++ map format_row rows))).
Proof.
  intros Hcs. unfold write_current, batch_update_sheet, get_sheet_row_count.
  cbn -[write_rows filter len record_write].
  rewrite (count_filled cs2 Hcs), write_rows_append. reflexivity.
Qed.

Lemma full_tab_opens_second (cs : list (list string)) :
  Forall filled cs -> N <= len cs ->
  next_worksheet N MAXS ts (at_tab (0%nat, 0%nat) (one_tab cs)) 0
  = (0%nat, at_tab (0%nat, 1%nat) (two_tabs cs [hdr])).
Proof.
  intros Hcs Hfull.
  unfold next_worksheet, find_available_sheet, is_sheet_full.
  cbn -[filter len Z.leb write_rows].
  unfold is_sheet_full, get_sheet_row_count.
  cbn -[filter len Z.leb write_rows].
  rewrite (count_filled cs Hcs).
  replace (N <=? len cs) with true by (symmetry; apply Z.leb_le; exact Hfull).
  cbn -[filter len Z.leb write_rows]. reflexivity.
Qed.


(** The second partition in a spreadsheet of its own. *)
Definition two_books (cs cs2 : list (list string)) : drive :=
  [ {| ss_title := base ++ "_" ++ ts;
       worksheets := [ {| title := "Data_001"; cells := cs |} ] |};
    {| ss_title := base ++ "_" ++ ts;
       worksheets := [ {| title := "Data_001"; cells := cs2 |} ] |} ].

Definition at_book (dr : drive) : manager :=
  {| base_name := base; headers := hdr; current_spreadsheet := Some 1%nat;
     current_worksheet := Some (1%nat, 0%nat); client := dr |}.

(** The manager at its second partition: the second tab of the first
    spreadsheet, or the first tab of a second spreadsheet. *)
Definition second (far : bool) (cs cs2 : list (list string)) : manager :=
  if far then at_book (two_books cs cs2)
  else at_tab (0%nat, 1%nat) (two_tabs cs cs2).

Definition book (far : bool) : nat := if far then 1%nat else 0%nat.

(** The rows counted as successful grow by [n], none is counted as
    failed. *)
Definition written (r r' : results) (n : Z) : Prop :=
  successful_rows r' = successful_rows r + n
  /\ failed_rows r' = failed_rows r.

Lemma written_record (r : results) (n : Z) (self : manager) (ss : nat) :
  written r (record_write r true n self ss) n.
Proof. split; reflexivity. Qed.

Lemma written_trans (r r' r'' : results) (n n' : Z) :
  written r r' n -> written r' r'' n' -> written r r'' (n + n').
Proof. unfold written. intros [H1 H2] [H3 H4]. lia. Qed.

Lemma not_full (cs : list (list string)) :
  Forall filled cs -> len cs < N ->
  (N <=? len (filter row_filled cs)) = false.
Proof. intros Hcs H. rewrite (count_filled cs Hcs). apply Z.leb_gt. exact H. Qed.

Lemma is_full (cs : list (list string)) :
  Forall filled cs -> N <= len cs ->
  (N <=? len (filter row_filled cs)) = true.
Proof. intros Hcs H. rewrite (count_filled cs Hcs). apply Z.leb_le. exact H. Qed.

(** A manager whose only tab has room stays there. *)
Lemma stay_first (cs : list (list string)) :
  Forall filled cs -> len cs < N ->
  get_or_create_spreadsheet N MAXS ts (at_tab (0%nat, 0%nat) (one_tab cs)) false
  = (Some 0%nat, at_tab (0%nat, 0%nat) (one_tab cs)).
Proof.
  intros Hcs Hroom.
  unfold get_or_create_spreadsheet, _spreadsheet_has_capacity,
    find_available_sheet, is_sheet_full.
  cbn -[filter len Z.leb write_rows].
  unfold is_sheet_full, get_sheet_row_count.
  cbn -[filter len Z.leb write_rows].
  rewrite (not_full cs Hcs Hroom).
  destruct (MAXS <=? 1); reflexivity.
Qed.

(** A manager whose only tab is full opens a tab without header when the
    spreadsheet may take one, and a new spreadsheet otherwise. *)
Lemma leave_first (cs : list (list string)) :
  Forall filled cs -> N <= len cs ->
  get_or_create_spreadsheet N MAXS ts (at_tab (0%nat, 0%nat) (one_tab cs)) false
  = (Some (book (MAXS <=? 1)),
     second (MAXS <=? 1) cs (if MAXS <=? 1 then [hdr] else [])).
Proof.
  intros Hcs Hfull.
  unfold get_or_create_spreadsheet, _spreadsheet_has_capacity,
    find_available_sheet, is_sheet_full.
  cbn -[filter len Z.leb write_rows].
  unfold is_sheet_full, get_sheet_row_count.
  cbn -[filter len Z.leb write_rows].
  rewrite (is_full cs Hcs Hfull).
  destruct (MAXS <=? 1); reflexivity.
Qed.

Lemma stay_second (far : bool) (cs cs2 : list (list string)) :
  Forall filled cs -> N <= len cs -> Forall filled cs2 -> len cs2 < N ->
  get_or_create_spreadsheet N MAXS ts (second far cs cs2) false
  = (Some (book far), second far cs cs2).
Proof.
  intros Hcs Hfull Hcs2 Hroom. destruct far.
  - unfold second, get_or_create_spreadsheet, _spreadsheet_has_capacity,
      find_available_sheet, is_sheet_full.
    cbn -[filter len Z.leb write_rows].
    unfold is_sheet_full, get_sheet_row_count.
    cbn -[filter len Z.leb write_rows].
    rewrite (not_full cs2 Hcs2 Hroom).
    destruct (MAXS <=? 1); reflexivity.
  - unfold second, get_or_create_spreadsheet, _spreadsheet_has_capacity,
      find_available_sheet, is_sheet_full.
    cbn -[filter len Z.leb write_rows].
    unfold is_sheet_full, get_sheet_row_count.
    cbn -[filter len Z.leb write_rows].
    rewrite (is_full cs Hcs Hfull), (not_full cs2 Hcs2 Hroom).
    destruct (MAXS <=? 2); reflexivity.
Qed.

Lemma write_second (far : bool) (cs cs2 : list (list string))
    (rows : list data_row) (r : results) (ss : nat) :
  Forall filled cs2 ->
  write_current (second far cs cs2) ss rows r
  = (record_write r true (len rows)
       (second far cs (cs2 ++ map format_row rows)) ss,
     second far cs (cs2 ++ map format_row rows)).
Proof.
  intros Hcs. destruct far.
  - unfold second, write_current, batch_update_sheet, get_sheet_row_count.
    cbn -[write_rows filter len record_write].
    rewrite (count_filled cs2 Hcs), write_rows_append. reflexivity.
  - unfold second, write_current, batch_update_sheet, get_sheet_row_count.
    cbn -[write_rows filter len record_write].
    rewrite (count_filled cs2 Hcs), write_rows_append. reflexivity.
Qed.

Lemma row_count_first (cs : list (list string)) :
  Forall filled cs ->
  get_sheet_row_count (one_tab cs) (0%nat, 0%nat) = len cs.
Proof.
  intros Hcs. unfold get_sheet_row_count. cbn -[filter len].
  now apply count_filled.
Qed.

Lemma row_count_second (far : bool) (cs cs2 : list (list string)) :
  Forall filled cs2 ->
  get_sheet_row_count (client (second far cs cs2))
    (book far, if far then 0%nat else 1%nat) = len cs2.
Proof.
  intros Hcs. destruct far; unfold get_sheet_row_count; cbn -[filter len];
    now apply count_filled.
Qed.

Lemma formatted_filled (rows : list data_row) :
  Forall (fun r => filled (format_row r)) rows ->
  Forall filled (map format_row rows).
Proof. intros H. apply Forall_map. exact H. Qed.

(** ** One chunk *)

(** The chunk fits in the first partition. *)
Lemma chunk_fits_first (cs : list (list string)) (chunk : list data_row)
    (r : results) :
  Forall filled cs -> len cs < N -> len cs + len chunk <= N ->
  exists r',
    add_chunk N MAXS ts (at_tab (0%nat, 0%nat) (one_tab cs)) chunk r
    = (r', at_tab (0%nat, 0%nat) (one_tab (cs ++ map format_row chunk)))
    /\ written r r' (len chunk).
Proof.
  intros Hcs Hroom Hfit. unfold add_chunk.
  rewrite (stay_first cs Hcs Hroom).
  cbn [current_worksheet at_tab client].
  rewrite (row_count_first cs Hcs).
  replace (N <? len cs + len chunk) with false
    by (symmetry; apply Z.ltb_ge; lia).
  rewrite (write_first_tab cs chunk r Hcs).
  eexists. split; [reflexivity|apply written_record].
Qed.

(** The chunk overflows the first partition: it is split, and the
    remainder goes to a new tab, below a header row. *)
Lemma chunk_split (cs : list (list string)) (chunk : list data_row)
    (r : results) :
  Forall filled cs -> Forall (fun x => filled (format_row x)) chunk ->
  len cs < N -> N < len cs + len chunk ->
  let m := Z.to_nat (N - len cs) in
  exists r',
    add_chunk N MAXS ts (at_tab (0%nat, 0%nat) (one_tab cs)) chunk r
    = (r', second false (cs ++ map format_row (firstn m chunk))
             (hdr :: map format_row (skipn m chunk)))
    /\ written r r' (len chunk).
Proof.
  intros Hcs Hchunk Hroom Hover m. unfold add_chunk.
  rewrite (stay_first cs Hcs Hroom).
  cbn [current_worksheet at_tab client].
  rewrite (row_count_first cs Hcs).
  replace (N <? len cs + len chunk) with true
    by (symmetry; apply Z.ltb_lt; lia).
  replace (0 <? N - len cs) with true by (symmetry; apply Z.ltb_lt; lia).
  fold m.
  assert (Hfit : len (firstn m chunk) = N - len cs).
  { unfold len in *. rewrite length_firstn. lia. }
  assert (Hrest : len (skipn m chunk) = len cs + len chunk - N).
  { unfold len in *. rewrite length_skipn. lia. }
  rewrite (write_first_tab cs (firstn m chunk) r Hcs).
  destruct (skipn m chunk) as [|x rest] eqn:Er.
  { cbn in Hrest. lia. }
  rewrite <- Er in *.
  rewrite full_tab_opens_second.
  2: { apply Forall_app. split; [exact Hcs|].
       apply formatted_filled. now apply Forall_take. }
  2: { unfold len in *. rewrite length_app, length_map. lia. }
  rewrite (write_second_tab _ [hdr]) by (now repeat constructor).
  eexists. split; [reflexivity|].
  replace (len chunk) with (len (firstn m chunk) + len (skipn m chunk))
    by lia.
  eapply written_trans; apply written_record.
Qed.

(** The first partition is full when the chunk arrives: a new partition
    is opened for it before the chunk is looked at, without header when
    it is a tab. *)
Lemma chunk_on_boundary (cs : list (list string)) (chunk : list data_row)
    (r : results) :
  Forall filled cs -> N <= len cs ->
  let far := MAXS <=? 1 in
  let lead := if far then [hdr] else [] in
  len lead + len chunk <= N ->
  exists r',
    add_chunk N MAXS ts (at_tab (0%nat, 0%nat) (one_tab cs)) chunk r
    = (r', second far cs (lead ++ map format_row chunk))
    /\ written r r' (len chunk).
Proof.
  intros Hcs Hfull far lead Hfit. unfold add_chunk.
  rewrite (leave_first cs Hcs Hfull). fold far. fold lead.
  assert (Hlead : Forall filled lead).
  { unfold lead. destruct far; now repeat constructor. }
  assert (Hw : current_worksheet (second far cs lead)
               = Some (book far, if far then 0%nat else 1%nat)).
  { destruct far; reflexivity. }
  rewrite Hw, (row_count_second far cs lead Hlead).
  replace (N <? len lead + len chunk) with false
    by (symmetry; apply Z.ltb_ge; lia).
  rewrite (write_second far cs lead chunk r _ Hlead).
  eexists. split; [reflexivity|apply written_record].
Qed.

(** The chunk fits in the second partition. *)
Lemma chunk_fits_second (far : bool) (cs cs2 : list (list string))
    (chunk : list data_row) (r : results) :
  Forall filled cs -> N <= len cs -> Forall filled cs2 -> len cs2 < N ->
  len cs2 + len chunk <= N ->
  exists r',
    add_chunk N MAXS ts (second far cs cs2) chunk r
    = (r', second far cs (cs2 ++ map format_row chunk))
    /\ written r r' (len chunk).
Proof.
  intros Hcs Hfull Hcs2 Hroom Hfit. unfold add_chunk.
  rewrite (stay_second far cs cs2 Hcs Hfull Hcs2 Hroom).
  assert (Hw : current_worksheet (second far cs cs2)
               = Some (book far, if far then 0%nat else 1%nat)).
  { destruct far; reflexivity. }
  rewrite Hw, (row_count_second far cs cs2 Hcs2).
  replace (N <? len cs2 + len chunk) with false
    by (symmetry; apply Z.ltb_ge; lia).
  rewrite (write_second far cs cs2 chunk r _ Hcs2).
  eexists. split; [reflexivity|apply written_record].
Qed.

(** ** The chunks of a call *)

Variable chunk_size : Z.
Hypothesis Hchunk : 0 < chunk_size.

Lemma len_take (rows : list data_row) :
  len (firstn (Z.to_nat chunk_size) rows) = Z.min chunk_size (len rows).
Proof. unfold len. rewrite length_firstn. lia. Qed.

Lemma len_drop (rows : list data_row) :
  len (skipn (Z.to_nat chunk_size) rows)
  = Z.max 0 (len rows - chunk_size).
Proof. unfold len. rewrite length_skipn. lia. Qed.

(** The chunks that follow the overflow fill the second partition. *)
Lemma fill_second (far : bool) (cs : list (list string)) :
  Forall filled cs -> N <= len cs ->
  forall (fuel : nat) (data : list data_row) (cs2 : list (list string))
         (r : results),
    (List.length data <= fuel)%nat ->
    Forall filled cs2 ->
    Forall (fun x => filled (format_row x)) data ->
    data = [] \/ len cs2 + len data <= N ->
    exists r',
      add_chunks N MAXS ts (second far cs cs2)
        (batches fuel (Z.to_nat chunk_size) data) r
      = (r', second far cs (cs2 ++ map format_row data))
      /\ written r r' (len data).
Proof.
  intros Hcs Hfull.
  induction fuel as [|fuel IH]; intros data cs2 r Hfuel Hcs2 Hdata Hfit.
  - destruct data; [|simpl in Hfuel; lia].
    exists r. cbn. rewrite app_nil_r. split; [reflexivity|].
    split; cbn; lia.
  - destruct data as [|x data'] eqn:Ed.
    { exists r. cbn. rewrite app_nil_r. split; [reflexivity|].
      split; cbn; lia. }
    rewrite <- Ed in *.
    assert (Hne : 0 < len data).
    { rewrite Ed. unfold len. cbn [List.length]. lia. }
    destruct Hfit as [Hnil|Hfit]; [rewrite Hnil in Hne; cbn in Hne; lia|].
    assert (Hb : batches (S fuel) (Z.to_nat chunk_size) data
                 = firstn (Z.to_nat chunk_size) data
                   :: batches fuel (Z.to_nat chunk_size)
                        (skipn (Z.to_nat chunk_size) data)).
    { rewrite Ed. reflexivity. }
    rewrite Hb. cbn [add_chunks].
    pose proof (len_take data) as Ht. pose proof (len_drop data) as Hd.
    destruct (chunk_fits_second far cs cs2
                (firstn (Z.to_nat chunk_size) data) r Hcs Hfull Hcs2)
      as (r1 & E1 & W1); [lia|lia|].
    rewrite E1.
    destruct (IH (skipn (Z.to_nat chunk_size) data)
                (cs2 ++ map format_row (firstn (Z.to_nat chunk_size) data))%list
                r1) as (r2 & E2 & W2).
    + rewrite length_skipn. unfold len in *. lia.
    + apply Forall_app. split; [exact Hcs2|].
      apply formatted_filled. now apply Forall_take.
    + now apply Forall_drop.
    + right. unfold len in *. rewrite length_app, length_map.
      rewrite length_firstn, length_skipn in *. lia.
    + exists r2. rewrite E2. split.
      * rewrite <- app_assoc, <- map_app, firstn_skipn. reflexivity.
      * replace (len data)
          with (len (firstn (Z.to_nat chunk_size) data)
                + len (skipn (Z.to_nat chunk_size) data)) by lia.
        eapply written_trans; eassumption.
Qed.

(** Whether the ceiling falls between two chunks, for a first partition
    with [rows] rows. *)
Definition on_boundary (rows : Z) : bool := (N - rows) mod chunk_size =? 0.

(** The header row of the second partition. *)
Definition lead (rows : Z) : list (list string) :=
  if on_boundary rows && (1 <? MAXS) then [] else [hdr].

Definition far (rows : Z) : bool := on_boundary rows && (MAXS <=? 1).

Lemma firstn_add {A : Type} (a b : nat) (l : list A) :
  firstn (a + b) l = (firstn a l ++ firstn b (skipn a l))%list.
Proof.
  revert l. induction a as [|a IH]; intros [|x l]; simpl;
    try reflexivity.
  - now rewrite firstn_nil.
  - now rewrite IH.
Qed.

(** The chunks of a batch that does not fit in the first partition. *)
Lemma fill_first :
  forall (fuel : nat) (data : list data_row) (cs : list (list string))
         (r : results),
    (List.length data <= fuel)%nat ->
    Forall filled cs ->
    Forall (fun x => filled (format_row x)) data ->
    len cs <= N -> N < len cs + len data ->
    len cs + len data + 1 <= 2 * N
    \/ (len data <= chunk_size /\ len cs < N) ->
    let m := Z.to_nat (N - len cs) in
    exists r',
      add_chunks N MAXS ts (at_tab (0%nat, 0%nat) (one_tab cs))
        (batches fuel (Z.to_nat chunk_size) data) r
      = (r', second (far (len cs))
               (cs ++ map format_row (firstn m data))
               (lead (len cs) ++ map format_row (skipn m data)))
      /\ written r r' (len data).
Proof.
  induction fuel as [|fuel IH];
    intros data cs r Hfuel Hcs Hdata Hle Hover Hfit m.
  - destruct data; [cbn in Hover; lia|simpl in Hfuel; lia].
  - destruct data as [|x data'] eqn:Ed; [cbn in Hover; lia|].
    rewrite <- Ed in *.
    assert (Hb : batches (S fuel) (Z.to_nat chunk_size) data
                 = firstn (Z.to_nat chunk_size) data
                   :: batches fuel (Z.to_nat chunk_size)
                        (skipn (Z.to_nat chunk_size) data)).
    { rewrite Ed. reflexivity. }
    rewrite Hb. cbn [add_chunks].
    set (chunk := firstn (Z.to_nat chunk_size) data) in *.
    set (rest := skipn (Z.to_nat chunk_size) data) in *.
    pose proof (len_take data) as Ht. fold chunk in Ht.
    pose proof (len_drop data) as Hd. fold rest in Hd.
    assert (Hsplit : data = (chunk ++ rest)%list).
    { unfold chunk, rest. now rewrite firstn_skipn. }
    assert (Hfrest : Forall (fun x => filled (format_row x)) rest).
    { unfold rest. now apply Forall_drop. }
    assert (Hfchunk : Forall (fun x => filled (format_row x)) chunk).
    { unfold chunk. now apply Forall_take. }
    assert (Hlrest : (List.length rest <= fuel)%nat).
    { unfold rest. rewrite length_skipn. lia. }
    destruct (Z.eq_dec (len cs) N) as [Hfull|Hroom'].
    + (* the first partition is full *)
      destruct Hfit as [Hfit|[_ Hfit]]; [|lia].
      assert (Hbnd : on_boundary (len cs) = true).
      { unfold on_boundary. rewrite Hfull, Z.sub_diag, Z.mod_0_l by lia.
        reflexivity. }
      assert (Hfar : far (len cs) = (MAXS <=? 1)).
      { unfold far. now rewrite Hbnd. }
      assert (Hlead : lead (len cs) = if MAXS <=? 1 then [hdr] else []).
      { unfold lead. rewrite Hbnd, Z.ltb_antisym. cbn [andb].
        destruct (MAXS <=? 1); reflexivity. }
      assert (Hllead : len (lead (len cs)) <= 1).
      { rewrite Hlead. destruct (MAXS <=? 1); cbn; lia. }
      assert (Hflead : Forall filled (lead (len cs))).
      { rewrite Hlead. destruct (MAXS <=? 1); now repeat constructor. }
      destruct (chunk_on_boundary cs chunk r Hcs) as (r1 & E1 & W1);
        [lia|rewrite <- Hlead; lia|].
      rewrite <- Hlead, <- Hfar in E1. rewrite E1.
      destruct (fill_second (far (len cs)) cs Hcs ltac:(lia) fuel rest
                  (lead (len cs) ++ map format_row chunk)%list r1)
        as (r2 & E2 & W2); try assumption.
      * apply Forall_app. split; [exact Hflead|].
        now apply formatted_filled.
      * right. unfold len in *. rewrite length_app, length_map. lia.
      * exists r2. rewrite E2. split.
        -- unfold m. rewrite Hfull, Z.sub_diag. cbn [Z.to_nat firstn skipn map].
           rewrite app_nil_r, <- app_assoc, <- map_app, <- Hsplit.
           reflexivity.
        -- replace (len data) with (len chunk + len rest) by lia.
           eapply written_trans; eassumption.
    + destruct (Z_le_gt_dec (len cs + len chunk) N) as [Hin|Hout].
      * (* the chunk fits *)
        destruct Hfit as [Hfit|[Hone _]]; [|lia].
        destruct (chunk_fits_first cs chunk r Hcs) as (r1 & E1 & W1);
          [lia|lia|].
        rewrite E1.
        assert (Hlc : len chunk = chunk_size) by lia.
        destruct (IH rest (cs ++ map format_row chunk)%list r1)
          as (r2 & E2 & W2); try assumption.
        -- apply Forall_app. split; [exact Hcs|].
           now apply formatted_filled.
        -- unfold len in *. rewrite length_app, length_map. lia.
        -- unfold len in *. rewrite length_app, length_map. lia.
        -- left. unfold len in *. rewrite length_app, length_map. lia.
        -- assert (Hlen' : len (cs ++ map format_row chunk)
                           = len cs + chunk_size).
           { unfold len in *. rewrite length_app, length_map. lia. }
           rewrite Hlen' in E2.
           assert (Hb' : on_boundary (len cs + chunk_size)
                         = on_boundary (len cs)).
           { unfold on_boundary.
             replace (N - (len cs + chunk_size))
               with (N - len cs + (-1) * chunk_size) by lia.
             now rewrite Z.mod_add by lia. }
           assert (Hfar' : far (len cs + chunk_size) = far (len cs)).
           { unfold far. now rewrite Hb'. }
           assert (Hlead' : lead (len cs + chunk_size) = lead (len cs)).
           { unfold lead. now rewrite Hb'. }
           rewrite Hfar', Hlead' in E2.
           exists r2. rewrite E2. split.
           ++ assert (Hm : m = (Z.to_nat chunk_size
                                + Z.to_nat (N - (len cs + chunk_size)))%nat).
              { unfold m. lia. }
              rewrite Hm, firstn_add, (Nat.add_comm (Z.to_nat chunk_size)),
                <- skipn_skipn.
              fold chunk. fold rest.
              rewrite map_app, app_assoc. reflexivity.
           ++ replace (len data) with (len chunk + len rest) by lia.
              eapply written_trans; eassumption.
      * (* the chunk is split *)
        assert (Hm : (m <= List.length chunk)%nat).
        { unfold m, len in *. lia. }
        assert (Hbnd : on_boundary (len cs) = false).
        { unfold on_boundary. apply Z.eqb_neq.
          rewrite Z.mod_small; lia. }
        assert (Hfar : far (len cs) = false).
        { unfold far. now rewrite Hbnd. }
        assert (Hlead : lead (len cs) = [hdr]).
        { unfold lead. now rewrite Hbnd. }
        destruct (chunk_split cs chunk r Hcs Hfchunk) as (r1 & E1 & W1);
          [lia|lia|].
        fold m in E1. rewrite E1.
        destruct (fill_second false (cs ++ map format_row (firstn m chunk))
                    ltac:(apply Forall_app; split;
                          [exact Hcs|apply formatted_filled;
                                     now apply Forall_take])
                    ltac:(unfold len in *;
                          rewrite length_app, length_map, length_firstn; lia)
                    fuel rest (hdr :: map format_row (skipn m chunk)) r1)
          as (r2 & E2 & W2); try assumption.
        -- constructor; [exact Hhdr|]. apply formatted_filled.
           now apply Forall_drop.
        -- destruct Hfit as [Hfit|[Hone _]].
           ++ right. unfold len in *. cbn [List.length].
              rewrite length_map, length_skipn. lia.
           ++ left. apply length_zero_iff_nil. unfold len in *. lia.
        -- exists r2. rewrite E2, Hfar, Hlead. split.
           ++ assert (Hhead : firstn m chunk = firstn m data).
              { unfold chunk. rewrite firstn_firstn. unfold chunk in Hm.
                rewrite length_firstn in Hm.
                replace (Init.Nat.min m (Z.to_nat chunk_size)) with m by lia.
                reflexivity. }
              assert (Htail : (skipn m chunk ++ rest)%list = skipn m data).
              { rewrite Hsplit at 1. rewrite skipn_app.
                replace (m - List.length chunk)%nat with 0%nat by lia.
                reflexivity. }
              rewrite Hhead, <- Htail, map_app. reflexivity.
           ++ replace (len data) with (len chunk + len rest) by lia.
              eapply written_trans; eassumption.
Qed.

(** ** The whole call *)

Variables (K : Z) (data : list data_row) (headed : bool).

(** The manager before the call: without spreadsheet, so that the first
    partition is created with the header row, or at an empty first tab
    without header. *)
Definition start : manager :=
  if headed then fresh else at_tab (0%nat, 0%nat) (one_tab []).

Definition top : list (list string) := if headed then [hdr] else [].

Hypothesis HN : len top < N.
Hypothesis HK : 0 < K.
Hypothesis Hlen : len data = N + K.
Hypothesis Hdata : Forall (fun r => filled (format_row r)) data.
Hypothesis Hfit : K + len top + 1 <= N \/ N + K <= chunk_size.

Lemma top_filled : Forall filled top.
Proof. unfold top. destruct headed; now repeat constructor. Qed.

Lemma add_chunk_start (chunk : list data_row) (r : results) :
  add_chunk N MAXS ts start chunk r
  = add_chunk N MAXS ts (at_tab (0%nat, 0%nat) (one_tab top)) chunk r.
Proof.
  unfold start, top in *. destruct headed; [|reflexivity].
  unfold add_chunk. rewrite first_call_creates.
  rewrite (stay_first [hdr]); [reflexivity|now repeat constructor|exact HN].
Qed.

Lemma split_lengths :
  len (firstn (Z.to_nat (N - len top)) data) = N - len top
  /\ len (skipn (Z.to_nat (N - len top)) data) = K + len top.
Proof.
  assert (0 <= len top) by (unfold len; lia).
  unfold len in *. rewrite length_firstn, length_skipn. lia.
Qed.


End Overflow.

(** [DEFAULT_HEADERS] of [config.py]. *)
Definition DEFAULT_HEADERS : list string :=
  [ "Document ID"; "Document Title"; "Source URL"; "Processing Date";
    "Content Type"; "Summary"; "Tags"; "Status"; "Notes" ].

Definition six_records : list data_row :=
  map (fun n => ListRow [n; "Report " ++ n]) ["D1"; "D2"; "D3"; "D4"; "D5"; "D6"].

Definition overflow_run : results * manager :=
  add_batch_data 5 10 "20240101_000000" (fresh "DocumentResearch" DEFAULT_HEADERS)
    six_records 100.

(** The rows of a partition below its header. *)
Definition records_of (dr : drive) (w : wsref) : list (list string) :=
  match get_worksheet dr w with
  | Some ws => tl (cells ws)
  | None => []
  end.



(** The same six records and ceiling for other chunk sizes and for a
    manager at an empty tab without header: the rows counted in each
    partition.  The ceiling falls between two chunks of 2 and of 4 records
    below the header, and of 5 records without it. *)
Definition empty_tab : manager :=
  at_tab "DocumentResearch" DEFAULT_HEADERS (0%nat, 0%nat)
    (one_tab "20240101_000000" "DocumentResearch" []).

Definition counted_rows (run : results * manager) : list Z :=
  map SheetMaintenance.row_count (flat_map worksheets (client (snd run))).

Lemma overflow_runs :
  counted_rows (add_batch_data 5 10 "20240101_000000"
                  (fresh "DocumentResearch" DEFAULT_HEADERS) six_records 3)
  = [5; 3]
  /\ counted_rows (add_batch_data 5 10 "20240101_000000"
                     (fresh "DocumentResearch" DEFAULT_HEADERS) six_records 2)
     = [5; 2]
  /\ counted_rows (add_batch_data 5 1 "20240101_000000"
                     (fresh "DocumentResearch" DEFAULT_HEADERS) six_records 2)
     = [5; 3]
  /\ counted_rows (add_batch_data 5 10 "20240101_000000" empty_tab
                     six_records 100)
     = [5; 2]
  /\ counted_rows (add_batch_data 5 10 "20240101_000000" empty_tab
                     six_records 5)
     = [5; 1].
Proof. repeat split; vm_compute; reflexivity. Qed.

End MultiSheetFacts.

(** * Further properties of duplicate_detector.py *)

Module DetectorProperties.

Import DuplicateDetector.

(** ** [normalize_text] *)

(** The text is ASCII: on such text the bytes of the embedding are the
    characters of the source, and its case folding and character classes
    are those of [str.lower], [\s] and [\w]. *)
Definition ascii_only (s : string) : bool :=
  forallb (fun c => (nat_of_ascii c <? 128)%nat) (list_ascii_of_string s).

(** A character of a normalised ASCII text: a lower-case letter, a digit,
    the underscore or the space. *)
Definition plain_char (c : ascii) : bool :=
  let n := nat_of_ascii c in
  ((97 <=? n) && (n <=? 122) || (48 <=? n) && (n <=? 57) || (n =? 95)
   || (n =? 32))%nat.

Lemma lower_char_plain (c : ascii) :
  (nat_of_ascii c <? 128)%nat = true ->
  is_word (lower_char c) = true -> plain_char (lower_char c) = true.
Proof.
  destruct c as [[] [] [] [] [] [] [] []]; vm_compute; intros H1 H2;
    first [reflexivity | discriminate H1 | discriminate H2].
Qed.

Lemma is_space_lower_char (c : ascii) : is_space (lower_char c) = is_space c.
Proof. destruct c as [[] [] [] [] [] [] [] []]; reflexivity. Qed.

Lemma collapse_spaces_chars (l : list ascii) :
  forall b c, In c (collapse_spaces b l) ->
              c = " "%char \/ (In c l /\ is_space c = false).
Proof.
  induction l as [|a l IH]; simpl; intros b c H; [contradiction|].
  destruct (is_space a) eqn:Ea.
  - destruct b.
    + destruct (IH _ _ H) as [->|[H1 H2]]; auto.
    + destruct H as [<-|H]; [now left|].
      destruct (IH _ _ H) as [->|[H1 H2]]; auto.
  - destruct H as [<-|H]; [right; auto|].
    destruct (IH _ _ H) as [->|[H1 H2]]; auto.
Qed.

Lemma drop_while_incl {A : Type} (p : A -> bool) (l : list A) (x : A) :
  In x (drop_while p l) -> In x l.
Proof.
  induction l as [|y l IH]; simpl; [auto|].
  destruct (p y); [intros H; right; now apply IH|auto].
Qed.

Lemma strip_chars_incl (l : list ascii) (c : ascii) :
  In c (strip_chars l) -> In c l.
Proof.
  unfold strip_chars. intros H. apply in_rev in H.
  apply drop_while_incl in H. apply in_rev in H.
  now apply drop_while_incl in H.
Qed.

(** X1: the normalised text of ASCII text consists of lower-case
    letters, digits, underscores and spaces only: no upper-case letter, no
    punctuation and no blank other than the space is left. *)
Theorem normalize_text_alphabet (text : pyval) :
  ascii_only (py_str text) = true ->
  forallb plain_char (list_ascii_of_string (normalize_text text)) = true.
Proof.
  intros Hascii. unfold normalize_text.
  destruct (negb (truthy text) || isna text); [reflexivity|].
  rewrite list_ascii_of_string_of_list_ascii.
  apply forallb_forall. intros c Hc.
  unfold drop_punctuation in Hc. apply filter_In in Hc.
  destruct Hc as [Hc Hw].
  apply collapse_spaces_chars in Hc. destruct Hc as [->|[Hc Hs]].
  - reflexivity.
  - rewrite Hs, orb_false_r in Hw.
    apply in_map_iff in Hc. destruct Hc as (c0 & <- & Hc0).
    apply lower_char_plain; [|exact Hw].
    apply strip_chars_incl in Hc0.
    unfold ascii_only in Hascii. rewrite forallb_forall in Hascii.
    now apply Hascii.
Qed.

Lemma normalize_text_alphabet_witness :
  normalize_text (PStr "  Annual REPORT, 2024 (final) ")
  = "annual report 2024 final"
  /\ forallb plain_char
       (list_ascii_of_string
          (normalize_text (PStr "  Annual REPORT, 2024 (final) "))) = true.
Proof.
  split; [reflexivity|].
  apply (normalize_text_alphabet (PStr "  Annual REPORT, 2024 (final) ")).
  reflexivity.
Defined.

(** The string consists of blanks. *)
Definition blank (s : string) : Prop :=
  Forall (fun c => is_space c = true) (list_ascii_of_string s).

Lemma drop_while_blank (a l : list ascii) :
  Forall (fun c => is_space c = true) a ->
  drop_while is_space (a ++ l) = drop_while is_space l.
Proof.
  induction 1 as [|c a Hc _ IH]; simpl; [reflexivity|]. now rewrite Hc.
Qed.

Lemma drop_while_app_keep (l b : list ascii) :
  drop_while is_space l <> [] ->
  drop_while is_space (l ++ b) = (drop_while is_space l ++ b)%list.
Proof.
  induction l as [|c l IH]; simpl; intros H; [congruence|].
  destruct (is_space c); [now apply IH|reflexivity].
Qed.

Lemma drop_while_all_blank (l : list ascii) :
  Forall (fun c => is_space c = true) l -> drop_while is_space l = [].
Proof.
  induction 1 as [|c l Hc _ IH]; simpl; [reflexivity|]. now rewrite Hc.
Qed.

Lemma drop_while_nil_blank (l : list ascii) :
  drop_while is_space l = [] -> Forall (fun c => is_space c = true) l.
Proof.
  induction l as [|c l IH]; simpl; intros H; [constructor|].
  destruct (is_space c) eqn:E; [|discriminate]. constructor; auto.
Qed.

Lemma strip_chars_padded (a l b : list ascii) :
  Forall (fun c => is_space c = true) a ->
  Forall (fun c => is_space c = true) b ->
  strip_chars (a ++ l ++ b) = strip_chars l.
Proof.
  intros Ha Hb. unfold strip_chars. rewrite (drop_while_blank a _ Ha).
  destruct (drop_while is_space l) as [|x r] eqn:El.
  - apply drop_while_nil_blank in El.
    rewrite (drop_while_all_blank (l ++ b)) by (apply Forall_app; now split).
    reflexivity.
  - rewrite drop_while_app_keep by (rewrite El; discriminate).
    rewrite El, rev_app_distr.
    rewrite drop_while_blank; [reflexivity|].
    now apply Forall_rev.
Qed.

Lemma drop_while_map_lower (l : list ascii) :
  drop_while is_space (map lower_char l)
  = map lower_char (drop_while is_space l).
Proof.
  induction l as [|c l IH]; simpl; [reflexivity|].
  rewrite is_space_lower_char. destruct (is_space c); [exact IH|reflexivity].
Qed.

Lemma strip_chars_map_lower (l : list ascii) :
  strip_chars (map lower_char l) = map lower_char (strip_chars l).
Proof.
  unfold strip_chars.
  now rewrite drop_while_map_lower, <- map_rev, drop_while_map_lower, map_rev.
Qed.

Lemma list_ascii_of_string_app (s t : string) :
  list_ascii_of_string (s ++ t)
  = (list_ascii_of_string s ++ list_ascii_of_string t)%list.
Proof. induction s as [|c s IH]; simpl; [reflexivity|]. now rewrite IH. Qed.

Lemma normalize_text_str (s : string) :
  normalize_text (PStr s)
  = string_of_list_ascii
      (drop_punctuation
         (collapse_spaces false
            (map lower_char (strip_chars (list_ascii_of_string s))))).
Proof.
  unfold normalize_text. simpl.
  destruct (String.eqb_spec s "") as [->|Hne]; reflexivity.
Qed.

(** X2: on ASCII text, letter case and surrounding blanks play no part
    in the normalised text: two ASCII strings that are equal once
    lower-cased normalise to the same text, also when one of them is
    padded with blanks. *)
Theorem normalize_text_ignores_case_and_padding (a b s t : string) :
  ascii_only s = true -> ascii_only t = true ->
  blank a -> blank b ->
  AdvancedDuplicateDetector.lower s = AdvancedDuplicateDetector.lower t ->
  normalize_text (PStr (a ++ s ++ b)) = normalize_text (PStr t).
Proof.
  intros _ _ Ha Hb Hst. rewrite !normalize_text_str.
  rewrite !list_ascii_of_string_app, (strip_chars_padded _ _ _ Ha Hb).
  rewrite <- !strip_chars_map_lower.
  unfold AdvancedDuplicateDetector.lower in Hst.
  apply (f_equal list_ascii_of_string) in Hst.
  rewrite !list_ascii_of_string_of_list_ascii in Hst.
  now rewrite Hst.
Qed.

Lemma normalize_text_ignores_case_and_padding_witness :
  normalize_text (PStr ("  " ++ "Annual REPORT, 2024" ++ " "))
  = normalize_text (PStr "annual report, 2024").
Proof.
  apply (normalize_text_ignores_case_and_padding "  " " "
           "Annual REPORT, 2024" "annual report, 2024").
  - reflexivity.
  - reflexivity.
  - repeat constructor.
  - repeat constructor.
  - reflexivity.
Defined.

(** ** Record keys and the exact strategy *)

(** What one key field adds to the key of a dict record. *)
Definition key_part (row : dict pyval) (field : string) : list string :=
  match dict_get row field with
  | Some v =>
      if truthy v
      then if nonempty (normalize_text v)
           then [field ++ ":" ++ normalize_text v] else []
      else []
  | None => []
  end.

Lemma key_parts_dict (row : dict pyval) (fields : list string) :
  key_parts (RowDict row) fields = Ret (flat_map (key_part row) fields).
Proof.
  induction fields as [|f fields IH]; simpl; [reflexivity|].
  rewrite DuplicateDetectorFacts.present_dict, IH. simpl. unfold key_part.
  destruct (dict_get row f) as [v|]; [destruct (truthy v)|]; reflexivity.
Qed.

(** The key of a dict record, [None] when no key field has content. *)
Definition key_of (self : detector) (row : dict pyval) : option string :=
  match generate_record_key self (RowDict row) with
  | Ret key => key
  | Raise _ => None
  end.

Lemma generate_record_key_dict (self : detector) (row : dict pyval) :
  generate_record_key self (RowDict row) = Ret (key_of self row).
Proof.
  unfold key_of, generate_record_key. rewrite key_parts_dict. reflexivity.
Qed.

Lemma key_of_parts (self : detector) (row : dict pyval) :
  key_of self row
  = match flat_map (key_part row) (check_fields self) with
    | [] => None
    | parts => Some (join "|" parts)
    end.
Proof.
  unfold key_of, generate_record_key. rewrite key_parts_dict. simpl.
  destruct (flat_map (key_part row) (check_fields self)); reflexivity.
Qed.

Lemma key_part_shape (row : dict pyval) (field p : string) :
  In p (key_part row field) -> exists n, p = field ++ ":" ++ n.
Proof.
  unfold key_part. destruct (dict_get row field) as [v|]; [|intros []].
  destruct (truthy v); [|intros []].
  destruct (nonempty (normalize_text v)); [|intros []].
  intros [<-|[]]. now eexists.
Qed.

Lemma key_of_nonempty (self : detector) (row : dict pyval) (k : string) :
  key_of self row = Some k -> nonempty k = true.
Proof.
  rewrite key_of_parts.
  destruct (flat_map (key_part row) (check_fields self)) as [|p ps] eqn:E;
    [discriminate|].
  intros [= <-].
  assert (Hp : In p (flat_map (key_part row) (check_fields self)))
    by (rewrite E; now left).
  apply in_flat_map in Hp. destruct Hp as (f & _ & Hp).
  apply key_part_shape in Hp. destruct Hp as [n ->].
  unfold join. simpl. destruct ps; destruct f; reflexivity.
Qed.

Lemma key_of_empty_row (self : detector) : key_of self [] = None.
Proof.
  rewrite key_of_parts.
  assert (E : flat_map (key_part []) (check_fields self) = []).
  { induction (check_fields self) as [|f l IH]; simpl; auto. }
  now rewrite E.
Qed.

(** The corpus row has the key [k]. *)
Definition has_key (self : detector) (df : DataFrame) (k : string)
    (r : Z * list pyval) : bool :=
  option_string_eqb (key_of self (to_dict df (snd r))) (Some k).

Definition exact_info (self : detector) (k : string) (idx : Z) : match_info :=
  {| match_type := "exact"; match_score := 100;
     matched_row_index := Some idx; matched_fields := check_fields self;
     match_details := "Exact match on key: " ++ k |}.

Lemma exact_loop_find (self : detector) (df : DataFrame) (k : string)
    (rs : list (Z * list pyval)) :
  exact_loop self df (Some k) rs
  = Ret match find (has_key self df k) rs with
        | Some (idx, _) => (true, Some (exact_info self k idx))
        | None => no_match
        end.
Proof.
  induction rs as [|[idx vals] rs IH]; simpl; [reflexivity|].
  rewrite generate_record_key_dict. simpl. unfold has_key at 1. simpl.
  destruct (option_string_eqb (key_of self (to_dict df vals)) (Some k));
    [reflexivity|exact IH].
Qed.

Lemma exact_match_dict (self : detector) (row : dict pyval) (df : DataFrame) :
  exact_match self (RowDict row) df
  = Ret match key_of self row with
        | None => no_match
        | Some k =>
            match find (has_key self df k) (rows df) with
            | Some (idx, _) => (true, Some (exact_info self k idx))
            | None => no_match
            end
        end.
Proof.
  unfold exact_match. rewrite generate_record_key_dict. simpl.
  destruct (key_of self row) as [k|] eqn:Ek; [|reflexivity].
  simpl. rewrite (key_of_nonempty _ _ _ Ek). simpl.
  apply exact_loop_find.
Qed.

(** X3: the exact strategy on a dict record.  The key of a dict record is
    always produced; a record without key content matches nothing; one
    with the key [k] matches the first corpus row, in corpus order, whose
    key is [k], with type ["exact"] and score 100, and matches nothing
    when no row has that key. *)
Theorem exact_match_first_hit (self : detector) (row : dict pyval)
    (df : DataFrame) :
  generate_record_key self (RowDict row) = Ret (key_of self row)
  /\ exact_match self (RowDict row) df
     = Ret match key_of self row with
           | None => no_match
           | Some k =>
               match find (has_key self df k) (rows df) with
               | Some (idx, _) => (true, Some (exact_info self k idx))
               | None => no_match
               end
           end.
Proof.
  split; [apply generate_record_key_dict|apply exact_match_dict].
Qed.

(** X4: a record that is already in the corpus and has key content is
    reported as an exact duplicate of the corpus, with score 100; the
    reported row is a row of the corpus with the same key. *)
Theorem exact_match_detects_existing_record (self : detector)
    (df : DataFrame) (idx : Z) (vals : list pyval) (k : string) :
  In (idx, vals) (rows df) ->
  key_of self (to_dict df vals) = Some k ->
  exists info idx' vals',
    exact_match self (RowDict (to_dict df vals)) df = Ret (true, Some info)
    /\ match_type info = "exact" /\ match_score info = 100
    /\ matched_row_index info = Some idx'
    /\ In (idx', vals') (rows df)
    /\ key_of self (to_dict df vals') = Some k.
Proof.
  intros Hin Hk.
  pose proof (exact_match_dict self (to_dict df vals) df) as H.
  rewrite Hk in H.
  destruct (find (has_key self df k) (rows df)) as [[idx' vals']|] eqn:Ef.
  - apply find_some in Ef. destruct Ef as [Hin' Hkey].
    exists (exact_info self k idx'), idx', vals'.
    repeat split; try assumption.
    unfold has_key in Hkey. simpl in Hkey.
    destruct (key_of self (to_dict df vals')) as [k'|]; [|discriminate].
    simpl in Hkey. apply String.eqb_eq in Hkey. now subst.
  - exfalso. pose proof (find_none _ _ Ef _ Hin) as Hn.
    unfold has_key in Hn. simpl in Hn. rewrite Hk in Hn. simpl in Hn.
    now rewrite String.eqb_refl in Hn.
Qed.


(** ** The best-scoring scan of the two fuzzy strategies *)

(** The scan of [fuzzy_match] and [title_similarity_match] over the
    candidates with their scores: a candidate replaces the best one so far
    when its score is strictly higher and reaches the threshold. *)
Fixpoint pick {A : Type} (thr : Z) (cands : list (A * Z)) (b : option A * Z)
    : option A * Z :=
  match cands with
  | [] => b
  | (x, s) :: cands' =>
      if (snd b <? s) && (thr <=? s) then pick thr cands' (Some x, s)
      else pick thr cands' b
  end.

Lemma pick_spec {A : Type} (thr : Z) (cands : list (A * Z)) :
  forall b,
    (pick thr cands b = b
     /\ Forall (fun c => snd c <= snd b \/ snd c < thr) cands)
    \/ (exists pre x post,
          cands = (pre ++ (x, snd (pick thr cands b)) :: post)%list
          /\ fst (pick thr cands b) = Some x
          /\ snd b < snd (pick thr cands b)
          /\ thr <= snd (pick thr cands b)
          /\ Forall (fun c => snd c < snd (pick thr cands b)) pre
          /\ Forall (fun c => snd c <= snd (pick thr cands b)) post).
Proof.
  induction cands as [|[x s] cands IH]; intros b; simpl.
  - left. split; [reflexivity|constructor].
  - destruct ((snd b <? s) && (thr <=? s)) eqn:E.
    + apply andb_true_iff in E. destruct E as [E1 E2].
      apply Z.ltb_lt in E1. apply Z.leb_le in E2. right.
      destruct (IH (Some x, s)) as [[-> Hall]|(pre & y & post & Hc & Hf & Hlt & Hthr & Hpre & Hpost)].
      * exists [], x, cands. simpl. repeat split; try assumption; try lia.
        -- constructor.
        -- eapply Forall_impl; [|exact Hall]. simpl. intros c Hc. lia.
      * simpl in Hlt. exists ((x, s) :: pre), y, post.
        repeat split; try assumption; try lia.
        -- simpl. now rewrite <- Hc.
        -- constructor; [simpl; lia|assumption].
    + assert (Hs : s <= snd b \/ s < thr).
      { apply andb_false_iff in E. destruct E as [E|E].
        - apply Z.ltb_ge in E. now left.
        - apply Z.leb_gt in E. now right. }
      destruct (IH b) as [[Hb Hall]|(pre & y & post & Hc & Hf & Hlt & Hthr & Hpre & Hpost)].
      * left. split; [assumption|]. now constructor.
      * right. exists ((x, s) :: pre), y, post.
        repeat split; try assumption.
        -- simpl. now rewrite <- Hc.
        -- constructor; [simpl; lia|assumption].
Qed.

(** The loop state [(best_match, best_score, best_index)] that stands for
    a best candidate. *)
Definition encode (df : DataFrame) (b : option (Z * list pyval) * Z) : best :=
  match fst b with
  | Some (idx, vals) => (Some (to_dict df vals), snd b, Some idx)
  | None => (None, snd b, None)
  end.

Section Strategies.

Variable fuzz_ratio : string -> string -> Z.
Variable md5_hexdigest : string -> string.
Variable cfg : config.

(** The corpus rows that have a key, each with the similarity of its key
    to [k]. *)
Definition scored (self : detector) (df : DataFrame) (k : string)
    (rs : list (Z * list pyval)) : list (Z * list pyval * Z) :=
  flat_map (fun r => match key_of self (to_dict df (snd r)) with
                     | Some k' => [(r, fuzz_ratio k k')]
                     | None => []
                     end) rs.

Lemma fuzzy_loop_pick (self : detector) (df : DataFrame) (k : string)
    (rs : list (Z * list pyval)) :
  forall b,
    fuzzy_loop fuzz_ratio self df k rs (encode df b)
    = Ret (encode df (pick (threshold self) (scored self df k rs) b)).
Proof.
  induction rs as [|[idx vals] rs IH]; intros b; [reflexivity|].
  cbn [scored flat_map snd].
  assert (Hstep : forall bm bi,
            encode df b = (bm, snd b, bi) ->
            fuzzy_loop fuzz_ratio self df k ((idx, vals) :: rs) (bm, snd b, bi)
            = Ret (encode df
                     (pick (threshold self)
                        (match key_of self (to_dict df vals) with
                         | Some k' => [((idx, vals), fuzz_ratio k k')]
                         | None => []
                         end ++ scored self df k rs) b))).
  { intros bm bi Hb. cbn [fuzzy_loop].
    rewrite generate_record_key_dict. cbn [bind].
    destruct (key_of self (to_dict df vals)) as [k'|] eqn:Ek.
    - rewrite (key_of_nonempty _ _ _ Ek). cbn [app pick snd].
      destruct ((snd b <? fuzz_ratio k k')
                && (threshold self <=? fuzz_ratio k k')).
      + apply (IH (Some (idx, vals), fuzz_ratio k k')).
      + rewrite <- Hb. apply IH.
    - cbn [app]. rewrite <- Hb. apply IH. }
  destruct b as [[[i v]|] s]; apply Hstep; reflexivity.
Qed.

Lemma encode_truthy (self : detector) (df : DataFrame)
    (x : Z * list pyval) (s : Z) (k : string) :
  key_of self (to_dict df (snd x)) = Some k ->
  exists d, encode df (Some x, s) = (Some d, s, Some (fst x))
            /\ dict_truthy (Some d) = true.
Proof.
  destruct x as [idx vals]. simpl. intros Hk.
  exists (to_dict df vals). split; [reflexivity|].
  destruct (to_dict df vals) eqn:E; [|reflexivity].
  rewrite key_of_empty_row in Hk. discriminate.
Qed.

Lemma scored_in (self : detector) (df : DataFrame) (k : string)
    (rs : list (Z * list pyval)) (x : Z * list pyval) (s : Z) :
  In (x, s) (scored self df k rs) ->
  In x rs /\ exists k', key_of self (to_dict df (snd x)) = Some k'
                        /\ s = fuzz_ratio k k'.
Proof.
  unfold scored. intros H. apply in_flat_map in H.
  destruct H as (r & Hr & H).
  destruct (key_of self (to_dict df (snd r))) as [k'|] eqn:E; [|destruct H].
  destruct H as [[= <- <-]|[]]. split; [assumption|]. now exists k'.
Qed.

Lemma fuzzy_match_scan (self : detector) (row : dict pyval)
    (df : DataFrame) :
  match key_of self row with
  | None => fuzzy_match fuzz_ratio self (RowDict row) df = Ret no_match
  | Some k =>
      let cands := scored self df k (rows df) in
      (fuzzy_match fuzz_ratio self (RowDict row) df = Ret no_match
       /\ Forall (fun c => snd c <= 0 \/ snd c < threshold self) cands)
      \/ (exists pre idx vals s post info,
            cands = (pre ++ ((idx, vals), s) :: post)%list
            /\ fuzzy_match fuzz_ratio self (RowDict row) df
               = Ret (true, Some info)
            /\ match_type info = "fuzzy" /\ match_score info = s
            /\ matched_row_index info = Some idx
            /\ 0 < s /\ threshold self <= s
            /\ Forall (fun c => snd c < s) pre
            /\ Forall (fun c => snd c <= s) post)
  end.
Proof.
  unfold fuzzy_match. rewrite generate_record_key_dict. cbn [bind].
  destruct (key_of self row) as [k|] eqn:Ek; [|reflexivity].
  rewrite (key_of_nonempty _ _ _ Ek). cbv zeta.
  change best_init with (encode df (None, 0)).
  rewrite fuzzy_loop_pick. cbn [bind].
  set (cands := scored self df k (rows df)).
  destruct (pick_spec (threshold self) cands (None, 0))
    as [[Hp Hall]|(pre & x & post & Hc & Hf & Hlt & Hthr & Hpre & Hpost)].
  - left. rewrite Hp. split; [reflexivity|exact Hall].
  - right. destruct (pick (threshold self) cands (None, 0)) as [o s] eqn:Ep.
    simpl in *. subst o.
    assert (Hin : In (x, s) cands) by (rewrite Hc; apply in_elt).
    apply scored_in in Hin. destruct Hin as (_ & k' & Hk' & _).
    destruct (encode_truthy self df x s k' Hk') as (d & He & Ht).
    rewrite He, Ht. destruct x as [idx vals].
    exists pre, idx, vals, s, post. eexists.
    repeat split; try eassumption; reflexivity.
Qed.

(** X5: the fuzzy key strategy on a dict record with the key [k].  Either
    no corpus row with a key reaches a similarity that is positive and at
    least the threshold, and nothing is matched; or the match is a corpus
    row whose similarity [s] is positive, at least the threshold, strictly
    above that of every earlier row and at least that of every later one:
    the best score wins, the first row among equals.  A record without
    key content matches nothing. *)
Theorem fuzzy_match_best (self : detector) (row : dict pyval)
    (df : DataFrame) :
  match key_of self row with
  | None => fuzzy_match fuzz_ratio self (RowDict row) df = Ret no_match
  | Some k =>
      let cands := scored self df k (rows df) in
      (fuzzy_match fuzz_ratio self (RowDict row) df = Ret no_match
       /\ Forall (fun c => snd c <= 0 \/ snd c < threshold self) cands)
      \/ (exists pre idx vals s post info,
            cands = (pre ++ ((idx, vals), s) :: post)%list
            /\ fuzzy_match fuzz_ratio self (RowDict row) df
               = Ret (true, Some info)
            /\ match_type info = "fuzzy" /\ match_score info = s
            /\ matched_row_index info = Some idx
            /\ 0 < s /\ threshold self <= s
            /\ Forall (fun c => snd c < s) pre
            /\ Forall (fun c => snd c <= s) post)
  end.
Proof. apply fuzzy_match_scan. Qed.

(** The normalised title of a dict record, [None] when it has none. *)
Definition title_of (row : dict pyval) : option string :=
  match dict_get row title_field with
  | Some v =>
      if truthy v
      then if nonempty (normalize_text v) then Some (normalize_text v) else None
      else None
  | None => None
  end.

(** The corpus rows that have a title, each with the similarity of its
    title to [t]. *)
Definition titled (df : DataFrame) (t : string) (rs : list (Z * list pyval))
    : list (Z * list pyval * Z) :=
  flat_map (fun r => match title_of (to_dict df (snd r)) with
                     | Some t' => [(r, fuzz_ratio t t')]
                     | None => []
                     end) rs.

Lemma title_loop_pick (df : DataFrame) (t : string)
    (rs : list (Z * list pyval)) :
  forall b,
    title_loop fuzz_ratio cfg df t rs (encode df b)
    = Ret (encode df (pick (TITLE_SIMILARITY_THRESHOLD cfg) (titled df t rs) b)).
Proof.
  induction rs as [|[idx vals] rs IH]; intros b; [reflexivity|].
  cbn [titled flat_map snd].
  assert (Hstep : forall bm bi,
            encode df b = (bm, snd b, bi) ->
            title_loop fuzz_ratio cfg df t ((idx, vals) :: rs) (bm, snd b, bi)
            = Ret (encode df
                     (pick (TITLE_SIMILARITY_THRESHOLD cfg)
                        (match title_of (to_dict df vals) with
                         | Some t' => [((idx, vals), fuzz_ratio t t')]
                         | None => []
                         end ++ titled df t rs) b))).
  { intros bm bi Hb. cbn [title_loop].
    rewrite DuplicateDetectorFacts.present_dict. cbn [bind].
    unfold title_of.
    destruct (dict_get (to_dict df vals) title_field) as [v|];
      [|cbn [app]; rewrite <- Hb; apply IH].
    destruct (truthy v); [|cbn [app]; rewrite <- Hb; apply IH].
    destruct (nonempty (normalize_text v));
      [|cbn [app]; rewrite <- Hb; apply IH].
    cbn [app pick snd].
    destruct ((snd b <? fuzz_ratio t (normalize_text v))
              && (TITLE_SIMILARITY_THRESHOLD cfg
                  <=? fuzz_ratio t (normalize_text v))).
    - apply (IH (Some (idx, vals), fuzz_ratio t (normalize_text v))).
    - rewrite <- Hb. apply IH. }
  destruct b as [[[i v]|] s]; apply Hstep; reflexivity.
Qed.

Lemma titled_in (df : DataFrame) (t : string) (rs : list (Z * list pyval))
    (x : Z * list pyval) (s : Z) :
  In (x, s) (titled df t rs) ->
  In x rs /\ exists t', title_of (to_dict df (snd x)) = Some t'
                        /\ s = fuzz_ratio t t'.
Proof.
  unfold titled. intros H. apply in_flat_map in H.
  destruct H as (r & Hr & H).
  destruct (title_of (to_dict df (snd r))) as [t'|] eqn:E; [|destruct H].
  destruct H as [[= <- <-]|[]]. split; [assumption|]. now exists t'.
Qed.

Lemma title_of_getitem (d : dict pyval) (t : string) :
  title_of d = Some t ->
  exists v, row_getitem (RowDict d) title_field = Ret v
            /\ dict_truthy (Some d) = true.
Proof.
  unfold title_of, row_getitem.
  destruct (dict_get d title_field) as [v|] eqn:E; [|discriminate].
  intros _. exists v. split; [reflexivity|].
  destruct d; [discriminate|reflexivity].
Qed.

Lemma title_similarity_match_scan (self : detector) (row : dict pyval)
    (df : DataFrame) :
  if ENABLE_FUZZY_TITLE_MATCHING cfg
  then
    match title_of row with
    | None =>
        title_similarity_match fuzz_ratio cfg self (RowDict row) df
        = Ret no_match
    | Some t =>
        let cands := titled df t (rows df) in
        (title_similarity_match fuzz_ratio cfg self (RowDict row) df
         = Ret no_match
         /\ Forall (fun c => snd c <= 0
                             \/ snd c < TITLE_SIMILARITY_THRESHOLD cfg) cands)
        \/ (exists pre idx vals s post info,
              cands = (pre ++ ((idx, vals), s) :: post)%list
              /\ title_similarity_match fuzz_ratio cfg self (RowDict row) df
                 = Ret (true, Some info)
              /\ match_type info = "title_similarity"
              /\ match_score info = s
              /\ matched_row_index info = Some idx
              /\ matched_fields info = [title_field]
              /\ 0 < s /\ TITLE_SIMILARITY_THRESHOLD cfg <= s
              /\ Forall (fun c => snd c < s) pre
              /\ Forall (fun c => snd c <= s) post)
    end
  else title_similarity_match fuzz_ratio cfg self (RowDict row) df
       = Ret no_match.
Proof.
  unfold title_similarity_match.
  destruct (ENABLE_FUZZY_TITLE_MATCHING cfg); [|reflexivity]. cbn [negb].
  rewrite DuplicateDetectorFacts.present_dict. cbn [bind].
  unfold title_of.
  destruct (dict_get row title_field) as [v|]; [|reflexivity].
  destruct (truthy v); [|reflexivity].
  destruct (nonempty (normalize_text v)) eqn:En; [|reflexivity].
  cbv zeta. cbn [negb].
  change best_init with (encode df (None, 0)).
  rewrite title_loop_pick. cbn [bind].
  set (t := normalize_text v).
  set (cands := titled df t (rows df)).
  destruct (pick_spec (TITLE_SIMILARITY_THRESHOLD cfg) cands (None, 0))
    as [[Hp Hall]|(pre & x & post & Hc & Hf & Hlt & Hthr & Hpre & Hpost)].
  - left. rewrite Hp. split; [reflexivity|exact Hall].
  - right.
    destruct (pick (TITLE_SIMILARITY_THRESHOLD cfg) cands (None, 0))
      as [o s] eqn:Ep.
    simpl in Hc, Hf, Hlt, Hthr, Hpre, Hpost. subst o.
    assert (Hin : In (x, s) cands) by (rewrite Hc; apply in_elt).
    apply titled_in in Hin. destruct Hin as (_ & t' & Ht' & _).
    destruct x as [idx vals]. cbn [snd] in Ht'.
    destruct (title_of_getitem _ _ Ht') as (w & Hw & Htr).
    unfold encode. cbn [fst snd]. rewrite Htr, Hw. cbn [bind].
    exists pre, idx, vals, s, post. eexists.
    repeat split; try eassumption; reflexivity.
Qed.

(** X6: the title strategy on a dict record whose normalised title is
    [t], against a corpus whose column labels are distinct, so that a
    row has one value under the title label.  When title matching is
    switched off, or the record has no title, nothing is matched.
    Otherwise either no corpus row with a title reaches a similarity that
    is positive and at least [TITLE_SIMILARITY_THRESHOLD], and nothing is
    matched; or the match is a corpus row whose similarity is positive, at
    least the threshold, strictly above that of every earlier row and at
    least that of every later one. *)
Theorem title_similarity_match_best (self : detector) (row : dict pyval)
    (df : DataFrame) :
  NoDup (columns df) ->
  if ENABLE_FUZZY_TITLE_MATCHING cfg
  then
    match title_of row with
    | None =>
        title_similarity_match fuzz_ratio cfg self (RowDict row) df
        = Ret no_match
    | Some t =>
        let cands := titled df t (rows df) in
        (title_similarity_match fuzz_ratio cfg self (RowDict row) df
         = Ret no_match
         /\ Forall (fun c => snd c <= 0
                             \/ snd c < TITLE_SIMILARITY_THRESHOLD cfg) cands)
        \/ (exists pre idx vals s post info,
              cands = (pre ++ ((idx, vals), s) :: post)%list
              /\ title_similarity_match fuzz_ratio cfg self (RowDict row) df
                 = Ret (true, Some info)
              /\ match_type info = "title_similarity"
              /\ match_score info = s
              /\ matched_row_index info = Some idx
              /\ matched_fields info = [title_field]
              /\ 0 < s /\ TITLE_SIMILARITY_THRESHOLD cfg <= s
              /\ Forall (fun c => snd c < s) pre
              /\ Forall (fun c => snd c <= s) post)
    end
  else title_similarity_match fuzz_ratio cfg self (RowDict row) df
       = Ret no_match.
Proof. intros _. apply title_similarity_match_scan. Qed.

(** ** Answers on dict records *)

(** A well-formed answer against the corpus [df]: no match, or a match of
    one of the four types that names a row of the corpus and has a
    positive score. *)
Definition answer_ok (df : DataFrame) (o : outcome) : Prop :=
  o = no_match
  \/ exists info idx,
       o = (true, Some info)
       /\ In (match_type info)
            ["exact"; "fuzzy"; "title_similarity"; "content_hash"]
       /\ matched_row_index info = Some idx
       /\ In idx (map fst (rows df))
       /\ 0 < match_score info.

Definition answers_ok (df : DataFrame) (r : res outcome) : Prop :=
  exists o, r = Ret o /\ answer_ok df o.

Lemma exact_match_ok (self : detector) (row : dict pyval) (df : DataFrame) :
  answers_ok df (exact_match self (RowDict row) df).
Proof.
  rewrite exact_match_dict. eexists. split; [reflexivity|].
  destruct (key_of self row) as [k|]; [|now left].
  destruct (find (has_key self df k) (rows df)) as [[idx vals]|] eqn:Ef;
    [|now left].
  right. apply find_some in Ef. destruct Ef as [Hin _].
  exists (exact_info self k idx), idx. repeat split.
  - simpl. auto.
  - apply (in_map fst) in Hin. exact Hin.
Qed.

Lemma fuzzy_match_ok (self : detector) (row : dict pyval) (df : DataFrame) :
  answers_ok df (fuzzy_match fuzz_ratio self (RowDict row) df).
Proof.
  pose proof (fuzzy_match_scan self row df) as H.
  destruct (key_of self row) as [k|].
  - cbv zeta in H.
    destruct H as [[H _]|(pre & idx & vals & s & post & info & Hc & H & Hty & Hs & Hi & Hpos & _)].
    + rewrite H. eexists. split; [reflexivity|now left].
    + rewrite H. eexists. split; [reflexivity|]. right.
      exists info, idx. repeat split; try assumption.
      * rewrite Hty. simpl. auto.
      * assert (Hin : In ((idx, vals), s) (scored self df k (rows df)))
          by (rewrite Hc; apply in_elt).
        apply scored_in in Hin. destruct Hin as [Hin _].
        apply (in_map fst) in Hin. exact Hin.
      * now rewrite Hs.
  - rewrite H. eexists. split; [reflexivity|now left].
Qed.

Lemma title_similarity_match_ok (self : detector) (row : dict pyval)
    (df : DataFrame) :
  answers_ok df (title_similarity_match fuzz_ratio cfg self (RowDict row) df).
Proof.
  pose proof (title_similarity_match_scan self row df) as H.
  destruct (ENABLE_FUZZY_TITLE_MATCHING cfg);
    [|rewrite H; eexists; split; [reflexivity|now left]].
  destruct (title_of row) as [t|];
    [|rewrite H; eexists; split; [reflexivity|now left]].
  cbv zeta in H.
  destruct H as [[H _]|(pre & idx & vals & s & post & info & Hc & H & Hty & Hs & Hi & _ & Hpos & _)].
  - rewrite H. eexists. split; [reflexivity|now left].
  - rewrite H. eexists. split; [reflexivity|]. right.
    exists info, idx. repeat split; try assumption.
    + rewrite Hty. simpl. auto.
    + assert (Hin : In ((idx, vals), s) (titled df t (rows df)))
        by (rewrite Hc; apply in_elt).
      apply titled_in in Hin. destruct Hin as [Hin _].
      apply (in_map fst) in Hin. exact Hin.
    + now rewrite Hs.
Qed.

Lemma generate_content_hash_returns (row : dict pyval) :
  exists h, generate_content_hash md5_hexdigest cfg (RowDict row) None = Ret h.
Proof.
  unfold generate_content_hash.
  rewrite DuplicateDetectorFacts.content_parts_dict. simpl. now eexists.
Qed.

Lemma hash_loop_ok (df : DataFrame) (h : option string)
    (rs : list (Z * list pyval)) :
  exists o,
    hash_loop md5_hexdigest cfg df h rs = Ret o
    /\ (o = no_match
        \/ exists info idx,
             o = (true, Some info)
             /\ match_type info = "content_hash"
             /\ matched_row_index info = Some idx
             /\ In idx (map fst rs)
             /\ match_score info = 100).
Proof.
  induction rs as [|[idx vals] rs IH]; cbn [hash_loop].
  - eexists. split; [reflexivity|now left].
  - destruct (generate_content_hash_returns (to_dict df vals)) as [h' Hh].
    rewrite Hh. cbn [bind].
    destruct (option_string_eqb h' h).
    + eexists. split; [reflexivity|]. right. do 2 eexists.
      repeat split. simpl. now left.
    + destruct IH as (o & Ho & Hok). exists o. split; [exact Ho|].
      destruct Hok as [->|(info & i & -> & Hty & Hi & Hin & Hs)]; [now left|].
      right. exists info, i. repeat split; try assumption. now right.
Qed.

Lemma content_hash_match_ok (self : detector) (row : dict pyval)
    (df : DataFrame) :
  answers_ok df (content_hash_match md5_hexdigest cfg self (RowDict row) df).
Proof.
  unfold content_hash_match.
  destruct (ENABLE_CONTENT_HASH cfg); cbn [negb];
    [|eexists; split; [reflexivity|now left]].
  destruct (generate_content_hash_returns row) as [h Hh].
  rewrite Hh. cbn [bind].
  destruct (some_nonempty h); cbn [negb];
    [|eexists; split; [reflexivity|now left]].
  destruct (hash_loop_ok df h (rows df)) as (o & Ho & Hok).
  exists o. split; [exact Ho|].
  destruct Hok as [->|(info & i & -> & Hty & Hi & Hin & Hs)]; [now left|].
  right. exists info, i. repeat split; try assumption.
  - rewrite Hty. simpl. auto.
  - rewrite Hs. reflexivity.
Qed.

Lemma try_strategies_ok (self : detector) (row : rowobj) (df : DataFrame)
    (l : list strategy) :
  Forall (fun s : strategy => answers_ok df (s self row df)) l ->
  answers_ok df (try_strategies l self row df).
Proof.
  induction 1 as [|s l (o & Ho & Hok) _ IH]; cbn [try_strategies].
  - eexists. split; [reflexivity|now left].
  - rewrite Ho.
    destruct Hok as [->|(info & i & -> & Hrest)]; [exact IH|].
    eexists. split; [reflexivity|]. right. now exists info, i.
Qed.

Lemma check_for_duplicate_dict_ok (self : detector)
    (row : dict pyval) (existing_data : option DataFrame) :
  exists o,
    check_for_duplicate fuzz_ratio md5_hexdigest cfg self (RowDict row)
      existing_data = Ret o
    /\ (o = no_match
        \/ exists df, existing_data = Some df /\ df_empty df = false
                      /\ answer_ok df o).
Proof.
  unfold check_for_duplicate.
  destruct existing_data as [df|]; [|eexists; split; [reflexivity|now left]].
  destruct (df_empty df) eqn:Hempty;
    [eexists; split; [reflexivity|now left]|].
  assert (Hwrap : forall r, answers_ok df r ->
            exists o, r = Ret o
                      /\ (o = no_match
                          \/ exists df', Some df = Some df'
                                         /\ df_empty df' = false
                                         /\ answer_ok df' o)).
  { intros r (o & Ho & Hok). exists o. split; [exact Ho|]. right.
    now exists df. }
  destruct (method self =? "exact")%string;
    [apply Hwrap, exact_match_ok|].
  destruct (method self =? "fuzzy")%string.
  { apply Hwrap.
    destruct (fuzzy_match_ok self row df) as (o & Ho & Hok).
    rewrite Ho. cbn [bind]. destruct (fst o) eqn:Ef.
    - exists o. now split.
    - apply title_similarity_match_ok. }
  destruct (method self =? "hash")%string;
    [apply Hwrap, content_hash_match_ok|].
  destruct (method self =? "multi")%string;
    [|apply Hwrap, exact_match_ok].
  apply Hwrap, try_strategies_ok. unfold strategies.
  repeat constructor.
  - apply exact_match_ok.
  - apply fuzzy_match_ok.
  - apply title_similarity_match_ok.
  - apply content_hash_match_ok.
Qed.

(** X7: for a dict record and a corpus whose column labels are distinct
    [check_for_duplicate] never raises, whatever the detection method.
    Its answer is either [(False, None)] or [(True, info)] where [info]
    has one of the four match types, names the index label of a row of the
    corpus, and has a positive score. *)
Theorem check_for_duplicate_dict_answers (self : detector)
    (row : dict pyval) (existing_data : option DataFrame) :
  (forall df, existing_data = Some df -> NoDup (columns df)) ->
  exists o,
    check_for_duplicate fuzz_ratio md5_hexdigest cfg self (RowDict row)
      existing_data = Ret o
    /\ (o = no_match
        \/ exists df, existing_data = Some df /\ df_empty df = false
                      /\ answer_ok df o).
Proof. intros _. apply check_for_duplicate_dict_ok. Qed.

(** ** [mark_as_duplicate], field by field *)

(** What marking makes of the value of a key field: a truthy value that
    does not yet start with the marker prefix receives it. *)
Definition mark_value (v : pyval) : pyval :=
  if truthy v && negb (startswith (py_str v) (DUPLICATE_MARKER_PREFIX cfg))
  then PStr (DUPLICATE_MARKER_PREFIX cfg ++ py_str v)
  else v.

Lemma mark_value_idem (v : pyval) : mark_value (mark_value v) = mark_value v.
Proof.
  unfold mark_value at 2.
  destruct (truthy v && negb (startswith (py_str v) (DUPLICATE_MARKER_PREFIX cfg)))
    eqn:E.
  - unfold mark_value. rewrite E. cbn [py_str]. unfold startswith.
    rewrite prefix_append. cbn [negb]. now rewrite andb_false_r.
  - unfold mark_value. now rewrite E.
Qed.

Lemma mark_fields_get (fields : list string) :
  forall d k,
    dict_get (mark_fields cfg fields d) k
    = if existsb (String.eqb k) fields
      then option_map mark_value (dict_get d k)
      else dict_get d k.
Proof.
  induction fields as [|f fields IH]; intros d k; cbn [mark_fields existsb];
    [reflexivity|].
  set (d1 := match dict_get d f with
             | Some v =>
                 if truthy v
                 then if negb (startswith (py_str v) (DUPLICATE_MARKER_PREFIX cfg))
                      then dict_set d f
                             (PStr (DUPLICATE_MARKER_PREFIX cfg ++ py_str v))
                      else d
                 else d
             | None => d
             end).
  assert (H1 : dict_get d1 k
               = if (k =? f)%string then option_map mark_value (dict_get d k)
                 else dict_get d k).
  { unfold d1. destruct (String.eqb_spec k f) as [->|Hne].
    - destruct (dict_get d f) as [v|] eqn:Ef; [|now rewrite Ef].
      unfold mark_value. cbn [option_map].
      destruct (truthy v); cbn [andb]; [|exact Ef].
      destruct (negb (startswith (py_str v) (DUPLICATE_MARKER_PREFIX cfg)));
        [|exact Ef].
      now rewrite dict_get_set, String.eqb_refl.
    - destruct (dict_get d f) as [v|]; [|reflexivity].
      destruct (truthy v); [|reflexivity].
      destruct (negb (startswith (py_str v) (DUPLICATE_MARKER_PREFIX cfg)));
        [|reflexivity].
      rewrite dict_get_set. now destruct (String.eqb_spec k f). }
  rewrite IH, H1.
  destruct (k =? f)%string; cbn [orb]; [|reflexivity].
  destruct (existsb (String.eqb k) fields); [|reflexivity].
  destruct (dict_get d k) as [v|]; [|reflexivity].
  cbn [option_map]. now rewrite mark_value_idem.
Qed.

(** X8: what [mark_as_duplicate] does to each field.  With the marker
    switched on, a field other than the two bookkeeping columns keeps its
    value unless it is a key field, whose truthy value receives the marker
    prefix once; no field is removed; a missing [Duplicate_Flag] becomes
    ["TRUE"] and a missing [Duplicate_Detected_Date] the time of the
    call.  With the marker switched off the record is returned as it
    is. *)
Theorem mark_as_duplicate_field_by_field (self : detector) (now : string)
    (row_data : dict pyval) :
  let marked := mark_as_duplicate cfg self now row_data in
  if ADD_DUPLICATE_MARKER cfg
  then
    (forall k, k <> "Duplicate_Flag" -> k <> "Duplicate_Detected_Date" ->
               dict_get marked k
               = if existsb (String.eqb k) (check_fields self)
                 then option_map mark_value (dict_get row_data k)
                 else dict_get row_data k)
    /\ (forall k, dict_mem row_data k = true -> dict_mem marked k = true)
    /\ (dict_get row_data "Duplicate_Flag" = None ->
        dict_get marked "Duplicate_Flag" = Some (PStr "TRUE"))
    /\ (dict_get row_data "Duplicate_Detected_Date" = None ->
        dict_get marked "Duplicate_Detected_Date" = Some (PStr now))
  else marked = row_data.
Proof.
  intros marked. unfold marked, mark_as_duplicate.
  destruct (ADD_DUPLICATE_MARKER cfg); cbn [negb]; [|reflexivity].
  set (d1 := mark_fields cfg (check_fields self) row_data).
  assert (Hkeep : forall k, dict_get row_data k = None -> dict_get d1 k = None).
  { intros k Hk. unfold d1. rewrite mark_fields_get, Hk.
    now destruct (existsb (String.eqb k) (check_fields self)). }
  split; [|split; [|split]].
  - intros k Hf Hd.
    rewrite !DuplicateDetectorFacts.set_if_absent_get_other by assumption.
    apply mark_fields_get.
  - intros k Hk.
    do 2 apply DuplicateDetectorFacts.set_if_absent_mem_mono.
    unfold dict_mem in *. unfold d1. rewrite mark_fields_get.
    destruct (dict_get row_data k); [|discriminate].
    now destruct (existsb (String.eqb k) (check_fields self)).
  - intros Hk.
    rewrite DuplicateDetectorFacts.set_if_absent_get_other by discriminate.
    unfold set_if_absent, dict_mem. rewrite (Hkeep _ Hk).
    now rewrite dict_get_set, String.eqb_refl.
  - intros Hk. unfold set_if_absent at 1, dict_mem.
    rewrite DuplicateDetectorFacts.set_if_absent_get_other by discriminate.
    rewrite (Hkeep _ Hk). now rewrite dict_get_set, String.eqb_refl.
Qed.

End Strategies.


(** ** Concrete runs *)

Definition id_detector : detector := init default_config None None None.

(** A corpus whose third record repeats the first one in another
    spelling. *)
Definition catalogue : DataFrame := {|
  columns := ["Document ID"; "Document Title"];
  rows := [ (0, [PStr "DOC-1"; PStr "Annual Report"]);
            (1, [PStr "DOC-2"; PStr "Budget"]);
            (2, [PStr " doc-1"; PStr "Annual report (copy)"]) ]
|}.

Lemma catalogue_labels : NoDup (columns catalogue).
Proof.
  constructor; [intros [H|[]]; discriminate H|].
  constructor; [intros []|constructor].
Qed.

(** The record [DOC-9] with the title of the first row of the catalogue
    is matched by its title. *)
Definition retitled : dict pyval :=
  [("Document ID", PStr "DOC-9"); ("Document Title", PStr "Annual Report")].

Lemma title_similarity_match_best_witness :
  exists o,
    title_similarity_match Fuzz.ratio default_config id_detector
      (RowDict retitled) catalogue = Ret o
    /\ fst o = true.
Proof.
  pose proof (title_similarity_match_best Fuzz.ratio default_config
                id_detector retitled catalogue catalogue_labels) as H.
  change (ENABLE_FUZZY_TITLE_MATCHING default_config) with true in H.
  cbv iota in H.
  destruct (title_of retitled) as [t|] eqn:Et; [|discriminate Et].
  cbv zeta in H.
  destruct H as [[H _]|(pre & idx & vals & s & post & info & _ & H & _)].
  - exfalso. vm_compute in H. discriminate H.
  - eexists. split; [exact H|reflexivity].
Defined.

Lemma check_for_duplicate_dict_answers_witness :
  exists o,
    check_for_duplicate Fuzz.ratio MD5.hexdigest default_config
      (init default_config None (Some "fuzzy") None) (RowDict retitled)
      (Some catalogue) = Ret o
    /\ (o = no_match
        \/ exists df, Some catalogue = Some df /\ df_empty df = false
                      /\ answer_ok df o).
Proof.
  apply (check_for_duplicate_dict_answers Fuzz.ratio MD5.hexdigest
           default_config (init default_config None (Some "fuzzy") None)
           retitled (Some catalogue)).
  intros df [= <-]. exact catalogue_labels.
Defined.

Lemma exact_match_detects_existing_record_witness :
  exists info idx' vals',
    exact_match id_detector
      (RowDict (to_dict catalogue [PStr " doc-1"; PStr "Annual report (copy)"]))
      catalogue = Ret (true, Some info)
    /\ match_type info = "exact" /\ match_score info = 100
    /\ matched_row_index info = Some idx'
    /\ In (idx', vals') (rows catalogue)
    /\ key_of id_detector (to_dict catalogue vals') = Some "Document ID:doc1".
Proof.
  apply (exact_match_detects_existing_record id_detector catalogue 2
           [PStr " doc-1"; PStr "Annual report (copy)"] "Document ID:doc1").
  - simpl. auto.
  - reflexivity.
Defined.

End DetectorProperties.

(** * Properties of the [DuplicateManager] of duplicate_detector.py *)

Module ManagerProperties.

Import DuplicateDetector DuplicateManager.

Lemma memZ_false (j : Z) (s : list Z) : memZ j s = false <-> ~ In j s.
Proof.
  unfold memZ. induction s as [|x s IH]; simpl.
  - split; [intros _ []|reflexivity].
  - rewrite orb_false_iff, IH, Z.eqb_neq. split.
    + intros [H1 H2] [H|H]; [congruence|contradiction].
    + intros H. split; [intros ->|intros Hin]; apply H; auto.
Qed.

(** The frame is indexed by position, as a frame built from the records
    of a worksheet is: the labels are 0, 1, 2, ... *)
Definition range_indexed (df : DataFrame) : Prop :=
  map fst (rows df) = map Z.of_nat (seq 0 (List.length (rows df))).

Lemma skipn_seq (k n start : nat) :
  skipn k (seq start n) = seq (start + k) (n - k).
Proof.
  revert n start. induction k as [|k IH]; intros n start; simpl.
  - now rewrite Nat.add_0_r, Nat.sub_0_r.
  - destruct n as [|n]; simpl; [reflexivity|].
    rewrite IH. f_equal. lia.
Qed.

Lemma range_indexed_skipn (df : DataFrame) (k : nat) (r : Z * list pyval) :
  range_indexed df -> In r (skipn k (rows df)) -> Z.of_nat k <= fst r.
Proof.
  intros Hr Hin. apply (in_map fst) in Hin.
  rewrite <- skipn_map, Hr, skipn_map, skipn_seq in Hin.
  apply in_map_iff in Hin. destruct Hin as (x & <- & Hx).
  apply in_seq in Hx. lia.
Qed.

Section Pairs.

Variable fuzz_ratio : string -> string -> Z.
Variable md5_hexdigest : string -> string.
Variable cfg : config.
Variable self : detector.
Variable df : DataFrame.

(** An entry names two rows of the frame and carries the match
    information of the comparison, which points at the duplicate row. *)
Definition entry_ok (e : duplicate) : Prop :=
  In (original_index e) (map fst (rows df))
  /\ In (duplicate_index e) (map fst (rows df))
  /\ (exists info, d_match_info e = Some info
                   /\ matched_row_index info = Some (duplicate_index e))
  /\ sheet_1 e = None /\ sheet_2 e = None.

(** The state of the two loops: the duplicates found so far and the
    labels of the rows marked as processed. *)
Definition inv (st : list duplicate * list Z) : Prop :=
  NoDup (map duplicate_index (fst st))
  /\ Forall (fun e => In (duplicate_index e) (snd st)) (fst st)
  /\ Forall entry_ok (fst st).

Definition inv_range (cur : Z) (st : list duplicate * list Z) : Prop :=
  Forall (fun e => original_index e < duplicate_index e
                   /\ original_index e <= cur
                   /\ ~ In (original_index e) (snd st)) (fst st).

Lemma inv_range_mono (cur cur' : Z) (st : list duplicate * list Z) :
  cur <= cur' -> inv_range cur st -> inv_range cur' st.
Proof.
  intros Hle H. unfold inv_range in *. eapply Forall_impl; [|exact H].
  simpl. intros e (H1 & H2 & H3). repeat split; auto; lia.
Qed.

Lemma compare_rest_inv (i : Z) (row_dict : dict pyval)
    (others : list (Z * list pyval)) :
  In i (map fst (rows df)) ->
  forall duplicates processed,
    inv (duplicates, processed) ->
    Forall (fun r => In (fst r) (map fst (rows df))) others ->
    exists st,
      compare_rest fuzz_ratio md5_hexdigest cfg self df i row_dict others
        duplicates processed = Ret st
      /\ inv st
      /\ (Forall (fun r => i < fst r) others ->
          ~ In i processed ->
          inv_range i (duplicates, processed) ->
          inv_range i st /\ ~ In i (snd st)).
Proof.
  intros Hi.
  induction others as [|[j other_row] others IH];
    intros duplicates processed Hinv Hlab; cbn [compare_rest].
  - eexists. split; [reflexivity|]. split; [exact Hinv|]. auto.
  - inversion Hlab as [|? ? Hj Hlab']; subst. cbn [fst] in Hj.
    destruct (memZ j processed) eqn:Hm.
    + destruct (IH duplicates processed Hinv Hlab') as (st & Hst & Hinv' & Hr).
      exists st. split; [exact Hst|]. split; [exact Hinv'|].
      intros Hgt. inversion Hgt; subst. now apply Hr.
    + apply memZ_false in Hm.
      destruct (DetectorProperties.check_for_duplicate_dict_ok
                  fuzz_ratio md5_hexdigest cfg self row_dict
                  (Some {| columns := columns df; rows := [(j, other_row)] |}))
        as (o & Ho & Hok).
      rewrite Ho. cbn [bind].
      destruct Hok as [->|(df' & [= <-] & _ & Hok)].
      { destruct (IH duplicates processed Hinv Hlab') as (st & Hst & Hinv' & Hr).
        exists st. split; [exact Hst|]. split; [exact Hinv'|].
        intros Hgt. inversion Hgt; subst. now apply Hr. }
      destruct Hok as [->|(info & idx & -> & _ & Hidx & Hin & _)].
      { destruct (IH duplicates processed Hinv Hlab') as (st & Hst & Hinv' & Hr).
        exists st. split; [exact Hst|]. split; [exact Hinv'|].
        intros Hgt. inversion Hgt; subst. now apply Hr. }
      cbn [rows map fst] in Hin. destruct Hin as [<-|[]].
      set (e := {| original_index := i; duplicate_index := j;
                   d_match_info := Some info; original_row := row_dict;
                   duplicate_row := to_dict df other_row;
                   sheet_1 := None; sheet_2 := None |}).
      destruct Hinv as (Hnd & Hproc & Hent). cbn [fst snd] in *.
      assert (Hinv1 : inv ((duplicates ++ [e])%list, j :: processed)).
      { split; [|split]; cbn [fst snd].
        - rewrite map_app. cbn [map]. apply NoDup_app_remove_l with (l := []).
          simpl. apply NoDup_app; [exact Hnd|repeat constructor; intros []|].
          intros x Hx [<-|[]]. apply Hm.
          apply in_map_iff in Hx. destruct Hx as (e' & <- & He').
          rewrite Forall_forall in Hproc. now apply Hproc.
        - apply Forall_app. split.
          + eapply Forall_impl; [|exact Hproc]. simpl. auto.
          + repeat constructor.
        - apply Forall_app. split; [exact Hent|]. repeat constructor.
          * exact Hi.
          * exact Hj.
          * exists info. split; [reflexivity|exact Hidx]. }
      destruct (IH _ _ Hinv1 Hlab') as (st & Hst & Hinv' & Hr).
      exists st. split; [exact Hst|]. split; [exact Hinv'|].
      intros Hgt Hni Hrange. inversion Hgt as [|? ? Hij Hgt']; subst.
      cbn [fst] in Hij. apply Hr; [exact Hgt'| |].
      * intros [->|H]; [lia|contradiction].
      * unfold inv_range in *. cbn [fst snd] in *. apply Forall_app. split.
        -- eapply Forall_impl; [|exact Hrange]. simpl.
           intros e' (H1 & H2 & H3). repeat split; auto.
           intros [->|H]; [lia|contradiction].
        -- repeat constructor; simpl; try lia.
           intros [->|H]; [lia|contradiction].
Qed.

(** The rows of [todo] carry the labels [p], [p + 1], ... *)
Definition labelled_from (p : nat) (todo : list (Z * list pyval)) : Prop :=
  map fst todo = map Z.of_nat (seq p (List.length todo)).

Lemma labelled_from_cons (p : nat) (i : Z) (row : list pyval)
    (todo : list (Z * list pyval)) :
  labelled_from p ((i, row) :: todo) ->
  i = Z.of_nat p /\ labelled_from (S p) todo.
Proof.
  unfold labelled_from. cbn [map List.length seq fst].
  intros [= H1 H2]. now split.
Qed.

Lemma in_skipn {A : Type} (n : nat) (l : list A) (x : A) :
  In x (skipn n l) -> In x l.
Proof.
  intros H. rewrite <- (firstn_skipn n l). apply in_or_app. now right.
Qed.

Lemma iloc_from_incl {A : Type} (k : Z) (l : list A) (x : A) :
  In x (iloc_from k l) -> In x l.
Proof. unfold iloc_from. destruct (k <? 0); apply in_skipn. Qed.

Lemma scan_rows_inv (todo : list (Z * list pyval)) :
  Forall (fun r => In (fst r) (map fst (rows df))) todo ->
  forall duplicates processed,
    inv (duplicates, processed) ->
    exists l processed',
      scan_rows fuzz_ratio md5_hexdigest cfg self df todo duplicates processed
      = Ret l
      /\ inv (l, processed')
      /\ (range_indexed df ->
          forall p, labelled_from p todo ->
                    inv_range (Z.of_nat p) (duplicates, processed) ->
                    inv_range (Z.of_nat (p + List.length todo)) (l, processed')).
Proof.
  induction todo as [|[i row] todo IH]; intros Hlab duplicates processed Hinv;
    cbn [scan_rows].
  - exists duplicates, processed. split; [reflexivity|].
    split; [exact Hinv|]. intros _ p _ Hr. cbn [List.length].
    now rewrite Nat.add_0_r.
  - inversion Hlab as [|? ? Hi Hlab']; subst. cbn [fst] in Hi.
    destruct (memZ i processed) eqn:Hm.
    + destruct (IH Hlab' duplicates processed Hinv)
        as (l & processed' & Hl & Hinv' & Hr).
      exists l, processed'. split; [exact Hl|]. split; [exact Hinv'|].
      intros Hri p Hp Hrange.
      apply labelled_from_cons in Hp. destruct Hp as [-> Hp].
      cbn [List.length].
      replace (p + S (List.length todo))%nat
        with (S p + List.length todo)%nat by lia.
      apply (Hr Hri (S p) Hp).
      apply (inv_range_mono (Z.of_nat p)); [lia|exact Hrange].
    + apply memZ_false in Hm.
      assert (Hothers : Forall (fun r => In (fst r) (map fst (rows df)))
                          (iloc_from (i + 1) (rows df))).
      { apply Forall_forall. intros r Hr. apply in_map.
        now apply iloc_from_incl in Hr. }
      destruct (compare_rest_inv i (to_dict df row)
                  (iloc_from (i + 1) (rows df)) Hi duplicates processed
                  Hinv Hothers) as ([dups1 proc1] & Hst & Hinv1 & Hr1).
      rewrite Hst. cbn [bind].
      destruct (IH Hlab' dups1 proc1 Hinv1)
        as (l & processed' & Hl & Hinv' & Hr).
      exists l, processed'. split; [exact Hl|]. split; [exact Hinv'|].
      intros Hri p Hp Hrange.
      apply labelled_from_cons in Hp. destruct Hp as [-> Hp].
      cbn [List.length].
      replace (p + S (List.length todo))%nat
        with (S p + List.length todo)%nat by lia.
      apply (Hr Hri (S p) Hp).
      apply (inv_range_mono (Z.of_nat p)); [lia|].
      apply Hr1; [|exact Hm|exact Hrange].
      apply Forall_forall. intros r Hin. unfold iloc_from in Hin.
      replace (Z.of_nat p + 1 <? 0) with false in Hin
        by (symmetry; apply Z.ltb_ge; lia).
      replace (Z.to_nat (Z.of_nat p + 1)) with (S p) in Hin by lia.
      pose proof (range_indexed_skipn df (S p) r Hri Hin). lia.
Qed.

(** X9: the duplicates [find_duplicates_in_dataframe] reports for a frame
    that is indexed by position and whose column labels are distinct.
    The call returns; every entry pairs an original row with a later row
    of the frame and carries the match information of their comparison; no
    row is reported as a duplicate twice; and a row reported as a
    duplicate is never the original of another entry. *)
Theorem find_duplicates_in_dataframe_pairs :
  range_indexed df -> NoDup (columns df) ->
  exists l,
    find_duplicates_in_dataframe fuzz_ratio md5_hexdigest cfg self df = Ret l
    /\ NoDup (map duplicate_index l)
    /\ Forall entry_ok l
    /\ Forall (fun e => original_index e < duplicate_index e) l
    /\ (forall e e', In e l -> In e' l ->
                     original_index e <> duplicate_index e').
Proof.
  intros Hri _. unfold find_duplicates_in_dataframe.
  destruct (df_empty df).
  { exists []. split; [reflexivity|]. split; [constructor|].
    split; [constructor|]. split; [constructor|]. intros e e' []. }
  assert (Hlab : Forall (fun r => In (fst r) (map fst (rows df))) (rows df)).
  { apply Forall_forall. intros r Hr. now apply in_map. }
  assert (Hinv0 : inv ([], [])).
  { split; [constructor|]. split; constructor. }
  destruct (scan_rows_inv (rows df) Hlab [] [] Hinv0)
    as (l & processed' & Hl & (Hnd & Hproc & Hent) & Hr).
  cbn [fst snd] in *.
  assert (Hrange : inv_range (Z.of_nat (0 + List.length (rows df)))
                     (l, processed')).
  { apply (Hr Hri 0%nat); [exact Hri|constructor]. }
  unfold inv_range in Hrange. cbn [fst snd] in Hrange.
  exists l. split; [exact Hl|]. split; [exact Hnd|]. split; [exact Hent|].
  split.
  - eapply Forall_impl; [|exact Hrange]. simpl. now intros e (H1 & _).
  - intros e e' He He' Heq.
    rewrite Forall_forall in Hrange, Hproc.
    destruct (Hrange e He) as (_ & _ & Hn). apply Hn.
    rewrite Heq. now apply Hproc.
Qed.

Lemma find_duplicates_in_dataframe_returns :
  exists l,
    find_duplicates_in_dataframe fuzz_ratio md5_hexdigest cfg self df = Ret l
    /\ Forall entry_ok l.
Proof.
  unfold find_duplicates_in_dataframe.
  destruct (df_empty df); [exists []; split; [reflexivity|constructor]|].
  assert (Hlab : Forall (fun r => In (fst r) (map fst (rows df))) (rows df)).
  { apply Forall_forall. intros r Hr. now apply in_map. }
  assert (Hinv0 : inv ([], [])).
  { split; [constructor|]. split; constructor. }
  destruct (scan_rows_inv (rows df) Hlab [] [] Hinv0)
    as (l & processed' & Hl & (_ & _ & Hent) & _).
  exists l. now split.
Qed.

End Pairs.

(** ** The duplicate report *)

(** The sum of the counts of a tally. *)
Definition sum_counts (d : dict Z) : Z :=
  fold_right (fun kv acc => snd kv + acc) 0 d.

(** [d.get(ty, 0)] *)
Definition count_of (d : dict Z) (ty : string) : Z :=
  match dict_get d ty with
  | Some n => n
  | None => 0
  end.

(** The entry carries match information of the type [ty]. *)
Definition of_type (ty : string) (e : duplicate) : bool :=
  match d_match_info e with
  | Some info => (match_type info =? ty)%string
  | None => false
  end.

Lemma sum_counts_bump (d : dict Z) (k : string) :
  sum_counts (dict_set d k (count_of d k + 1)) = sum_counts d + 1.
Proof.
  unfold count_of. induction d as [|[k0 v0] d IH]; simpl; [lia|].
  destruct (k =? k0)%string; simpl; [lia|].
  rewrite IH. lia.
Qed.

Lemma count_of_bump (d : dict Z) (k ty : string) :
  count_of (dict_set d k (count_of d k + 1)) ty
  = count_of d ty + if (k =? ty)%string then 1 else 0.
Proof.
  unfold count_of at 1. rewrite dict_get_set.
  destruct (String.eqb_spec ty k) as [->|Hne].
  - rewrite String.eqb_refl. reflexivity.
  - destruct (String.eqb_spec k ty); [congruence|].
    unfold count_of. lia.
Qed.

Lemma set_add_length (x : string) (s : list string) :
  len (set_add x s) <= len s + 1.
Proof.
  unfold set_add, len. destruct (existsb (String.eqb x) s); [lia|].
  rewrite length_app. simpl. lia.
Qed.

Lemma tally_totals (duplicates : list duplicate) :
  Forall (fun e => d_match_info e <> None) duplicates ->
  forall match_types sheets,
    exists match_types' sheets',
      tally duplicates match_types sheets = Ret (match_types', sheets')
      /\ sum_counts match_types' = sum_counts match_types + len duplicates
      /\ (forall ty, count_of match_types' ty
                     = count_of match_types ty
                       + len (filter (of_type ty) duplicates))
      /\ len sheets' <= len sheets + 2 * len duplicates.
Proof.
  induction 1 as [|e duplicates He _ IH]; intros match_types sheets;
    cbn [tally].
  - exists match_types, sheets. unfold len. simpl.
    repeat split; try lia.
  - destruct (d_match_info e) as [info|] eqn:Ei; [|congruence].
    fold (count_of match_types (match_type info)).
    destruct (IH (dict_set match_types (match_type info)
                    (count_of match_types (match_type info) + 1))
                 (set_add (sheet_or_unknown (sheet_2 e))
                    (set_add (sheet_or_unknown (sheet_1 e)) sheets)))
      as (mt' & sh' & Ht & Hsum & Hcount & Hlen).
    exists mt', sh'. split; [exact Ht|].
    rewrite sum_counts_bump in Hsum.
    pose proof (set_add_length (sheet_or_unknown (sheet_1 e)) sheets) as L1.
    pose proof (set_add_length (sheet_or_unknown (sheet_2 e))
                  (set_add (sheet_or_unknown (sheet_1 e)) sheets)) as L2.
    unfold len in *. cbn [List.length]. repeat split; try lia.
    intros ty. rewrite Hcount, count_of_bump.
    cbn [filter]. unfold of_type at 2. rewrite Ei.
    destruct (match_type info =? ty)%string; cbn [List.length]; lia.
Qed.

(** X10: the totals of [generate_duplicate_report].  For a list of
    entries that carry match information the report is produced; it
    lists the entries unchanged; [total_duplicates] and [duplicate_pairs]
    are their number; the counts per match type add up to that number,
    the count of each type being the number of entries of that type; and
    at most two sheets per entry are affected. *)
Theorem generate_duplicate_report_totals (now : string)
    (duplicates : list duplicate) :
  Forall (fun e => d_match_info e <> None) duplicates ->
  exists rep,
    generate_duplicate_report now duplicates = Ret rep
    /\ report_duplicates rep = duplicates
    /\ total_duplicates (summary rep) = len duplicates
    /\ duplicate_pairs (summary rep) = len duplicates
    /\ sum_counts (match_types (summary rep)) = len duplicates
    /\ (forall ty, count_of (match_types (summary rep)) ty
                   = len (filter (of_type ty) duplicates))
    /\ sheets_affected (summary rep) <= 2 * len duplicates.
Proof.
  intros Hinfo. unfold generate_duplicate_report.
  destruct duplicates as [|e duplicates].
  - eexists. split; [reflexivity|]. cbn. repeat split; reflexivity.
  - destruct (tally_totals (e :: duplicates) Hinfo [] [])
      as (mt' & sh' & Ht & Hsum & Hcount & Hlen).
    rewrite Ht. cbn [bind]. eexists. split; [reflexivity|].
    cbn [report_duplicates summary total_duplicates duplicate_pairs
         match_types sheets_affected].
    repeat split; try reflexivity.
    + exact Hsum.
    + intros ty. rewrite Hcount. reflexivity.
    + unfold len in *. simpl in *. lia.
Qed.

Lemma tally_unknown (duplicates : list duplicate) :
  Forall (fun e => d_match_info e <> None
                   /\ sheet_1 e = None /\ sheet_2 e = None) duplicates ->
  forall match_types,
    exists match_types',
      tally duplicates match_types ["Unknown"]
      = Ret (match_types', ["Unknown"]).
Proof.
  induction 1 as [|e duplicates (He & H1 & H2) _ IH]; intros match_types;
    cbn [tally].
  - now eexists.
  - destruct (d_match_info e) as [info|]; [|congruence].
    rewrite H1, H2. apply IH.
Qed.

Section InFrame.

Variable fuzz_ratio : string -> string -> Z.
Variable md5_hexdigest : string -> string.
Variable cfg : config.

(** X11: the report of the duplicates found within one frame whose
    column labels are distinct.  The scan and the report both go through,
    whatever the rows and the detection method; the report counts every
    entry; and since the entries of an in-frame scan name no sheet, a
    report with at least one entry gives exactly one affected sheet,
    called ["Unknown"]. *)
Theorem in_frame_report (self : detector) (df : DataFrame) (now : string) :
  NoDup (columns df) ->
  exists l rep,
    find_duplicates_in_dataframe fuzz_ratio md5_hexdigest cfg self df = Ret l
    /\ generate_duplicate_report now l = Ret rep
    /\ total_duplicates (summary rep) = len l
    /\ match l with
       | [] => sheets_affected (summary rep) = 0
       | _ :: _ => sheets_affected (summary rep) = 1
                   /\ affected_sheets (summary rep) = Some ["Unknown"]
       end.
Proof.
  intros _.
  destruct (find_duplicates_in_dataframe_returns fuzz_ratio md5_hexdigest
              cfg self df) as (l & Hl & Hent).
  exists l.
  assert (Hsheets : Forall (fun e => d_match_info e <> None
                                     /\ sheet_1 e = None
                                     /\ sheet_2 e = None) l).
  { eapply Forall_impl; [|exact Hent]. simpl.
    intros e (_ & _ & (info & Hi & _) & H1 & H2).
    repeat split; try assumption. congruence. }
  destruct l as [|e l].
  - eexists. split; [exact Hl|]. split; [reflexivity|].
    split; reflexivity.
  - inversion Hsheets as [|? ? (He & H1 & H2) Hrest]; subst.
    unfold generate_duplicate_report. cbn [tally].
    destruct (d_match_info e) as [info|]; [|congruence].
    rewrite H1, H2. cbn [sheet_or_unknown dict_get].
    change (set_add "Unknown" (set_add "Unknown" [])) with ["Unknown"].
    destruct (tally_unknown l Hrest
                (dict_set [] (match_type info) (0 + 1))) as [mt' Ht].
    rewrite Ht. cbn [bind].
    eexists. split; [exact Hl|]. split; [reflexivity|].
    split; [reflexivity|]. split; reflexivity.
Qed.

End InFrame.

(** ** Concrete runs *)

Lemma find_duplicates_in_dataframe_pairs_witness :
  exists l,
    find_duplicates_in_dataframe Fuzz.ratio MD5.hexdigest default_config
      DetectorProperties.id_detector DetectorProperties.catalogue = Ret l
    /\ NoDup (map duplicate_index l)
    /\ Forall (entry_ok DetectorProperties.catalogue) l
    /\ Forall (fun e => original_index e < duplicate_index e) l
    /\ (forall e e', In e l -> In e' l ->
                     original_index e <> duplicate_index e').
Proof.
  apply (find_duplicates_in_dataframe_pairs Fuzz.ratio MD5.hexdigest
           default_config DetectorProperties.id_detector
           DetectorProperties.catalogue).
  - reflexivity.
  - exact DetectorProperties.catalogue_labels.
Defined.

Lemma in_frame_report_witness :
  exists l rep,
    find_duplicates_in_dataframe Fuzz.ratio MD5.hexdigest default_config
      DetectorProperties.id_detector DetectorProperties.catalogue = Ret l
    /\ generate_duplicate_report "2024-01-01T00:00:00" l = Ret rep
    /\ total_duplicates (summary rep) = len l
    /\ match l with
       | [] => sheets_affected (summary rep) = 0
       | _ :: _ => sheets_affected (summary rep) = 1
                   /\ affected_sheets (summary rep) = Some ["Unknown"]
       end.
Proof.
  apply (in_frame_report Fuzz.ratio MD5.hexdigest default_config
           DetectorProperties.id_detector DetectorProperties.catalogue
           "2024-01-01T00:00:00").
  exact DetectorProperties.catalogue_labels.
Defined.

Definition sample_info (ty : string) (idx : Z) : match_info :=
  {| match_type := ty; match_score := 100; matched_row_index := Some idx;
     matched_fields := ["Document ID"]; match_details := "" |}.

Definition sample_entries : list duplicate :=
  [ {| original_index := 0; duplicate_index := 2;
       d_match_info := Some (sample_info "exact" 2);
       original_row := []; duplicate_row := [];
       sheet_1 := Some "Sheet A"; sheet_2 := Some "Sheet A" |};
    {| original_index := 1; duplicate_index := 0;
       d_match_info := Some (sample_info "content_hash" 0);
       original_row := []; duplicate_row := [];
       sheet_1 := Some "Sheet A"; sheet_2 := Some "Sheet B" |} ].

Lemma generate_duplicate_report_totals_witness :
  exists rep,
    generate_duplicate_report "2024-01-01T00:00:00" sample_entries = Ret rep
    /\ report_duplicates rep = sample_entries
    /\ total_duplicates (summary rep) = len sample_entries
    /\ duplicate_pairs (summary rep) = len sample_entries
    /\ sum_counts (match_types (summary rep)) = len sample_entries
    /\ (forall ty, count_of (match_types (summary rep)) ty
                   = len (filter (of_type ty) sample_entries))
    /\ sheets_affected (summary rep) <= 2 * len sample_entries.
Proof.
  apply (generate_duplicate_report_totals "2024-01-01T00:00:00" sample_entries).
  repeat constructor; discriminate.
Defined.

End ManagerProperties.

(** * Further properties of advanced_duplicate_detector.py *)

Module AdvancedProperties.

Import AdvancedDuplicateDetector.

Local Open Scope Q_scope.
Local Open Scope Z_scope.

(** ** Grouping by a key *)

(** The grouping loops of the module: a file with a key joins the list
    of its key, a file without one is left out. *)
Definition group_by (key : file -> option string) (l : list file)
    (groups : dict (list file)) : dict (list file) :=
  fold_left (fun groups f =>
               match key f with
               | Some k => dict_append groups k f
               | None => groups
               end) l groups.

(** The file has the key [k]. *)
Definition keyed (key : file -> option string) (k : string) (f : file) : bool :=
  match key f with
  | Some k' => (k' =? k)%string
  | None => false
  end.

(** A dict that groups the files [seen] by their keys: each list holds
    the files of its key, in order, and is not empty; a key without a
    list has no file. *)
Definition groups_of (key : file -> option string) (seen : list file)
    (groups : dict (list file)) : Prop :=
  NoDup (dict_keys groups)
  /\ (forall k fs, In (k, fs) groups ->
                   fs = filter (keyed key k) seen /\ fs <> [])
  /\ (forall k, dict_get groups k = None -> filter (keyed key k) seen = []).

Lemma dict_set_has {V : Type} (d : dict V) (k : string) (v : V) :
  In (k, v) (dict_set d k v).
Proof.
  induction d as [|[k0 v0] d IH]; simpl; [now left|].
  destruct (k =? k0)%string; [now left|now right].
Qed.

Lemma nodup_keys_unique {V : Type} (d : dict V) (k : string) (v v' : V) :
  NoDup (dict_keys d) -> In (k, v) d -> In (k, v') d -> v = v'.
Proof.
  induction d as [|[k0 v0] d IH]; simpl; intros Hnd H1 H2; [contradiction|].
  inversion Hnd as [|? ? Hk Hd]; subst.
  destruct H1 as [[= -> ->]|H1], H2 as [[= E]|H2].
  - now subst.
  - exfalso. apply Hk. apply (in_map fst) in H2. exact H2.
  - subst. exfalso. apply Hk. apply (in_map fst) in H1. exact H1.
  - now apply IH.
Qed.

Lemma filter_snoc {A : Type} (p : A -> bool) (l : list A) (x : A) :
  filter p (l ++ [x]) = (filter p l ++ if p x then [x] else [])%list.
Proof. rewrite filter_app. simpl. now destruct (p x). Qed.

Lemma groups_of_step (key : file -> option string) (seen : list file)
    (groups : dict (list file)) (f : file) :
  groups_of key seen groups ->
  groups_of key (seen ++ [f])
    match key f with
    | Some k => dict_append groups k f
    | None => groups
    end.
Proof.
  intros (Hnd & Hin & Hnone).
  destruct (key f) as [k|] eqn:Ek.
  - assert (Hold : get_default groups k [] = filter (keyed key k) seen).
    { unfold get_default. destruct (dict_get groups k) as [old|] eqn:Eg.
      - apply AdvancedFacts.dict_get_in in Eg. now apply Hin in Eg.
      - symmetry. now apply Hnone. }
    assert (Hk : keyed key k f = true)
      by (unfold keyed; rewrite Ek; apply String.eqb_refl).
    unfold dict_append. split; [|split].
    + now apply AdvancedFacts.dict_set_nodup.
    + intros k' fs Hfs.
      destruct (String.eqb_spec k' k) as [->|Hne].
      * assert (E : fs = (get_default groups k [] ++ [f])%list).
        { eapply nodup_keys_unique; [|exact Hfs|apply dict_set_has].
          now apply AdvancedFacts.dict_set_nodup. }
        rewrite E, Hold, filter_snoc, Hk. split; [reflexivity|].
        now destruct (filter (keyed key k) seen).
      * apply AdvancedFacts.dict_set_in in Hfs.
        destruct Hfs as [[= E _]|Hfs]; [congruence|].
        destruct (Hin _ _ Hfs) as [E Hne']. split; [|exact Hne'].
        rewrite filter_snoc. unfold keyed at 2. rewrite Ek.
        destruct (String.eqb_spec k k'); [congruence|].
        now rewrite app_nil_r.
    + intros k' Hk'. rewrite dict_get_set in Hk'.
      destruct (String.eqb_spec k' k) as [E|Hne]; [discriminate|].
      rewrite filter_snoc, (Hnone _ Hk'). unfold keyed. rewrite Ek.
      destruct (String.eqb_spec k k'); [congruence|reflexivity].
  - split; [exact Hnd|split].
    + intros k fs Hfs. destruct (Hin _ _ Hfs) as [E Hne]. split; [|exact Hne].
      rewrite filter_snoc. unfold keyed at 2. rewrite Ek.
      now rewrite app_nil_r.
    + intros k Hk. rewrite filter_snoc, (Hnone _ Hk). unfold keyed.
      now rewrite Ek.
Qed.

Lemma group_by_groups (key : file -> option string) (l : list file) :
  forall seen groups,
    groups_of key seen groups ->
    groups_of key (seen ++ l) (group_by key l groups).
Proof.
  unfold group_by.
  induction l as [|f l IH]; intros seen groups H; simpl.
  - now rewrite app_nil_r.
  - replace (seen ++ f :: l)%list with ((seen ++ [f]) ++ l)%list
      by (now rewrite <- app_assoc).
    apply IH. now apply groups_of_step.
Qed.

Lemma groups_of_nil (key : file -> option string) : groups_of key [] [].
Proof.
  split; [constructor|]. split; [intros k fs []|reflexivity].
Qed.

(** The key by which [_find_exact_hash_matches] groups: the first
    checksum that is set. *)
Definition hash_key (f : file) : option string := first_hash f hash_fields.

(** The key by which [_find_size_based_matches] groups: the size string,
    unless it is empty or ["0"]. *)
Definition size_key (f : file) : option string :=
  let size := get_default f "size" "0" in
  if str_truthy size && negb (size =? "0")%string then Some size else None.

(** The key by which [_group_files_by_category] groups. *)
Definition category_key (f : file) : option string :=
  Some (get_default f "file_category" "other").

Lemma hash_groups_by (l : list file) : hash_groups l = group_by hash_key l [].
Proof. reflexivity. Qed.

Lemma size_groups_by (l : list file) : size_groups l = group_by size_key l [].
Proof.
  assert (H : forall d : dict (list file),
            fold_left (fun groups f =>
                         let size := get_default f "size" "0" in
                         if str_truthy size && negb (size =? "0")%string
                         then dict_append groups size f
                         else groups) l d
            = group_by size_key l d).
  { unfold group_by. induction l as [|f l IH]; intros d; simpl; [reflexivity|].
    rewrite IH. unfold size_key.
    now destruct (str_truthy (get_default f "size" "0")
                  && negb (get_default f "size" "0" =? "0")%string). }
  apply H.
Qed.

Lemma group_files_by_category_by (l : list file) :
  _group_files_by_category l = group_by category_key l [].
Proof. reflexivity. Qed.

(** ** The groups of the exact-hash and the size strategies *)

(** The outcome of a strategy: a result with the property [P], or a
    [ValueError] from a size that is not a number. *)
Definition emits {A : Type} (r : res A) (P : A -> Prop) : Prop :=
  match r with
  | Ret d => P d
  | Raise e => e = ValueError
  end.

Lemma emits_impl {A : Type} (r : res A) (P Q : A -> Prop) :
  (forall d, P d -> Q d) -> emits r P -> emits r Q.
Proof. destruct r; simpl; auto. Qed.

Section Finders.

Variable py_float : string -> option Q.
Variable py_int : string -> option Z.

Lemma float_size_error (f : file) (e : exn) :
  float_size py_float f = Raise e -> e = ValueError.
Proof.
  unfold float_size. destruct (dict_get f "size") as [s|]; [|discriminate].
  destruct (py_float s); [discriminate|]. now intros [= <-].
Qed.

Lemma sum_sizes_error (l : list file) (e : exn) :
  sum_sizes py_float l = Raise e -> e = ValueError.
Proof.
  unfold sum_sizes.
  assert (H : forall acc : res Q,
            (forall e', acc = Raise e' -> e' = ValueError) ->
            fold_left (fun acc f => a <- acc ;; x <- float_size py_float f ;;
                                    Ret (a + x)%Q) l acc = Raise e ->
            e = ValueError).
  { induction l as [|f l IH]; simpl; intros acc Hacc H; [now apply Hacc|].
    apply IH in H; [exact H|].
    intros e' He'. destruct acc as [a|e0]; simpl in He'.
    - destruct (float_size py_float f) as [x|e1] eqn:Ef; simpl in He';
        [discriminate|].
      inversion He'; subst. now apply float_size_error in Ef.
    - inversion He'; subst. now apply Hacc. }
  apply H. discriminate.
Qed.

(** What [_find_exact_hash_matches] reports under [key] for the files
    [l]: the files whose first checksum is [h], at least two, in scan
    order, with the savings computed from the sum of all their sizes. *)
Definition exact_group (l : list file) (key : string) (g : group) : Prop :=
  exists h total,
    key = "hash_" ++ str_take 8 h
    /\ files g = filter (keyed hash_key h) l
    /\ 2 <= len (files g)
    /\ sum_sizes py_float (files g) = Ret total
    /\ g = {| group_type := "exact_content"; confidence := "high";
              files := files g; duplicate_count := len (files g);
              detection_method := "content_hash";
              potential_savings_mb :=
                Some (savings total (len (files g)));
              content_hash := Some h; similarity_threshold := None;
              file_size_mb := None; avg_hash_distance := None;
              category := None; categories := None |}.

Lemma exact_hash_emit_groups (l : list file)
    (items : list (string * list file)) :
  (forall h fs, In (h, fs) items -> fs = filter (keyed hash_key h) l) ->
  forall acc,
    emits (exact_hash_emit py_float items acc)
      (fun d => forall key g, In (key, g) d ->
                              In (key, g) acc \/ exact_group l key g).
Proof.
  induction items as [|[h fs] items IH]; intros Hitems acc;
    cbn [exact_hash_emit].
  - simpl. auto.
  - assert (Hitems' : forall h fs, In (h, fs) items
                                   -> fs = filter (keyed hash_key h) l).
    { intros h' fs' H. apply Hitems. now right. }
    destruct (1 <? len fs) eqn:Elen; [|now apply IH].
    destruct (sum_sizes py_float fs) as [total|e] eqn:Es; cbn [bind].
    + eapply emits_impl; [|apply (IH Hitems')].
      cbn beta. intros d Hd key g Hin.
      destruct (Hd key g Hin) as [Hacc|Hg]; [|now right].
      apply AdvancedFacts.dict_set_in in Hacc.
      destruct Hacc as [[= -> ->]|Hacc]; [|now left].
      right. exists h, total. cbn [files].
      apply Z.ltb_lt in Elen.
      repeat split; try assumption; try lia.
      apply Hitems. now left.
    + simpl. now apply sum_sizes_error in Es.
Qed.

(** X12: the groups of [_find_exact_hash_matches].  The strategy either
    fails with a [ValueError], or every group it reports holds exactly the
    files of the input whose first set checksum (SHA-256, SHA-1, MD5,
    content hash, in that order) is the hash of the group, in scan order
    and at least two of them; the group has type ["exact_content"],
    confidence ["high"], the number of its files as count, and as
    potential savings the sum of the sizes of all its files times the
    number of files less one, in MB. *)
Theorem find_exact_hash_matches_groups (l : list file) :
  emits (_find_exact_hash_matches py_float l)
    (Forall (fun kv => exact_group l (fst kv) (snd kv))).
Proof.
  unfold _find_exact_hash_matches.
  eapply emits_impl; [|apply (exact_hash_emit_groups l (hash_groups l))].
  - cbn beta. intros d Hd. apply Forall_forall. intros [key g] Hin.
    destruct (Hd key g Hin) as [[]|Hg]. exact Hg.
  - intros h fs Hin. rewrite hash_groups_by in Hin.
    pose proof (group_by_groups hash_key l [] [] (groups_of_nil hash_key))
      as (_ & H & _).
    now apply H in Hin.
Qed.

(** What [_find_size_based_matches] reports under [key]: the files of one
    size above 1 MB, at least two. *)
Definition size_group (l : list file) (strict : bool) (key : string)
    (g : group) : Prop :=
  exists size n,
    key = "size_" ++ size
    /\ py_int size = Some n
    /\ Qlt_bool 1 (inject_Z n / mb) = true
    /\ files g = filter (keyed size_key size) l
    /\ 2 <= len (files g)
    /\ g = {| group_type := "exact_size";
              confidence := if negb strict then "low" else "medium";
              files := files g; duplicate_count := len (files g);
              detection_method := "size_matching";
              potential_savings_mb :=
                Some (savings (inject_Z (n * len (files g)))
                        (len (files g)));
              content_hash := None; similarity_threshold := None;
              file_size_mb := Some (inject_Z n / mb)%Q;
              avg_hash_distance := None;
              category := None; categories := None |}.

Lemma size_emit_groups (l : list file) (strict : bool)
    (items : list (string * list file)) :
  (forall s fs, In (s, fs) items -> fs = filter (keyed size_key s) l) ->
  forall acc,
    emits (size_emit py_int strict items acc)
      (fun d => forall key g, In (key, g) d ->
                              In (key, g) acc \/ size_group l strict key g).
Proof.
  induction items as [|[s fs] items IH]; intros Hitems acc;
    cbn [size_emit].
  - simpl. auto.
  - assert (Hitems' : forall s fs, In (s, fs) items
                                   -> fs = filter (keyed size_key s) l).
    { intros s' fs' H. apply Hitems. now right. }
    destruct (1 <? len fs) eqn:Elen; [|now apply IH].
    destruct (py_int s) as [n|] eqn:En; [|reflexivity].
    destruct (Qlt_bool 1 (inject_Z n / mb)) eqn:Emb; [|now apply IH].
    eapply emits_impl; [|apply (IH Hitems')].
    cbn beta. intros d Hd key g Hin.
    destruct (Hd key g Hin) as [Hacc|Hg]; [|now right].
    apply AdvancedFacts.dict_set_in in Hacc.
    destruct Hacc as [[= -> ->]|Hacc]; [|now left].
    right. exists s, n. cbn [files].
    apply Z.ltb_lt in Elen.
    repeat split; try assumption; try lia.
    apply Hitems. now left.
Qed.

(** X13: the groups of [_find_size_based_matches].  The strategy either
    fails with a [ValueError] (a size shared by two files is not an
    integer), or every group it reports holds exactly the files of the
    input with one and the same size string, which is neither empty nor
    ["0"] and denotes more than 1 MB, in scan order and at least two of
    them; the group has type ["exact_size"] and confidence ["medium"] in
    strict mode, ["low"] otherwise. *)
Theorem find_size_based_matches_groups (l : list file) (strict : bool) :
  emits (_find_size_based_matches py_int l strict)
    (Forall (fun kv => size_group l strict (fst kv) (snd kv))).
Proof.
  unfold _find_size_based_matches.
  eapply emits_impl; [|apply (size_emit_groups l strict (size_groups l))].
  - cbn beta. intros d Hd. apply Forall_forall. intros [key g] Hin.
    destruct (Hd key g Hin) as [[]|Hg]. exact Hg.
  - intros s fs Hin. rewrite size_groups_by in Hin.
    pose proof (group_by_groups size_key l [] [] (groups_of_nil size_key))
      as (_ & H & _).
    now apply H in Hin.
Qed.

End Finders.

Section FuzzyNames.

Variable fuzz_ratio : string -> string -> Z.
Variable md5_hexdigest : string -> string.
Variable py_float : string -> option Q.
Variable FUZZY_AVAILABLE : bool.

(** The name a file is compared by. *)
Definition name_of (f : file) : string := lower (get_default f "name" "").

(** The threshold in force: the argument, unless it is absent or zero. *)
Definition threshold_in_force (self : detector) (threshold : option Z) : Z :=
  match threshold with
  | Some t => if t =? 0 then fuzzy_match_threshold (cfg self) else t
  | None => fuzzy_match_threshold (cfg self)
  end.

Definition near (thr : Z) (seed f : file) : Prop :=
  name_of f <> "" /\ thr <= fuzz_ratio (name_of seed) (name_of f).

(** What [_find_fuzzy_name_matches] reports under [key]: a first file
    with a name, followed by files of the input that are near it. *)
Definition star (thr : Z) (l : list file) (key : string) (g : group)
    : Prop :=
  exists seed others,
    files g = seed :: others
    /\ others <> []
    /\ In seed l /\ incl others l
    /\ name_of seed <> ""
    /\ Forall (near thr seed) others
    /\ key = "fuzzy_" ++ str_take 8 (md5_hexdigest (name_of seed))
    /\ group_type g = "fuzzy_name"
    /\ confidence g = "medium"
    /\ similarity_threshold g = Some thr
    /\ duplicate_count g = len (files g).

(** The outcome of the name comparison: a result with the property [P],
    a [KeyError] from a file without id, or a [ValueError] from a size. *)
Definition finishes {A : Type} (r : res A) (P : A -> Prop) : Prop :=
  match r with
  | Ret d => P d
  | Raise e => e = KeyError \/ e = ValueError
  end.

Lemma finishes_impl {A : Type} (r : res A) (P Q : A -> Prop) :
  (forall d, P d -> Q d) -> finishes r P -> finishes r Q.
Proof. destruct r; simpl; auto. Qed.

Lemma str_truthy_nonempty (s : string) :
  negb (str_truthy s) = false -> s <> "".
Proof.
  unfold str_truthy. rewrite negb_involutive. intros H.
  now apply String.eqb_neq.
Qed.

Lemma fuzzy_inner_near (thr : Z) (seed : file) (rest : list file) :
  forall similar processed,
    finishes (fuzzy_inner fuzz_ratio (name_of seed) thr rest similar processed)
      (fun r => exists extra,
                  fst r = (similar ++ extra)%list
                  /\ incl extra rest
                  /\ Forall (near thr seed) extra).
Proof.
  induction rest as [|f2 rest IH]; intros similar processed;
    cbn [fuzzy_inner].
  - simpl. exists []. rewrite app_nil_r. repeat split; auto.
    intros x [].
  - unfold getitem. destruct (dict_get f2 "id") as [id2|]; cbn [bind];
      [|simpl; now left].
    assert (Hskip : forall processed',
              finishes (fuzzy_inner fuzz_ratio (name_of seed) thr rest similar
                          processed')
                (fun r => exists extra,
                            fst r = (similar ++ extra)%list
                            /\ incl extra (f2 :: rest)
                            /\ Forall (near thr seed) extra)).
    { intros processed'. eapply finishes_impl; [|apply IH].
      cbn beta. intros r (extra & H1 & H2 & H3). exists extra.
      repeat split; auto. now apply incl_tl. }
    destruct (mem id2 processed); [apply Hskip|].
    cbv zeta. fold (name_of f2).
    destruct (negb (str_truthy (name_of f2))) eqn:En; [apply Hskip|].
    destruct (thr <=? fuzz_ratio (name_of seed) (name_of f2)) eqn:Et;
      [|apply Hskip].
    eapply finishes_impl; [|apply IH].
    cbn beta. intros r (extra & H1 & H2 & H3). exists (f2 :: extra).
    rewrite H1, <- app_assoc. repeat split.
    + intros x [<-|Hx]; [now left|right; now apply H2].
    + constructor; [|exact H3]. split.
      * now apply str_truthy_nonempty.
      * now apply Z.leb_le.
Qed.

Lemma fuzzy_outer_stars (thr : Z) (l : list file) (todo : list file) :
  incl todo l ->
  forall processed acc,
    finishes (fuzzy_outer fuzz_ratio md5_hexdigest py_float thr todo processed
                acc)
      (fun d => forall key g, In (key, g) d ->
                              In (key, g) acc \/ star thr l key g).
Proof.
  induction todo as [|f1 rest IH]; intros Htodo processed acc;
    cbn [fuzzy_outer].
  - simpl. auto.
  - assert (Hrest : incl rest l).
    { intros x Hx. apply Htodo. now right. }
    unfold getitem. destruct (dict_get f1 "id") as [id1|]; cbn [bind];
      [|simpl; now left].
    destruct (mem id1 processed); [now apply IH|].
    cbv zeta. fold (name_of f1).
    destruct (negb (str_truthy (name_of f1))) eqn:En; [now apply IH|].
    pose proof (fuzzy_inner_near thr f1 rest [f1] processed) as Hin.
    destruct (fuzzy_inner fuzz_ratio (name_of f1) thr rest [f1] processed)
      as [[similar processed']|e]; cbn [bind];
      [|simpl in *; exact Hin].
    simpl in Hin. destruct Hin as (extra & Hs & Hincl & Hnear).
    destruct (1 <? len similar) eqn:Elen; cbn [bind]; [|now apply IH].
    destruct (sum_sizes py_float similar) as [total|e] eqn:Es; cbn [bind].
    + eapply finishes_impl; [|apply (IH Hrest)].
      cbn beta. intros d Hd key g Hg.
      destruct (Hd key g Hg) as [Hacc|Hstar]; [|now right].
      apply AdvancedFacts.dict_set_in in Hacc.
      destruct Hacc as [[= -> ->]|Hacc]; [|now left].
      right. exists f1, extra. cbn [files group_type confidence
        similarity_threshold duplicate_count].
      repeat split; auto.
      * intros ->. apply Z.ltb_lt in Elen. rewrite Hs in Elen.
        cbn in Elen. lia.
      * apply Htodo. now left.
      * intros x Hx. apply Hrest. now apply Hincl.
      * now apply str_truthy_nonempty.
    + simpl. right. now apply sum_sizes_error in Es.
Qed.

(** X14: the groups of [_find_fuzzy_name_matches].  Without the fuzzy
    library the strategy reports nothing.  With it, the strategy fails
    with a [KeyError] (a file without id) or a [ValueError] (a size that is
    not a number), or every group it reports is a first file of the input
    with a non-empty name followed by at least one other file of the
    input, each with a non-empty name whose similarity ratio to the lower
    case name of the first file reaches the threshold in force: the
    members are compared with the first file only, not with each other.
    The threshold in force is the configured one when the argument is
    absent or zero. *)
Theorem find_fuzzy_name_matches_stars (self : detector) (l : list file)
    (threshold : option Z) :
  finishes (_find_fuzzy_name_matches fuzz_ratio md5_hexdigest py_float
              FUZZY_AVAILABLE self l threshold)
    (fun d => if FUZZY_AVAILABLE
              then Forall (fun kv => star (threshold_in_force self threshold)
                                      l (fst kv) (snd kv)) d
              else d = []).
Proof.
  unfold _find_fuzzy_name_matches. destruct FUZZY_AVAILABLE; cbn [negb].
  - cbv zeta. fold (threshold_in_force self threshold).
    eapply finishes_impl;
      [|apply (fuzzy_outer_stars (threshold_in_force self threshold) l l
                 (incl_refl l))].
    cbn beta. intros d Hd. apply Forall_forall. intros [key g] Hin.
    destruct (Hd key g Hin) as [[]|Hg]. exact Hg.
  - reflexivity.
Qed.

End FuzzyNames.

(** ** The vocabulary of the reported groups *)

(** The pairs of type and confidence the strategies of the class give
    their groups. *)
Definition vocabulary : list (string * string) :=
  [ ("exact_content", "high"); ("fuzzy_name", "medium");
    ("exact_size", "low"); ("exact_size", "medium");
    ("name_size_similarity", "medium"); ("perceptual_image", "high");
    ("cross_category", "high") ].

(** A group as the class reports it: a known pair of type and
    confidence, at least two files, and their number as count. *)
Definition sound (g : group) : Prop :=
  In (group_type g, confidence g) vocabulary
  /\ 2 <= len (files g)
  /\ duplicate_count g = len (files g).

(** A group of the exact-hash strategy. *)
Definition exact_sound (g : group) : Prop :=
  group_type g = "exact_content" /\ confidence g = "high"
  /\ 2 <= len (files g)
  /\ duplicate_count g = len (files g).

Lemma exact_sound_sound (g : group) : exact_sound g -> sound g.
Proof.
  intros (Ht & Hc & Hl & Hn). unfold sound. rewrite Ht, Hc.
  repeat split; try assumption. simpl. auto.
Qed.

Ltac step :=
  match goal with
  | H : Ret _ = Ret _ |- _ => inversion H; subst; clear H
  | H : Raise _ = Ret _ |- _ => discriminate H
  | H : bind ?m _ = Ret _ |- _ =>
      let E := fresh "E" in
      destruct m eqn:E; cbn [bind] in H; [|discriminate H]
  | H : (if ?b then _ else _) = Ret _ |- _ =>
      let E := fresh "E" in destruct b eqn:E
  | H : (let '(_, _) := ?p in _) = Ret _ |- _ => destruct p
  | H : match ?o with _ => _ end = Ret _ |- _ =>
      let E := fresh "E" in destruct o eqn:E
  end.

Ltac in_vocabulary :=
  cbn; solve [repeat first [left; reflexivity | right]].

Ltac two_files :=
  cbn [files];
  match goal with
  | E : (1 <? _) = true |- _ => apply Z.ltb_lt in E; lia
  end.

Ltac new_group :=
  first
    [ split; [reflexivity|split; [reflexivity|split; [two_files|reflexivity]]]
    | split; [in_vocabulary|split; [two_files|reflexivity]]
    | match goal with
      | |- context [if negb ?b then _ else _] =>
          destruct b;
          (split; [in_vocabulary|split; [two_files|reflexivity]])
      end ].

Ltac close P IH :=
  first
    [ assumption
    | eapply IH; [|eassumption]; first
        [ assumption
        | apply AdvancedFacts.dict_all_set; [assumption|new_group]
        | match goal with
          | |- AdvancedFacts.dict_all _ (if ?b then _ else _) =>
              destruct b eqn:?;
              [apply AdvancedFacts.dict_all_set; [assumption|new_group]
              |assumption]
          end ] ].

Section Vocabulary.

Variable fuzz_ratio : string -> string -> Z.
Variable md5_hexdigest : string -> string.
Variable py_float : string -> option Q.
Variable py_int : string -> option Z.
Variable thumbnail_hashes : string -> option (dict string).
Variable FUZZY_AVAILABLE : bool.

Lemma exact_hash_emit_sound (items : list (string * list file)) :
  forall acc d, AdvancedFacts.dict_all exact_sound acc ->
                exact_hash_emit py_float items acc = Ret d ->
                AdvancedFacts.dict_all exact_sound d.
Proof.
  induction items as [|[h g] items IH]; simpl; intros acc d Hacc H.
  - now step.
  - repeat step; close exact_sound IH.
Qed.

Lemma find_exact_hash_matches_exact (l : list file) (d : dict group) :
  _find_exact_hash_matches py_float l = Ret d -> AdvancedFacts.dict_all exact_sound d.
Proof. apply exact_hash_emit_sound, AdvancedFacts.dict_all_nil. Qed.

Lemma dict_all_impl {V : Type} (P Q : V -> Prop) (d : dict V) :
  (forall v, P v -> Q v) -> AdvancedFacts.dict_all P d -> AdvancedFacts.dict_all Q d.
Proof. intros H Hd k v Hin. apply H. now apply (Hd k). Qed.

Lemma find_exact_hash_matches_sound (l : list file) (d : dict group) :
  _find_exact_hash_matches py_float l = Ret d -> AdvancedFacts.dict_all sound d.
Proof.
  intros H. apply (dict_all_impl exact_sound); [apply exact_sound_sound|].
  now apply find_exact_hash_matches_exact in H.
Qed.

Lemma fuzzy_outer_sound (thr : Z) (l : list file) :
  forall processed acc d,
    AdvancedFacts.dict_all sound acc ->
    fuzzy_outer fuzz_ratio md5_hexdigest py_float thr l processed acc = Ret d ->
    AdvancedFacts.dict_all sound d.
Proof.
  induction l as [|f1 rest IH]; simpl; intros processed acc d Hacc H.
  - now step.
  - repeat step; close sound IH.
Qed.

Lemma size_emit_sound (strict : bool) (items : list (string * list file)) :
  forall acc d, AdvancedFacts.dict_all sound acc ->
                size_emit py_int strict items acc = Ret d ->
                AdvancedFacts.dict_all sound d.
Proof.
  induction items as [|[h g] items IH]; simpl; intros acc d Hacc H.
  - now step.
  - repeat step; close sound IH.
Qed.

Lemma name_size_outer_sound (self : detector) (l : list file) :
  forall processed acc d,
    AdvancedFacts.dict_all sound acc ->
    name_size_outer fuzz_ratio md5_hexdigest py_float self l processed acc
    = Ret d ->
    AdvancedFacts.dict_all sound d.
Proof.
  induction l as [|f1 rest IH]; simpl; intros processed acc d Hacc H.
  - now step.
  - repeat step; close sound IH.
Qed.

Lemma perceptual_outer_sound (thr : Z) (image_hashes : dict image_entry)
    (todo : list (string * image_entry)) :
  forall processed acc d,
    AdvancedFacts.dict_all sound acc ->
    perceptual_outer md5_hexdigest thr image_hashes todo processed acc = Ret d ->
    AdvancedFacts.dict_all sound d.
Proof.
  induction todo as [|[id1 data1] todo IH]; simpl; intros processed acc d Hacc H.
  - now step.
  - repeat step; close sound IH.
Qed.

Lemma and_then_sound (a b : res (dict group)) (d : dict group) :
  (forall x, a = Ret x -> AdvancedFacts.dict_all sound x) ->
  (forall y, b = Ret y -> AdvancedFacts.dict_all sound y) ->
  and_then a b = Ret d -> AdvancedFacts.dict_all sound d.
Proof.
  unfold and_then. intros Ha Hb H. repeat step.
  apply AdvancedFacts.dict_all_update; auto.
Qed.

Lemma ret_nil_sound (x : dict group) :
  Ret [] = Ret x -> AdvancedFacts.dict_all sound x.
Proof. intros [= <-]. apply AdvancedFacts.dict_all_nil. Qed.

Lemma find_fuzzy_name_matches_sound (self : detector) (l : list file)
    (thr : option Z) (d : dict group) :
  _find_fuzzy_name_matches fuzz_ratio md5_hexdigest py_float FUZZY_AVAILABLE
    self l thr = Ret d ->
  AdvancedFacts.dict_all sound d.
Proof.
  unfold _find_fuzzy_name_matches. destruct (negb FUZZY_AVAILABLE).
  - apply ret_nil_sound.
  - apply fuzzy_outer_sound, AdvancedFacts.dict_all_nil.
Qed.

Lemma find_size_based_matches_sound (l : list file) (strict : bool)
    (d : dict group) :
  _find_size_based_matches py_int l strict = Ret d ->
  AdvancedFacts.dict_all sound d.
Proof. apply size_emit_sound, AdvancedFacts.dict_all_nil. Qed.

Lemma find_name_size_sound (self : detector) (l : list file) (d : dict group) :
  _find_name_size_similarity_matches fuzz_ratio md5_hexdigest py_float py_int
    FUZZY_AVAILABLE self l = Ret d ->
  AdvancedFacts.dict_all sound d.
Proof.
  unfold _find_name_size_similarity_matches. destruct (negb FUZZY_AVAILABLE).
  - apply find_size_based_matches_sound.
  - apply name_size_outer_sound, AdvancedFacts.dict_all_nil.
Qed.

Lemma find_perceptual_sound (self : detector) (l : list file) (d : dict group) :
  _find_perceptual_image_duplicates md5_hexdigest thumbnail_hashes self l
  = Ret d ->
  AdvancedFacts.dict_all sound d.
Proof. apply perceptual_outer_sound, AdvancedFacts.dict_all_nil. Qed.

Create HintDb sound_groups.

#[local] Hint Resolve ret_nil_sound find_exact_hash_matches_sound
  find_fuzzy_name_matches_sound find_size_based_matches_sound
  find_name_size_sound find_perceptual_sound : sound_groups.

Ltac chain :=
  apply and_then_sound;
  [ first [apply ret_nil_sound | intros ?; chain]
  | intros; eauto with sound_groups ].

Lemma generic_sound (self : detector) (l : list file) (d : dict group) :
  _detect_generic_duplicates fuzz_ratio md5_hexdigest py_float py_int
    FUZZY_AVAILABLE self l = Ret d ->
  AdvancedFacts.dict_all sound d.
Proof. unfold _detect_generic_duplicates. chain. Qed.

Lemma image_sound (self : detector) (l : list file) (d : dict group) :
  _detect_image_duplicates fuzz_ratio md5_hexdigest py_float py_int
    thumbnail_hashes FUZZY_AVAILABLE self l = Ret d ->
  AdvancedFacts.dict_all sound d.
Proof.
  unfold _detect_image_duplicates.
  destruct (negb (enable_image_analysis (cfg self)));
    [apply generic_sound|].
  intros H. step.
  assert (Ha : AdvancedFacts.dict_all sound a).
  { revert E. chain. }
  destruct (_find_perceptual_image_duplicates md5_hexdigest thumbnail_hashes
              self l) eqn:Ep; step.
  - apply AdvancedFacts.dict_all_update; eauto with sound_groups.
  - assumption.
Qed.

Lemma document_sound (self : detector) (l : list file) (d : dict group) :
  _detect_document_duplicates fuzz_ratio md5_hexdigest py_float py_int
    FUZZY_AVAILABLE self l = Ret d ->
  AdvancedFacts.dict_all sound d.
Proof.
  unfold _detect_document_duplicates, _find_content_similarity_matches.
  intros H. step.
  assert (Ha : AdvancedFacts.dict_all sound a).
  { revert E. chain. }
  step.
  - revert H. apply and_then_sound; [|apply ret_nil_sound].
    now intros x [= <-].
  - now step.
Qed.

Lemma video_sound (self : detector) (l : list file) (d : dict group) :
  _detect_video_duplicates py_float py_int self l = Ret d ->
  AdvancedFacts.dict_all sound d.
Proof. unfold _detect_video_duplicates. chain. Qed.

Lemma audio_sound (self : detector) (l : list file) (d : dict group) :
  _detect_audio_duplicates fuzz_ratio md5_hexdigest py_float FUZZY_AVAILABLE
    self l = Ret d ->
  AdvancedFacts.dict_all sound d.
Proof. unfold _detect_audio_duplicates. chain. Qed.

Lemma code_sound (self : detector) (l : list file) (d : dict group) :
  _detect_code_duplicates fuzz_ratio md5_hexdigest py_float FUZZY_AVAILABLE
    self l = Ret d ->
  AdvancedFacts.dict_all sound d.
Proof. unfold _detect_code_duplicates. chain. Qed.

(** The detector of the class: its handler table is the one [__init__]
    builds. *)
Definition standard (c : config) : detector :=
  new fuzz_ratio md5_hexdigest py_float py_int thumbnail_hashes
    FUZZY_AVAILABLE c.

Lemma standard_handlers_sound (c : config) (cat : string) (l : list file)
    (d : dict group) :
  get_default (file_type_handlers (standard c)) cat
    (_detect_generic_duplicates fuzz_ratio md5_hexdigest py_float py_int
       FUZZY_AVAILABLE (standard c)) l = Ret d ->
  AdvancedFacts.dict_all sound d.
Proof.
  unfold get_default, standard, new.
  cbn [file_type_handlers dict_get].
  repeat match goal with
         | |- context [(cat =? ?s)%string] => destruct (cat =? s)%string
         end.
  - apply image_sound.
  - apply document_sound.
  - apply video_sound.
  - apply audio_sound.
  - apply code_sound.
  - apply generic_sound.
  - apply generic_sound.
Qed.

Lemma merge_category_sound (cat : string) (found : dict group) :
  forall acc, AdvancedFacts.dict_all sound acc ->
              AdvancedFacts.dict_all sound found ->
              AdvancedFacts.dict_all sound
                (fold_left (fun acc item =>
                              dict_set acc (cat ++ "_" ++ fst item)
                                (set_category (snd item) cat)) found acc).
Proof.
  induction found as [|[gid g] found IH]; simpl; intros acc Hacc Hf;
    [assumption|].
  apply IH.
  - apply AdvancedFacts.dict_all_set; [assumption|]. change (sound g).
    apply (Hf gid). now left.
  - intros k v Hin. apply (Hf k). now right.
Qed.

Lemma category_loop_sound (self : detector)
    (file_groups : list (string * list file)) :
  (forall cat l d,
     get_default (file_type_handlers self) cat
       (_detect_generic_duplicates fuzz_ratio md5_hexdigest py_float py_int
          FUZZY_AVAILABLE self) l = Ret d ->
     AdvancedFacts.dict_all sound d) ->
  forall acc, AdvancedFacts.dict_all sound acc ->
              AdvancedFacts.dict_all sound
                (category_loop fuzz_ratio md5_hexdigest py_float py_int
                   FUZZY_AVAILABLE self file_groups acc).
Proof.
  intros Hself.
  induction file_groups as [|[cat fs] file_groups IH]; simpl; intros acc Hacc;
    [assumption|].
  destruct fs as [|f fs]; [now apply IH|].
  destruct (get_default (file_type_handlers self) cat
              (_detect_generic_duplicates fuzz_ratio md5_hexdigest py_float
                 py_int FUZZY_AVAILABLE self) (f :: fs))
    as [found|e] eqn:E; [|now apply IH].
  apply IH. apply merge_category_sound; [assumption|].
  exact (Hself cat (f :: fs) found E).
Qed.

Lemma cross_category_sound (file_groups : dict (list file)) (d : dict group) :
  _detect_cross_category_duplicates py_float file_groups = Ret d ->
  AdvancedFacts.dict_all sound d.
Proof.
  unfold _detect_cross_category_duplicates. intros H. step. step.
  apply find_exact_hash_matches_exact in E.
  assert (G : forall found acc,
            AdvancedFacts.dict_all sound acc ->
            AdvancedFacts.dict_all exact_sound found ->
            AdvancedFacts.dict_all sound
              (fold_left
                 (fun duplicates item =>
                    let '(gid, group_data) := item in
                    let cats :=
                      distinct
                        (map (fun f => get_default f "file_category" "unknown")
                             (files group_data)) in
                    if (1 <? len cats)%Z
                    then dict_set duplicates ("cross_" ++ gid)
                           (set_cross_category group_data cats)
                    else duplicates) found acc)).
  { induction found as [|[gid g] found IH]; simpl; intros acc Hacc Hf;
      [assumption|].
    apply IH.
    - destruct (1 <? len _)%Z; [|assumption].
      apply AdvancedFacts.dict_all_set; [assumption|].
      destruct (Hf gid g (or_introl eq_refl)) as (_ & Hc & Hl & Hn).
      unfold sound. cbn [set_cross_category group_type confidence files
                         duplicate_count].
      rewrite Hc. repeat split; try assumption. simpl. tauto.
    - intros k v Hin. apply (Hf k). now right. }
  apply G; [apply AdvancedFacts.dict_all_nil|assumption].
Qed.

Lemma merge_cross_sound (cross : dict group) :
  forall acc, AdvancedFacts.dict_all sound acc ->
              AdvancedFacts.dict_all sound cross ->
              AdvancedFacts.dict_all sound
                (fold_left (fun acc item =>
                              dict_set acc ("cross_" ++ fst item) (snd item))
                           cross acc).
Proof.
  induction cross as [|[gid g] cross IH]; simpl; intros acc Hacc Hc;
    [assumption|].
  apply IH.
  - apply AdvancedFacts.dict_all_set; [assumption|]. apply (Hc gid). now left.
  - intros k v Hin. apply (Hc k). now right.
Qed.

Lemma detect_all_duplicates_sound (c : config) (l : list file) (r : result) :
  detect_all_duplicates fuzz_ratio md5_hexdigest py_float py_int
    FUZZY_AVAILABLE (standard c) l = Ret r ->
  Forall sound (dict_values (duplicates r)).
Proof.
  unfold detect_all_duplicates. intros H. repeat step.
  cbn [duplicates]. apply AdvancedFacts.dict_all_values.
  apply merge_cross_sound.
  - apply category_loop_sound; [|apply AdvancedFacts.dict_all_nil].
    apply standard_handlers_sound.
  - eapply cross_category_sound. eassumption.
Qed.

End Vocabulary.

(** ** The whole scan *)

Lemma sumZ_from (l : list Z) (a : Z) : fold_left Z.add l a = a + sumZ l.
Proof.
  unfold sumZ. revert a. induction l as [|x l IH]; intros a; simpl; [lia|].
  rewrite (IH (a + x)), (IH x). lia.
Qed.

Lemma sumZ_cons (x : Z) (l : list Z) : sumZ (x :: l) = x + sumZ l.
Proof. unfold sumZ at 1. simpl. apply sumZ_from. Qed.

(** The number of files in the lists of a grouping. *)
Definition members (groups : dict (list file)) : Z :=
  sumZ (map (fun item : string * list file => len (snd item)) groups).

Lemma members_append (groups : dict (list file)) (k : string) (f : file) :
  members (dict_append groups k f) = members groups + 1.
Proof.
  unfold dict_append, get_default, members.
  induction groups as [|[k0 fs] groups IH]; simpl.
  - rewrite sumZ_cons. unfold len, sumZ. simpl. lia.
  - destruct (k =? k0)%string; simpl.
    + rewrite !sumZ_cons. unfold len. simpl. rewrite length_app. simpl. lia.
    + rewrite !sumZ_cons, IH. lia.
Qed.

Lemma members_group_by (key : file -> option string) (l : list file) :
  (forall f, key f <> None) ->
  forall groups, members (group_by key l groups) = members groups + len l.
Proof.
  intros Hkey. unfold group_by.
  induction l as [|f l IH]; intros groups; simpl.
  - unfold len. simpl. lia.
  - rewrite IH. destruct (key f) as [k|] eqn:Ek; [|now apply Hkey in Ek].
    rewrite members_append. unfold len. simpl. lia.
Qed.

Section Scan.

Variable fuzz_ratio : string -> string -> Z.
Variable md5_hexdigest : string -> string.
Variable py_float : string -> option Q.
Variable py_int : string -> option Z.
Variable thumbnail_hashes : string -> option (dict string).
Variable FUZZY_AVAILABLE : bool.

Lemma filter_by_size_error (min_size : Q) (l : list file) (e : exn) :
  filter_by_size py_float min_size l = Raise e -> e = ValueError.
Proof.
  induction l as [|f l IH]; simpl; [discriminate|].
  destruct (float_size py_float f) as [q|e0] eqn:Ef; simpl.
  - destruct (filter_by_size py_float min_size l) as [rest|e1]; simpl;
      [discriminate|].
    intros [= <-]. now apply IH.
  - intros [= <-]. now apply float_size_error in Ef.
Qed.

Lemma filter_by_size_length (min_size : Q) (l filtered : list file) :
  filter_by_size py_float min_size l = Ret filtered ->
  len filtered <= len l /\ Forall (AdvancedFacts.sized py_float) l.
Proof.
  revert filtered. induction l as [|f l IH]; simpl; intros filtered H.
  - inversion H. split; [lia|constructor].
  - destruct (float_size py_float f) as [q|] eqn:Ef; simpl in H;
      [|discriminate].
    destruct (filter_by_size py_float min_size l) as [rest|]; simpl in H;
      [|discriminate].
    destruct (IH rest eq_refl) as [Hlen Hs]. inversion H; subst.
    split.
    + unfold len in *. destruct (Qle_bool min_size q); simpl; lia.
    + constructor; [now exists q|exact Hs].
Qed.

Lemma cross_category_error (file_groups : dict (list file)) (e : exn) :
  _detect_cross_category_duplicates py_float file_groups = Raise e ->
  e = ValueError.
Proof.
  unfold _detect_cross_category_duplicates, _find_exact_hash_matches.
  pose proof (exact_hash_emit_groups py_float []
                (hash_groups (List.concat (dict_values file_groups)))) as H.
  intros He.
  destruct (exact_hash_emit py_float
              (hash_groups (List.concat (dict_values file_groups))) [])
    as [d|e0] eqn:E; simpl in He; [discriminate|].
  inversion He; subst.
  assert (G : forall items acc e,
            exact_hash_emit py_float items acc = Raise e -> e = ValueError).
  { induction items as [|[h g] items IH]; simpl; intros acc e1 H1;
      [discriminate|].
    destruct (1 <? len g); [|now apply IH in H1].
    destruct (sum_sizes py_float g) as [t|e2] eqn:Es; simpl in H1.
    - now apply IH in H1.
    - inversion H1; subst. now apply sum_sizes_error in Es. }
  now apply G in E.
Qed.

Lemma detect_all_duplicates_error (self : detector) (l : list file) (e : exn) :
  detect_all_duplicates fuzz_ratio md5_hexdigest py_float py_int
    FUZZY_AVAILABLE self l = Raise e ->
  e = ValueError.
Proof.
  unfold detect_all_duplicates.
  destruct (filter_by_size py_float _ l) as [filtered|e0] eqn:Ef; simpl.
  - destruct (_detect_cross_category_duplicates py_float
                (_group_files_by_category filtered)) as [cross|e1] eqn:Ec;
      simpl; [discriminate|].
    intros [= <-]. now apply cross_category_error in Ec.
  - intros [= <-]. now apply filter_by_size_error in Ef.
Qed.

Lemma unsized_or_sized (l : list file) :
  Forall (AdvancedFacts.sized py_float) l
  \/ exists f, In f l /\ float_size py_float f = Raise ValueError.
Proof.
  induction l as [|f l [IH|(g & Hg & Hraise)]].
  - left. constructor.
  - destruct (float_size py_float f) as [q|e] eqn:Ef.
    + left. constructor; [now exists q|exact IH].
    + right. exists f. split; [now left|].
      pose proof (float_size_error _ _ _ Ef). now subst.
  - right. exists g. split; [now right|exact Hraise].
Qed.

(** X15: when the whole scan fails.  Whatever the handlers of the
    categories do, [detect_all_duplicates] returns a result exactly when
    the size of every file of the input can be read as a number; it fails
    exactly when some file has a size that cannot, and then with a
    [ValueError]: the failures of the per-category handlers are passed
    over, a size that is not a number is not. *)
Theorem detect_all_duplicates_fails_on_bad_size (self : detector)
    (l : list file) :
  match detect_all_duplicates fuzz_ratio md5_hexdigest py_float py_int
          FUZZY_AVAILABLE self l with
  | Ret _ => Forall (AdvancedFacts.sized py_float) l
  | Raise e =>
      e = ValueError
      /\ exists f, In f l /\ float_size py_float f = Raise ValueError
  end.
Proof.
  destruct (detect_all_duplicates fuzz_ratio md5_hexdigest py_float py_int
              FUZZY_AVAILABLE self l) as [r|e] eqn:E.
  - unfold detect_all_duplicates in E.
    destruct (filter_by_size py_float _ l) as [filtered|] eqn:Ef;
      simpl in E; [|discriminate].
    now apply filter_by_size_length in Ef.
  - split; [now apply detect_all_duplicates_error in E|].
    destruct (unsized_or_sized l) as [Hs|H]; [|exact H].
    destruct (AdvancedFacts.detect_all_duplicates_returns fuzz_ratio
                md5_hexdigest py_float py_int FUZZY_AVAILABLE self l Hs)
      as (r & _ & _ & Hr & _).
    congruence.
Qed.

(** X16: the statistics of a scan are consistent.  When the scan returns,
    the files analysed are at most the files of the input; the counts per
    category name each category once, are at least 1 and add up to the
    number of files analysed; and the number of groups is the same in the
    statistics, in the ranking and in the analysis report. *)
Theorem detect_all_duplicates_statistics (self : detector) (l : list file) :
  emits (detect_all_duplicates fuzz_ratio md5_hexdigest py_float py_int
           FUZZY_AVAILABLE self l)
    (fun r =>
       let st := statistics r in
       total_files_analyzed st <= len l
       /\ sumZ (dict_values (files_by_category st)) = total_files_analyzed st
       /\ NoDup (dict_keys (files_by_category st))
       /\ Forall (fun n => 1 <= n) (dict_values (files_by_category st))
       /\ total_duplicate_groups st = len (duplicates r)
       /\ len (ranked_duplicates r) = len (duplicates r)
       /\ rep_total_duplicate_groups (analysis_report r) = len (duplicates r)).
Proof.
  destruct (detect_all_duplicates fuzz_ratio md5_hexdigest py_float py_int
              FUZZY_AVAILABLE self l) as [r|e] eqn:E; simpl;
    [|now apply detect_all_duplicates_error in E].
  unfold detect_all_duplicates in E.
  destruct (filter_by_size py_float _ l) as [filtered|] eqn:Ef;
    simpl in E; [|discriminate].
  destruct (_detect_cross_category_duplicates py_float
              (_group_files_by_category filtered)) as [cross|] eqn:Ec;
    simpl in E; [|discriminate].
  inversion E; subst; clear E.
  cbn [statistics total_files_analyzed files_by_category
       total_duplicate_groups duplicates ranked_duplicates analysis_report
       _generate_analysis_report rep_total_duplicate_groups].
  pose proof (group_by_groups category_key filtered [] []
                (groups_of_nil category_key)) as (Hnd & Hin & _).
  rewrite <- group_files_by_category_by in Hnd, Hin.
  split; [now apply filter_by_size_length in Ef|].
  split; [|split; [|split; [|split; [|split]]]].
  - unfold dict_values. rewrite map_map. cbn [snd].
    change (members (_group_files_by_category filtered) = len filtered).
    rewrite group_files_by_category_by.
    rewrite (members_group_by category_key filtered); [reflexivity|].
    intros f. discriminate.
  - unfold dict_keys in *. rewrite map_map. cbn [fst]. exact Hnd.
  - unfold dict_values. rewrite map_map. cbn [snd].
    apply Forall_map. apply Forall_forall. intros [k fs] Hk.
    destruct (Hin k fs Hk) as [_ Hne]. cbn [snd].
    unfold len. destruct fs; [congruence|simpl; lia].
  - reflexivity.
  - unfold _rank_duplicate_groups, len.
    rewrite (Permutation_length (AdvancedFacts.sort_desc_perm _ _)).
    now rewrite length_map.
  - reflexivity.
Qed.

Lemma emits_ret {A : Type} (r : res A) (P : A -> Prop) :
  (forall e, r = Raise e -> e = ValueError) ->
  (forall d, r = Ret d -> P d) ->
  emits r P.
Proof. destruct r; simpl; auto. Qed.

(** X17: the groups a scan of the class reports.  When the scan of a
    detector with the handler table of [__init__] returns, every group
    has one of the pairs of type and confidence that the strategies
    assign (exact content, fuzzy name, exact size, name and size,
    perceptual image, cross category), holds at least two files, and has
    the number of its files as count. *)
Theorem reported_groups_are_sound (c : config) (l : list file) :
  emits (detect_all_duplicates fuzz_ratio md5_hexdigest py_float py_int
           FUZZY_AVAILABLE
           (standard fuzz_ratio md5_hexdigest py_float py_int
              thumbnail_hashes FUZZY_AVAILABLE c) l)
    (fun r => Forall sound (dict_values (duplicates r))).
Proof.
  apply emits_ret.
  - intros e. apply detect_all_duplicates_error.
  - intros r. apply detect_all_duplicates_sound.
Qed.

Lemma tiers_partition (groups : list group) :
  Forall sound groups ->
  len (with_confidence "high" groups) + len (with_confidence "medium" groups)
  + len (with_confidence "low" groups) = len groups.
Proof.
  unfold with_confidence, len.
  induction 1 as [|g groups (Hv & _) _ IH]; [reflexivity|].
  cbn [filter].
  assert (Hc : confidence g = "high" \/ confidence g = "medium"
               \/ confidence g = "low").
  { simpl in Hv.
    destruct Hv as [H|[H|[H|[H|[H|[H|[H|[]]]]]]]];
      injection H as Ht Hc; rewrite <- Hc; auto. }
  destruct Hc as [-> | [-> | ->]]; cbn [String.eqb Ascii.eqb Bool.eqb];
    cbn [List.length]; lia.
Qed.

(** X18: the confidence tiers of the analysis report.  For a scan of the
    class the numbers of high, medium and low confidence groups of the
    report add up to its total number of groups: no group falls outside
    the three tiers. *)
Theorem report_tiers_cover_all_groups (c : config) (l : list file) :
  emits (detect_all_duplicates fuzz_ratio md5_hexdigest py_float py_int
           FUZZY_AVAILABLE
           (standard fuzz_ratio md5_hexdigest py_float py_int
              thumbnail_hashes FUZZY_AVAILABLE c) l)
    (fun r =>
       let rep := analysis_report r in
       high_confidence_groups rep + medium_confidence_groups rep
       + low_confidence_groups rep = rep_total_duplicate_groups rep).
Proof.
  apply emits_ret.
  - intros e. apply detect_all_duplicates_error.
  - intros r Hr. pose proof (detect_all_duplicates_sound _ _ _ _ _ _ _ _ _ Hr)
      as Hs.
    unfold detect_all_duplicates in Hr.
    destruct (filter_by_size py_float _ l) as [filtered|]; simpl in Hr;
      [|discriminate].
    destruct (_detect_cross_category_duplicates py_float _) as [cross|];
      simpl in Hr; [|discriminate].
    inversion Hr; subst; clear Hr. cbn [duplicates] in Hs.
    cbn [analysis_report _generate_analysis_report high_confidence_groups
         medium_confidence_groups low_confidence_groups
         rep_total_duplicate_groups].
    rewrite (tiers_partition _ Hs). unfold len, dict_values.
    now rewrite length_map.
Qed.

Lemma recommendation_of_sound (g : group) :
  sound g ->
  AutoScalingQueries._get_duplicate_recommendation g
  = if (confidence g =? "low")%string
    then "MANUAL_REVIEW - Low confidence, needs inspection"
    else "INVESTIGATE - Unknown duplicate pattern".
Proof.
  intros (Hv & _). unfold AutoScalingQueries._get_duplicate_recommendation.
  simpl in Hv.
  destruct Hv as [H|[H|[H|[H|[H|[H|[H|[]]]]]]]];
    injection H as Ht Hc; rewrite <- Ht, <- Hc; reflexivity.
Qed.

(** X19: the recommendation for the groups of the advanced detector.
    [_get_duplicate_recommendation] looks for the types ["content_hash"]
    and ["same_name"], which no strategy of the detector assigns: for
    every group of a scan of the class the recommendation is
    [MANUAL_REVIEW] when the confidence is low and [INVESTIGATE]
    otherwise, never [SAFE_TO_DELETE] or [REVIEW_REQUIRED]. *)
Theorem recommendation_for_reported_groups (c : config) (l : list file) :
  emits (detect_all_duplicates fuzz_ratio md5_hexdigest py_float py_int
           FUZZY_AVAILABLE
           (standard fuzz_ratio md5_hexdigest py_float py_int
              thumbnail_hashes FUZZY_AVAILABLE c) l)
    (fun r =>
       Forall (fun g =>
                 AutoScalingQueries._get_duplicate_recommendation g
                 = if (confidence g =? "low")%string
                   then "MANUAL_REVIEW - Low confidence, needs inspection"
                   else "INVESTIGATE - Unknown duplicate pattern")
         (dict_values (duplicates r))).
Proof.
  apply emits_ret.
  - intros e. apply detect_all_duplicates_error.
  - intros r Hr. eapply Forall_impl; [|eapply detect_all_duplicates_sound, Hr].
    apply recommendation_of_sound.
Qed.

End Scan.

(** ** The ranking of the reported groups *)

(** A group of low confidence saves more MB than it has ordered pairs of
    members. *)
Definition thrifty (g : group) : Prop :=
  confidence g = "low" ->
  exists s, potential_savings_mb g = Some s
            /\ (inject_Z (duplicate_count g * (duplicate_count g - 1)) < s)%Q.

Ltac fixed_confidence :=
  let H := fresh "Hlow" in intros H; cbn in H; discriminate H.

Ltac keep IH :=
  first
    [ assumption
    | eapply IH; [|eassumption]; first
        [ assumption
        | apply AdvancedFacts.dict_all_set; [assumption|fixed_confidence]
        | match goal with
          | |- AdvancedFacts.dict_all _ (if ?b then _ else _) =>
              destruct b eqn:?;
              [apply AdvancedFacts.dict_all_set;
               [assumption|fixed_confidence]
              |assumption]
          end ] ].

Section Ranking.

Variable fuzz_ratio : string -> string -> Z.
Variable md5_hexdigest : string -> string.
Variable py_float : string -> option Q.
Variable py_int : string -> option Z.
Variable thumbnail_hashes : string -> option (dict string).
Variable FUZZY_AVAILABLE : bool.

Lemma exact_hash_emit_thrifty (items : list (string * list file)) :
  forall acc d, AdvancedFacts.dict_all thrifty acc ->
                exact_hash_emit py_float items acc = Ret d ->
                AdvancedFacts.dict_all thrifty d.
Proof.
  induction items as [|[h g] items IH]; simpl; intros acc d Hacc H.
  - now step.
  - repeat step; keep IH.
Qed.

Lemma fuzzy_outer_thrifty (thr : Z) (l : list file) :
  forall processed acc d,
    AdvancedFacts.dict_all thrifty acc ->
    fuzzy_outer fuzz_ratio md5_hexdigest py_float thr l processed acc = Ret d ->
    AdvancedFacts.dict_all thrifty d.
Proof.
  induction l as [|f1 rest IH]; simpl; intros processed acc d Hacc H.
  - now step.
  - repeat step; keep IH.
Qed.

Lemma name_size_outer_thrifty (self : detector) (l : list file) :
  forall processed acc d,
    AdvancedFacts.dict_all thrifty acc ->
    name_size_outer fuzz_ratio md5_hexdigest py_float self l processed acc
    = Ret d ->
    AdvancedFacts.dict_all thrifty d.
Proof.
  induction l as [|f1 rest IH]; simpl; intros processed acc d Hacc H.
  - now step.
  - repeat step; keep IH.
Qed.

Lemma perceptual_outer_thrifty (thr : Z) (image_hashes : dict image_entry)
    (todo : list (string * image_entry)) :
  forall processed acc d,
    AdvancedFacts.dict_all thrifty acc ->
    perceptual_outer md5_hexdigest thr image_hashes todo processed acc = Ret d ->
    AdvancedFacts.dict_all thrifty d.
Proof.
  induction todo as [|[id1 data1] todo IH]; simpl; intros processed acc d Hacc H.
  - now step.
  - repeat step; keep IH.
Qed.

(** The groups of the size strategy: files of more than 1 MB each, so
    that [n] of them save more than [n * (n - 1)] MB by the formula of
    the strategy. *)
Lemma size_group_thrifty (n count : Z) :
  Qlt_bool 1 (inject_Z n / mb) = true -> 1 < count ->
  (inject_Z (count * (count - 1))
   < savings (inject_Z (n * count)) count)%Q.
Proof.
  intros Hmb Hcount. unfold savings, mb in *.
  assert (Hn : 1024 * 1024 < n).
  { unfold Qlt_bool in Hmb. apply negb_true_iff in Hmb.
    destruct (Z_lt_le_dec (1024 * 1024) n) as [H|H]; [exact H|].
    exfalso. rewrite <- not_true_iff_false in Hmb. apply Hmb.
    apply Qle_bool_iff. apply Qle_shift_div_r; [reflexivity|].
    rewrite Qmult_1_l. now rewrite <- Zle_Qle. }
  apply Qlt_shift_div_l; [reflexivity|].
  rewrite <- !inject_Z_mult, <- Zlt_Qlt.
  assert (Hp : 0 < count * (count - 1)) by nia.
  replace (n * count * (count - 1)) with (count * (count - 1) * n) by ring.
  now apply Z.mul_lt_mono_pos_l.
Qed.

Lemma size_emit_thrifty (strict : bool) (items : list (string * list file)) :
  forall acc d, AdvancedFacts.dict_all thrifty acc ->
                size_emit py_int strict items acc = Ret d ->
                AdvancedFacts.dict_all thrifty d.
Proof.
  induction items as [|[h g] items IH]; simpl; intros acc d Hacc H.
  - now step.
  - repeat step; try (now eapply IH; eauto).
    eapply IH; [|eassumption].
    apply AdvancedFacts.dict_all_set; [assumption|].
    intros _. cbn [potential_savings_mb duplicate_count].
    eexists. split; [reflexivity|].
    apply size_group_thrifty; [assumption|].
    now apply Z.ltb_lt.
Qed.

Lemma and_then_thrifty (a b : res (dict group)) (d : dict group) :
  (forall x, a = Ret x -> AdvancedFacts.dict_all thrifty x) ->
  (forall y, b = Ret y -> AdvancedFacts.dict_all thrifty y) ->
  and_then a b = Ret d -> AdvancedFacts.dict_all thrifty d.
Proof.
  unfold and_then. intros Ha Hb H. repeat step.
  apply AdvancedFacts.dict_all_update; auto.
Qed.

Lemma ret_nil_thrifty (x : dict group) :
  Ret [] = Ret x -> AdvancedFacts.dict_all thrifty x.
Proof. intros [= <-]. apply AdvancedFacts.dict_all_nil. Qed.

Lemma find_exact_hash_matches_thrifty (l : list file) (d : dict group) :
  _find_exact_hash_matches py_float l = Ret d ->
  AdvancedFacts.dict_all thrifty d.
Proof. apply exact_hash_emit_thrifty, AdvancedFacts.dict_all_nil. Qed.

Lemma find_fuzzy_name_matches_thrifty (self : detector) (l : list file)
    (thr : option Z) (d : dict group) :
  _find_fuzzy_name_matches fuzz_ratio md5_hexdigest py_float FUZZY_AVAILABLE
    self l thr = Ret d ->
  AdvancedFacts.dict_all thrifty d.
Proof.
  unfold _find_fuzzy_name_matches. destruct (negb FUZZY_AVAILABLE).
  - apply ret_nil_thrifty.
  - apply fuzzy_outer_thrifty, AdvancedFacts.dict_all_nil.
Qed.

Lemma find_size_based_matches_thrifty (l : list file) (strict : bool)
    (d : dict group) :
  _find_size_based_matches py_int l strict = Ret d ->
  AdvancedFacts.dict_all thrifty d.
Proof. apply size_emit_thrifty, AdvancedFacts.dict_all_nil. Qed.

Lemma find_name_size_thrifty (self : detector) (l : list file)
    (d : dict group) :
  _find_name_size_similarity_matches fuzz_ratio md5_hexdigest py_float py_int
    FUZZY_AVAILABLE self l = Ret d ->
  AdvancedFacts.dict_all thrifty d.
Proof.
  unfold _find_name_size_similarity_matches. destruct (negb FUZZY_AVAILABLE).
  - apply find_size_based_matches_thrifty.
  - apply name_size_outer_thrifty, AdvancedFacts.dict_all_nil.
Qed.

Lemma find_perceptual_thrifty (self : detector) (l : list file)
    (d : dict group) :
  _find_perceptual_image_duplicates md5_hexdigest thumbnail_hashes self l
  = Ret d ->
  AdvancedFacts.dict_all thrifty d.
Proof. apply perceptual_outer_thrifty, AdvancedFacts.dict_all_nil. Qed.

Create HintDb thrifty_groups.

#[local] Hint Resolve ret_nil_thrifty find_exact_hash_matches_thrifty
  find_fuzzy_name_matches_thrifty find_size_based_matches_thrifty
  find_name_size_thrifty find_perceptual_thrifty : thrifty_groups.

Ltac links :=
  apply and_then_thrifty;
  [ first [apply ret_nil_thrifty | intros ?; links]
  | intros; eauto with thrifty_groups ].

Lemma generic_thrifty (self : detector) (l : list file) (d : dict group) :
  _detect_generic_duplicates fuzz_ratio md5_hexdigest py_float py_int
    FUZZY_AVAILABLE self l = Ret d ->
  AdvancedFacts.dict_all thrifty d.
Proof. unfold _detect_generic_duplicates. links. Qed.

Lemma image_thrifty (self : detector) (l : list file) (d : dict group) :
  _detect_image_duplicates fuzz_ratio md5_hexdigest py_float py_int
    thumbnail_hashes FUZZY_AVAILABLE self l = Ret d ->
  AdvancedFacts.dict_all thrifty d.
Proof.
  unfold _detect_image_duplicates.
  destruct (negb (enable_image_analysis (cfg self)));
    [apply generic_thrifty|].
  intros H. step.
  assert (Ha : AdvancedFacts.dict_all thrifty a).
  { revert E. links. }
  destruct (_find_perceptual_image_duplicates md5_hexdigest thumbnail_hashes
              self l) eqn:Ep; step.
  - apply AdvancedFacts.dict_all_update; eauto with thrifty_groups.
  - assumption.
Qed.

Lemma document_thrifty (self : detector) (l : list file) (d : dict group) :
  _detect_document_duplicates fuzz_ratio md5_hexdigest py_float py_int
    FUZZY_AVAILABLE self l = Ret d ->
  AdvancedFacts.dict_all thrifty d.
Proof.
  unfold _detect_document_duplicates, _find_content_similarity_matches.
  intros H. step.
  assert (Ha : AdvancedFacts.dict_all thrifty a).
  { revert E. links. }
  step.
  - revert H. apply and_then_thrifty; [|apply ret_nil_thrifty].
    now intros x [= <-].
  - now step.
Qed.

Lemma video_thrifty (self : detector) (l : list file) (d : dict group) :
  _detect_video_duplicates py_float py_int self l = Ret d ->
  AdvancedFacts.dict_all thrifty d.
Proof. unfold _detect_video_duplicates. links. Qed.

Lemma audio_thrifty (self : detector) (l : list file) (d : dict group) :
  _detect_audio_duplicates fuzz_ratio md5_hexdigest py_float FUZZY_AVAILABLE
    self l = Ret d ->
  AdvancedFacts.dict_all thrifty d.
Proof. unfold _detect_audio_duplicates. links. Qed.

Lemma code_thrifty (self : detector) (l : list file) (d : dict group) :
  _detect_code_duplicates fuzz_ratio md5_hexdigest py_float FUZZY_AVAILABLE
    self l = Ret d ->
  AdvancedFacts.dict_all thrifty d.
Proof. unfold _detect_code_duplicates. links. Qed.

Lemma standard_handlers_thrifty (c : config) (cat : string) (l : list file)
    (d : dict group) :
  get_default
    (file_type_handlers
       (standard fuzz_ratio md5_hexdigest py_float py_int thumbnail_hashes
          FUZZY_AVAILABLE c)) cat
    (_detect_generic_duplicates fuzz_ratio md5_hexdigest py_float py_int
       FUZZY_AVAILABLE
       (standard fuzz_ratio md5_hexdigest py_float py_int thumbnail_hashes
          FUZZY_AVAILABLE c)) l = Ret d ->
  AdvancedFacts.dict_all thrifty d.
Proof.
  unfold get_default, standard, new.
  cbn [file_type_handlers dict_get].
  repeat match goal with
         | |- context [(cat =? ?s)%string] => destruct (cat =? s)%string
         end.
  - apply image_thrifty.
  - apply document_thrifty.
  - apply video_thrifty.
  - apply audio_thrifty.
  - apply code_thrifty.
  - apply generic_thrifty.
  - apply generic_thrifty.
Qed.

Lemma merge_category_thrifty (cat : string) (found : dict group) :
  forall acc, AdvancedFacts.dict_all thrifty acc ->
              AdvancedFacts.dict_all thrifty found ->
              AdvancedFacts.dict_all thrifty
                (fold_left (fun acc item =>
                              dict_set acc (cat ++ "_" ++ fst item)
                                (set_category (snd item) cat)) found acc).
Proof.
  induction found as [|[gid g] found IH]; simpl; intros acc Hacc Hf;
    [assumption|].
  apply IH.
  - apply AdvancedFacts.dict_all_set; [assumption|]. change (thrifty g).
    apply (Hf gid). now left.
  - intros k v Hin. apply (Hf k). now right.
Qed.

Lemma category_loop_thrifty (self : detector)
    (file_groups : list (string * list file)) :
  (forall cat l d,
     get_default (file_type_handlers self) cat
       (_detect_generic_duplicates fuzz_ratio md5_hexdigest py_float py_int
          FUZZY_AVAILABLE self) l = Ret d ->
     AdvancedFacts.dict_all thrifty d) ->
  forall acc, AdvancedFacts.dict_all thrifty acc ->
              AdvancedFacts.dict_all thrifty
                (category_loop fuzz_ratio md5_hexdigest py_float py_int
                   FUZZY_AVAILABLE self file_groups acc).
Proof.
  intros Hself.
  induction file_groups as [|[cat fs] file_groups IH]; simpl; intros acc Hacc;
    [assumption|].
  destruct fs as [|f fs]; [now apply IH|].
  destruct (get_default (file_type_handlers self) cat
              (_detect_generic_duplicates fuzz_ratio md5_hexdigest py_float
                 py_int FUZZY_AVAILABLE self) (f :: fs))
    as [found|e] eqn:E; [|now apply IH].
  apply IH. apply merge_category_thrifty; [assumption|].
  exact (Hself cat (f :: fs) found E).
Qed.

Lemma cross_category_thrifty (file_groups : dict (list file))
    (d : dict group) :
  _detect_cross_category_duplicates py_float file_groups = Ret d ->
  AdvancedFacts.dict_all thrifty d.
Proof.
  unfold _detect_cross_category_duplicates. intros H. step. step.
  apply find_exact_hash_matches_thrifty in E.
  assert (G : forall found acc,
            AdvancedFacts.dict_all thrifty acc ->
            AdvancedFacts.dict_all thrifty found ->
            AdvancedFacts.dict_all thrifty
              (fold_left
                 (fun duplicates item =>
                    let '(gid, group_data) := item in
                    let cats :=
                      distinct
                        (map (fun f => get_default f "file_category" "unknown")
                             (files group_data)) in
                    if (1 <? len cats)%Z
                    then dict_set duplicates ("cross_" ++ gid)
                           (set_cross_category group_data cats)
                    else duplicates) found acc)).
  { induction found as [|[gid g] found IH]; simpl; intros acc Hacc Hf;
      [assumption|].
    apply IH.
    - destruct (1 <? len _)%Z; [|assumption].
      apply AdvancedFacts.dict_all_set; [assumption|].
      change (thrifty g). apply (Hf gid). now left.
    - intros k v Hin. apply (Hf k). now right. }
  apply G; [apply AdvancedFacts.dict_all_nil|assumption].
Qed.

Lemma merge_cross_thrifty (cross : dict group) :
  forall acc, AdvancedFacts.dict_all thrifty acc ->
              AdvancedFacts.dict_all thrifty cross ->
              AdvancedFacts.dict_all thrifty
                (fold_left (fun acc item =>
                              dict_set acc ("cross_" ++ fst item) (snd item))
                           cross acc).
Proof.
  induction cross as [|[gid g] cross IH]; simpl; intros acc Hacc Hc;
    [assumption|].
  apply IH.
  - apply AdvancedFacts.dict_all_set; [assumption|]. apply (Hc gid). now left.
  - intros k v Hin. apply (Hc k). now right.
Qed.

Lemma detect_all_duplicates_thrifty (c : config) (l : list file)
    (r : result) :
  detect_all_duplicates fuzz_ratio md5_hexdigest py_float py_int
    FUZZY_AVAILABLE
    (standard fuzz_ratio md5_hexdigest py_float py_int thumbnail_hashes
       FUZZY_AVAILABLE c) l = Ret r ->
  AdvancedFacts.dict_all thrifty (duplicates r)
  /\ ranked_duplicates r = _rank_duplicate_groups (duplicates r).
Proof.
  unfold detect_all_duplicates. intros H. repeat step.
  cbn [duplicates ranked_duplicates]. split; [|reflexivity].
  apply merge_cross_thrifty.
  - apply category_loop_thrifty; [|apply AdvancedFacts.dict_all_nil].
    apply standard_handlers_thrifty.
  - eapply cross_category_thrifty. eassumption.
Qed.

(** A low group that saves 50 MB has at most seven members. *)
Lemma thrifty_small (g : group) :
  thrifty g -> confidence g = "low" ->
  (savings_or_zero g == 50)%Q ->
  duplicate_count g <= 7.
Proof.
  intros Hg Hlow Hs. destruct (Hg Hlow) as (s & Hsome & Hlt).
  unfold savings_or_zero in Hs. rewrite Hsome in Hs.
  rewrite Hs in Hlt. change 50%Q with (inject_Z 50) in Hlt.
  rewrite <- Zlt_Qlt in Hlt. nia.
Qed.

(** C5: the ranking.  For every set of duplicate groups, each group
    receives the composite score
    [confidenceWeight * 100 + min(savings, 1000) + duplicateCount * 10]
    with the weights 3, 2 and 1, and the ranking lists exactly the groups,
    by decreasing score, groups of equal score in discovery order.  In the
    rankings the detector makes, which are those of the groups its own
    scan has built, a group of confidence ["high"] with 0 MB savings
    stands before a group of confidence ["low"] with 50 MB savings: a low
    group is one of files of more than 1 MB each and of one size, so with
    50 MB savings it has at most seven members and scores at most 220,
    while a high group has at least two and scores at least 320. *)
Theorem rank_duplicate_groups_spec (groups : dict group) (c : config)
    (l : list file) :
  let ranking := _rank_duplicate_groups groups in
  (AdvancedFacts.confidenceWeight "high" = 3
   /\ AdvancedFacts.confidenceWeight "medium" = 2
   /\ AdvancedFacts.confidenceWeight "low" = 1)
  /\ Forall2 (fun item r =>
                group_id r = fst item
                /\ (score r == AdvancedFacts.composite_score (snd item))%Q)
       groups (map rank_entry groups)
  /\ Permutation ranking (map rank_entry groups)
  /\ StronglySorted AdvancedFacts.outranks ranking
  /\ (forall s, AdvancedFacts.with_score s ranking
                = AdvancedFacts.with_score s (map rank_entry groups))
  /\ emits (detect_all_duplicates fuzz_ratio md5_hexdigest py_float py_int
              FUZZY_AVAILABLE
              (standard fuzz_ratio md5_hexdigest py_float py_int
                 thumbnail_hashes FUZZY_AVAILABLE c) l)
       (fun r =>
          ranked_duplicates r = _rank_duplicate_groups (duplicates r)
          /\ forall hid h lid lo,
               In (hid, h) (duplicates r) -> In (lid, lo) (duplicates r) ->
               confidence h = "high" -> confidence lo = "low" ->
               (savings_or_zero h == 0)%Q ->
               (savings_or_zero lo == 50)%Q ->
               AdvancedFacts.precedes (rank_entry (hid, h))
                 (rank_entry (lid, lo)) (ranked_duplicates r)).
Proof.
  intros ranking.
  destruct (AdvancedFacts.rank_duplicate_groups_sorted groups)
    as (Hw & Hscore & Hperm & Hsorted & Hstable).
  repeat (split; [assumption|]).
  pose proof (detect_all_duplicates_error fuzz_ratio md5_hexdigest py_float
                py_int FUZZY_AVAILABLE
                (standard fuzz_ratio md5_hexdigest py_float py_int
                   thumbnail_hashes FUZZY_AVAILABLE c) l) as Herr.
  destruct (detect_all_duplicates fuzz_ratio md5_hexdigest py_float py_int
              FUZZY_AVAILABLE _ l) as [r|e] eqn:E; cbn [emits].
  2: { now apply Herr. }
  destruct (detect_all_duplicates_thrifty c l r E) as [Hthrifty Hranked].
  split; [exact Hranked|].
  intros hid h lid lo Hh Hlo Ch Cl Sh Sl.
  pose proof (detect_all_duplicates_sound fuzz_ratio md5_hexdigest py_float
                py_int thumbnail_hashes FUZZY_AVAILABLE c l r E) as Hsound.
  rewrite Forall_forall in Hsound.
  assert (Hcount : 2 <= duplicate_count h).
  { destruct (Hsound h) as (_ & H2 & Hn).
    - unfold dict_values. apply in_map_iff. now exists (hid, h).
    - lia. }
  pose proof (thrifty_small lo (Hthrifty lid lo Hlo) Cl Sl) as Hsmall.
  rewrite Hranked.
  apply AdvancedFacts.higher_score_ranks_first; try assumption.
  rewrite !AdvancedFacts.rank_entry_score.
  unfold AdvancedFacts.composite_score. rewrite Ch, Cl, Sh, Sl.
  assert (E0 : (Qmin 0 1000 == 0)%Q) by (apply Q.min_l; lra).
  assert (E50 : (Qmin 50 1000 == 50)%Q) by (apply Q.min_l; lra).
  rewrite E0, E50.
  change (inject_Z (AdvancedFacts.confidenceWeight "high")) with 3%Q.
  change (inject_Z (AdvancedFacts.confidenceWeight "low")) with 1%Q.
  assert (H1 : (inject_Z (duplicate_count lo) <= 7)%Q).
  { change 7%Q with (inject_Z 7). now rewrite <- Zle_Qle. }
  assert (H2 : (2 <= inject_Z (duplicate_count h))%Q).
  { change 2%Q with (inject_Z 2). now rewrite <- Zle_Qle. }
  lra.
Qed.

End Ranking.


(** A scan with a group of each kind: three images that match the first
    one, and two files of 25 MB each. *)
Definition big_file (n : string) : file :=
  [("id", n); ("name", n); ("size", "26214400"); ("file_category", "other")].

Definition mixed_files : list file :=
  [ AdvancedFacts.image_file "b"; AdvancedFacts.image_file "a";
    AdvancedFacts.image_file "c";
    big_file "quarterly-report.bin"; big_file "holiday-video.raw" ].

Definition image_detector : detector :=
  standard Fuzz.ratio MD5.hexdigest Parse.py_float Parse.py_int
    AdvancedFacts.chain_thumbnails true (_get_default_config true).

(** The perceptual group, of high confidence and without savings, scores
    330 and stands before the size group, of low confidence and 50 MB
    savings, which scores 170. *)
Lemma rank_duplicate_groups_spec_witness :
  exists r h lo,
    detect_all_duplicates Fuzz.ratio MD5.hexdigest Parse.py_float Parse.py_int
      true image_detector mixed_files = Ret r
    /\ dict_get (duplicates r) "image_perceptual_92eb5ffe" = Some h
    /\ dict_get (duplicates r) "other_size_26214400" = Some lo
    /\ confidence h = "high" /\ confidence lo = "low"
    /\ (savings_or_zero h == 0)%Q /\ (savings_or_zero lo == 50)%Q
    /\ (score (rank_entry ("image_perceptual_92eb5ffe", h)) == 330)%Q
    /\ (score (rank_entry ("other_size_26214400", lo)) == 170)%Q
    /\ map group_id (ranked_duplicates r)
       = ["image_perceptual_92eb5ffe"; "other_size_26214400"]
    /\ AdvancedFacts.precedes
         (rank_entry ("image_perceptual_92eb5ffe", h))
         (rank_entry ("other_size_26214400", lo)) (ranked_duplicates r).
Proof.
  pose proof (rank_duplicate_groups_spec Fuzz.ratio MD5.hexdigest
                Parse.py_float Parse.py_int AdvancedFacts.chain_thumbnails
                true [] (_get_default_config true) mixed_files) as H.
  cbv zeta in H. destruct H as (_ & _ & _ & _ & _ & H).
  fold image_detector in H.
  destruct (detect_all_duplicates Fuzz.ratio MD5.hexdigest Parse.py_float
              Parse.py_int true image_detector mixed_files) as [r|e] eqn:E.
  - cbn [emits] in H. destruct H as [_ H].
    assert (Er : Ret r
                 = detect_all_duplicates Fuzz.ratio MD5.hexdigest
                     Parse.py_float Parse.py_int true image_detector
                     mixed_files) by (symmetry; exact E).
    vm_compute in Er. injection Er as Er.
    assert (Hh : exists h, dict_get (duplicates r)
                             "image_perceptual_92eb5ffe" = Some h
                           /\ confidence h = "high"
                           /\ (savings_or_zero h == 0)%Q
                           /\ (score (rank_entry
                                        ("image_perceptual_92eb5ffe", h))
                               == 330)%Q).
    { rewrite Er. eexists. split; [reflexivity|].
      repeat split; vm_compute; reflexivity. }
    assert (Hlo : exists lo, dict_get (duplicates r)
                               "other_size_26214400" = Some lo
                             /\ confidence lo = "low"
                             /\ (savings_or_zero lo == 50)%Q
                             /\ (score (rank_entry
                                          ("other_size_26214400", lo))
                                 == 170)%Q).
    { rewrite Er. eexists. split; [reflexivity|].
      repeat split; vm_compute; reflexivity. }
    destruct Hh as (h & Hh & Ch & Sh & Xh).
    destruct Hlo as (lo & Hlo & Cl & Sl & Xl).
    exists r, h, lo. split; [reflexivity|].
    repeat (split; [assumption|]).
    split; [rewrite Er; reflexivity|].
    apply H; try assumption.
    + now apply AdvancedFacts.dict_get_in.
    + now apply AdvancedFacts.dict_get_in.
  - exfalso.
    assert (Er : Raise e
                 = detect_all_duplicates Fuzz.ratio MD5.hexdigest
                     Parse.py_float Parse.py_int true image_detector
                     mixed_files) by (symmetry; exact E).
    vm_compute in Er. discriminate Er.
Defined.

End AdvancedProperties.

(** * Further properties of auto_scaling_sheets.py *)

Module AutoScalingProperties.

Import AutoScalingSheets.

(** ** The sheet handed out for writing *)

Lemma nth_error_last {A : Type} (l : list A) (x : A) :
  nth_error (l ++ [x]) (List.length (l ++ [x]) - 1) = Some x.
Proof.
  rewrite length_app. simpl.
  replace (List.length l + 1 - 1)%nat with (List.length l) by lia.
  rewrite nth_error_app2 by lia. now rewrite Nat.sub_diag.
Qed.

(** The sheet has room: its row counter is below its limit. *)
Definition has_room (s : sheet_info) : Prop :=
  exists m, max_rows (main s) = Some m /\ rows_used (main s) < m.

Lemma create_new_sheet_ok (self : manager) (suffix : option string)
    (now : string) (info : sheet_info) (self' : manager) :
  create_new_sheet self suffix now = (Ret info, self') ->
  sheets (sheet_registry self')
  = (sheets (sheet_registry self) ++ [info])%list
  /\ rows_used (main info) = 1
  /\ max_rows (main info) = Some SAFE_ROW_LIMIT.
Proof.
  unfold create_new_sheet. destruct (next_fault (gc self)) as [[|] b];
    [discriminate|].
  intros [= <- <-]. repeat split.
Qed.

Lemma create_new_sheet_failed (self : manager) (suffix : option string)
    (now : string) (e : exn) (self' : manager) :
  create_new_sheet self suffix now = (Raise e, self') ->
  sheet_registry self' = sheet_registry self.
Proof.
  unfold create_new_sheet. destruct (next_fault (gc self)) as [[|] b];
    [|discriminate].
  now intros [= <- <-].
Qed.

Lemma new_sheet_has_room (info : sheet_info) :
  rows_used (main info) = 1 -> max_rows (main info) = Some SAFE_ROW_LIMIT ->
  has_room info.
Proof.
  intros H1 H2. exists SAFE_ROW_LIMIT. split; [exact H2|].
  rewrite H1. unfold SAFE_ROW_LIMIT. lia.
Qed.

(** X20: the sheet [get_current_sheet] hands out.  When the call returns,
    the sheet it names is in the registry and has room: its row counter is
    below its limit, either because the current sheet still has room or
    because a new sheet, holding only the header row, was created and
    made current.  When the call fails, the registry is as it was. *)
Theorem get_current_sheet_has_room (self : manager) (now : string) :
  match get_current_sheet self now with
  | (Ret i, self') =>
      exists s, nth_error (sheets (sheet_registry self')) i = Some s
                /\ has_room s
  | (Raise _, self') => sheet_registry self' = sheet_registry self
  end.
Proof.
  unfold get_current_sheet.
  destruct (sheets (sheet_registry self)) as [|s0 l0] eqn:Es.
  - destruct (create_new_sheet self None now) as [[info|e] self'] eqn:Ec.
    + apply create_new_sheet_ok in Ec. destruct Ec as (Hs & H1 & H2).
      rewrite Hs, Es. exists info. split; [reflexivity|].
      now apply new_sheet_has_room.
    + now apply create_new_sheet_failed in Ec.
  - rewrite <- Es.
    destruct (nth_error (sheets (sheet_registry self))
                (current_sheet_index (sheet_registry self)))
      as [cur|] eqn:En; [|reflexivity].
    destruct (max_rows (main cur)) as [m|] eqn:Em; [|reflexivity].
    destruct (m <=? rows_used (main cur)) eqn:Efull.
    + destruct (create_new_sheet self None now) as [[info|e] self'] eqn:Ec.
      * apply create_new_sheet_ok in Ec. destruct Ec as (Hs & H1 & H2).
        cbn [sheet_registry with_state sheets]. rewrite Hs.
        exists info. split; [apply nth_error_last|].
        now apply new_sheet_has_room.
      * now apply create_new_sheet_failed in Ec.
    + exists cur. split; [exact En|].
      exists m. split; [exact Em|]. now apply Z.leb_gt in Efull.
Qed.

(** ** The registry only grows *)

(** The entry [s'] continues the entry [s]: the same sheet, with a row
    counter that is not lower. *)
Definition continues (s s' : sheet_info) : Prop :=
  name s' = name s /\ id s' = id s /\ url s' = url s
  /\ max_rows (main s') = max_rows (main s)
  /\ rows_used (main s) <= rows_used (main s').

(** The registry [l'] extends [l]: it continues every entry of [l] at
    its position, and may hold further entries after them. *)
Definition extends (l l' : list sheet_info) : Prop :=
  exists l1 l2, l' = (l1 ++ l2)%list /\ Forall2 continues l l1.

Lemma continues_refl (s : sheet_info) : continues s s.
Proof. unfold continues. repeat split; lia. Qed.

Lemma continues_trans (a b c : sheet_info) :
  continues a b -> continues b c -> continues a c.
Proof.
  unfold continues. intros (H1 & H2 & H3 & H4 & H5) (K1 & K2 & K3 & K4 & K5).
  repeat split; try congruence. lia.
Qed.

Lemma Forall2_continues_refl (l : list sheet_info) : Forall2 continues l l.
Proof. induction l; constructor; auto using continues_refl. Qed.

Lemma extends_refl (l : list sheet_info) : extends l l.
Proof.
  exists l, []. split; [now rewrite app_nil_r|apply Forall2_continues_refl].
Qed.

Lemma extends_app (l more : list sheet_info) : extends l (l ++ more).
Proof. exists l, more. split; [reflexivity|apply Forall2_continues_refl]. Qed.

Lemma Forall2_continues_trans (a : list sheet_info) :
  forall b c, Forall2 continues a b -> Forall2 continues b c ->
              Forall2 continues a c.
Proof.
  induction a as [|x a IH]; intros b c Hab Hbc; inversion Hab; subst;
    inversion Hbc; subst; constructor.
  - eapply continues_trans; eassumption.
  - eapply IH; eassumption.
Qed.

Lemma extends_trans (a b c : list sheet_info) :
  extends a b -> extends b c -> extends a c.
Proof.
  intros (b1 & b2 & -> & Hab) (c1 & c2 & -> & Hbc).
  apply Forall2_app_inv_l in Hbc.
  destruct Hbc as (c11 & c12 & H1 & H2 & ->).
  exists c11, (c12 ++ c2)%list. split; [now rewrite app_assoc|].
  eapply Forall2_continues_trans; eassumption.
Qed.

Lemma extends_update (n : Z) (l : list sheet_info) (i : nat) :
  0 <= n -> extends l (update_nth i (fun s => add_rows_used s n) l).
Proof.
  intros Hn. exists (update_nth i (fun s => add_rows_used s n) l), [].
  split; [now rewrite app_nil_r|].
  revert i. induction l as [|s l IH]; intros [|i]; simpl; constructor;
    auto using continues_refl, Forall2_continues_refl.
  unfold continues. simpl. repeat split; lia.
Qed.

Lemma create_new_sheet_extends (self : manager) (suffix : option string)
    (now : string) :
  extends (sheets (sheet_registry self))
    (sheets (sheet_registry (snd (create_new_sheet self suffix now)))).
Proof.
  unfold create_new_sheet. destruct (next_fault (gc self)) as [[|] b]; cbn.
  - apply extends_refl.
  - apply extends_app.
Qed.

Lemma get_current_sheet_extends (self : manager) (now : string) :
  extends (sheets (sheet_registry self))
    (sheets (sheet_registry (snd (get_current_sheet self now)))).
Proof.
  unfold get_current_sheet.
  pose proof (create_new_sheet_extends self None now) as H.
  destruct (sheets (sheet_registry self)) as [|s0 l0] eqn:Es.
  - destruct (create_new_sheet self None now) as [[info|e] self'];
      cbn [snd] in *; exact H.
  - destruct (nth_error (s0 :: l0)
                (current_sheet_index (sheet_registry self)))
      as [cur|]; [|cbn [snd]; rewrite Es; apply extends_refl].
    destruct (max_rows (main cur)) as [m|];
      [|cbn [snd]; rewrite Es; apply extends_refl].
    destruct (m <=? rows_used (main cur));
      [|cbn [snd]; rewrite Es; apply extends_refl].
    destruct (create_new_sheet self None now) as [[info|e] self'];
      cbn [snd sheet_registry with_state sheets] in *; exact H.
Qed.

Lemma len_nonneg {A : Type} (l : list A) : 0 <= len l.
Proof. unfold len. lia. Qed.

Lemma insert_batch_extends (self : manager) (i : nat)
    (batch : list (dict string)) :
  extends (sheets (sheet_registry self))
    (sheets (sheet_registry (snd (insert_batch self i batch)))).
Proof.
  unfold insert_batch.
  destruct (nth_error (sheets (sheet_registry self)) i) as [s|];
    [|apply extends_refl].
  destruct (next_fault (gc self)) as [[|] b]; [apply extends_refl|].
  destruct (dict_get (remote b) (id s)); [|apply extends_refl].
  cbn. apply extends_update. apply len_nonneg.
Qed.

Lemma add_batches_extends (now : string) (todo : list (list (dict string))) :
  forall self total used,
    extends (sheets (sheet_registry self))
      (sheets (sheet_registry (snd (add_batches self now todo total used)))).
Proof.
  induction todo as [|batch todo IH]; intros self total used;
    cbn [add_batches].
  - apply extends_refl.
  - pose proof (get_current_sheet_extends self now) as Hg.
    destruct (get_current_sheet self now) as [[i|e] self1]; cbn [snd] in *;
      [|exact Hg].
    pose proof (insert_batch_extends self1 i batch) as Hi.
    destruct (insert_batch self1 i batch) as [[n|] self2]; cbn [snd] in Hi;
      (eapply extends_trans; [exact Hg|]);
      (eapply extends_trans; [exact Hi|]); apply IH.
Qed.

(** X21: the registry only grows.  Whatever a call of [add_file_data]
    does, whether it returns or fails on the way: afterwards every sheet
    that was registered is still registered at its position, under the
    same name, id and limit, with a row counter that is not lower; new
    sheets are added after the old ones. *)
Theorem registry_only_grows (self : manager) (file_data : list (dict string))
    (batch_size : Z) (now : string) :
  extends (sheets (sheet_registry self))
    (sheets (sheet_registry
               (snd (add_file_data self file_data batch_size now)))).
Proof.
  unfold add_file_data.
  destruct (batch_size =? 0); [apply extends_refl|].
  match goal with
  | |- context [add_batches self now ?todo 0 []] =>
      pose proof (add_batches_extends now todo self 0 []) as H;
      destruct (add_batches self now todo 0 []) as [[[total used]|e] self1]
  end; cbn in *; exact H.
Qed.

(** ** The rows of a batch in the sheet *)

(** The file record as it is laid out: stamped with the sheet id and the
    row number. *)
Definition stamped (sheet_id : string) (n : Z) (file_info : dict string)
    : dict string :=
  dict_set (dict_set file_info "sheet_id" sheet_id) "row_number" (str_of_Z n).

Definition cell (file_info : dict string) (col : string) : string :=
  match dict_get file_info col with
  | Some v => v
  | None => ""
  end.

Lemma rows_to_add_nth (columns : list string) (sheet_id : string) (used : Z)
    (batch : list (dict string)) :
  forall done k row,
    nth_error (rows_to_add columns sheet_id used done batch) k = Some row ->
    exists f,
      nth_error batch k = Some f
      /\ row = map (cell (stamped sheet_id (used + (done + Z.of_nat k) + 1) f))
                 columns.
Proof.
  induction batch as [|f batch IH]; intros done [|k] row H; simpl in H;
    try discriminate.
  - inversion H; subst. exists f. split; [reflexivity|].
    unfold stamped, cell. replace (used + (done + Z.of_nat 0) + 1)
      with (used + done + 1) by lia. reflexivity.
  - destruct (IH _ _ _ H) as (g & Hg & Hrow). exists g. split; [exact Hg|].
    replace (used + (done + Z.of_nat (S k)) + 1)
      with (used + (done + 1 + Z.of_nat k) + 1) by lia.
    exact Hrow.
Qed.

(** X22: a batch that is inserted into a sheet whose counter agrees with
    the stored rows.  The rows of the batch are appended below the stored
    ones, none of which is overwritten; the counter agrees with the
    stored rows afterwards as well; every new row has one cell per
    metadata column; and its [row_number] cell holds the number of the
    sheet row it was written to. *)
Theorem inserted_rows_know_their_place (self : manager) (i : nat)
    (batch : list (dict string)) (s : sheet_info)
    (cells : list (list string)) :
  nth_error (sheets (sheet_registry self)) i = Some s ->
  dict_get (remote (gc self)) (id s) = Some cells ->
  len cells = rows_used (main s) ->
  fst (next_fault (gc self)) = false ->
  let rows := rows_to_add (metadata_columns self) (id s)
                (rows_used (main s)) 0 batch in
  exists self' s',
    insert_batch self i batch = (Some (len batch), self')
    /\ dict_get (remote (gc self')) (id s) = Some (cells ++ rows)%list
    /\ nth_error (sheets (sheet_registry self')) i = Some s'
    /\ rows_used (main s') = len (cells ++ rows)%list
    /\ (forall k row,
          nth_error rows k = Some row ->
          nth_error (cells ++ rows)%list (List.length cells + k) = Some row
          /\ List.length row = List.length (metadata_columns self)
          /\ forall c, nth_error (metadata_columns self) c = Some "row_number"
                       -> nth_error row c
                          = Some (str_of_Z (Z.of_nat (List.length cells + k) + 1))).
Proof.
  intros Hs Hcells Hsync Hok rows.
  unfold insert_batch. rewrite Hs.
  pose proof (AutoScalingFacts.next_fault_remote (gc self)) as Hr.
  destruct (next_fault (gc self)) as [fault b]. cbn [fst snd] in *.
  subst fault. rewrite Hr, Hcells. fold rows.
  rewrite <- Hsync, MultiSheetFacts.write_rows_append.
  assert (Hlen : len rows = len batch)
    by (unfold rows; apply AutoScalingFacts.rows_to_add_length).
  rewrite Hlen.
  eexists. exists (add_rows_used s (len batch)).
  split; [reflexivity|].
  cbn [gc with_state remote sheet_registry sheets].
  split; [now rewrite dict_get_set, String.eqb_refl|].
  split; [now apply (AutoScalingFacts.nth_error_update_same
                       (fun s => add_rows_used s (len batch)))|].
  split.
  - cbn. unfold len in *. rewrite length_app. lia.
  - intros k row Hk. split; [|split].
    + rewrite nth_error_app2 by lia.
      replace (List.length cells + k - List.length cells)%nat with k by lia.
      exact Hk.
    + unfold rows in Hk. apply rows_to_add_nth in Hk.
      destruct Hk as (f & _ & ->). apply length_map.
    + intros c Hc. unfold rows in Hk. apply rows_to_add_nth in Hk.
      destruct Hk as (f & _ & ->).
      rewrite nth_error_map, Hc. cbn [option_map]. unfold cell, stamped.
      rewrite dict_get_set, String.eqb_refl. f_equal. f_equal.
      unfold len in Hsync. lia.
Qed.

(** ** Looking a file up after it was added *)

Import AutoScalingQueries.

Lemma index_of_app_absent (x : string) (a b : list string) :
  (forall y, In y b -> y <> x) -> index_of x (a ++ b) = index_of x a.
Proof.
  intros Hb. induction a as [|y a IH]; simpl.
  - induction b as [|z b IHb]; simpl; [reflexivity|].
    destruct (String.eqb_spec x z) as [->|Hne].
    + exfalso. apply (Hb z); [now left|reflexivity].
    + rewrite IHb; [reflexivity|]. intros y Hy. apply Hb. now right.
  - now rewrite IH.
Qed.

Lemma drop_while_split {A : Type} (p : A -> bool) (l : list A) :
  exists pre, l = (pre ++ drop_while p l)%list /\ Forall (fun x => p x = true) pre.
Proof.
  induction l as [|x l (pre & Hl & Hpre)]; simpl.
  - exists []. split; [reflexivity|constructor].
  - destruct (p x) eqn:E.
    + exists (x :: pre). split; [simpl; now rewrite <- Hl|now constructor].
    + exists []. split; [reflexivity|constructor].
Qed.

Lemma index_of_col_values (x : string) (cells : list (list string)) (col : nat) :
  x <> "" ->
  index_of x (col_values cells col)
  = index_of x (map (fun row => nth col row "") cells).
Proof.
  intros Hx. unfold col_values.
  set (column := map (fun row => nth col row "") cells).
  destruct (drop_while_split (fun c => (c =? "")%string) (rev column))
    as (pre & Hsplit & Hpre).
  assert (E : column
              = (rev (drop_while (fun c => (c =? "")%string) (rev column))
                 ++ rev pre)%list).
  { rewrite <- rev_app_distr, <- Hsplit. now rewrite rev_involutive. }
  rewrite E at 2. symmetry. apply index_of_app_absent.
  intros y Hy. apply in_rev in Hy. rewrite Forall_forall in Hpre.
  apply Hpre in Hy. apply String.eqb_eq in Hy. congruence.
Qed.

Lemma index_of_first (x : string) (l : list string) :
  forall k,
    nth_error l k = Some x ->
    (forall j y, (j < k)%nat -> nth_error l j = Some y -> y <> x) ->
    index_of x l = Some k.
Proof.
  induction l as [|y l IH]; intros [|k] Hk Hfirst; simpl in *;
    try discriminate.
  - inversion Hk; subst. now rewrite String.eqb_refl.
  - destruct (String.eqb_spec x y) as [->|Hne].
    + exfalso. apply (Hfirst 0%nat y); [lia|reflexivity|reflexivity].
    + rewrite (IH k Hk); [reflexivity|].
      intros j z Hj Hz. apply (Hfirst (S j) z); [lia|exact Hz].
Qed.

Lemma first_column (sheet_id : string) (used : Z) (batch : list (dict string)) :
  forall done,
    map (fun row => nth 0 row "")
        (rows_to_add default_metadata_columns sheet_id used done batch)
    = map (fun f => cell f "file_id") batch.
Proof.
  induction batch as [|f batch IH]; intros done; simpl; [reflexivity|].
  rewrite IH. f_equal. unfold cell.
  rewrite !dict_get_set. reflexivity.
Qed.

(** A manager that has just been created, over a service that holds no
    spreadsheet yet and whose calls go through. *)
Definition fresh (base now : string) : manager :=
  init base {| remote := []; faults := [] |} now.

Lemma fresh_run (base now : string) (files : list (dict string))
    (batch_size : Z) :
  files <> [] -> len files <= batch_size ->
  exists out s,
    add_file_data (fresh base now) files batch_size now = (Ret out, s)
    /\ rows_added out = len files
    /\ remote (gc s)
       = [("spreadsheet-1",
           default_metadata_columns
           :: rows_to_add default_metadata_columns "spreadsheet-1" 1 0 files)]
    /\ map (fun x => (name x, id x, rows_used (main x)))
           (sheets (sheet_registry s))
       = [(base ++ "_001", "spreadsheet-1", 1 + len files)].
Proof.
  intros Hne Hlen. unfold add_file_data.
  assert (Hpos : 0 < len files).
  { unfold len. destruct files; [congruence|simpl; lia]. }
  replace (batch_size =? 0) with false by (symmetry; apply Z.eqb_neq; lia).
  replace (batch_size <? 0) with false by (symmetry; apply Z.ltb_ge; lia).
  rewrite MultiSheetFacts.batches_single; [|exact Hne|unfold len in *; lia].
  cbn [add_batches]. unfold fresh, init, get_current_sheet.
  cbn [sheet_registry sheets].
  unfold create_new_sheet, next_fault.
  cbn [gc faults remote sheet_registry sheets base_sheet_name
       metadata_columns with_state current_sheet_index total_rows_used
       last_updated app].
  unfold insert_batch.
  cbn [sheet_registry sheets with_state nth_error gc faults remote
       metadata_columns id main rows_used next_fault].
  unfold next_fault. cbn [faults remote].
  change (len (@nil (string * list (list string))) + 1) with 1.
  change (str_of_Z 1) with "1".
  change ("spreadsheet-" ++ "1") with "spreadsheet-1".
  cbn [dict_set dict_get String.eqb Ascii.eqb Bool.eqb].
  rewrite AutoScalingFacts.rows_to_add_length.
  change (1 + 1) with (len [default_metadata_columns] + 1).
  rewrite MultiSheetFacts.write_rows_append.
  do 2 eexists. split; [reflexivity|].
  cbn. repeat split.
Qed.

(** X23: a file can be found where it was written.  A freshly created
    manager over an empty, reliable service receives a non-empty list of
    files as a single batch.  Then a file id [x] that is neither empty
    nor the column title ["file_id"] is found by [find_file_location] in
    the first sheet, [<base>_001], at row [k + 2], where [k] is the
    position in the list of the first file with that id: below the
    header row, in the order of the list. *)
Theorem lookup_after_insert (base now : string) (files : list (dict string))
    (batch_size : Z) (k : nat) (f : dict string) (x : string) :
  len files <= batch_size ->
  nth_error files k = Some f ->
  dict_get f "file_id" = Some x ->
  x <> "" -> x <> "file_id" ->
  (forall j g, (j < k)%nat -> nth_error files j = Some g ->
               cell g "file_id" <> x) ->
  find_file_location
    (snd (add_file_data (fresh base now) files batch_size now)) x
  = Some {| sheet_name := base ++ "_001"; sheet_id := "spreadsheet-1";
            row_number := Z.of_nat k + 2 |}.
Proof.
  intros Hlen Hk Hx Hne Hcol Hfirst.
  assert (Hfiles : files <> []) by (intros ->; destruct k; discriminate).
  destruct (fresh_run base now files batch_size Hfiles Hlen)
    as (out & s & Hrun & _ & Hremote & Hsheets).
  rewrite Hrun. cbn [snd]. unfold find_file_location.
  destruct (sheets (sheet_registry s)) as [|s1 [|s2 rest]];
    try discriminate.
  injection Hsheets as Hname Hid _.
  cbn [find_in_sheets]. rewrite Hremote, Hid.
  cbn [dict_get String.eqb Ascii.eqb Bool.eqb hd].
  change (index_of "file_id" default_metadata_columns) with (Some 0%nat).
  cbv iota. rewrite index_of_col_values by exact Hne.
  cbn [map nth default_metadata_columns]. rewrite first_column.
  cbn [index_of].
  destruct (String.eqb_spec x "file_id") as [E|_]; [congruence|].
  rewrite (index_of_first x (map (fun f => cell f "file_id") files) k).
  - rewrite Hname. f_equal. f_equal. lia.
  - rewrite nth_error_map, Hk. cbn [option_map]. unfold cell.
    now rewrite Hx.
  - intros j y Hj Hy. rewrite nth_error_map in Hy.
    destruct (nth_error files j) as [g|] eqn:Eg; [|discriminate].
    cbn [option_map] in Hy. inversion Hy; subst.
    now apply (Hfirst j g).
Qed.

(** ** Concrete runs *)

Definition two_records : list (dict string) :=
  [ [("file_id", "f1"); ("name", "a.txt")];
    [("file_id", "f2"); ("name", "b.txt")] ].

(** A manager with one registered sheet that holds the header row. *)
Definition one_sheet : manager :=
  snd (create_new_sheet (fresh "Drive_Metadata_Tracking" "t0") None "t0").

Definition no_worksheet : worksheet_info :=
  {| ws_name := ""; rows_used := 0; max_rows := None |}.

Definition its_sheet : sheet_info :=
  match sheets (sheet_registry one_sheet) with
  | s :: _ => s
  | [] => {| name := ""; id := ""; url := ""; main := no_worksheet;
             duplicates_ws := no_worksheet; summary_ws := no_worksheet;
             cross_ref := no_worksheet; created_at := ""; status := "" |}
  end.

Lemma inserted_rows_know_their_place_witness :
  exists self' s',
    insert_batch one_sheet 0 two_records = (Some 2, self')
    /\ nth_error (sheets (sheet_registry self')) 0 = Some s'
    /\ rows_used (main s') = 3.
Proof.
  destruct (inserted_rows_know_their_place one_sheet 0 two_records its_sheet
              [default_metadata_columns] eq_refl eq_refl eq_refl eq_refl)
    as (self' & s' & Hi & _ & Hn & Hr & _).
  exists self', s'. split; [exact Hi|]. split; [exact Hn|]. exact Hr.
Defined.

Lemma lookup_after_insert_witness :
  find_file_location
    (snd (add_file_data (fresh "Drive_Metadata_Tracking" "t0") two_records
            1000 "t0")) "f2"
  = Some {| sheet_name := "Drive_Metadata_Tracking_001";
            sheet_id := "spreadsheet-1"; row_number := 3 |}.
Proof.
  apply (lookup_after_insert "Drive_Metadata_Tracking" "t0" two_records 1000
           1 [("file_id", "f2"); ("name", "b.txt")] "f2").
  - discriminate.
  - reflexivity.
  - reflexivity.
  - discriminate.
  - discriminate.
  - intros [|j] g Hj Hg; [|lia]. inversion Hg; subst. discriminate.
Defined.

End AutoScalingProperties.

(** * Further properties of sheets_utils.py and multi_sheet_manager.py *)

Module SheetProperties.

Import MultiSheetManager SheetMaintenance.

(** ** Chunks *)

Lemma batches_cover_fuel {A : Type} (n : nat) :
  (0 < n)%nat ->
  forall fuel (l : list A),
    (List.length l <= fuel)%nat ->
    List.concat (batches fuel n l) = l
    /\ Forall (fun b => b <> [] /\ (List.length b <= n)%nat)
         (batches fuel n l).
Proof.
  intros Hn. induction fuel as [|fuel IH]; intros l Hl.
  - destruct l; [|simpl in Hl; lia]. split; [reflexivity|constructor].
  - destruct l as [|x l]; [split; [reflexivity|constructor]|].
    cbn [batches].
    destruct (IH (skipn n (x :: l))) as [Hc Hf].
    { rewrite length_skipn. cbn [List.length] in *. lia. }
    split.
    + cbn [List.concat]. rewrite Hc. apply firstn_skipn.
    + constructor; [|exact Hf]. split.
      * destruct n; [lia|]. discriminate.
      * apply firstn_le_length.
Qed.

(** X24: the chunks of [add_file_data] and [add_batch_data].  For a
    positive chunk size the slices [data[i:i + n]] taken at
    [i = 0, n, 2n, ...] are non-empty, hold at most [n] rows each, and
    put one after the other give the list back: every row is in exactly
    one chunk, in order. *)
Theorem batches_cover {A : Type} (n : nat) (l : list A) :
  (0 < n)%nat ->
  List.concat (batches (List.length l) n l) = l
  /\ Forall (fun b => b <> [] /\ (List.length b <= n)%nat)
       (batches (List.length l) n l).
Proof. intros Hn. now apply batches_cover_fuel. Qed.

Lemma batches_cover_witness :
  List.concat (batches 5 2 [1; 2; 3; 4; 5]) = [1; 2; 3; 4; 5]
  /\ Forall (fun b => b <> [] /\ (List.length b <= 2)%nat)
       (batches 5 2 [1; 2; 3; 4; 5]).
Proof. apply (batches_cover 2 [1; 2; 3; 4; 5]). lia. Defined.

(** ** Writing below the counted rows *)

Lemma count_le_length (cs : list (list string)) :
  (List.length (filter row_filled cs) <= List.length cs)%nat.
Proof. apply filter_length_le. Qed.

Lemma update_nth_length {A : Type} (f : A -> A) (l : list A) :
  forall i, List.length (update_nth i f l) = List.length l.
Proof.
  induction l as [|x l IH]; intros [|i]; simpl; auto.
Qed.

Lemma get_worksheet_set_cells (dr : drive) (w : wsref) (ws : worksheet)
    (f : list (list string) -> list (list string)) :
  get_worksheet dr w = Some ws ->
  get_worksheet (set_cells dr w f) w
  = Some {| title := title ws; cells := f (cells ws) |}.
Proof.
  unfold get_worksheet, set_cells. destruct w as [i j]. cbn [fst snd].
  destruct (nth_error dr i) as [ss|] eqn:Ei; [|discriminate].
  intros Hj.
  rewrite (AutoScalingFacts.nth_error_update_same _ dr i ss Ei).
  cbn [worksheets].
  now rewrite (AutoScalingFacts.nth_error_update_same _ _ j ws Hj).
Qed.

Lemma get_worksheet_set_cells_other (dr : drive) (w w' : wsref)
    (f : list (list string) -> list (list string)) :
  w' <> w -> get_worksheet (set_cells dr w f) w' = get_worksheet dr w'.
Proof.
  unfold get_worksheet, set_cells. destruct w as [i j], w' as [i' j'].
  cbn [fst snd]. intros Hne.
  destruct (Nat.eq_dec i i') as [<-|Hi].
  - destruct (nth_error dr i) as [ss|] eqn:Ei.
    + rewrite (AutoScalingFacts.nth_error_update_same _ dr i ss Ei).
      cbn [worksheets]. apply AutoScalingFacts.nth_error_update_other.
      congruence.
    + assert (E : nth_error (update_nth i
                    (fun ss => {| ss_title := ss_title ss;
                                  worksheets :=
                                    update_nth j
                                      (fun ws => {| title := title ws;
                                                    cells := f (cells ws) |})
                                      (worksheets ss) |}) dr) i = None).
      { apply nth_error_None. apply nth_error_None in Ei.
        now rewrite update_nth_length. }
      now rewrite E.
  - now rewrite AutoScalingFacts.nth_error_update_other.
Qed.

(** X25: where [batch_update_sheet] writes.  The rows are written from
    the row after the counted ones: with [c] rows counted, the first [c]
    stored rows stay, the data follows, and the stored rows from position
    [c + len(data)] on stay.  The worksheet therefore ends up with
    [max(rows, c + len(data))] rows: it grows by the whole batch exactly
    when no stored row is blank, and then the batch is appended; a blank
    row among the stored ones makes the batch overwrite stored rows.
    Other worksheets are not touched, and [add_data_to_sheet] is the same
    write for a single row. *)
Theorem batch_update_sheet_writes_below_count (dr : drive) (w : wsref)
    (ws : worksheet) (data : list data_row) :
  get_worksheet dr w = Some ws ->
  let c := List.length (filter row_filled (cells ws)) in
  let dr' := snd (batch_update_sheet dr w data) in
  exists ws',
    get_worksheet dr' w = Some ws'
    /\ title ws' = title ws
    /\ cells ws'
       = (firstn c (cells ws) ++ map format_row data
          ++ skipn (c + List.length data) (cells ws))%list
    /\ List.length (cells ws')
       = Nat.max (List.length (cells ws)) (c + List.length data)
    /\ (c = List.length (cells ws) ->
        cells ws' = (cells ws ++ map format_row data)%list)
    /\ (forall w', w' <> w -> get_worksheet dr' w' = get_worksheet dr w')
    /\ (forall row, add_data_to_sheet dr w row = batch_update_sheet dr w [row]).
Proof.
  intros Hw c dr'. unfold dr', batch_update_sheet, add_data_to_sheet.
  rewrite Hw. cbn [snd]. unfold get_sheet_row_count. rewrite Hw.
  pose proof (count_le_length (cells ws)) as Hc. fold c in Hc.
  assert (Hwrite : write_rows (cells ws)
                     (len (filter row_filled (cells ws)) + 1)
                     (map format_row data)
                   = (firstn c (cells ws) ++ map format_row data
                      ++ skipn (c + List.length data) (cells ws))%list).
  { unfold write_rows, len. fold c.
    replace (Z.to_nat (Z.of_nat c + 1 - 1)) with c by lia.
    replace (c - List.length (cells ws))%nat with 0%nat by lia.
    now rewrite length_map. }
  eexists. split; [apply (get_worksheet_set_cells dr w ws _ Hw)|].
  cbn [title cells]. split; [reflexivity|]. rewrite Hwrite.
  split; [reflexivity|]. split; [|split; [|split]].
  - rewrite !length_app, length_firstn, length_skipn, length_map. lia.
  - intros Hfull. rewrite Hfull, firstn_all, skipn_all2 by lia.
    now rewrite app_nil_r.
  - intros w' Hne. now apply get_worksheet_set_cells_other.
  - reflexivity.
Qed.

(** ** A worksheet with space *)

Lemma first_not_full_spec (dr : drive) (ss : nat) (max_rows : Z) (n : nat) :
  forall i,
    match first_not_full dr ss i n max_rows with
    | Some w =>
        fst w = ss /\ (i <= snd w < i + n)%nat
        /\ is_sheet_full dr w max_rows = false
        /\ forall j, (i <= j < snd w)%nat ->
                     is_sheet_full dr (ss, j) max_rows = true
    | None =>
        forall j, (i <= j < i + n)%nat ->
                  is_sheet_full dr (ss, j) max_rows = true
    end.
Proof.
  induction n as [|n IH]; intros i; cbn [first_not_full].
  - intros j Hj. lia.
  - destruct (is_sheet_full dr (ss, i) max_rows) eqn:Efull; cbn [negb].
    + specialize (IH (S i)).
      destruct (first_not_full dr ss (S i) n max_rows) as [w|].
      * destruct IH as (H1 & H2 & H3 & H4).
        repeat split; try assumption; try lia.
        intros j Hj. destruct (Nat.eq_dec j i) as [->|Hne]; [exact Efull|].
        apply H4. lia.
      * intros j Hj. destruct (Nat.eq_dec j i) as [->|Hne]; [exact Efull|].
        apply IH. lia.
    + cbn [fst snd]. repeat split; try lia; try assumption.
Qed.

Section Space.

Variable MAX_ROWS_PER_SHEET : Z.
Variable timestamp : string.

(** X26: [find_available_sheet] on a spreadsheet the service knows, for
    a positive row limit.  It returns a worksheet of that spreadsheet
    that is not full: the first one in tab order that is not full, the
    service being left as it is; or, when all tabs are full, a new empty
    tab, added after the existing ones.  The worksheets that existed keep
    their rows. *)
Theorem find_available_sheet_has_space (dr : drive) (ss : nat) :
  (ss < List.length dr)%nat -> 0 < MAX_ROWS_PER_SHEET ->
  exists w dr',
    find_available_sheet MAX_ROWS_PER_SHEET timestamp dr ss = (Some w, dr')
    /\ fst w = ss
    /\ is_sheet_full dr' w MAX_ROWS_PER_SHEET = false
    /\ (forall j, (j < snd w)%nat ->
                  is_sheet_full dr (ss, j) MAX_ROWS_PER_SHEET = true)
    /\ ((dr' = dr /\ (snd w < tab_count dr ss)%nat)
        \/ (snd w = tab_count dr ss
            /\ tab_count dr' ss = S (tab_count dr ss)
            /\ get_sheet_row_count dr' w = 0))
    /\ (forall w' ws, get_worksheet dr w' = Some ws ->
                      get_worksheet dr' w' = Some ws).
Proof.
  intros Hss Hmax. unfold find_available_sheet.
  pose proof (first_not_full_spec dr ss MAX_ROWS_PER_SHEET (tab_count dr ss)
                0%nat) as Hspec.
  destruct (first_not_full dr ss 0 (tab_count dr ss) MAX_ROWS_PER_SHEET)
    as [w|].
  - destruct Hspec as (H1 & H2 & H3 & H4).
    exists w, dr. repeat split; try assumption.
    + intros j Hj. apply H4. lia.
    + left. split; [reflexivity|lia].
    + auto.
  - unfold create_new_sheet_tab, tab_count in *.
    destruct (nth_error dr ss) as [s|] eqn:Es;
      [|apply nth_error_None in Es; lia].
    set (tab := {| title := "Data_" ++ timestamp; cells := [] |}).
    set (dr' := update_nth ss
                  (fun s => {| ss_title := ss_title s;
                               worksheets := (worksheets s ++ [tab])%list |})
                  dr).
    assert (Hnew : nth_error dr' ss
                   = Some {| ss_title := ss_title s;
                             worksheets := (worksheets s ++ [tab])%list |}).
    { exact (AutoScalingFacts.nth_error_update_same
               (fun s0 => {| ss_title := ss_title s0;
                             worksheets := (worksheets s0 ++ [tab])%list |})
               dr ss s Es). }
    assert (Hget : get_worksheet dr' (ss, List.length (worksheets s))
                   = Some tab).
    { unfold get_worksheet. cbn [fst snd]. rewrite Hnew. cbn [worksheets].
      rewrite nth_error_app2 by lia. now rewrite Nat.sub_diag. }
    exists (ss, List.length (worksheets s)), dr'.
    split; [reflexivity|]. split; [reflexivity|]. split; [|split; [|split]].
    + unfold is_sheet_full, get_sheet_row_count. rewrite Hget.
      cbn. apply Z.leb_gt. exact Hmax.
    + cbn [snd]. intros j Hj. apply Hspec. lia.
    + right. cbn [snd]. split; [reflexivity|]. rewrite Hnew. cbn [worksheets].
      split; [rewrite length_app; simpl; lia|].
      unfold get_sheet_row_count. now rewrite Hget.
    + intros [i j] ws. unfold get_worksheet. cbn [fst snd].
      destruct (Nat.eq_dec i ss) as [->|Hne].
      * rewrite Es, Hnew. cbn [worksheets]. intros Hj.
        rewrite nth_error_app1; [exact Hj|].
        apply nth_error_Some. congruence.
      * unfold dr'. rewrite AutoScalingFacts.nth_error_update_other by congruence.
        auto.
Qed.

End Space.

(** ** Every row is accounted for *)

(** The bookkeeping moved on by [n] rows: they were added to the
    successful or to the failed rows, and the total is as it was. *)
Definition accounted (r r' : results) (n : Z) : Prop :=
  successful_rows r' + failed_rows r'
  = successful_rows r + failed_rows r + n
  /\ total_rows r' = total_rows r.

Lemma accounted_trans (r1 r2 r3 : results) (n m : Z) :
  accounted r1 r2 n -> accounted r2 r3 m -> accounted r1 r3 (n + m).
Proof. unfold accounted. intros [H1 H2] [H3 H4]. split; lia. Qed.

Lemma record_write_accounted (r : results) (success : bool) (n : Z)
    (self : manager) (ss : nat) :
  accounted r (record_write r success n self ss) n.
Proof. unfold accounted, record_write. destruct success; cbn; split; lia. Qed.

Lemma failed_accounted (r : results) (n : Z) :
  accounted r
    {| total_rows := total_rows r; successful_rows := successful_rows r;
       failed_rows := failed_rows r + n;
       spreadsheets_used := spreadsheets_used r;
       worksheets_used := worksheets_used r |} n.
Proof. unfold accounted. cbn. split; lia. Qed.

Lemma write_current_accounted (self : manager) (ss : nat)
    (rows : list data_row) (r : results) :
  current_worksheet self <> None ->
  accounted r (fst (write_current self ss rows r)) (len rows)
  /\ current_worksheet (snd (write_current self ss rows r)) <> None.
Proof.
  unfold write_current. destruct (current_worksheet self) as [w|];
    [|congruence].
  intros _. destruct (batch_update_sheet (client self) w rows) as [ok dr].
  cbn [fst snd]. split; [apply record_write_accounted|discriminate].
Qed.

Section Accounting.

Variable MAX_ROWS_PER_SHEET : Z.
Variable MAX_SHEETS_PER_SPREADSHEET : Z.
Variable timestamp : string.

Lemma create_new_spreadsheet_worksheet (self : manager) :
  current_worksheet (snd (_create_new_spreadsheet timestamp self)) <> None.
Proof.
  unfold _create_new_spreadsheet.
  destruct (setup_sheet_headers _ _ _) as [ok dr]. discriminate.
Qed.

Lemma next_worksheet_worksheet (self : manager) (ss : nat) :
  current_worksheet
    (snd (next_worksheet MAX_ROWS_PER_SHEET MAX_SHEETS_PER_SPREADSHEET
            timestamp self ss)) <> None.
Proof.
  unfold next_worksheet.
  destruct (find_available_sheet MAX_ROWS_PER_SHEET timestamp (client self) ss)
    as [[w|] dr].
  - destruct (get_sheet_row_count dr w =? 0).
    + destruct (setup_sheet_headers dr w _) as [ok dr']. discriminate.
    + discriminate.
  - unfold get_or_create_spreadsheet.
    match goal with
    | |- context [_create_new_spreadsheet timestamp ?m] =>
        pose proof (create_new_spreadsheet_worksheet m) as H;
        destruct (_create_new_spreadsheet timestamp m) as [[ss'|] self']
    end; exact H.
Qed.

Lemma add_chunk_accounted (self : manager) (chunk : list data_row)
    (r : results) :
  accounted r
    (fst (add_chunk MAX_ROWS_PER_SHEET MAX_SHEETS_PER_SPREADSHEET timestamp
            self chunk r)) (len chunk).
Proof.
  unfold add_chunk.
  destruct (get_or_create_spreadsheet MAX_ROWS_PER_SHEET
              MAX_SHEETS_PER_SPREADSHEET timestamp self false)
    as [[ss|] self1]; [|apply failed_accounted].
  destruct (current_worksheet self1) as [w|] eqn:Ew;
    [|apply failed_accounted].
  assert (Hw : current_worksheet self1 <> None) by congruence.
  destruct (MAX_ROWS_PER_SHEET
            <? get_sheet_row_count (client self1) w + len chunk).
  - set (space := MAX_ROWS_PER_SHEET - get_sheet_row_count (client self1) w).
    destruct (0 <? space).
    + pose proof (write_current_accounted self1 ss
                    (firstn (Z.to_nat space) chunk) r Hw) as [Ha Hw2].
      destruct (write_current self1 ss (firstn (Z.to_nat space) chunk) r)
        as [r1 self2]. cbn [fst snd] in Ha, Hw2.
      assert (Hsplit : len (firstn (Z.to_nat space) chunk)
                       + len (skipn (Z.to_nat space) chunk) = len chunk).
      { unfold len. rewrite <- Nat2Z.inj_add, <- length_app, firstn_skipn.
        reflexivity. }
      destruct (skipn (Z.to_nat space) chunk) as [|x rest] eqn:Erest.
      * cbn [fst]. unfold len in Hsplit at 2. cbn in Hsplit.
        rewrite Z.add_0_r in Hsplit. now rewrite <- Hsplit.
      * pose proof (next_worksheet_worksheet self2 ss) as Hw3.
        destruct (next_worksheet MAX_ROWS_PER_SHEET
                    MAX_SHEETS_PER_SPREADSHEET timestamp self2 ss)
          as [ss3 self3]. cbn [snd] in Hw3.
        destruct (write_current_accounted self3 ss3 (x :: rest) r1 Hw3)
          as [Hb _].
        rewrite <- Hsplit. eapply accounted_trans; eassumption.
    + pose proof (next_worksheet_worksheet self1 ss) as Hw3.
      destruct (next_worksheet MAX_ROWS_PER_SHEET
                  MAX_SHEETS_PER_SPREADSHEET timestamp self1 ss)
        as [ss3 self3]. cbn [snd] in Hw3.
      now apply write_current_accounted.
  - now apply write_current_accounted.
Qed.

Lemma add_chunks_accounted (chunks : list (list data_row)) :
  forall self r,
    accounted r
      (fst (add_chunks MAX_ROWS_PER_SHEET MAX_SHEETS_PER_SPREADSHEET timestamp
              self chunks r)) (len (List.concat chunks)).
Proof.
  induction chunks as [|chunk chunks IH]; intros self r; cbn [add_chunks].
  - unfold accounted, len. cbn. split; lia.
  - pose proof (add_chunk_accounted self chunk r) as Ha.
    destruct (add_chunk MAX_ROWS_PER_SHEET MAX_SHEETS_PER_SPREADSHEET
                timestamp self chunk r) as [r1 self1]. cbn [fst] in Ha.
    cbn [List.concat]. unfold len. rewrite length_app, Nat2Z.inj_add.
    eapply accounted_trans; [exact Ha|apply IH].
Qed.

(** X27: [add_batch_data] accounts for every row.  For a chunk size that
    is not negative, every row of the batch ends up among the successful
    or among the failed rows:
    [successful_rows + failed_rows = total_rows = len(data)], whatever
    the state of the manager and of the service.  For a negative chunk
    size no chunk is formed: nothing is written and nothing is counted,
    as successful or as failed. *)
Theorem add_batch_data_accounts_for_every_row (self : manager)
    (data_list : list data_row) (chunk_size : Z) :
  let out := add_batch_data MAX_ROWS_PER_SHEET MAX_SHEETS_PER_SPREADSHEET
               timestamp self data_list chunk_size in
  total_rows (fst out) = len data_list
  /\ if chunk_size <? 0
     then successful_rows (fst out) = 0 /\ failed_rows (fst out) = 0
          /\ snd out = self
     else successful_rows (fst out) + failed_rows (fst out)
          = total_rows (fst out).
Proof.
  intros out. unfold out, add_batch_data.
  destruct (chunk_size =? 0) eqn:E0.
  - apply Z.eqb_eq in E0. subst. cbn. split; [reflexivity|lia].
  - apply Z.eqb_neq in E0. destruct (chunk_size <? 0) eqn:Eneg.
    + cbn. repeat split.
    + apply Z.ltb_ge in Eneg.
      match goal with
      | |- context [add_chunks _ _ _ self ?chunks ?r0] =>
          pose proof (add_chunks_accounted chunks self r0) as [Ha Ht];
          destruct (batches_cover_fuel (Z.to_nat chunk_size) ltac:(lia)
                      (List.length data_list) data_list (Nat.le_refl _))
            as [Hc _]
      end.
      rewrite Hc in Ha. cbn [total_rows successful_rows failed_rows] in *.
      split; [exact Ht|]. rewrite Ht. lia.
Qed.

End Accounting.

(** ** Cleaning up *)

(** A tab other than the first stays when it holds more than one
    counted row. *)
Definition worth_keeping (ws : worksheet) : bool := negb (row_count ws <=? 1).

(** The tabs of a spreadsheet that a cleanup leaves. *)
Definition kept_tabs (tabs : list worksheet) : list worksheet :=
  match tabs with
  | [] => []
  | first :: rest => first :: filter worth_keeping rest
  end.

(** The number of tabs of all spreadsheets. *)
Fixpoint tabs_of (dr : drive) : Z :=
  match dr with
  | [] => 0
  | ss :: dr' => len (worksheets ss) + tabs_of dr'
  end.

Lemma cleanup_tabs_later (tabs : list worksheet) :
  forall i cleaned,
    i <> 0%nat ->
    cleanup_tabs i tabs cleaned
    = (filter worth_keeping tabs,
       cleaned + (len tabs - len (filter worth_keeping tabs))).
Proof.
  unfold len.
  induction tabs as [|ws tabs IH]; intros i cleaned Hi; cbn [cleanup_tabs].
  - cbn. f_equal. lia.
  - destruct i as [|i]; [congruence|]. cbn [Nat.eqb filter].
    assert (Hk : worth_keeping ws = negb (row_count ws <=? 1))
      by reflexivity.
    rewrite Hk.
    destruct (row_count ws <=? 1); cbn [negb];
      rewrite IH by discriminate; cbn [List.length]; f_equal;
      rewrite ?Nat2Z.inj_succ; lia.
Qed.

Lemma cleanup_tabs_first (tabs : list worksheet) (cleaned : Z) :
  cleanup_tabs 0 tabs cleaned
  = (kept_tabs tabs, cleaned + (len tabs - len (kept_tabs tabs))).
Proof.
  destruct tabs as [|first rest]; cbn [cleanup_tabs kept_tabs Nat.eqb].
  - unfold len. cbn. f_equal. lia.
  - rewrite cleanup_tabs_later by discriminate.
    unfold len. cbn [List.length]. f_equal. lia.
Qed.

Lemma filter_idem {A : Type} (p : A -> bool) (l : list A) :
  filter p (filter p l) = filter p l.
Proof.
  induction l as [|x l IH]; simpl; [reflexivity|].
  destruct (p x) eqn:E; simpl; rewrite ?E, IH; reflexivity.
Qed.

Lemma kept_tabs_idem (tabs : list worksheet) :
  kept_tabs (kept_tabs tabs) = kept_tabs tabs.
Proof.
  destruct tabs as [|first rest]; [reflexivity|].
  cbn [kept_tabs]. now rewrite filter_idem.
Qed.

Lemma cleanup_loop_spec (dr : drive) :
  forall cleaned,
    cleanup_loop dr cleaned
    = (map (fun ss => {| ss_title := ss_title ss;
                         worksheets := kept_tabs (worksheets ss) |}) dr,
       cleaned
       + (tabs_of dr
          - tabs_of (map (fun ss => {| ss_title := ss_title ss;
                                       worksheets := kept_tabs (worksheets ss) |})
                         dr))).
Proof.
  induction dr as [|ss dr IH]; intros cleaned; cbn [cleanup_loop map tabs_of].
  - f_equal. lia.
  - rewrite cleanup_tabs_first, IH. cbn [worksheets]. f_equal. lia.
Qed.

(** X28: what [cleanup_empty_sheets] removes.  Every spreadsheet stays,
    under its title, with its first tab whatever that holds; of the other
    tabs exactly those stay that hold more than one counted row, in their
    order and with their rows; the number returned is the number of tabs
    removed; and a second cleanup right after finds nothing to remove. *)
Theorem cleanup_empty_sheets_removes_empty_tabs (dr : drive) :
  let out := cleanup_empty_sheets dr in
  snd out = map (fun ss => {| ss_title := ss_title ss;
                              worksheets := kept_tabs (worksheets ss) |}) dr
  /\ fst out = tabs_of dr - tabs_of (snd out)
  /\ cleanup_empty_sheets (snd out) = (0, snd out).
Proof.
  intros out. unfold out, cleanup_empty_sheets.
  rewrite cleanup_loop_spec. cbn [fst snd].
  split; [reflexivity|]. split; [lia|].
  rewrite cleanup_loop_spec.
  assert (E : map (fun ss => {| ss_title := ss_title ss;
                                worksheets := kept_tabs (worksheets ss) |})
                  (map (fun ss => {| ss_title := ss_title ss;
                                     worksheets := kept_tabs (worksheets ss) |})
                       dr)
              = map (fun ss => {| ss_title := ss_title ss;
                                  worksheets := kept_tabs (worksheets ss) |})
                    dr).
  { rewrite map_map. apply map_ext. intros ss. cbn [ss_title worksheets].
    now rewrite kept_tabs_idem. }
  rewrite E. f_equal. lia.
Qed.

(** ** Concrete runs *)

(** A worksheet with a blank row between two filled ones. *)
Definition gapped : drive :=
  [ {| ss_title := "Research";
       worksheets := [ {| title := "Data_001";
                          cells := [["Document ID"]; [""]; ["DOC-1"]] |} ] |} ].

(** The blank row is not counted, so the next write starts at row 3 and
    replaces the record that is stored there. *)
Lemma batch_update_sheet_writes_below_count_witness :
  exists ws',
    get_worksheet (snd (batch_update_sheet gapped (0%nat, 0%nat)
                          [ListRow ["DOC-2"]])) (0%nat, 0%nat) = Some ws'
    /\ cells ws' = [["Document ID"]; [""]; ["DOC-2"]]
    /\ List.length (cells ws') = 3%nat.
Proof.
  destruct (batch_update_sheet_writes_below_count gapped (0%nat, 0%nat)
              {| title := "Data_001";
                 cells := [["Document ID"]; [""]; ["DOC-1"]] |}
              [ListRow ["DOC-2"]] eq_refl)
    as (ws' & Hget & _ & Hcells & Hlen & _).
  exists ws'. split; [exact Hget|]. split; [exact Hcells|exact Hlen].
Defined.

(** A spreadsheet whose only tab is full at a limit of two rows. *)
Definition full_tab : drive :=
  [ {| ss_title := "Research";
       worksheets := [ {| title := "Data_001";
                          cells := [["Document ID"]; ["DOC-1"]] |} ] |} ].

Lemma find_available_sheet_has_space_witness :
  exists w dr',
    find_available_sheet 2 "20240101_000000" full_tab 0 = (Some w, dr')
    /\ snd w = 1%nat
    /\ is_sheet_full dr' w 2 = false
    /\ is_sheet_full full_tab (0%nat, 0%nat) 2 = true.
Proof.
  destruct (find_available_sheet_has_space 2 "20240101_000000" full_tab 0)
    as (w & dr' & Hf & _ & Hfree & Hfull & Hcase & _).
  - simpl. lia.
  - lia.
  - exists w, dr'. split; [exact Hf|].
    assert (Hw : snd w = 1%nat).
    { destruct Hcase as [[_ Hlt]|[Hw _]]; [|exact Hw].
      vm_compute in Hf. inversion Hf; subst. reflexivity. }
    split; [exact Hw|]. split; [exact Hfree|].
    apply Hfull. rewrite Hw. lia.
Defined.

End SheetProperties.
